(** * Kolibri API resource layer: Model, Collection and Resource

    A shallow embedding of [kolibri/core/assets/src/api-resource.js] and the
    properties of its cache keys, registry, membership index, flag cascade and
    operation queue.

    Conventions of the embedding.
    - A JavaScript value is a [value]; numbers are the integers ([Z]), strings
      are strings of bytes, so [Array.prototype.sort]'s code-unit order is the
      byte order.
    - A plain object is its list of own enumerable properties in property
      order (array-index keys ascending, then the other keys in insertion
      order): [Object.keys], [Object.assign] and [JSON.stringify] all walk this
      list.
    - Model and Collection objects live in a store and are passed around by
      location, so that sharing between the registry and the collections is
      the sharing the source has.
    - [resource.idKey] is a plain field name: not a name that objects or
      arrays inherit or carry by themselves ([constructor], [length], ...),
      and not an array index; no property is named [__proto__].
    - The transport client, the url table and the loggers are collaborators:
      the calls to them are recorded, the outcome of a transport call is an
      event. *)

From Stdlib Require Import ZArith Ascii String.
From stdpp Require Import base strings list gmap sorting pretty.

Set Warnings "-register-all,-clear-no-such-hyp".

Local Open Scope string_scope.

(** ** Values *)

Inductive value : Type :=
| VUndefined
| VNull
| VBool (b : bool)
| VNum (n : Z)
| VStr (s : string)
| VArr (vs : list value)
| VObj (props : list (string * value)).

(** A plain object: own enumerable properties in property order. *)
Definition obj : Type := list (string * value).

(** ToBoolean. *)
Definition truthy (v : value) : bool :=
  match v with
  | VUndefined | VNull => false
  | VBool b => b
  | VNum n => negb (n =? 0)%Z
  | VStr s => negb (String.eqb s "")
  | VArr _ | VObj _ => true
  end.

(** [sep.join(parts)] *)
Fixpoint join (sep : string) (parts : list string) : string :=
  match parts with
  | [] => ""
  | [p] => p
  | p :: rest => p +:+ sep +:+ join sep rest
  end.

(** [String(v)]: an array joins the strings of its elements with a comma,
    [null] and [undefined] elements giving the empty string. *)
Fixpoint String_ (v : value) : string :=
  match v with
  | VUndefined => "undefined"
  | VNull => "null"
  | VBool true => "true"
  | VBool false => "false"
  | VNum n => pretty n
  | VStr s => s
  | VArr vs =>
      join "," (map (fun e => match e with
                              | VUndefined | VNull => ""
                              | _ => String_ e
                              end) vs)
  | VObj _ => "[object Object]"
  end.

(** *** Property order *)

Definition is_digit (c : ascii) : bool :=
  let n := N_of_ascii c in ((48 <=? n) && (n <=? 57))%N.

Fixpoint digits_value (acc : N) (s : string) : option N :=
  match s with
  | EmptyString => Some acc
  | String c rest =>
      if is_digit c
      then digits_value (acc * 10 + (N_of_ascii c - 48))%N rest
      else None
  end.

(** The array index a property name denotes, if any: a canonical decimal
    numeral (no leading zero) below 2^32 - 1. *)
Definition array_index (k : string) : option N :=
  match k with
  | EmptyString => None
  | String c rest =>
      if (Ascii.eqb c "0" && negb (String.eqb rest ""))%bool then None
      else match digits_value 0 k with
           | Some n => if (String.length k <=? 10)%nat && (n <? 4294967295)%N
                       then Some n else None
           | None => None
           end
  end.

(** Own property lookup. *)
Fixpoint obj_lookup (k : string) (o : obj) : option value :=
  match o with
  | [] => None
  | (k', v) :: rest => if String.eqb k' k then Some v else obj_lookup k rest
  end.

(** [Object.keys(o)] *)
Definition Object_keys (o : obj) : list string := map fst o.

(** [o[k]] for an own property, [undefined] when [k] is not an own property
    (and not an inherited one, see [inherited]). *)
Definition obj_get (o : obj) (k : string) : value :=
  default VUndefined (obj_lookup k o).

Fixpoint obj_replace (k : string) (v : value) (o : obj) : obj :=
  match o with
  | [] => []
  | (k', v') :: rest =>
      if String.eqb k' k then (k, v) :: rest
      else (k', v') :: obj_replace k v rest
  end.

(** A new property goes behind the existing ones, except that an array-index
    name goes among the array-index names, in ascending order. *)
Fixpoint obj_insert_new (k : string) (v : value) (o : obj) : obj :=
  match o with
  | [] => [(k, v)]
  | (k', v') :: rest =>
      match array_index k, array_index k' with
      | None, _ => (k', v') :: obj_insert_new k v rest
      | Some n, Some n' =>
          if (n' <? n)%N then (k', v') :: obj_insert_new k v rest
          else (k, v) :: o
      | Some _, None => (k, v) :: o
      end
  end.

(** [o[k] = v] *)
Definition obj_set (k : string) (v : value) (o : obj) : obj :=
  match obj_lookup k o with
  | Some _ => obj_replace k v o
  | None => obj_insert_new k v o
  end.

(** [Object.assign(target, source)] *)
Definition Object_assign (target source : obj) : obj :=
  fold_left (fun t p => obj_set (fst p) (snd p) t) source target.

(** [Object.assign(target, ...sources)] *)
Definition Object_assign_all (target : obj) (sources : list obj) : obj :=
  fold_left Object_assign sources target.

(** *** JSON.stringify *)

Definition dquote : string := String "034"%char "".
Definition backslash : string := String "092"%char "".

Definition hex_digit (n : N) : ascii :=
  ascii_of_N (if (n <? 10)%N then 48 + n else 87 + n)%N.

Definition json_escape_char (c : ascii) : string :=
  let n := N_of_ascii c in
  if (n =? 34)%N then backslash +:+ dquote
  else if (n =? 92)%N then backslash +:+ backslash
  else if (n =? 8)%N then backslash +:+ "b"
  else if (n =? 9)%N then backslash +:+ "t"
  else if (n =? 10)%N then backslash +:+ "n"
  else if (n =? 12)%N then backslash +:+ "f"
  else if (n =? 13)%N then backslash +:+ "r"
  else if (n <? 32)%N then
    backslash +:+ "u00" +:+ String (hex_digit (n / 16)) (String (hex_digit (n mod 16)) "")
  else String c "".

Fixpoint json_escape (s : string) : string :=
  match s with
  | EmptyString => ""
  | String c rest => json_escape_char c +:+ json_escape rest
  end.

Definition json_quote (s : string) : string :=
  dquote +:+ json_escape s +:+ dquote.

(** [JSON.stringify(v)]; [None] is JavaScript's [undefined] result. A
    property whose value serialises to [undefined] is left out of its object,
    and such an array element becomes [null]. *)
Fixpoint stringify (v : value) : option string :=
  match v with
  | VUndefined => None
  | VNull => Some "null"
  | VBool true => Some "true"
  | VBool false => Some "false"
  | VNum n => Some (pretty n)
  | VStr s => Some (json_quote s)
  | VArr vs =>
      Some ("[" +:+ join "," (map (fun e => default "null" (stringify e)) vs) +:+ "]")
  | VObj ps =>
      Some ("{" +:+
            join "," (omap (fun p => (fun s => json_quote (fst p) +:+ ":" +:+ s)
                                       <$> stringify (snd p)) ps)
            +:+ "}")
  end.

(** [JSON.stringify(o)] for a plain object [o], always a string. *)
Definition JSON_stringify (o : obj) : string :=
  "{" +:+
  join "," (omap (fun p => (fun s => json_quote (fst p) +:+ ":" +:+ s)
                             <$> stringify (snd p)) o)
  +:+ "}".

(** *** Array.prototype.sort on property names *)

Definition key_le (a b : string) : Prop := String.leb a b = true.

#[global] Instance key_le_dec : RelDecision key_le.
Proof. intros a b. unfold key_le. apply _. Defined.

(** [keys.sort()]: the default comparison orders strings by code units. *)
Definition sort_keys (keys : list string) : list string :=
  merge_sort key_le keys.

(** ** Resource.__cacheKey *)

Section CacheKey.

Variable idKey : string.

Definition __cacheKey (params : list obj) : string :=
  let allParams := Object_assign_all [] params in
  JSON_stringify
    (Object_assign_all []
       (map (fun paramKey =>
               [(paramKey,
                 if String.eqb paramKey idKey
                 then VStr (String_ (obj_get allParams paramKey))
                 else obj_get allParams paramKey)])
            (sort_keys (Object_keys allParams)))).

End CacheKey.

(** ** Library functions the source imports *)

(** [cloneDeep(v)]: values are immutable here, so the deep copy of a value is
    the value; what the copy buys the source (no sharing with the caller's
    object) is the fact that a value is never updated in place. *)
Definition cloneDeep (v : value) : value := v.

(** lodash [isEqual(a, b)]: deep equality; two objects are equal when they
    have the same number of own properties and agree on each of them,
    whatever the order of the properties. *)
Fixpoint isEqual (a b : value) : bool :=
  match a, b with
  | VUndefined, VUndefined => true
  | VNull, VNull => true
  | VBool x, VBool y => Bool.eqb x y
  | VNum x, VNum y => (x =? y)%Z
  | VStr x, VStr y => String.eqb x y
  | VArr xs, VArr ys =>
      (fix all2 (xs : list value) (ys : list value) : bool :=
         match xs, ys with
         | [], [] => true
         | x :: xs', y :: ys' => isEqual x y && all2 xs' ys'
         | _, _ => false
         end) xs ys
  | VObj ps, VObj qs =>
      (length ps =? length qs)%nat &&
      (fix all (ps : list (string * value)) : bool :=
         match ps with
         | [] => true
         | p :: ps' =>
             match obj_lookup (fst p) qs with
             | Some w => isEqual (snd p) w && all ps'
             | None => false
             end
         end) ps
  | _, _ => false
  end.

(** The property names every plain object inherits from [Object.prototype];
    reading one of them from an object that has no own property of that name
    gives a function (or the prototype), which is truthy and equal to no
    value of [value]. *)
Definition inherited_names : list string :=
  ["constructor"; "hasOwnProperty"; "isPrototypeOf"; "propertyIsEnumerable";
   "toLocaleString"; "toString"; "valueOf"; "__proto__";
   "__defineGetter__"; "__defineSetter__"; "__lookupGetter__";
   "__lookupSetter__"]%string.

Definition inherited (k : string) : bool := bool_decide (k ∈ inherited_names).

(** The own enumerable properties [Object.keys] and [Object.assign] see on a
    value: those of an object, the elements of an array under their indices,
    none on [undefined], [null], a boolean or a number, the characters of a
    string under their indices. *)
Fixpoint indexed (i : nat) (vs : list value) : obj :=
  match vs with
  | [] => []
  | v :: rest => (pretty i, v) :: indexed (S i) rest
  end.

Fixpoint chars (s : string) : list value :=
  match s with
  | EmptyString => []
  | String c rest => VStr (String c "") :: chars rest
  end.

Definition own_props (v : value) : obj :=
  match v with
  | VObj o => o
  | VArr vs => indexed 0 vs
  | VStr s => indexed 0 (chars s)
  | _ => []
  end.

(** [typeof v === 'object'] *)
Definition typeof_object (v : value) : bool :=
  match v with
  | VNull | VArr _ | VObj _ => true
  | _ => false
  end.

(** ** The objects of the program *)

Abbreviation loc := nat (only parsing).     (* a Model object *)
Abbreviation cloc := nat (only parsing).    (* a Collection object *)
Abbreviation handle := nat (only parsing).  (* the promise of one operation *)

Module Model.
Record t : Type := mk {
  attributes : obj;
  getParams : obj;
  _url : value;
  synced : bool;
  new : bool;
  deleted : bool;
  promises : list handle }.

Definition set_attributes (x : obj) (m : t) : t :=
  mk x (getParams m) (_url m) (synced m) (new m) (deleted m) (promises m).
Definition set_getParams (x : obj) (m : t) : t :=
  mk (attributes m) x (_url m) (synced m) (new m) (deleted m) (promises m).
Definition set_synced (x : bool) (m : t) : t :=
  mk (attributes m) (getParams m) (_url m) x (new m) (deleted m) (promises m).
Definition set_new (x : bool) (m : t) : t :=
  mk (attributes m) (getParams m) (_url m) (synced m) x (deleted m) (promises m).
Definition set_deleted (x : bool) (m : t) : t :=
  mk (attributes m) (getParams m) (_url m) (synced m) (new m) x (promises m).
Definition set_promises (x : list handle) (m : t) : t :=
  mk (attributes m) (getParams m) (_url m) (synced m) (new m) (deleted m) x.
End Model.

Module Collection.
Record t : Type := mk {
  getParams : obj;
  models : list loc;
  _model_map : gmap string loc;
  _url : value;
  _synced : bool;
  _new : bool;
  metadata : option obj;
  promises : list handle }.

Definition set_getParams (x : obj) (c : t) : t :=
  mk x (models c) (_model_map c) (_url c) (_synced c) (_new c) (metadata c) (promises c).
Definition set_members (ms : list loc) (mm : gmap string loc) (c : t) : t :=
  mk (getParams c) ms mm (_url c) (_synced c) (_new c) (metadata c) (promises c).
Definition set__synced (x : bool) (c : t) : t :=
  mk (getParams c) (models c) (_model_map c) (_url c) x (_new c) (metadata c) (promises c).
Definition set__new (x : bool) (c : t) : t :=
  mk (getParams c) (models c) (_model_map c) (_url c) (_synced c) x (metadata c) (promises c).
Definition set_metadata (x : option obj) (c : t) : t :=
  mk (getParams c) (models c) (_model_map c) (_url c) (_synced c) (_new c) x (promises c).
Definition set_promises (x : list handle) (c : t) : t :=
  mk (getParams c) (models c) (_model_map c) (_url c) (_synced c) (_new c) (metadata c) x.
End Collection.

Module Resource.
Record t : Type := mk {
  name : string;
  idKey : string;
  useContentCacheKey : bool;
  models : gmap string (gmap string loc);
  collections : gmap string (gmap string cloc) }.

Definition set_models (x : gmap string (gmap string loc)) (r : t) : t :=
  mk (name r) (idKey r) (useContentCacheKey r) x (collections r).
Definition set_collections (x : gmap string (gmap string cloc)) (r : t) : t :=
  mk (name r) (idKey r) (useContentCacheKey r) (models r) x.
End Resource.

(** *** Operations, promises, requests *)

Inductive error : Type :=
| TypeError (msg : string)      (* a JavaScript exception *)
| BadReference.                 (* a location that was never allocated *)

Inductive settlement : Type :=
| Pending
| Resolved (v : value)
| Rejected (reason : value).

(** What an operation's closure captured when it was started. *)
Inductive operation : Type :=
| ModelFetch (m : loc) (force : bool)
| ModelSave (m : loc) (attrs : option obj) (exists_ : bool)
| ModelDelete (m : loc)
| CollectionFetch (c : cloc) (force : bool)
| CollectionSave (c : cloc) (data : list value)
| CollectionDelete (c : cloc).

(** Where an operation stands: waiting for [Promise.all] of the snapshot of
    earlier promises, with one of its two callbacks due, waiting for the
    transport client, finished, or stopped by an exception in a callback. *)
Inductive stage : Type :=
| AwaitingPrior (pending : list handle)
| PriorResolved
| PriorRejected (reason : value)
| AwaitingClient
| Finished
| Threw (e : error).

Module Promise.
Record t : Type := mk {
  op : operation;
  stage_ : stage;
  state : settlement }.
End Promise.

Module Request.
Record t : Type := mk {
  url : value;
  method : option string;
  data : option value;
  params : option obj;
  cacheBust : option bool }.
End Request.

Inductive log_entry : Type :=
| logging_error (msg : string) (v : value)
| logging_debug (msg : string) (v : value)
| logError (err : value).

Record State : Type := mkState {
  resource : Resource.t;
  model_store : list Model.t;
  collection_store : list Collection.t;
  promise_store : list Promise.t;
  requests : list Request.t;
  log : list log_entry }.

(** *** A state and exception monad

    A computation runs on the store and either returns or throws; what it
    wrote before it threw stays written. *)

Inductive result (A : Type) : Type :=
| Ok (a : A)
| Throw (e : error).
Arguments Ok {A} a.
Arguments Throw {A} e.

Definition M (A : Type) : Type := State -> result A * State.

Definition ret {A} (a : A) : M A := fun s => (Ok a, s).
Definition throw {A} (e : error) : M A := fun s => (Throw e, s).
Definition bind {A B} (c : M A) (k : A -> M B) : M B :=
  fun s => match c s with
           | (Ok a, s') => k a s'
           | (Throw e, s') => (Throw e, s')
           end.
Definition gets {A} (f : State -> A) : M A := fun s => (Ok (f s), s).
Definition modify (f : State -> State) : M unit := fun s => (Ok tt, f s).

Notation "'let*' x ':=' c 'in' k" := (bind c (fun x => k))
  (at level 10, x pattern, c at level 100, k at level 200).
Notation "c ';;' k" := (bind c (fun _ => k))
  (at level 100, k at level 200, right associativity).

(** [xs.forEach(f)] *)
Fixpoint forEach {A} (f : A -> M unit) (xs : list A) : M unit :=
  match xs with
  | [] => ret tt
  | x :: rest => f x ;; forEach f rest
  end.

Definition of_option {A} (o : option A) : M A :=
  match o with
  | Some a => ret a
  | None => throw BadReference
  end.

Definition with_resource (f : Resource.t -> Resource.t) (s : State) : State :=
  mkState (f (resource s)) (model_store s) (collection_store s)
          (promise_store s) (requests s) (log s).
Definition with_models (f : list Model.t -> list Model.t) (s : State) : State :=
  mkState (resource s) (f (model_store s)) (collection_store s)
          (promise_store s) (requests s) (log s).
Definition with_collections (f : list Collection.t -> list Collection.t)
    (s : State) : State :=
  mkState (resource s) (model_store s) (f (collection_store s))
          (promise_store s) (requests s) (log s).
Definition with_promises (f : list Promise.t -> list Promise.t) (s : State) : State :=
  mkState (resource s) (model_store s) (collection_store s)
          (f (promise_store s)) (requests s) (log s).
Definition with_requests (f : list Request.t -> list Request.t) (s : State) : State :=
  mkState (resource s) (model_store s) (collection_store s)
          (promise_store s) (f (requests s)) (log s).
Definition with_log (f : list log_entry -> list log_entry) (s : State) : State :=
  mkState (resource s) (model_store s) (collection_store s)
          (promise_store s) (requests s) (f (log s)).

Definition get_model (l : loc) : M Model.t :=
  let* ms := gets model_store in of_option (ms !! l).
Definition update_model (l : loc) (f : Model.t -> Model.t) : M unit :=
  let* m := get_model l in modify (with_models (fun ms => <[l := f m]> ms)).
Definition alloc_model (m : Model.t) : M loc :=
  let* ms := gets model_store in
  modify (with_models (fun ms => (ms ++ [m])%list)) ;; ret (length ms).

Definition get_collection (c : cloc) : M Collection.t :=
  let* cs := gets collection_store in of_option (cs !! c).
Definition update_collection (c : cloc) (f : Collection.t -> Collection.t) : M unit :=
  let* x := get_collection c in
  modify (with_collections (fun cs => <[c := f x]> cs)).

Definition get_promise (h : handle) : M Promise.t :=
  let* ps := gets promise_store in of_option (ps !! h).

(** ** Model, Resource and Collection: the synchronous methods *)

(** The object a method was handed: one the caller owns, or the
    [attributes] of a Model in the store. *)
Inductive arg_object : Type :=
| Caller (v : value)
| AttributesOf (l : loc).

(** An element handed to [addModel] or [Collection.set]. *)
Inductive item : Type :=
| Raw (data : value)
| Ref (model : loc).

(** The first four lines of [Model.set]: what they leave in the object they
    were handed. The [in] operator throws on a primitive. *)
Definition stringify_id (idKey : string) (attributes : value) : result value :=
  match attributes with
  | VObj o =>
      match obj_lookup idKey o with
      | Some v =>
          if truthy v then Ok (VObj (obj_set idKey (VStr (String_ v)) o))
          else Ok attributes
      | None => Ok attributes
      end
  | VArr _ => Ok attributes
  | _ =>
      if truthy attributes
      then Throw (TypeError "Cannot use 'in' operator")
      else Ok attributes
  end.

Definition of_result {A} (r : result A) : M A :=
  match r with
  | Ok a => ret a
  | Throw e => throw e
  end.

Definition the_idKey : M string := gets (fun s => Resource.idKey (resource s)).

(** [model.id] *)
Definition Model_id (idKey : string) (m : Model.t) : value :=
  obj_get (Model.attributes m) idKey.

(** [model.data] *)
Definition Model_data (m : Model.t) : value :=
  cloneDeep (VObj (Model.attributes m)).

(** [this.set(attributes)]; returns the state of the object it was handed. *)
Definition Model_set (this : loc) (arg : arg_object) : M value :=
  let* idKey := the_idKey in
  let* attributes :=
    match arg with
    | Caller v => ret v
    | AttributesOf l => let* m := get_model l in ret (VObj (Model.attributes m))
    end in
  let* attributes' := of_result (stringify_id idKey attributes) in
  match arg with
  | Caller _ => ret tt
  | AttributesOf l => update_model l (Model.set_attributes (own_props attributes'))
  end ;;
  update_model this (fun m =>
    Model.set_attributes
      (Object_assign (Model.attributes m) (own_props (cloneDeep attributes'))) m) ;;
  ret attributes'.

(** [new Model(data, getParams, resource, url)] *)
Definition Model_new (data : value) (getParams : obj) (url : value) : M loc :=
  if negb (truthy data) then throw (TypeError "data must be defined")
  else if negb (typeof_object data) then throw (TypeError "data must be an object")
  else if (length (Object_keys (own_props data)) =? 0)%nat
  then throw (TypeError "data must be instantiated with some data")
  else
    let* this := alloc_model (Model.mk [] getParams url false true false []) in
    Model_set this (Caller data) ;;
    ret this.

Definition __cacheName (endpointName : option string) : string :=
  match endpointName with
  | Some e => if String.eqb e "" then "default" else "endpoint-" +:+ e
  | None => "default"
  end.

(** [this.__modelCache(endpointName)]: creates the cache on first use. *)
Definition __modelCache (endpointName : option string) : M (gmap string loc) :=
  let cacheName := __cacheName endpointName in
  let* r := gets resource in
  match Resource.models r !! cacheName with
  | Some cache => ret cache
  | None =>
      modify (with_resource (Resource.set_models (<[cacheName := ∅]> (Resource.models r)))) ;;
      ret ∅
  end.

Definition __collectionCache (endpointName : option string) : M (gmap string cloc) :=
  let cacheName := __cacheName endpointName in
  let* r := gets resource in
  match Resource.collections r !! cacheName with
  | Some cache => ret cache
  | None =>
      modify (with_resource
                (Resource.set_collections (<[cacheName := ∅]> (Resource.collections r)))) ;;
      ret ∅
  end.

(** [cache[cacheKey] = model] and [delete cache[cacheKey]] on the cache
    object [__modelCache(endpointName)] returned. *)
Definition model_cache_update (endpointName : option string)
    (f : gmap string loc -> gmap string loc) : M unit :=
  modify (with_resource (fun r =>
    Resource.set_models
      (<[__cacheName endpointName :=
           f (default ∅ (Resource.models r !! __cacheName endpointName))]>
         (Resource.models r)) r)).

Definition collection_cache_update (endpointName : option string)
    (f : gmap string cloc -> gmap string cloc) : M unit :=
  modify (with_resource (fun r =>
    Resource.set_collections
      (<[__cacheName endpointName :=
           f (default ∅ (Resource.collections r !! __cacheName endpointName))]>
         (Resource.collections r)) r)).

Section Program.

(** The collaborators the source imports: the table of url functions
    ([kolibri.urls]) and the content cache key of the build. *)
Variable urls : string -> option (value -> value).
Variable contentCacheKey : value.

(** [this.getUrlFunction(endpoint)(arg)] *)
Definition call_url (endpoint : string) (arg : value) : M value :=
  let* r := gets resource in
  match urls (Resource.name r +:+ "_" +:+ endpoint) with
  | Some f => ret (f arg)
  | None => throw (TypeError "url function is not a function")
  end.

(** [data[this.idKey]] on the argument of [createModel]. *)
Definition data_id (idKey : string) (data : value) : M value :=
  match data with
  | VUndefined | VNull => throw (TypeError "Cannot read properties")
  | VObj o => ret (obj_get o idKey)
  | _ => ret VUndefined
  end.

(** [addModel(model, getParams, endpointName)] for [model instanceof Model]. *)
Definition addModel_instance (model : loc) (endpointName : option string) : M loc :=
  let* cache := __modelCache endpointName in
  let* idKey := the_idKey in
  let* m := get_model model in
  if truthy (Model_id idKey m) then
    let cacheKey := __cacheKey idKey [[(idKey, Model_id idKey m)]; Model.getParams m] in
    match cache !! cacheKey with
    | None =>
        model_cache_update endpointName (insert cacheKey model) ;;
        ret model
    | Some cached =>
        Model_set cached (AttributesOf model) ;;
        ret cached
    end
  else
    let cacheKey := __cacheKey idKey [Model.attributes m] in
    model_cache_update endpointName (insert cacheKey model) ;;
    modify (with_resource (Resource.set_collections ∅)) ;;
    ret model.

Definition createModel (data : value) (getParams : obj)
    (endpointName : option string) : M loc :=
  let* idKey := the_idKey in
  let* url :=
    match endpointName with
    | Some e =>
        if String.eqb e "" then ret VUndefined
        else let* detailId := data_id idKey data in call_url e detailId
    | None => ret VUndefined
    end in
  let* model := Model_new data getParams url in
  addModel_instance model endpointName.

Definition addModel (model : item) (getParams : obj)
    (endpointName : option string) : M loc :=
  match model with
  | Raw data => createModel data getParams endpointName
  | Ref l => addModel_instance l endpointName
  end.

(** [getModel(id, getParams, endpointName)]; [None] is [undefined]. *)
Definition getModel (id : value) (getParams : obj)
    (endpointName : option string) : M (option loc) :=
  let* cache := __modelCache endpointName in
  let* idKey := the_idKey in
  let cacheKey := __cacheKey idKey [[(idKey, id)]; getParams] in
  match cache !! cacheKey with
  | None => createModel (VObj [(idKey, id)]) getParams endpointName ;; ret tt
  | Some _ => ret tt
  end ;;
  let* r := gets resource in
  ret (default ∅ (Resource.models r !! __cacheName endpointName) !! cacheKey).

(** [removeModel(model)], as the source calls it: no endpoint name. *)
Definition removeModel (model : loc) : M unit :=
  let* idKey := the_idKey in
  let* m := get_model model in
  let cacheKey := __cacheKey idKey [[(idKey, Model_id idKey m)]; Model.getParams m] in
  __modelCache None ;;
  model_cache_update None (delete cacheKey).

Definition removeCollection (collection : cloc) : M unit :=
  let* idKey := the_idKey in
  let* c := get_collection collection in
  let cacheKey := __cacheKey idKey [Collection.getParams c] in
  __collectionCache None ;;
  collection_cache_update None (delete cacheKey).

(** *** Collection: membership and flags *)

Definition get_models (ls : list loc) : M (list Model.t) :=
  let* ms := gets model_store in
  of_option (mapM (fun l => ms !! l) ls).

(** [get synced()]: [models.reduce((synced, model) => synced && model.synced,
    this._synced)] *)
Definition Collection_get_synced (this : cloc) : M bool :=
  let* c := get_collection this in
  let* ms := get_models (Collection.models c) in
  ret (fold_left (fun synced model => synced && Model.synced model) ms
                 (Collection._synced c)).

(** [set synced(value)] *)
Definition Collection_set_synced (this : cloc) (value : bool) : M unit :=
  update_collection this (Collection.set__synced value) ;;
  if value then
    let* c := get_collection this in
    forEach (fun model => update_model model (Model.set_synced true))
            (Collection.models c)
  else ret tt.

(** [get new()] *)
Definition Collection_get_new (this : cloc) : M bool :=
  let* c := get_collection this in
  let* ms := get_models (Collection.models c) in
  ret (fold_left (fun isNew model => isNew && Model.new model) ms
                 (Collection._new c)).

(** [set new(value)] *)
Definition Collection_set_new (this : cloc) (value : bool) : M unit :=
  update_collection this (Collection.set__new value) ;;
  if negb value then
    let* c := get_collection this in
    forEach (fun model => update_model model (Model.set_new false))
            (Collection.models c)
  else ret tt.

Definition Collection_clearCache (this : cloc) : M unit :=
  update_collection this (Collection.set_members [] ∅).

(** [this._model_map[cacheKey]] is truthy: an own entry (a Model), or a
    name every object inherits. *)
Definition model_map_has (cacheKey : string) (mm : gmap string loc) : bool :=
  inherited cacheKey || bool_decide (is_Some (mm !! cacheKey)).

(** The key under which [Collection.set] files a Model. *)
Definition dedup_key (idKey : string) (m : Model.t) : string :=
  if truthy (Model_id idKey m) then String_ (Model_id idKey m)
  else __cacheKey idKey [Model.attributes m].

(** The body of the [forEach] in [Collection.set]. *)
Definition Collection_set_one (this : cloc) (getParams : obj) (model : item) : M unit :=
  let* setModel := addModel model getParams None in
  let* idKey := the_idKey in
  let* m := get_model setModel in
  let cacheKey := dedup_key idKey m in
  let* c := get_collection this in
  if negb (model_map_has cacheKey (Collection._model_map c)) then
    update_collection this (fun c =>
      Collection.set_members (Collection.models c ++ [setModel])%list
                             (<[cacheKey := setModel]> (Collection._model_map c)) c)
  else ret tt.

(** [set(models)] with [modelsToSet] given as a list. *)
Definition Collection_set (this : cloc) (modelsToSet : list item) : M unit :=
  let* c := get_collection this in
  let fields := obj_get (Collection.getParams c) "fields" in
  let getParams := if truthy fields then [("fields", fields)] else [] in
  forEach (Collection_set_one this getParams) modelsToSet.

(** [modelsToSet] for a value: the elements of an array, or the value. *)
Definition modelsToSet_of (models : value) : list item :=
  match models with
  | VArr vs => map Raw vs
  | _ => [Raw models]
  end.

(** [get data()] *)
Definition Collection_data (this : cloc) : M value :=
  let* c := get_collection this in
  let* ms := get_models (Collection.models c) in
  let data := VArr (map Model_data (filter (fun m => Model.deleted m = false) ms)) in
  match Collection.metadata c with
  | None => ret data
  | Some metadata =>
      ret (VObj (Object_assign [("results", data)]
                               (own_props (cloneDeep (VObj metadata)))))
  end.

(** [new Collection(getParams, data, resource, url)] *)
Definition Collection_new (getParams : obj) (data : list item) (url : value) : M cloc :=
  let* cs := gets collection_store in
  let this := length cs in
  modify (with_collections (fun cs =>
    (cs ++ [Collection.mk getParams [] ∅ url false true None []])%list)) ;;
  Collection_set_synced this false ;;
  Collection_set_new this true ;;
  Collection_set this data ;;
  ret this.

(** *** Promises *)

Definition settlement_of (ps : list Promise.t) (h : handle) : settlement :=
  match ps !! h with
  | Some p => Promise.state p
  | None => Pending
  end.

Definition is_pending (st : settlement) : bool :=
  match st with Pending => true | _ => false end.

(** The reason of the first promise of the snapshot, in array order, that
    is rejected already. *)
Fixpoint first_rejected (ps : list Promise.t) (snapshot : list handle) : option value :=
  match snapshot with
  | [] => None
  | h :: rest =>
      match settlement_of ps h with
      | Rejected reason => Some reason
      | _ => first_rejected ps rest
      end
  end.

(** [Promise.all(snapshot)] at the time it is built. *)
Definition Promise_all (ps : list Promise.t) (snapshot : list handle) : stage :=
  match first_rejected ps snapshot with
  | Some reason => PriorRejected reason
  | None =>
      match filter (fun h => is_pending (settlement_of ps h) = true) snapshot with
      | [] => PriorResolved
      | pending => AwaitingPrior pending
      end
  end.

(** What the settlement of [h] does to a [Promise.all] that waits for it. *)
Definition notify (h : handle) (outcome : settlement) (p : Promise.t) : Promise.t :=
  match Promise.stage_ p with
  | AwaitingPrior pending =>
      if bool_decide (h ∈ pending) then
        match outcome with
        | Rejected reason => Promise.mk (Promise.op p) (PriorRejected reason) (Promise.state p)
        | Resolved _ =>
            match filter (fun x => x <> h) pending with
            | [] => Promise.mk (Promise.op p) PriorResolved (Promise.state p)
            | pending' => Promise.mk (Promise.op p) (AwaitingPrior pending') (Promise.state p)
            end
        | Pending => p
        end
      else p
  | _ => p
  end.

(** [resolve] and [reject]: a promise settles once. *)
Definition settle (h : handle) (outcome : settlement) : M unit :=
  let* p := get_promise h in
  match Promise.state p with
  | Pending =>
      modify (with_promises (fun ps =>
        notify h outcome
          <$> <[h := Promise.mk (Promise.op p) (Promise.stage_ p) outcome]> ps))
  | _ => ret tt
  end.

Definition resolve (h : handle) (v : value) : M unit := settle h (Resolved v).
Definition reject (h : handle) (reason : value) : M unit := settle h (Rejected reason).

(** [promises.splice(promises.indexOf(promise), 1)]; an index of -1 takes
    the last element. *)
Definition splice_indexOf (promise : handle) (promises : list handle) : list handle :=
  match list_find (fun x => x = promise) promises with
  | Some (i, _) => delete i promises
  | None => take (length promises - 1) promises
  end.

Definition cleanup_model (this : loc) (promise : handle) : M unit :=
  update_model this (fun m =>
    Model.set_promises (splice_indexOf promise (Model.promises m)) m).

Definition cleanup_collection (this : cloc) (promise : handle) : M unit :=
  update_collection this (fun c =>
    Collection.set_promises (splice_indexOf promise (Collection.promises c)) c).

(** The constructor of the operation's promise runs
    [Promise.all(this.promises)] on the promises as they are, and the new
    promise is pushed afterwards. *)
Definition new_promise (o : operation) (snapshot : list handle) : M handle :=
  let* ps := gets promise_store in
  modify (with_promises (fun ps =>
    (ps ++ [Promise.mk o (Promise_all ps snapshot) Pending])%list)) ;;
  ret (length ps).

Definition start_on_model (this : loc) (o : operation) : M handle :=
  let* m := get_model this in
  let* promise := new_promise o (Model.promises m) in
  update_model this (fun m =>
    Model.set_promises (Model.promises m ++ [promise])%list m) ;;
  ret promise.

Definition start_on_collection (this : cloc) (o : operation) : M handle :=
  let* c := get_collection this in
  let* promise := new_promise o (Collection.promises c) in
  update_collection this (fun c =>
    Collection.set_promises (Collection.promises c ++ [promise])%list c) ;;
  ret promise.

(** [model.fetch(force)], [model.save(attrs, exists)], [model.delete()] and
    the Collection's three: what each does before it returns. *)
Definition Model_fetch (this : loc) (force : bool) : M handle :=
  start_on_model this (ModelFetch this force).
Definition Model_save (this : loc) (attrs : option obj) (exists_ : bool) : M handle :=
  start_on_model this (ModelSave this attrs exists_).
Definition Model_delete (this : loc) : M handle :=
  start_on_model this (ModelDelete this).
Definition Collection_fetch (this : cloc) (force : bool) : M handle :=
  start_on_collection this (CollectionFetch this force).
Definition Collection_save (this : cloc) (data : list value) : M handle :=
  start_on_collection this (CollectionSave this data).
Definition Collection_delete (this : cloc) : M handle :=
  start_on_collection this (CollectionDelete this).

(** *** The transport client *)

(** Whose [getParams] object the request's [params] is. *)
Inductive params_ref : Type :=
| ParamsOfModel (l : loc)
| ParamsOfCollection (c : cloc)
| NoParams.

(** [this.resource.client(options)]: with [useContentCacheKey] and no
    data, the content cache key is written into [options.params], which is
    the caller's [getParams] object. (Each Model and Collection holds its
    [getParams] by value here; in the source those handed one object by one
    caller see this write together.) *)
Definition client (url : value) (method : option string) (data : option value)
    (params : params_ref) : M unit :=
  let* r := gets resource in
  let* p :=
    match params with
    | ParamsOfModel l => let* m := get_model l in ret (Some (Model.getParams m))
    | ParamsOfCollection c =>
        let* x := get_collection c in ret (Some (Collection.getParams x))
    | NoParams => ret None
    end in
  if Resource.useContentCacheKey r && negb (from_option truthy false data) then
    let p' := obj_set "contentCacheKey" contentCacheKey (default [] p) in
    match params with
    | ParamsOfModel l => update_model l (Model.set_getParams p')
    | ParamsOfCollection c => update_collection c (Collection.set_getParams p')
    | NoParams => ret tt
    end ;;
    modify (with_requests (fun rs =>
      (rs ++ [Request.mk url method data (Some p') (Some false)])%list))
  else
    modify (with_requests (fun rs =>
      (rs ++ [Request.mk url method data p None])%list)).

Definition resource_logError (err : value) : M unit :=
  modify (with_log (fun l => (l ++ [logError err])%list)).

(** [get url()] of a Model and of a Collection. *)
Definition Model_url (this : loc) : M value :=
  let* idKey := the_idKey in
  let* m := get_model this in
  if truthy (Model._url m) then ret (Model._url m)
  else call_url "detail" (Model_id idKey m).

Definition Collection_url (this : cloc) : M value :=
  let* c := get_collection this in
  if truthy (Collection._url c) then ret (Collection._url c)
  else call_url "list" VUndefined.

(** *** The callbacks of the operations *)

(** [this.attributes[key]] differs from [attrs[key]] under [isEqual]; a name
    the attributes only inherit reads as a function, equal to no value. *)
Definition differs (attrs attributes : obj) (key : string) : bool :=
  match obj_lookup key attributes with
  | Some current => negb (isEqual (obj_get attrs key) current)
  | None => inherited key || negb (isEqual (obj_get attrs key) VUndefined)
  end.

(** The dirty check of [save] on a synced Model. *)
Definition dirty (attrs attributes : obj) : obj :=
  fold_left (fun payload key =>
               if differs attrs attributes key
               then obj_set key (obj_get attrs key) payload
               else payload)
            (Object_keys attrs) [].

(** The payload of [save]. [Object.keys(undefined)] throws. *)
Definition save_payload (m : Model.t) (attrs : option obj) : result obj :=
  if Model.synced m then
    match attrs with
    | Some a => Ok (dirty a (Model.attributes m))
    | None => Throw (TypeError "Cannot convert undefined or null to object")
    end
  else Ok (Object_assign (Object_assign [] (Model.attributes m)) (default [] attrs)).

Definition refuse_model_delete : value :=
  VStr "Can not delete model that we do not have an id for".
Definition refuse_collection_delete : value :=
  VStr "Can not delete unfiltered collection (collection without any GET params".
Definition refuse_collection_save : value :=
  VStr "Cannot update collections, only create them".
Definition malformed : string := "Data appears to be malformed".

(** The first callback of [Promise.all(this.promises).then]; returns the
    stage the operation is in when the callback has run. *)
Definition on_prior_resolved (promise : handle) (o : operation) : M stage :=
  match o with
  | ModelFetch this force =>
      let* m := get_model this in
      if negb force && Model.synced m then
        resolve promise (Model_data m) ;; ret Finished
      else
        update_model this (Model.set_synced false) ;;
        let* url := Model_url this in
        client url None None (ParamsOfModel this) ;;
        ret AwaitingClient
  | ModelSave this attrs exists_ =>
      let* m := get_model this in
      let* payload := of_result (save_payload m attrs) in
      if (length (Object_keys payload) =? 0)%nat then
        resolve promise (Model_data m) ;; ret Finished
      else
        update_model this (Model.set_synced false) ;;
        (if negb (Model.new m) || exists_ then
           let* url := Model_url this in
           client url (Some "patch") (Some (VObj payload)) (ParamsOfModel this)
         else
           let* url := call_url "list" VUndefined in
           client url (Some "post") (Some (VObj payload)) (ParamsOfModel this)) ;;
        ret AwaitingClient
  | ModelDelete this =>
      let* idKey := the_idKey in
      let* m := get_model this in
      if negb (truthy (Model_id idKey m)) then
        reject promise refuse_model_delete ;; ret Finished
      else
        let* url := Model_url this in
        client url (Some "delete") None (ParamsOfModel this) ;;
        ret AwaitingClient
  | CollectionFetch this force =>
      let* synced := Collection_get_synced this in
      if negb force && synced then
        let* data := Collection_data this in
        resolve promise data ;; ret Finished
      else
        Collection_set_synced this false ;;
        let* url := Collection_url this in
        client url None None (ParamsOfCollection this) ;;
        ret AwaitingClient
  | CollectionSave this data =>
      let* isNew := Collection_get_new this in
      if (length data =? 0)%nat && negb isNew then
        reject promise refuse_collection_save ;;
        cleanup_collection this promise ;;
        ret Finished
      else
        Collection_set_synced this false ;;
        let* url := call_url "list" VUndefined in
        let* payload :=
          if (length data =? 0)%nat then Collection_data this else ret (VArr data) in
        client url (Some "post") (Some payload) NoParams ;;
        ret AwaitingClient
  | CollectionDelete this =>
      let* c := get_collection this in
      if (length (Object_keys (Collection.getParams c)) =? 0)%nat then
        reject promise refuse_collection_delete ;; ret Finished
      else
        let* url := call_url "list" VUndefined in
        client url (Some "delete") None (ParamsOfCollection this) ;;
        ret AwaitingClient
  end.

(** The second callback of [Promise.all(this.promises).then]. *)
Definition on_prior_rejected (promise : handle) (reason : value) : M stage :=
  reject promise reason ;; ret Finished.

(** The metadata of an envelope: its fields other than [results]. *)
Definition envelope_metadata (data : obj) : obj :=
  fold_left (fun metadata key =>
               if negb (String.eqb key "results")
               then obj_set key (obj_get data key) metadata
               else metadata)
            (Object_keys data) [].

(** [typeof (data || {}).results !== 'undefined'] and, then, the results. *)
Definition envelope_results (data : value) : option value :=
  match data with
  | VObj o =>
      match obj_get o "results" with
      | VUndefined => None
      | results => Some results
      end
  | _ => None
  end.

(** The first callback of [client(...).then]: the transport succeeded. *)
Definition on_response (promise : handle) (o : operation) (response : obj) : M stage :=
  let response_data := obj_get response "data" in
  match o with
  | ModelFetch this _ =>
      Model_set this (Caller response_data) ;;
      update_model this (Model.set_synced true) ;;
      update_model this (Model.set_new false) ;;
      let* m := get_model this in
      resolve promise (Model_data m) ;;
      cleanup_model this promise ;;
      ret Finished
  | ModelSave this _ _ =>
      let* idKey := the_idKey in
      let* m0 := get_model this in
      let oldId := Model_id idKey m0 in
      Model_set this (Caller response_data) ;;
      let* m1 := get_model this in
      (if negb (truthy oldId) && truthy (Model_id idKey m1)
       then addModel (Ref this) (Model.getParams m1) None ;; ret tt
       else ret tt) ;;
      update_model this (Model.set_synced true) ;;
      update_model this (Model.set_new false) ;;
      let* m := get_model this in
      resolve promise (Model_data m) ;;
      cleanup_model this promise ;;
      ret Finished
  | ModelDelete this =>
      let* idKey := the_idKey in
      removeModel this ;;
      update_model this (Model.set_deleted true) ;;
      update_model this (Model.set_synced false) ;;
      update_model this (Model.set_new true) ;;
      let* m := get_model this in
      resolve promise (Model_id idKey m) ;;
      cleanup_model this promise ;;
      ret Finished
  | CollectionFetch this _ =>
      match response_data with
      | VArr _ =>
          Collection_clearCache this ;;
          Collection_set this (modelsToSet_of response_data) ;;
          Collection_set_synced this true ;;
          Collection_set_new this false
      | _ =>
          match envelope_results response_data with
          | Some results =>
              Collection_clearCache this ;;
              Collection_set this (modelsToSet_of results) ;;
              update_collection this
                (Collection.set_metadata
                   (Some (envelope_metadata (own_props response_data)))) ;;
              Collection_set_synced this true ;;
              Collection_set_new this false
          | None =>
              modify (with_log (fun l =>
                (l ++ [logging_error malformed response_data])%list)) ;;
              reject promise (VObj response)
          end
      end ;;
      let* data := Collection_data this in
      resolve promise data ;;
      cleanup_collection this promise ;;
      ret Finished
  | CollectionSave this _ =>
      match response_data with
      | VArr _ =>
          Collection_clearCache this ;;
          Collection_set this (modelsToSet_of response_data) ;;
          Collection_set_synced this true ;;
          Collection_set_new this false
      | _ =>
          modify (with_log (fun l =>
            (l ++ [logging_debug malformed response_data])%list)) ;;
          reject promise (VObj response)
      end ;;
      let* data := Collection_data this in
      resolve promise data ;;
      cleanup_collection this promise ;;
      ret Finished
  | CollectionDelete this =>
      let* idKey := the_idKey in
      removeCollection this ;;
      let* c := get_collection this in
      forEach (fun model =>
                 update_model model (Model.set_deleted true) ;;
                 removeModel model)
              (Collection.models c) ;;
      let* ms := get_models (Collection.models c) in
      resolve promise (VArr (map (Model_id idKey) ms)) ;;
      cleanup_collection this promise ;;
      ret Finished
  end.

(** The second callback of [client(...).then]: the transport failed. *)
Definition on_error (promise : handle) (o : operation) (response : value) : M stage :=
  resource_logError response ;;
  reject promise response ;;
  match o with
  | ModelFetch this _ | ModelSave this _ _ | ModelDelete this =>
      cleanup_model this promise
  | CollectionFetch this _ | CollectionSave this _ | CollectionDelete this =>
      cleanup_collection this promise
  end ;;
  ret Finished.

(** *** The event loop

    One event runs one callback to completion. Which callback is due is
    decided by the stage of the operation; the environment chooses the order
    of the events and the outcome of each transport call. *)

Inductive event : Type :=
| PriorSettled (promise : handle)
| ClientResolved (promise : handle) (response : obj)
| ClientRejected (promise : handle) (response : value).

Definition set_stage (promise : handle) (st : stage) (s : State) : State :=
  with_promises (fun ps =>
    match ps !! promise with
    | Some p => <[promise := Promise.mk (Promise.op p) st (Promise.state p)]> ps
    | None => ps
    end) s.

(** A callback that throws leaves its promise as it is, for good. *)
Definition conclude (promise : handle) (r : result stage * State) : State :=
  match r with
  | (Ok st, s') => set_stage promise st s'
  | (Throw e, s') => set_stage promise (Threw e) s'
  end.

Definition step (ev : event) (s : State) : option State :=
  match ev with
  | PriorSettled promise =>
      match promise_store s !! promise with
      | Some p =>
          match Promise.stage_ p with
          | PriorResolved =>
              Some (conclude promise (on_prior_resolved promise (Promise.op p) s))
          | PriorRejected reason =>
              Some (conclude promise (on_prior_rejected promise reason s))
          | _ => None
          end
      | None => None
      end
  | ClientResolved promise response =>
      match promise_store s !! promise with
      | Some p =>
          match Promise.stage_ p with
          | AwaitingClient =>
              Some (conclude promise (on_response promise (Promise.op p) response s))
          | _ => None
          end
      | None => None
      end
  | ClientRejected promise response =>
      match promise_store s !! promise with
      | Some p =>
          match Promise.stage_ p with
          | AwaitingClient =>
              Some (conclude promise (on_error promise (Promise.op p) response s))
          | _ => None
          end
      | None => None
      end
  end.

(** A run of events from a state. *)
Fixpoint run (evs : list event) (s : State) : option State :=
  match evs with
  | [] => Some s
  | ev :: rest =>
      match step ev s with
      | Some s' => run rest s'
      | None => None
      end
  end.

(** The dedup keys under which the elements of [modelsToSet] are resolved,
    in order: the [cacheKey] that [Collection.set] computes for each. *)
Fixpoint resolved_keys (this : cloc) (getParams : obj) (modelsToSet : list item)
    (s : State) : list string :=
  match modelsToSet with
  | [] => []
  | model :: rest =>
      match addModel model getParams None s with
      | (Ok setModel, s1) =>
          match model_store s1 !! setModel with
          | Some m =>
              dedup_key (Resource.idKey (resource s1)) m
              :: resolved_keys this getParams rest
                   (snd (Collection_set_one this getParams model s))
          | None => []
          end
      | (Throw _, _) => []
      end
  end.

End Program.

(** The value of [k] among the merged parameter objects, in the words of the
    specification: later objects override earlier ones. *)
Fixpoint merged_lookup (k : string) (ps : list obj) : option value :=
  match ps with
  | [] => None
  | o :: rest =>
      match merged_lookup k rest with
      | Some v => Some v
      | None => obj_lookup k o
      end
  end.

(** An object has each property name once. *)
Definition wf_obj (o : obj) : Prop := NoDup (Object_keys o).

#[global] Instance wf_obj_dec (o : obj) : Decision (wf_obj o).
Proof. unfold wf_obj. apply _. Defined.

(** ** Notions used to state the properties *)

(** Every member of the Collection has its [synced] (its [new]) flag at [b]. *)
Definition members_synced (s : State) (x : Collection.t) (b : bool) : Prop :=
  forall l, l ∈ Collection.models x ->
            exists m, model_store s !! l = Some m /\ Model.synced m = b.

Definition members_new (s : State) (x : Collection.t) (b : bool) : Prop :=
  forall l, l ∈ Collection.models x ->
            exists m, model_store s !! l = Some m /\ Model.new m = b.

(** The operations the source refuses without a request, each with the
    reason it gives: [delete] on a Model without an identity, [delete] on a
    Collection without GET parameters, [save] without data on a Collection
    that is not new. *)
Inductive refused (s : State) : operation -> value -> Prop :=
| refused_model_delete this m :
    model_store s !! this = Some m ->
    truthy (Model_id (Resource.idKey (resource s)) m) = false ->
    refused s (ModelDelete this) refuse_model_delete
| refused_collection_delete this x :
    collection_store s !! this = Some x ->
    Object_keys (Collection.getParams x) = [] ->
    refused s (CollectionDelete this) refuse_collection_delete
| refused_collection_save this x :
    collection_store s !! this = Some x ->
    Collection_get_new this s = (Ok false, s) ->
    refused s (CollectionSave this []) refuse_collection_save.

(** The cache and sync state of two stores agree: the registry, the Models,
    the Collections up to their lists of promises, the requests sent and the
    log. *)
Definition same_data (s s' : State) : Prop :=
  resource s' = resource s
  /\ model_store s' = model_store s
  /\ Collection.set_promises [] <$> collection_store s'
     = Collection.set_promises [] <$> collection_store s
  /\ requests s' = requests s
  /\ log s' = log s.

(** What [Model.set] leaves in the object it was handed: a truthy identity
    is replaced by its string, anything else stays. *)
Definition stringified (idKey : string) (o : obj) : obj :=
  match obj_lookup idKey o with
  | Some v => if truthy v then obj_set idKey (VStr (String_ v)) o else o
  | None => o
  end.

(** The Model the registry holds under [cacheKey] in the cache of
    [endpointName]. *)
Definition slot (s : State) (endpointName : option string) (cacheKey : string)
    : option loc :=
  default ∅ (Resource.models (resource s) !! __cacheName endpointName) !! cacheKey.

(** The identity, the GET parameters and the attributes an element brings to
    [addModel]: raw data with a truthy identity whose string is not empty, or
    a Model of the store whose identity is a non-empty string. *)
Inductive presents (s : State) : item -> obj -> string -> obj -> obj -> Prop :=
| presents_raw d getParams v :
    wf_obj d ->
    obj_lookup (Resource.idKey (resource s)) d = Some v ->
    truthy v = true ->
    String_ v <> "" ->
    presents s (Raw (VObj d)) getParams (String_ v) getParams
             (Object_assign [] (stringified (Resource.idKey (resource s)) d))
| presents_ref l getParams m id :
    model_store s !! l = Some m ->
    wf_obj (Model.attributes m) ->
    Model_id (Resource.idKey (resource s)) m = VStr id ->
    id <> "" ->
    presents s (Ref l) getParams id (Model.getParams m) (Model.attributes m).

(** The cache key of an identity under GET parameters. *)
Definition identity_key (s : State) (id : string) (params : obj) : string :=
  __cacheKey (Resource.idKey (resource s))
             [[(Resource.idKey (resource s), VStr id)]; params].

(** The state [__modelCache(endpointName)] leaves. *)
Definition touch_cache (e : option string) (s : State) : State :=
  match Resource.models (resource s) !! __cacheName e with
  | Some _ => s
  | None =>
      with_resource
        (Resource.set_models (<[__cacheName e := ∅]> (Resource.models (resource s)))) s
  end.

(** A computation keeps the relation [P] between the state it starts in and
    the state it leaves, whether it returns or throws. *)
Definition preserves {A} (P : State -> State -> Prop) (c : M A) : Prop :=
  forall s r s', c s = (r, s') -> P s s'.

(** The Collections and the identity field are as before. *)
Definition collections_kept (s s' : State) : Prop :=
  collection_store s' = collection_store s
  /\ Resource.idKey (resource s') = Resource.idKey (resource s).


(** The GET parameters [Collection.set] hands to [addModel]. *)
Definition fields_params (x : Collection.t) : obj :=
  if truthy (obj_get (Collection.getParams x) "fields")
  then [("fields", obj_get (Collection.getParams x) "fields")]
  else [].

(** The Collection after one element was resolved to the Model [l] under the
    key [k]. *)
Definition filed (x : Collection.t) (k : string) (l : loc) : Collection.t :=
  if model_map_has k (Collection._model_map x) then x
  else Collection.set_members (Collection.models x ++ [l])%list
                              (<[k := l]> (Collection._model_map x)) x.

(** The promises that are finished and settled are as before. *)
Definition finished_kept (s s' : State) : Prop :=
  forall h p, promise_store s !! h = Some p ->
              Promise.stage_ p = Finished -> Promise.state p <> Pending ->
              promise_store s' !! h = Some p.

(** The payload [save(attrs)] sends. *)
Definition payload_of (m : Model.t) (a : obj) : obj :=
  if Model.synced m then dirty a (Model.attributes m)
  else Object_assign (Object_assign [] (Model.attributes m)) a.

(** The request [save] makes: a PATCH of the Model, or a POST to the list
    url for a Model that is new. *)
Definition save_request (m : Model.t) (exists_ : bool)
    (detail list_ : value -> value) (idKey : string) (payload : obj) : Request.t :=
  if negb (Model.new m) || exists_
  then Request.mk (if truthy (Model._url m) then Model._url m
                   else detail (Model_id idKey m))
                  (Some "patch") (Some (VObj payload)) (Some (Model.getParams m)) None
  else Request.mk (list_ VUndefined)
                  (Some "post") (Some (VObj payload)) (Some (Model.getParams m)) None.

(** The dedup key of raw data: that of the Model built from it. *)
Definition raw_key (idKey : string) (d : obj) : string :=
  dedup_key idKey
    (Model.mk (Object_assign [] (stringified idKey d)) [] VUndefined false true false []).

(** Every Model the registry files is allocated. *)
Definition registry_valid (s : State) : Prop :=
  forall e K l, slot s e K = Some l -> is_Some (model_store s !! l).

(** Raw data [set] accepts: objects with distinct property names, not empty. *)
Definition raw_ok (d : obj) : Prop := wf_obj d /\ d <> [].

Definition raw_items (ds : list obj) : list item := map (fun d => Raw (VObj d)) ds.

(** The promise [h] is due to run the callback of stage [st]. *)
Definition due (s : State) (h : handle) (o : operation) (st : stage) : Prop :=
  promise_store s !! h = Some (Promise.mk o st Pending).

(** ** Inputs for the concrete runs *)

Definition urls_ex : string -> option (value -> value) :=
  fun n => Some (fun arg => VStr (n +:+ "/" +:+ String_ arg)).

Definition resource_ex : Resource.t :=
  Resource.mk "kolibri:core:facility" "id" false ∅ ∅.

(** A fresh Resource: no Model, no Collection, no operation. *)
Definition empty_ex : State := mkState resource_ex [] [] [] [] [].

(** Run a computation, then a sequence of events. *)
Definition after {A} (c : M A) (evs : list event) (s : State) : option State :=
  match c s with
  | (Ok _, s') => run urls_ex VNull evs s'
  | (Throw _, _) => None
  end.

(** One Collection, synced and not new, with one member that is synced and
    not new. *)
Definition flags_ex : State :=
  mkState resource_ex
    [Model.mk [("id", VStr "1")] [] VUndefined true false false []]
    [Collection.mk [] [0] {["1" := 0]} VUndefined true false None []]
    [] [] [].

(** A Model without an identity is created, then deleted. *)
Definition refused_delete_ex : M handle :=
  let* m := createModel urls_ex (VObj [("name", VStr "a")]) [] None in
  Model_delete m.

(** A Collection with one member is created, then saved with data, or
    fetched. *)
Definition collection_save_ex : M handle :=
  let* c := Collection_new urls_ex [] [Raw (VObj [("id", VStr "1")])] VUndefined in
  Collection_save c [VObj [("name", VStr "a")]].

Definition collection_fetch_ex : M handle :=
  let* c := Collection_new urls_ex [] [Raw (VObj [("id", VStr "1")])] VUndefined in
  Collection_fetch c true.

(** A response whose body is an object without [results]. *)
Definition malformed_response_ex : obj :=
  [("data", VObj [("detail", VStr "no")])].



(** The three refusals, each with its callback due. *)
Definition model_delete_ex : State :=
  mkState resource_ex
    [Model.mk [("name", VStr "a")] [] VUndefined false true false [0]]
    []
    [Promise.mk (ModelDelete 0) PriorResolved Pending]
    [] [].

Definition collection_delete_ex : State :=
  mkState resource_ex []
    [Collection.mk [] [] ∅ VUndefined false true None [0]]
    [Promise.mk (CollectionDelete 0) PriorResolved Pending]
    [] [].

Definition collection_resave_ex : State :=
  mkState resource_ex []
    [Collection.mk [] [] ∅ VUndefined true false None [0]]
    [Promise.mk (CollectionSave 0 []) PriorResolved Pending]
    [] [].

(** A Model with a [save] that waits for the client and a forced [fetch]
    that waits for the [save]. *)
Definition queued_ex : State :=
  mkState resource_ex
    [Model.mk [("id", VStr "3")] [] VUndefined false false false [0; 1]]
    []
    [Promise.mk (ModelSave 0 (Some [("x", VNum 1)]) false) AwaitingClient Pending;
     Promise.mk (ModelFetch 0 true) (AwaitingPrior [0]) Pending]
    [] [].

(** A new, empty Collection, and three elements for it: two of the same
    identity, one without an identity. *)
Definition new_collection_ex : State :=
  snd (Collection_new urls_ex [] [] VUndefined empty_ex).


(** A Collection is created with one element that has no identity; that
    Model is then saved. *)
Definition late_identity_ex : M handle :=
  Collection_new urls_ex [] [Raw (VObj [("name", VStr "a")])] VUndefined ;;
  Model_save 0 None false.

(** ** Resource: collections and the convenience methods *)

Section Facade.

Variable urls : string -> option (value -> value).
Variable contentCacheKey : value.

(** An endpoint name that is given: neither [undefined] nor empty. *)
Definition given (endpointName : option string) : option string :=
  match endpointName with
  | Some e => if String.eqb e "" then None else Some e
  | None => None
  end.

(** [cache[key] = collection] on the cache object that [__collectionCache]
    returned earlier in the method. That object is the Resource's cache of
    the name unless [this.collections] was replaced in between; then the
    Resource has no cache of that name, and the write goes to an object that
    nothing refers to. *)
Definition collection_cache_write (endpointName : option string) (key : string)
    (collection : cloc) : M unit :=
  let* r := gets resource in
  match Resource.collections r !! __cacheName endpointName with
  | Some _ => collection_cache_update endpointName (insert key collection)
  | None => ret tt
  end.

(** The cache key of a Collection: [__cacheKey(getParams, { detailId })]. *)
Definition collection_key (idKey : string) (getParams : obj) (detailId : value) : string :=
  __cacheKey idKey [getParams; [("detailId", detailId)]].

(** [createCollection(getParams, data, endpointName, detailId)] *)
Definition createCollection (getParams : obj) (data : list item)
    (endpointName : option string) (detailId : value) : M cloc :=
  let* url :=
    match given endpointName with
    | Some e => call_url urls e (if truthy detailId then detailId else VUndefined)
    | None => ret VUndefined
    end in
  __collectionCache endpointName ;;
  let* idKey := the_idKey in
  let key := collection_key idKey getParams detailId in
  let* collection := Collection_new urls getParams data url in
  collection_cache_write endpointName key collection ;;
  ret collection.

(** [getCollection(getParams, endpointName, detailId)] *)
Definition getCollection (getParams : obj) (endpointName : option string)
    (detailId : value) : M cloc :=
  let* cache := __collectionCache endpointName in
  let* idKey := the_idKey in
  let key := collection_key idKey getParams detailId in
  match cache !! key with
  | Some collection => ret collection
  | None =>
      let* collection := createCollection getParams [] endpointName detailId in
      collection_cache_write endpointName key collection ;;
      ret collection
  end.

(** The method of a Model that [getModel] returned; [undefined] has none. *)
Definition on_model {A} (model : option loc) (method : loc -> M A) : M A :=
  match model with
  | Some l => method l
  | None => throw (TypeError "Cannot read properties of undefined")
  end.

(** [fetchModel({ id, getParams, force })] *)
Definition fetchModel (id : value) (getParams : obj) (force : bool) : M handle :=
  if negb (truthy id) then throw (TypeError "An id must be specified")
  else
    let* model := getModel urls id getParams None in
    on_model model (fun l => Model_fetch l force).

(** [saveModel({ id, getParams, data, exists })] *)
Definition saveModel (id : value) (getParams : obj) (data : obj) (exists_ : bool)
    : M handle :=
  if negb (truthy id) then
    let* model := createModel urls (VObj data) getParams None in
    Model_save model None false
  else
    let* model := getModel urls id getParams None in
    on_model model (fun l => Model_save l (Some data) exists_).

(** [deleteModel({ id, getParams })] *)
Definition deleteModel (id : value) (getParams : obj) : M handle :=
  if negb (truthy id) then throw (TypeError "An id must be specified")
  else
    let* model := getModel urls id getParams None in
    on_model model Model_delete.

(** [fetchCollection({ getParams, force })], [saveCollection({ data,
    getParams })], [deleteCollection(getParams)] *)
Definition fetchCollection (getParams : obj) (force : bool) : M handle :=
  let* collection := getCollection getParams None VUndefined in
  Collection_fetch collection force.

Definition saveCollection (data : list value) (getParams : obj) : M handle :=
  let* collection := getCollection getParams None VUndefined in
  Collection_save collection data.

Definition deleteCollection (getParams : obj) : M handle :=
  let* collection := getCollection getParams None VUndefined in
  Collection_delete collection.

(** [fetchDetailModel(detailName, id, getParams)] *)
Definition fetchDetailModel (detailName : option string) (id : value)
    (getParams : obj) : M handle :=
  if negb (truthy id) then throw (TypeError "An id must be specified")
  else match given detailName with
       | None => throw (TypeError "A detailName must be specified")
       | Some _ =>
           let* model := getModel urls id getParams detailName in
           on_model model (fun l => Model_fetch l false)
       end.

(** [fetchDetailCollection(detailName, id, getParams, force)] *)
Definition fetchDetailCollection (detailName : option string) (id : value)
    (getParams : obj) (force : bool) : M handle :=
  if negb (truthy id) then throw (TypeError "An id must be specified")
  else match given detailName with
       | None => throw (TypeError "A detailName must be specified")
       | Some _ =>
           let* collection := getCollection getParams detailName id in
           Collection_fetch collection force
       end.

(** [fetchListCollection(listName, getParams)] *)
Definition fetchListCollection (listName : option string) (getParams : obj) : M handle :=
  match given listName with
  | None => throw (TypeError "A listName must be specified")
  | Some _ =>
      let* collection := getCollection getParams listName VUndefined in
      Collection_fetch collection false
  end.

(** [clearCache()] of the Resource *)
Definition Resource_clearCache : M unit :=
  modify (with_resource (Resource.set_models ∅)) ;;
  modify (with_resource (Resource.set_collections ∅)).

(** [unCacheModel(id, getParams, endpointName)] *)
Definition unCacheModel (id : value) (getParams : obj)
    (endpointName : option string) : M unit :=
  let* idKey := the_idKey in
  let cacheKey := __cacheKey idKey [[(idKey, id)]; getParams] in
  let* cache := __modelCache endpointName in
  match cache !! cacheKey with
  | Some model => update_model model (Model.set_synced false)
  | None => ret tt
  end.

(** [unCacheCollection(getParams, endpointName)] *)
Definition unCacheCollection (getParams : obj) (endpointName : option string) : M unit :=
  let* idKey := the_idKey in
  let cacheKey := __cacheKey idKey [getParams] in
  let* cache := __collectionCache endpointName in
  match cache !! cacheKey with
  | Some collection => Collection_set_synced collection false
  | None => ret tt
  end.

End Facade.

(** ** Notions for the further properties *)

(** The test of [obj_insert_new]: the property [k'] stays in front of a new
    property [k]. *)
Definition goes_before (k k' : string) : bool :=
  match array_index k, array_index k' with
  | None, _ => true
  | Some n, Some n' => (n' <? n)%N
  | Some _, None => false
  end.

(** Property order: array indices, ascending, in front of the other names. *)
Definition in_order (k1 k2 : string) : Prop :=
  match array_index k1, array_index k2 with
  | Some n1, Some n2 => (n1 <= n2)%N
  | Some _, None => True
  | None, Some _ => False
  | None, None => True
  end.

Definition ordered (o : obj) : Prop := StronglySorted in_order (Object_keys o).

(** The properties of [o] whose names satisfy [P]. *)
Definition props_where (P : string -> bool) (o : list (string * value))
    : list (string * value) :=
  filter (fun p : string * value => P p.1 = true) o.

(** [Object.assign({}, ...keys.map(k => ({[k]: g(k)})))] on top of [o]. *)
Definition assign_keys (g : string -> value) (keys : list string) (o : obj) : obj :=
  fold_left (fun t k => obj_set k (g k) t) keys o.

Definition is_undefined (v : value) : bool :=
  match v with VUndefined => true | _ => false end.

(** One property of the output of [JSON.stringify]. *)
Definition json_member (p : string * value) : option string :=
  (fun s => json_quote (fst p) +:+ ":" +:+ s) <$> stringify (snd p).
(** The value [__cacheKey] gives the property [k] of its sorted object. *)
Definition key_value_ (idKey : string) (ps : list obj) (k : string) : value :=
  if String.eqb k idKey then VStr (String_ (default VUndefined (merged_lookup k ps)))
  else default VUndefined (merged_lookup k ps).

(** The GET parameters and the [cacheBust] option a request without data
    goes out with. *)
Definition sent_params (r : Resource.t) (contentCacheKey : value) (p : obj) : obj :=
  if Resource.useContentCacheKey r then obj_set "contentCacheKey" contentCacheKey p
  else p.

Definition sent_cacheBust (r : Resource.t) : option bool :=
  if Resource.useContentCacheKey r then Some false else None.

(** The Model after its [fetch] went to the server, and the request. *)
Definition fetching (r : Resource.t) (contentCacheKey : value) (m : Model.t) : Model.t :=
  Model.set_getParams (sent_params r contentCacheKey (Model.getParams m))
                      (Model.set_synced false m).

Definition fetch_request (r : Resource.t) (contentCacheKey : value) (m : Model.t)
    (detail : value -> value) : Request.t :=
  Request.mk (if truthy (Model._url m) then Model._url m
              else detail (Model_id (Resource.idKey r) m))
             None None
             (Some (sent_params r contentCacheKey (Model.getParams m)))
             (sent_cacheBust r).

(** The Model after a response to [fetch] or [save] brought [d]. *)
Definition refreshed (idKey : string) (m : Model.t) (d : obj) (promise : handle)
    : Model.t :=
  Model.mk (Object_assign (Model.attributes m) (stringified idKey d))
           (Model.getParams m) (Model._url m) true false (Model.deleted m)
           (splice_indexOf promise (Model.promises m)).
(** The value a property has after [Object.assign] of [source]. *)
Definition assigned (k : string) (target source : obj) : option value :=
  match obj_lookup k source with
  | Some v => Some v
  | None => obj_lookup k target
  end.
(** The promise an event is about. *)
Definition event_promise (ev : event) : handle :=
  match ev with
  | PriorSettled h | ClientResolved h _ | ClientRejected h _ => h
  end.

(** From [s] to [s'] the promise [h] of the operation [o] settled with
    [outcome] and finished, and the promises that waited for it were told. *)
Definition settled_from (s s' : State) (h : handle) (o : operation)
    (outcome : settlement) : Prop :=
  promise_store s' !! h = Some (Promise.mk o Finished outcome)
  /\ forall h', h' <> h ->
       promise_store s' !! h' = notify h outcome <$> promise_store s !! h'.

(** What is left of a list of awaited promises when [h] resolved. *)
Definition still_awaiting (h : handle) (w : list handle) : stage :=
  match filter (fun x => x <> h) w with
  | [] => PriorResolved
  | w' => AwaitingPrior w'
  end.
(** The data the Model constructor accepts: an object or an array with at
    least one own property. *)
Definition constructible (data : value) : bool :=
  truthy data && typeof_object data
  && negb (length (Object_keys (own_props data)) =? 0)%nat.

(** The Collection the cache of [endpointName] holds under [key]. *)
Definition coll_slot (s : State) (endpointName : option string) (key : string)
    : option cloc :=
  default ∅ (Resource.collections (resource s) !! __cacheName endpointName) !! key.

(** The state [__collectionCache(endpointName)] leaves. *)
Definition touch_collections (e : option string) (s : State) : State :=
  match Resource.collections (resource s) !! __cacheName e with
  | Some _ => s
  | None =>
      with_resource
        (Resource.set_collections
           (<[__cacheName e := ∅]> (Resource.collections (resource s)))) s
  end.

(** Every Collection the cache files is allocated. *)
Definition collections_valid (s : State) : Prop :=
  forall e K c, coll_slot s e K = Some c -> is_Some (collection_store s !! c).

(** The identity of the Model that is built from the raw data [d]. *)
Definition raw_identity (idKey : string) (d : obj) : value :=
  match obj_lookup idKey d with
  | Some v => if truthy v then VStr (String_ v) else v
  | None => VUndefined
  end.

(** The Resource is as before. *)
Definition resource_kept (s s' : State) : Prop := resource s' = resource s.

(** The name, the identity field and the content cache option of the
    Resource are as before. *)
Definition settings_kept (s s' : State) : Prop :=
  Resource.name (resource s') = Resource.name (resource s)
  /\ Resource.idKey (resource s') = Resource.idKey (resource s)
  /\ Resource.useContentCacheKey (resource s')
     = Resource.useContentCacheKey (resource s).

(** A Collection as its constructor leaves it when it is given no data. *)
Definition fresh_collection (getParams : obj) (url : value) : Collection.t :=
  Collection.mk getParams [] ∅ url false true None [].

(** The url [createCollection] hands to the Collection. *)
Definition collection_url_of (urls : string -> option (value -> value))
    (r : Resource.t) (e : option string) (detailId : value) : option value :=
  match given e with
  | Some n =>
      (fun f => f (if truthy detailId then detailId else VUndefined))
        <$> urls (Resource.name r +:+ "_" +:+ n)
  | None => Some VUndefined
  end.

(** The data of the Models at [ls] that are not deleted, as [Collection.data]
    lists them. *)
Definition live_data (s : State) (ls : list loc) : list value :=
  omap (fun l => match model_store s !! l with
                 | Some m => if Model.deleted m then None else Some (Model_data m)
                 | None => None
                 end) ls.

(** The cache key a Model is filed under when it has an identity, and under
    which [removeModel] looks for it. *)
Definition model_key (idKey : string) (m : Model.t) : string :=
  __cacheKey idKey [[(idKey, Model_id idKey m)]; Model.getParams m].

(** The Model after its [delete] succeeded. *)
Definition removed (m : Model.t) (promise : handle) : Model.t :=
  Model.mk (Model.attributes m) (Model.getParams m) (Model._url m) false true true
           (splice_indexOf promise (Model.promises m)).

(** The promises, the requests sent and the log are as before. *)
Definition effects_kept (s s' : State) : Prop :=
  promise_store s' = promise_store s
  /\ requests s' = requests s
  /\ log s' = log s.

(** A response gives the Model [m] an identity it did not have. *)
Definition newly_identified (idKey : string) (m : Model.t) (d : obj) : bool :=
  negb (truthy (Model_id idKey m))
  && truthy (obj_get (Object_assign (Model.attributes m) (stringified idKey d)) idKey).



(** The promise [h], if a callback of its operation threw, is as before. *)
Definition thrown_kept (h : handle) (s s' : State) : Prop :=
  forall p e, promise_store s !! h = Some p -> Promise.stage_ p = Threw e ->
              promise_store s' !! h = Some p.

(** The Collection [this] of [s] with its members cleared. *)
Definition cleared (this : cloc) (x : Collection.t) (s : State) : State :=
  with_collections (fun cs => <[this := Collection.set_members [] ∅ x]> cs) s.

(** What [collection.data] reads for the Collection [x]: the data of the
    members that are not deleted, inside the metadata if there is any. *)
Definition collection_data (s : State) (x : Collection.t) : value :=
  let data := VArr (live_data s (Collection.models x)) in
  match Collection.metadata x with
  | None => data
  | Some metadata => VObj (Object_assign [("results", data)] metadata)
  end.

(** What [collection.synced] and [collection.new] read for [x]. *)
Definition reads_synced (s : State) (x : Collection.t) : bool :=
  Collection._synced x
  && forallb (fun l => from_option Model.synced false (model_store s !! l))
             (Collection.models x).

Definition reads_new (s : State) (x : Collection.t) : bool :=
  Collection._new x
  && forallb (fun l => from_option Model.new false (model_store s !! l))
             (Collection.models x).

(** The Collection after its [fetch] went to the server, and the request. *)
Definition collection_fetching (r : Resource.t) (contentCacheKey : value)
    (x : Collection.t) : Collection.t :=
  Collection.set_getParams (sent_params r contentCacheKey (Collection.getParams x))
                           (Collection.set__synced false x).

Definition collection_fetch_request (r : Resource.t) (contentCacheKey : value)
    (x : Collection.t) (list_ : value -> value) : Request.t :=
  Request.mk (if truthy (Collection._url x) then Collection._url x
              else list_ VUndefined)
             None None
             (Some (sent_params r contentCacheKey (Collection.getParams x)))
             (sent_cacheBust r).

(** Every member of the Collection is allocated. *)
Definition members_allocated (s : State) (x : Collection.t) : Prop :=
  Forall (fun l => is_Some (model_store s !! l)) (Collection.models x).

(** The store of Models has not shrunk. *)
Definition models_grow (s s' : State) : Prop :=
  length (model_store s) <= length (model_store s').

(** The Collection after the answer to its [fetch] or [save] was filed, and
    a Model that the answer confirms. *)
Definition answered (x : Collection.t) (promise : handle) : Collection.t :=
  Collection.mk (Collection.getParams x) (Collection.models x) (Collection._model_map x)
                (Collection._url x) true false (Collection.metadata x)
                (splice_indexOf promise (Collection.promises x)).

Definition confirmed (m : Model.t) : Model.t :=
  Model.set_new false (Model.set_synced true m).

(** The cache keys and the identities of the Models at [ls]. *)
Definition member_keys (s : State) (ls : list loc) : list string :=
  omap (fun l => model_key (Resource.idKey (resource s)) <$> model_store s !! l) ls.

Definition member_ids (s : State) (ls : list loc) : list value :=
  omap (fun l => Model_id (Resource.idKey (resource s)) <$> model_store s !! l) ls.

(** The payload of a Collection's [save(data)]: the data given, or the
    Collection's own data if none is given. *)
Definition collection_payload (s : State) (x : Collection.t) (data : list value) : value :=
  if (length data =? 0)%nat then collection_data s x else VArr data.

(** A value all of whose objects have distinct property names. *)
Fixpoint well_formed (v : value) : Prop :=
  match v with
  | VArr xs =>
      (fix all (xs : list value) : Prop :=
         match xs with
         | [] => True
         | x :: xs' => well_formed x /\ all xs'
         end) xs
  | VObj ps =>
      NoDup (map fst ps)
      /\ (fix all (ps : list (string * value)) : Prop :=
            match ps with
            | [] => True
            | p :: ps' => well_formed (snd p) /\ all ps'
            end) ps
  | _ => True
  end.

(** ** Inputs for the further runs *)


(** A Model whose [fetch] waits for the transport. *)
Definition fetching_ex : State :=
  mkState resource_ex
    [Model.mk [("id", VStr "9"); ("x", VNum 1)] [] VUndefined false true false [0]]
    []
    [Promise.mk (ModelFetch 0 false) AwaitingClient Pending]
    [] [].

(** A Model that was never fetched and has no operation pending. *)
Definition unfetched_ex : State :=
  mkState resource_ex
    [Model.mk [("id", VStr "9"); ("x", VNum 1)] [] VUndefined false true false []]
    [] [] [] [].

(** A synced Collection without members, cached for the GET parameters
    [{page: 1}]. *)
Definition cached_collection_ex : State :=
  mkState
    (Resource.mk "kolibri:core:facility" "id" false ∅
       {["default" := {[__cacheKey "id" [[("page", VNum 1)]] := 0]}]})
    []
    [Collection.mk [("page", VNum 1)] [] ∅ VUndefined true false None []]
    [] [] [].

(** A synced Model, cached under its identity. *)
Definition cached_model_ex : State :=
  mkState
    (Resource.mk "kolibri:core:facility" "id" false
       {["default" := {[__cacheKey "id" [[("id", VStr "9")]] := 0]}]} ∅)
    [Model.mk [("id", VStr "9"); ("x", VNum 1)] [] VUndefined true false false []]
    [] [] [] [].

(** The cached Model with a [delete] that waits for the transport, and a
    Collection that holds the Model. *)
Definition deleting_ex : State :=
  mkState
    (Resource.mk "kolibri:core:facility" "id" false
       {["default" := {[__cacheKey "id" [[("id", VStr "9")]] := 0]}]} ∅)
    [Model.mk [("id", VStr "9"); ("x", VNum 1)] [] VUndefined true false false [0]]
    [Collection.mk [] [0] {["9" := 0]} VUndefined true false None []]
    [Promise.mk (ModelDelete 0) AwaitingClient Pending]
    [] [].

(** A Model without an identity whose [save] waits for the transport. *)
Definition saving_ex : State :=
  mkState resource_ex
    [Model.mk [("name", VStr "a")] [] VUndefined false true false [0]]
    []
    [Promise.mk (ModelSave 0 None false) AwaitingClient Pending]
    [] [].

(** A synced Model with a [save()] without attributes whose callback is due. *)
Definition save_nothing_ex : State :=
  mkState resource_ex
    [Model.mk [("id", VStr "9"); ("x", VNum 1)] [] VUndefined true false false [0]]
    []
    [Promise.mk (ModelSave 0 None false) PriorResolved Pending]
    [] [].

(** A Collection whose [fetch] waits for the transport. *)
Definition collection_fetching_ex : State :=
  mkState resource_ex []
    [Collection.mk [] [] ∅ VUndefined false true None [0]]
    [Promise.mk (CollectionFetch 0 false) AwaitingClient Pending]
    [] [].
(** A synced Collection of one Model that is not synced, with a [fetch]
    whose callback is due. *)
Definition stale_member_ex : State :=
  mkState resource_ex
    [Model.mk [("id", VStr "9"); ("x", VNum 1)] [] VUndefined false false false []]
    [Collection.mk [] [0] {["9" := 0]} VUndefined true false None [0]]
    [Promise.mk (CollectionFetch 0 false) PriorResolved Pending]
    [] [].

(** A cached Collection of one cached Model whose [delete] waits for the
    transport. *)
Definition collection_deleting_ex : State :=
  mkState
    (Resource.mk "kolibri:core:facility" "id" false
       {["default" := {[__cacheKey "id" [[("id", VStr "9")]] := 0]}]}
       {["default" := {[__cacheKey "id" [[("page", VNum 1)]] := 0]}]})
    [Model.mk [("id", VStr "9"); ("x", VNum 1)] [] VUndefined true false false []]
    [Collection.mk [("page", VNum 1)] [0] {["9" := 0]} VUndefined true false None [0]]
    [Promise.mk (CollectionDelete 0) AwaitingClient Pending]
    [] [].

(** A new Collection of one new Model, fetched from an endpoint of its own,
    with a [save()] whose callback is due; the Resource uses the content
    cache key. *)
Definition collection_saving_ex : State :=
  mkState
    (Resource.mk "kolibri:core:facility" "id" true ∅ ∅)
    [Model.mk [("name", VStr "a")] [] VUndefined false true false []]
    [Collection.mk [("page", VNum 1)] [0] ∅ (VStr "/api/own/") false true None [0]]
    [Promise.mk (CollectionSave 0 []) PriorResolved Pending]
    [] [].

(** A Collection whose [save] waits for the transport. *)
Definition collection_saved_ex : State :=
  mkState resource_ex []
    [Collection.mk [] [] ∅ VUndefined false true None [0]]
    [Promise.mk (CollectionSave 0 [VObj [("name", VStr "a")]]) AwaitingClient Pending]
    [] [].

(** A synced Model with a [save] of the value its field [x] has, whose
    callback is due. *)
Definition save_same_ex : State :=
  mkState resource_ex
    [Model.mk [("id", VStr "9"); ("x", VObj [("a", VNum 1); ("b", VArr [VNull])])]
              [] VUndefined true false false [0]]
    []
    [Promise.mk (ModelSave 0 (Some [("x", VObj [("a", VNum 1); ("b", VArr [VNull])])]) false)
                PriorResolved Pending]
    [] [].

(** ** Property lists *)

(** Case analysis on the first test of two property names in the goal. *)
Ltac case_eqb :=
  match goal with
  | |- context [String.eqb ?a ?b] =>
      destruct (String.eqb_spec a b); simplify_eq; try done
  end.

Section ObjFacts.

Implicit Types (k : string) (v : value) (o : obj).

Lemma obj_lookup_Some_elem k o v :
  obj_lookup k o = Some v -> k ∈ Object_keys o.
Proof.
  induction o as [|[k' v'] o IH]; simpl; [done|].
  destruct (String.eqb_spec k' k) as [->|Hne].
  - intros _. apply list_elem_of_here.
  - intros H. apply list_elem_of_further. auto.
Qed.

Lemma obj_lookup_None_notin k o :
  obj_lookup k o = None <-> k ∉ Object_keys o.
Proof.
  induction o as [|[k' v'] o IH]; simpl.
  - split; [intros _; apply not_elem_of_nil | done].
  - destruct (String.eqb_spec k' k) as [->|Hne].
    + split; [done|]. intros H. destruct H. apply list_elem_of_here.
    + rewrite IH, not_elem_of_cons. split; [by intros ?; split | by intros [_ ?]].
Qed.

Lemma elem_keys_lookup k o : k ∈ Object_keys o <-> is_Some (obj_lookup k o).
Proof.
  destruct (obj_lookup k o) as [v|] eqn:E.
  - split; [eauto | intros _; eapply obj_lookup_Some_elem; eauto].
  - apply obj_lookup_None_notin in E. split; [done | intros [? ?]; done].
Qed.

Lemma obj_replace_keys k v o : Object_keys (obj_replace k v o) = Object_keys o.
Proof.
  induction o as [|[k' v'] o IH]; simpl; [done|].
  destruct (String.eqb_spec k' k) as [->|Hne]; [done|].
  unfold Object_keys in *. simpl. by f_equal.
Qed.

Lemma obj_insert_new_keys k v o :
  Object_keys (obj_insert_new k v o) ≡ₚ k :: Object_keys o.
Proof.
  induction o as [|[k' v'] o IH]; simpl; [done|].
  destruct (array_index k) as [n|], (array_index k') as [n'|]; simpl;
    try destruct (n' <? n)%N; simpl; try done;
    unfold Object_keys in *; rewrite IH; apply Permutation_swap.
Qed.

Lemma obj_set_wf k v o : wf_obj o -> wf_obj (obj_set k v o).
Proof.
  unfold wf_obj, obj_set. intros Hwf.
  destruct (obj_lookup k o) eqn:E.
  - by rewrite obj_replace_keys.
  - rewrite obj_insert_new_keys. apply NoDup_cons. split; [|done].
    by apply obj_lookup_None_notin.
Qed.

Lemma obj_replace_lookup_eq k v o :
  is_Some (obj_lookup k o) -> obj_lookup k (obj_replace k v o) = Some v.
Proof.
  induction o as [|[k' v'] o IH]; simpl; [by intros [? ?]|].
  destruct (String.eqb_spec k' k) as [->|Hne]; simpl.
  - by rewrite String.eqb_refl.
  - intros H. destruct (String.eqb_spec k' k); [done | auto].
Qed.

Lemma obj_replace_lookup_ne k k' v o :
  k <> k' -> obj_lookup k' (obj_replace k v o) = obj_lookup k' o.
Proof.
  intros Hne. induction o as [|[k0 v0] o IH]; simpl; [done|].
  destruct (String.eqb_spec k0 k) as [->|Hne0]; simpl.
  - destruct (String.eqb_spec k k'); done.
  - destruct (String.eqb_spec k0 k'); done.
Qed.

Lemma obj_insert_new_lookup_eq k v o :
  obj_lookup k o = None -> obj_lookup k (obj_insert_new k v o) = Some v.
Proof.
  induction o as [|[k' v'] o IH]; simpl.
  - by rewrite String.eqb_refl.
  - destruct (String.eqb_spec k' k) as [->|Hne]; [done|]. intros H.
    destruct (array_index k) as [n|], (array_index k') as [n'|]; simpl;
      try destruct (n' <? n)%N; simpl;
      rewrite ?String.eqb_refl; try done;
      destruct (String.eqb_spec k' k); try done; auto.
Qed.

Lemma obj_insert_new_lookup_ne k k' v o :
  k <> k' -> obj_lookup k' (obj_insert_new k v o) = obj_lookup k' o.
Proof.
  intros Hne. induction o as [|[k0 v0] o IH]; simpl.
  - destruct (String.eqb_spec k k'); done.
  - destruct (array_index k) as [n|], (array_index k0) as [n0|]; simpl;
      try destruct (n0 <? n)%N; simpl;
      try (destruct (String.eqb_spec k k'); done);
      destruct (String.eqb_spec k0 k'); done.
Qed.

Lemma obj_set_lookup_eq k v o : obj_lookup k (obj_set k v o) = Some v.
Proof.
  unfold obj_set. destruct (obj_lookup k o) eqn:E.
  - apply obj_replace_lookup_eq. rewrite E. eauto.
  - by apply obj_insert_new_lookup_eq.
Qed.

Lemma obj_set_lookup_ne k k' v o :
  k <> k' -> obj_lookup k' (obj_set k v o) = obj_lookup k' o.
Proof.
  unfold obj_set. intros Hne. destruct (obj_lookup k o).
  - by apply obj_replace_lookup_ne.
  - by apply obj_insert_new_lookup_ne.
Qed.

Lemma obj_set_lookup k k' v o :
  obj_lookup k' (obj_set k v o) =
  if decide (k = k') then Some v else obj_lookup k' o.
Proof.
  case_decide as H; [subst; apply obj_set_lookup_eq | by apply obj_set_lookup_ne].
Qed.

Lemma Object_assign_wf (target source : obj) :
  wf_obj target -> wf_obj (Object_assign target source).
Proof.
  unfold Object_assign. revert target.
  induction source as [|[k v] src IH]; simpl; intros t Ht; [done|].
  apply IH. by apply obj_set_wf.
Qed.

(** Later sources win: a property of the source overrides the target's. *)
Lemma Object_assign_lookup k (target source : obj) :
  wf_obj source ->
  obj_lookup k (Object_assign target source) =
  match obj_lookup k source with
  | Some v => Some v
  | None => obj_lookup k target
  end.
Proof.
  unfold Object_assign, wf_obj. revert target.
  induction source as [|[k0 v0] src IH]; simpl; intros t Hnd; [done|].
  apply NoDup_cons in Hnd as [Hnotin Hnd].
  rewrite IH by done.
  destruct (String.eqb_spec k0 k) as [->|Hne].
  - apply obj_lookup_None_notin in Hnotin. rewrite Hnotin.
    apply obj_set_lookup_eq.
  - rewrite obj_set_lookup_ne by done. done.
Qed.

Lemma Object_assign_all_wf (target : obj) (sources : list obj) :
  wf_obj target -> wf_obj (Object_assign_all target sources).
Proof.
  unfold Object_assign_all. revert target.
  induction sources as [|s ss IH]; simpl; intros t Ht; [done|].
  apply IH. by apply Object_assign_wf.
Qed.

Lemma Object_assign_all_lookup k (target : obj) (sources : list obj) :
  Forall wf_obj sources ->
  obj_lookup k (Object_assign_all target sources) =
  match merged_lookup k sources with
  | Some v => Some v
  | None => obj_lookup k target
  end.
Proof.
  unfold Object_assign_all. revert target.
  induction sources as [|s ss IH]; simpl; intros t Hwf; [done|].
  apply Forall_cons in Hwf as [Hs Hss].
  rewrite IH by done.
  destruct (merged_lookup k ss); [done|].
  by apply Object_assign_lookup.
Qed.

Lemma obj_lookup_nil_iff (o : obj) : o = [] <-> (length (Object_keys o) =? 0)%nat = true.
Proof. destruct o; simpl; split; done. Qed.

End ObjFacts.

(** ** The order on property names *)

Lemma string_leb_trans (a b c : string) :
  String.leb a b = true -> String.leb b c = true -> String.leb a c = true.
Proof.
  unfold String.leb. revert b c.
  induction a as [|x a IH]; intros [|y b] [|z c]; simpl; try done.
  unfold Ascii.compare.
  destruct (N.compare_spec (N_of_ascii x) (N_of_ascii y)) as [E1|L1|G1];
    destruct (N.compare_spec (N_of_ascii y) (N_of_ascii z)) as [E2|L2|G2];
    try done.
  - rewrite E1, E2, N.compare_refl. apply IH.
  - rewrite E1. intros _ _.
    by replace (N_of_ascii y ?= N_of_ascii z)%N with Lt
      by (symmetry; by apply N.compare_lt_iff).
  - rewrite <- E2. intros _ _.
    by replace (N_of_ascii x ?= N_of_ascii y)%N with Lt
      by (symmetry; by apply N.compare_lt_iff).
  - intros _ _.
    by replace (N_of_ascii x ?= N_of_ascii z)%N with Lt
      by (symmetry; apply N.compare_lt_iff; lia).
Qed.

#[global] Instance key_le_total : Total key_le.
Proof. intros a b. apply String.leb_total. Qed.

#[global] Instance key_le_trans : Transitive key_le.
Proof. intros a b c. apply string_leb_trans. Qed.

#[global] Instance key_le_antisym : AntiSymm (=) key_le.
Proof. intros a b. apply String.leb_antisym. Qed.

(** Sorting depends on the set of names only. *)
Lemma sort_keys_perm (ks1 ks2 : list string) :
  ks1 ≡ₚ ks2 -> sort_keys ks1 = sort_keys ks2.
Proof.
  intros Hp. unfold sort_keys.
  apply (Sorted_unique key_le); try apply Sorted_merge_sort; try apply _.
  by rewrite !merge_sort_Permutation.
Qed.

(** ** The cache key is canonical *)

Lemma merged_object_lookup (k : string) (ps : list obj) :
  Forall wf_obj ps ->
  obj_lookup k (Object_assign_all [] ps) = merged_lookup k ps.
Proof.
  intros Hwf. rewrite Object_assign_all_lookup by done.
  by destruct (merged_lookup k ps).
Qed.

Lemma merged_object_keys (ps : list obj) :
  Forall wf_obj ps ->
  NoDup (Object_keys (Object_assign_all [] ps))
  /\ forall k, k ∈ Object_keys (Object_assign_all [] ps)
               <-> is_Some (merged_lookup k ps).
Proof.
  intros Hwf. split.
  - apply Object_assign_all_wf. apply NoDup_nil_2.
  - intros k. by rewrite elem_keys_lookup, merged_object_lookup.
Qed.

Lemma sort_keys_spec (ks : list string) :
  Sorted key_le (sort_keys ks) /\ sort_keys ks ≡ₚ ks.
Proof.
  split; [apply Sorted_merge_sort, _ | apply merge_sort_Permutation].
Qed.

(** C1. Two sequences of well-formed parameter objects whose merged
    key/value pairs agree (later objects overriding earlier ones, and the
    value of the identity field compared by its string form) have the same
    cache key, whatever the order in which the keys were added; and the key
    is the serialisation of the merged pairs assigned in the sorted order of
    their names, the identity value coerced to a string. *)
Theorem cacheKey_canonical (idKey : string) (ps1 ps2 : list obj) :
  Forall wf_obj ps1 -> Forall wf_obj ps2 ->
  (forall k, k <> idKey -> merged_lookup k ps1 = merged_lookup k ps2) ->
  String_ <$> merged_lookup idKey ps1 = String_ <$> merged_lookup idKey ps2 ->
  __cacheKey idKey ps1 = __cacheKey idKey ps2
  /\ exists ks : list string,
      Sorted key_le ks /\ NoDup ks
      /\ (forall k, k ∈ ks <-> is_Some (merged_lookup k ps1))
      /\ __cacheKey idKey ps1 =
         JSON_stringify
           (Object_assign_all []
              (map (fun k =>
                      [(k, if String.eqb k idKey
                           then VStr (String_ (default VUndefined (merged_lookup k ps1)))
                           else default VUndefined (merged_lookup k ps1))])
                   ks)).
Proof.
  intros Hwf1 Hwf2 Hother Hid.
  destruct (merged_object_keys ps1 Hwf1) as [Hnd1 Hin1].
  destruct (merged_object_keys ps2 Hwf2) as [Hnd2 Hin2].
  assert (Hsome : forall k, is_Some (merged_lookup k ps1)
                            <-> is_Some (merged_lookup k ps2)).
  { intros k. destruct (decide (k = idKey)) as [->|Hne].
    - rewrite <- !(fmap_is_Some String_). by rewrite Hid.
    - by rewrite Hother. }
  assert (Hperm : Object_keys (Object_assign_all [] ps1)
                  ≡ₚ Object_keys (Object_assign_all [] ps2)).
  { apply NoDup_Permutation; [done..|]. intros k. by rewrite Hin1, Hin2, Hsome. }
  split.
  - unfold __cacheKey. cbv zeta.
    rewrite (sort_keys_perm _ _ Hperm). do 2 f_equal.
    apply map_ext_in. intros k Hk. do 2 f_equal.
    unfold obj_get. rewrite !merged_object_lookup by done.
    destruct (String.eqb_spec k idKey) as [->|Hne].
    + destruct (merged_lookup idKey ps1), (merged_lookup idKey ps2);
        simpl in *; congruence.
    + by rewrite Hother.
  - exists (sort_keys (Object_keys (Object_assign_all [] ps1))).
    destruct (sort_keys_spec (Object_keys (Object_assign_all [] ps1))) as [Hs Hp].
    split; [done|]. split; [by rewrite Hp|]. split.
    + intros k. by rewrite Hp, Hin1.
    + unfold __cacheKey. cbv zeta. do 2 f_equal.
      apply map_ext_in. intros k Hk. unfold obj_get.
      by rewrite !merged_object_lookup.
Qed.

(** C1 at a concrete input: the same pairs built in two orders, the identity
    once as the number 7 and once as the string 7. *)
Lemma cacheKey_canonical_witness :
  __cacheKey "id" [[("b", VNum 1); ("id", VNum 7)]; [("a", VNull)]]
  = __cacheKey "id" [[("a", VBool true); ("id", VStr "7")]; [("a", VNull); ("b", VNum 1)]].
Proof.
  refine (proj1 (cacheKey_canonical "id" _ _ _ _ _ _)).
  - apply (bool_decide_unpack _). by vm_compute.
  - apply (bool_decide_unpack _). by vm_compute.
  - intros k Hk. cbn [merged_lookup obj_lookup]. repeat case_eqb.
  - reflexivity.
Defined.


(** ** Running the monad *)

Section MonadFacts.

Implicit Types (s : State) (l : loc) (c : cloc) (h : handle).

Lemma bind_ret {A B} (a : A) (k : A -> M B) s : bind (ret a) k s = k a s.
Proof. done. Qed.

Lemma bind_assoc {A B C} (c : M A) (k1 : A -> M B) (k2 : B -> M C) s :
  bind (bind c k1) k2 s = bind c (fun a => bind (k1 a) k2) s.
Proof. unfold bind. by destruct (c s) as [[a|e] s']. Qed.

Lemma bind_Ok {A B} (c : M A) (k : A -> M B) s a s' :
  c s = (Ok a, s') -> bind c k s = k a s'.
Proof. unfold bind. by intros ->. Qed.

Lemma bind_Throw {A B} (c : M A) (k : A -> M B) s e s' :
  c s = (Throw e, s') -> bind c k s = (Throw e, s').
Proof. unfold bind. by intros ->. Qed.

Lemma get_model_Ok s l m :
  model_store s !! l = Some m -> get_model l s = (Ok m, s).
Proof. unfold get_model, gets, bind, of_option. by intros ->. Qed.

Lemma update_model_Ok s l m f :
  model_store s !! l = Some m ->
  update_model l f s = (Ok tt, with_models (fun ms => <[l := f m]> ms) s).
Proof. intros H. unfold update_model. by rewrite (bind_Ok _ _ _ _ _ (get_model_Ok _ _ _ H)). Qed.

Lemma get_collection_Ok s c x :
  collection_store s !! c = Some x -> get_collection c s = (Ok x, s).
Proof. unfold get_collection, gets, bind, of_option. by intros ->. Qed.

Lemma update_collection_Ok s c x f :
  collection_store s !! c = Some x ->
  update_collection c f s = (Ok tt, with_collections (fun cs => <[c := f x]> cs) s).
Proof.
  intros H. unfold update_collection.
  by rewrite (bind_Ok _ _ _ _ _ (get_collection_Ok _ _ _ H)).
Qed.

Lemma get_promise_Ok s h p :
  promise_store s !! h = Some p -> get_promise h s = (Ok p, s).
Proof. unfold get_promise, gets, bind, of_option. by intros ->. Qed.

Lemma get_models_Ok s (ls : list loc) :
  Forall (fun l => is_Some (model_store s !! l)) ls ->
  exists ms, get_models ls s = (Ok ms, s)
             /\ Forall2 (fun l m => model_store s !! l = Some m) ls ms.
Proof.
  intros Hall. unfold get_models, gets, bind, of_option.
  assert (exists ms, mapM (fun l => model_store s !! l) ls = Some ms
                     /\ Forall2 (fun l m => model_store s !! l = Some m) ls ms)
    as (ms & -> & H2); [|by exists ms].
  induction Hall as [|l ls [m Hm] _ (ms & IH & H2)]; simpl.
  - exists []. split; [done | constructor].
  - exists (m :: ms). rewrite Hm. simpl. rewrite IH. simpl.
    split; [done | by constructor].
Qed.

(** [forEach] of an update: every listed Model is updated, the others and
    the rest of the state are left alone. *)
Lemma forEach_update_model (f : Model.t -> Model.t) (ls : list loc) s :
  Forall (fun l => is_Some (model_store s !! l)) ls ->
  (forall m, f (f m) = f m) ->
  exists ms',
    forEach (fun l => update_model l f) ls s = (Ok tt, with_models (fun _ => ms') s)
    /\ length ms' = length (model_store s)
    /\ (forall l, l ∈ ls -> ms' !! l = f <$> model_store s !! l)
    /\ (forall l, l ∉ ls -> ms' !! l = model_store s !! l).
Proof.
  intros Hall Hidem. revert s Hall.
  induction ls as [|l ls IH]; intros s Hall; simpl.
  - exists (model_store s). split; [by destruct s|]. split; [done|].
    split; [by intros l ?%elem_of_nil | done].
  - apply Forall_cons in Hall as [[m Hm] Hall].
    rewrite (bind_Ok _ _ _ _ _ (update_model_Ok _ _ _ f Hm)).
    set (s1 := with_models (fun ms => <[l := f m]> ms) s).
    assert (Hlen : l < length (model_store s)) by (by eapply lookup_lt_Some).
    destruct (IH s1) as (ms' & Hrun & Hlen' & Hin & Hout).
    { eapply Forall_impl; [exact Hall|]. intros l' [m' Hm']. simpl.
      destruct (decide (l' = l)) as [->|Hne].
      - rewrite list_lookup_insert_eq by done. eauto.
      - rewrite list_lookup_insert_ne by done. eauto. }
    exists ms'. split; [by rewrite Hrun; destruct s|].
    split; [by rewrite Hlen'; simpl; rewrite length_insert|].
    split.
    + intros l' Hl'. destruct (decide (l' ∈ ls)) as [Hls|Hls].
      * rewrite Hin by done. simpl. destruct (decide (l' = l)) as [->|Hne].
        -- rewrite list_lookup_insert_eq by done. rewrite Hm. simpl. by rewrite Hidem.
        -- by rewrite list_lookup_insert_ne.
      * rewrite Hout by done. simpl.
        apply elem_of_cons in Hl' as [->|?]; [|done].
        rewrite list_lookup_insert_eq by done. by rewrite Hm.
    + intros l' Hl'. apply not_elem_of_cons in Hl' as [Hne Hls].
      rewrite Hout by done. simpl. by rewrite list_lookup_insert_ne.
Qed.

Lemma fold_left_andb {A} (f : A -> bool) (xs : list A) (init : bool) :
  fold_left (fun acc x => acc && f x) xs init = init && forallb f xs.
Proof.
  revert init. induction xs as [|x xs IH]; intros init; simpl.
  - by rewrite andb_true_r.
  - by rewrite IH, andb_assoc.
Qed.

End MonadFacts.

(** ** What a computation leaves alone *)

Section Preserves.

Context {P : State -> State -> Prop} `{!PreOrder P}.

Lemma preserves_ret {A} (a : A) : preserves P (ret a).
Proof. intros s r s' [= <- <-]. reflexivity. Qed.

Lemma preserves_throw {A} e : preserves P (throw (A := A) e).
Proof. intros s r s' [= <- <-]. reflexivity. Qed.

Lemma preserves_gets {A} (f : State -> A) : preserves P (gets f).
Proof. intros s r s' [= <- <-]. reflexivity. Qed.

Lemma preserves_modify (f : State -> State) :
  (forall s, P s (f s)) -> preserves P (modify f).
Proof. intros H s r s' [= <- <-]. apply H. Qed.

Lemma preserves_bind {A B} (c : M A) (k : A -> M B) :
  preserves P c -> (forall a, preserves P (k a)) -> preserves P (bind c k).
Proof.
  intros Hc Hk s r s'. unfold bind.
  destruct (c s) as [[a|e] s1] eqn:E; intros H.
  - etransitivity; [eapply Hc, E | eapply Hk, H].
  - simplify_eq. eapply Hc, E.
Qed.

Lemma preserves_forEach {A} (f : A -> M unit) (xs : list A) :
  (forall x, preserves P (f x)) -> preserves P (forEach f xs).
Proof.
  intros Hf. induction xs as [|x xs IH]; simpl.
  - apply preserves_ret.
  - apply preserves_bind; [apply Hf | by intros _].
Qed.

End Preserves.

Create HintDb preserves.

(** One step of a proof that a computation preserves a relation: the monad's
    own operations, a case analysis, or the unfolding of the method. *)
Ltac head_of t :=
  match t with
  | ?f _ => head_of f
  | _ => t
  end.

Ltac preserves_step :=
  match goal with
  | |- preserves _ (ret _) => apply preserves_ret
  | |- preserves _ (throw _) => apply preserves_throw
  | |- preserves _ (gets _) => apply preserves_gets
  | |- preserves _ (modify _) =>
      apply preserves_modify; intros ?; solve [by repeat split | by intros ? ? ? ? ?]
  | |- preserves _ (bind _ _) => apply preserves_bind; [|intros ?]
  | |- preserves _ (forEach _ _) => apply preserves_forEach; intros ?
  | |- preserves _ _ => solve [eauto with preserves]
  | |- preserves _ (match ?x with _ => _ end) => destruct x
  | |- preserves _ ?c => let f := head_of c in unfold f
  end.

Ltac preserves_tac := repeat preserves_step.

Section Kept.

Variable urls : string -> option (value -> value).

#[global] Instance collections_kept_preorder : PreOrder collections_kept.
Proof.
  split.
  - by intros s.
  - intros s1 s2 s3 [H1 H2] [H3 H4]. split; congruence.
Qed.

Lemma addModel_kept x getParams e :
  preserves collections_kept (addModel urls x getParams e).
Proof. preserves_tac. Qed.

End Kept.

(** ** Model.set *)

Section ModelSet.

Implicit Types (s : State) (o : obj).

Lemma stringify_id_obj idKey o :
  stringify_id idKey (VObj o) = Ok (VObj (stringified idKey o)).
Proof.
  unfold stringify_id, stringified.
  destruct (obj_lookup idKey o) as [v|]; [|done]. by destruct (truthy v).
Qed.

Lemma stringified_keys idKey o :
  Object_keys (stringified idKey o) = Object_keys o.
Proof.
  unfold stringified, obj_set.
  destruct (obj_lookup idKey o) as [v|] eqn:E; [|done].
  destruct (truthy v); [|done]. apply obj_replace_keys.
Qed.

Lemma stringified_lookup idKey o k :
  obj_lookup k (stringified idKey o)
  = if decide (k = idKey)
    then (fun v => if truthy v then VStr (String_ v) else v) <$> obj_lookup idKey o
    else obj_lookup k o.
Proof.
  unfold stringified.
  destruct (obj_lookup idKey o) as [v|] eqn:E.
  - destruct (truthy v) eqn:T.
    + rewrite obj_set_lookup. case_decide; case_decide; simplify_eq; try done.
      simpl. by rewrite T.
    + case_decide; simplify_eq; [|done]. rewrite E. simpl. by rewrite T.
  - case_decide; simplify_eq; [by rewrite E | done].
Qed.

Lemma Model_set_caller s this m o :
  model_store s !! this = Some m ->
  Model_set this (Caller (VObj o)) s
  = (Ok (VObj (stringified (Resource.idKey (resource s)) o)),
     with_models (fun ms =>
       <[this := Model.set_attributes
                   (Object_assign (Model.attributes m)
                      (stringified (Resource.idKey (resource s)) o)) m]> ms) s).
Proof.
  intros Hm. unfold Model_set, the_idKey.
  rewrite (bind_Ok _ _ _ _ _ (eq_refl : gets _ s = (Ok _, s))).
  rewrite bind_ret, stringify_id_obj. cbn [of_result]. rewrite bind_ret, bind_ret.
  by rewrite (bind_Ok _ _ _ _ _ (update_model_Ok _ _ _ _ Hm)).
Qed.



End ModelSet.

(** ** The registry of Models *)

Section Registry.

Variable urls : string -> option (value -> value).

Implicit Types (s : State) (o : obj) (e : option string).

Lemma obj_set_same k v o : obj_lookup k o = Some v -> obj_set k v o = o.
Proof.
  intros H. unfold obj_set. rewrite H. clear -H.
  induction o as [|[k' v'] o IH]; simpl in *; [done|].
  destruct (String.eqb_spec k' k) as [->|Hne]; [by simplify_eq|].
  by rewrite IH.
Qed.

Lemma stringified_id idKey o id :
  obj_lookup idKey o = Some (VStr id) -> stringified idKey o = o.
Proof.
  intros H. unfold stringified. rewrite H. simpl.
  destruct (negb (id =? ""))%string; [|done]. by apply obj_set_same.
Qed.

Lemma stringified_wf idKey o : wf_obj o -> wf_obj (stringified idKey o).
Proof. unfold wf_obj. by rewrite stringified_keys. Qed.

Lemma truthy_VStr id : id <> "" -> truthy (VStr id) = true.
Proof. intros H. simpl. by destruct (String.eqb_spec id ""). Qed.

Lemma modelCache_run e s :
  __modelCache e s
  = (Ok (default ∅ (Resource.models (resource s) !! __cacheName e)), touch_cache e s).
Proof.
  unfold __modelCache, touch_cache. cbn [bind gets].
  by destruct (Resource.models (resource s) !! __cacheName e).
Qed.

Lemma touch_cache_slot e s e' K : slot (touch_cache e s) e' K = slot s e' K.
Proof.
  unfold touch_cache, slot.
  destruct (Resource.models (resource s) !! __cacheName e) eqn:E; [done|].
  simpl. destruct (decide (__cacheName e = __cacheName e')) as [Heq|Hne].
  - rewrite <- Heq, lookup_insert_eq, E. done.
  - by rewrite lookup_insert_ne.
Qed.

Lemma touch_cache_frame e s :
  model_store (touch_cache e s) = model_store s
  /\ Resource.idKey (resource (touch_cache e s)) = Resource.idKey (resource s)
  /\ Resource.name (resource (touch_cache e s)) = Resource.name (resource s)
  /\ collection_store (touch_cache e s) = collection_store s.
Proof.
  unfold touch_cache.
  by destruct (Resource.models (resource s) !! __cacheName e).
Qed.

Lemma model_cache_update_slot e K l s e' K' :
  slot (snd (model_cache_update e (insert K l) s)) e' K'
  = if decide (__cacheName e = __cacheName e' /\ K = K') then Some l else slot s e' K'.
Proof.
  unfold model_cache_update, modify, slot. simpl.
  destruct (decide (__cacheName e = __cacheName e')) as [Heq|Hne].
  - rewrite <- Heq, lookup_insert_eq. simpl.
    destruct (decide (K = K')) as [->|HK].
    + rewrite lookup_insert_eq. by rewrite decide_True.
    + rewrite lookup_insert_ne by done. rewrite decide_False; [done|]. by intros [_ ?].
  - rewrite lookup_insert_ne by done. rewrite decide_False; [done|]. by intros [? _].
Qed.

(** [new Model(data, ...)] on a non-empty object. *)
Lemma Model_new_Ok s d getParams url :
  d <> [] ->
  Model_new (VObj d) getParams url s
  = (Ok (length (model_store s)),
     with_models (fun ms =>
       (ms ++ [Model.mk (Object_assign [] (stringified (Resource.idKey (resource s)) d))
                        getParams url false true false []])%list) s).
Proof.
  intros Hd. unfold Model_new. cbn [truthy negb typeof_object own_props].
  destruct (length (Object_keys d) =? 0)%nat eqn:E.
  { by apply obj_lookup_nil_iff in E. }
  unfold alloc_model. rewrite bind_assoc.
  rewrite (bind_Ok _ _ _ _ _ (eq_refl : gets _ s = (Ok _, s))).
  rewrite bind_assoc. cbn [bind modify].
  set (s1 := with_models _ s).
  assert (Hm : model_store s1 !! length (model_store s)
               = Some (Model.mk [] getParams url false true false [])).
  { simpl. by rewrite lookup_app_r, Nat.sub_diag. }
  rewrite bind_ret. rewrite (bind_Ok _ _ _ _ _ (Model_set_caller s1 _ _ d Hm)).
  unfold ret. f_equal. unfold s1. destruct s. simpl. unfold with_models. simpl.
  f_equal. rewrite insert_app_r_alt by done. by rewrite Nat.sub_diag.
Qed.

(** [cached.set(model.attributes)], also when [model] is [cached] itself. *)
Lemma Model_set_attributes_of_any s this m l ml :
  model_store s !! this = Some m ->
  model_store s !! l = Some ml ->
  let o' := stringified (Resource.idKey (resource s)) (Model.attributes ml) in
  let m' := if decide (l = this) then Model.set_attributes o' ml else m in
  Model_set this (AttributesOf l) s
  = (Ok (VObj o'),
     with_models (fun ms =>
       <[this := Model.set_attributes (Object_assign (Model.attributes m') o') m']>
         (<[l := Model.set_attributes o' ml]> ms)) s).
Proof.
  intros Hm Hl o' m'. unfold Model_set, the_idKey.
  rewrite (bind_Ok _ _ _ _ _ (eq_refl : gets _ s = (Ok _, s))).
  erewrite bind_Ok
    by (rewrite (bind_Ok _ _ _ _ _ (get_model_Ok _ _ _ Hl)); reflexivity).
  rewrite stringify_id_obj. cbn [of_result]. rewrite bind_ret.
  rewrite (bind_Ok _ _ _ _ _ (update_model_Ok _ _ _ _ Hl)).
  erewrite bind_Ok; [reflexivity|].
  rewrite (update_model_Ok _ _ m'); [by destruct s|].
  simpl. unfold m'. case_decide as Heq.
  - subst. by rewrite list_lookup_insert_eq by (by eapply lookup_lt_Some).
  - by rewrite list_lookup_insert_ne.
Qed.

(** [addModel] of a Model with an identity the cache does not hold yet: the
    Model itself is filed and returned. *)
Lemma addModel_instance_miss s e l m id :
  model_store s !! l = Some m ->
  Model_id (Resource.idKey (resource s)) m = VStr id -> id <> "" ->
  slot s e (identity_key s id (Model.getParams m)) = None ->
  exists s',
    addModel_instance l e s = (Ok l, s')
    /\ model_store s' = model_store s
    /\ Resource.idKey (resource s') = Resource.idKey (resource s)
    /\ Resource.name (resource s') = Resource.name (resource s)
    /\ collection_store s' = collection_store s
    /\ forall e' K',
         slot s' e' K'
         = if decide (__cacheName e = __cacheName e'
                      /\ identity_key s id (Model.getParams m) = K')
           then Some l else slot s e' K'.
Proof.
  intros Hm Hid Hne Hslot. unfold addModel_instance.
  rewrite (bind_Ok _ _ _ _ _ (modelCache_run e s)).
  destruct (touch_cache_frame e s) as (Hms & HidK & Hname & Hcs).
  unfold the_idKey.
  rewrite (bind_Ok _ _ _ _ _ (eq_refl : gets _ (touch_cache e s) = (Ok _, _))).
  rewrite (bind_Ok _ (fun m => _) _ m (touch_cache e s))
    by (apply get_model_Ok; by rewrite Hms).
  rewrite HidK, Hid, truthy_VStr by done.
  change (__cacheKey _ _) with (identity_key s id (Model.getParams m)).
  change (default ∅ _ !! _) with (slot s e (identity_key s id (Model.getParams m))).
  rewrite Hslot. cbn [bind ret].
  eexists. split; [unfold model_cache_update, modify; reflexivity|].
  repeat split; try done.
  intros e' K'.
  pose proof (model_cache_update_slot e (identity_key s id (Model.getParams m)) l
                (touch_cache e s) e' K') as H.
  unfold model_cache_update, modify in H. simpl in H. rewrite H.
  by rewrite touch_cache_slot.
Qed.

(** [addModel] of a Model whose identity the cache holds: the cached Model
    takes its attributes and is returned. *)
Lemma addModel_instance_hit s e l m id l0 m0 :
  model_store s !! l = Some m ->
  Model_id (Resource.idKey (resource s)) m = VStr id -> id <> "" ->
  slot s e (identity_key s id (Model.getParams m)) = Some l0 ->
  model_store s !! l0 = Some m0 ->
  exists s',
    addModel_instance l e s = (Ok l0, s')
    /\ model_store s' !! l0
       = Some (Model.set_attributes
                 (Object_assign
                    (Model.attributes (if decide (l = l0) then m else m0))
                    (Model.attributes m))
                 (if decide (l = l0) then m else m0))
    /\ length (model_store s') = length (model_store s)
    /\ (forall l', l' <> l0 -> l' <> l -> model_store s' !! l' = model_store s !! l')
    /\ Resource.idKey (resource s') = Resource.idKey (resource s)
    /\ Resource.name (resource s') = Resource.name (resource s)
    /\ collection_store s' = collection_store s
    /\ forall e' K', slot s' e' K' = slot s e' K'.
Proof.
  intros Hm Hid Hne Hslot Hm0. unfold addModel_instance.
  rewrite (bind_Ok _ _ _ _ _ (modelCache_run e s)).
  destruct (touch_cache_frame e s) as (Hms & HidK & Hname & Hcs).
  unfold the_idKey.
  rewrite (bind_Ok _ _ _ _ _ (eq_refl : gets _ (touch_cache e s) = (Ok _, _))).
  rewrite (bind_Ok _ (fun m => _) _ m (touch_cache e s))
    by (apply get_model_Ok; by rewrite Hms).
  rewrite HidK, Hid, truthy_VStr by done.
  change (__cacheKey _ _) with (identity_key s id (Model.getParams m)).
  change (default ∅ _ !! _) with (slot s e (identity_key s id (Model.getParams m))).
  rewrite Hslot.
  assert (Hstr : stringified (Resource.idKey (resource s)) (Model.attributes m)
                 = Model.attributes m).
  { apply (stringified_id _ _ id). unfold Model_id, obj_get in Hid.
    destruct (obj_lookup _ (Model.attributes m)); simpl in Hid; by simplify_eq. }
  erewrite bind_Ok.
  2:{ apply Model_set_attributes_of_any; rewrite Hms; eassumption. }
  cbn [ret]. rewrite HidK, Hstr.
  assert (Hl : l < length (model_store s)) by (by eapply lookup_lt_Some).
  assert (Hl0 : l0 < length (model_store s)) by (by eapply lookup_lt_Some).
  eexists. split; [reflexivity|]. simpl.
  split.
  { rewrite list_lookup_insert_eq by (by rewrite length_insert, Hms).
    f_equal. destruct (decide (l = l0)); [by destruct m | done]. }
  split; [by rewrite !length_insert, Hms|].
  split.
  { intros l' H1 H2. by rewrite !list_lookup_insert_ne, Hms by done. }
  repeat split; try done.
  intros e' K'. apply touch_cache_slot.
Qed.

Lemma createModel_Ok s d getParams e :
  d <> [] ->
  (forall n, e = Some n -> n <> "" ->
             is_Some (urls (Resource.name (resource s) +:+ "_" +:+ n))) ->
  exists url,
    createModel urls (VObj d) getParams e s
    = addModel_instance (length (model_store s)) e
        (with_models (fun ms =>
           (ms ++ [Model.mk (Object_assign [] (stringified (Resource.idKey (resource s)) d))
                            getParams url false true false []])%list) s).
Proof.
  intros Hd Hurl. unfold createModel, the_idKey.
  rewrite (bind_Ok _ _ _ _ _ (eq_refl : gets _ s = (Ok _, s))).
  assert (exists url,
    (match e with
     | Some e0 =>
         if (e0 =? "")%string then ret VUndefined
         else let* detailId := data_id (Resource.idKey (resource s)) (VObj d) in
              call_url urls e0 detailId
     | None => ret VUndefined
     end) s = (Ok url, s)) as [url Hu].
  { destruct e as [n|]; [|by eexists].
    destruct (String.eqb_spec n "") as [->|Hn]; [by eexists|].
    destruct (Hurl n eq_refl Hn) as [f Hf].
    eexists. cbn [data_id]. rewrite bind_ret. unfold call_url. cbn [bind gets].
    by rewrite Hf. }
  exists url. rewrite (bind_Ok _ _ _ _ _ Hu).
  by rewrite (bind_Ok _ _ _ _ _ (Model_new_Ok s d getParams url Hd)).
Qed.

(** [addModel] of a Model with an identity, whatever the cache holds. *)
Lemma addModel_instance_identity s e l m id :
  model_store s !! l = Some m ->
  Model_id (Resource.idKey (resource s)) m = VStr id -> id <> "" ->
  wf_obj (Model.attributes m) ->
  (forall l0, slot s e (identity_key s id (Model.getParams m)) = Some l0 ->
              is_Some (model_store s !! l0)) ->
  exists l1 s1 m1,
    addModel_instance l e s = (Ok l1, s1)
    /\ model_store s1 !! l1 = Some m1
    /\ Model_id (Resource.idKey (resource s)) m1 = VStr id
    /\ (slot s e (identity_key s id (Model.getParams m)) = None ->
        l1 = l /\ m1 = m /\ model_store s1 = model_store s)
    /\ (forall l0 m0,
          slot s e (identity_key s id (Model.getParams m)) = Some l0 ->
          model_store s !! l0 = Some m0 ->
          l1 = l0
          /\ Model.attributes m1 = Object_assign (Model.attributes m0) (Model.attributes m))
    /\ length (model_store s1) = length (model_store s)
    /\ (forall l', l' <> l1 -> l' <> l -> model_store s1 !! l' = model_store s !! l')
    /\ Resource.idKey (resource s1) = Resource.idKey (resource s)
    /\ Resource.name (resource s1) = Resource.name (resource s)
    /\ collection_store s1 = collection_store s
    /\ forall e' K',
         slot s1 e' K'
         = if decide (__cacheName e = __cacheName e'
                      /\ identity_key s id (Model.getParams m) = K')
           then Some l1 else slot s e' K'.
Proof.
  intros Hm Hid Hne Hwf Hvalid.
  destruct (slot s e (identity_key s id (Model.getParams m))) as [l0|] eqn:Hslot.
  - destruct (Hvalid l0 eq_refl) as [m0 Hm0].
    destruct (addModel_instance_hit s e l m id l0 m0 Hm Hid Hne Hslot Hm0)
      as (s1 & Hrun & Hl0 & Hlen & Hother & HidK & Hname & Hcs & Hslots).
    exists l0, s1. eexists. split; [exact Hrun|]. split; [exact Hl0|].
    assert (Hmm : (if decide (l = l0) then m else m0) = m0).
    { case_decide; [|done]. by simplify_eq. }
    rewrite Hmm. split.
    { unfold Model_id, obj_get in *. cbn [Model.attributes Model.set_attributes].
      rewrite Object_assign_lookup by done.
      by destruct (obj_lookup (Resource.idKey (resource s)) (Model.attributes m)). }
    split; [done|]. split.
    { intros l0' m0' Heq Hm0'. by simplify_eq. }
    split; [done|]. split; [done|]. split; [done|]. split; [done|]. split; [done|].
    intros e' K'. rewrite Hslots.
    destruct (decide (_ /\ _)) as [[Hcn <-]|]; [|done].
    unfold slot in *. by rewrite <- Hcn.
  - destruct (addModel_instance_miss s e l m id Hm Hid Hne Hslot)
      as (s1 & Hrun & Hms & HidK & Hname & Hcs & Hslots).
    exists l, s1, m. split; [exact Hrun|]. split; [by rewrite Hms|].
    split; [done|]. split; [done|]. split; [done|].
    split; [by rewrite Hms|]. split; [by intros; rewrite Hms|].
    done.
Qed.

(** An element that presents an identity is resolved to the Model the cache
    holds for that identity and those GET parameters. *)
Lemma addModel_presents s x getParams e id params a :
  presents s x getParams id params a ->
  (forall n, e = Some n -> n <> "" ->
             is_Some (urls (Resource.name (resource s) +:+ "_" +:+ n))) ->
  (forall l0, slot s e (identity_key s id params) = Some l0 ->
              is_Some (model_store s !! l0)) ->
  exists l1 s1 m1,
    addModel urls x getParams e s = (Ok l1, s1)
    /\ model_store s1 !! l1 = Some m1
    /\ Model_id (Resource.idKey (resource s)) m1 = VStr id
    /\ (slot s e (identity_key s id params) = None -> Model.attributes m1 = a)
    /\ (forall l0 m0,
          slot s e (identity_key s id params) = Some l0 ->
          model_store s !! l0 = Some m0 ->
          l1 = l0 /\ Model.attributes m1 = Object_assign (Model.attributes m0) a)
    /\ length (model_store s) <= length (model_store s1)
    /\ Resource.idKey (resource s1) = Resource.idKey (resource s)
    /\ Resource.name (resource s1) = Resource.name (resource s)
    /\ collection_store s1 = collection_store s
    /\ forall e' K',
         slot s1 e' K'
         = if decide (__cacheName e = __cacheName e' /\ identity_key s id params = K')
           then Some l1 else slot s e' K'.
Proof.
  intros Hp Hurl Hvalid.
  destruct Hp as [d gp v Hwf Hv Htruthy Hne | l gp m id Hm Hwf Hid Hne].
  - assert (Hd : d <> []) by (by destruct d).
    destruct (createModel_Ok s d gp e Hd Hurl) as [url Hcreate].
    cbn [addModel]. rewrite Hcreate.
    set (new := Model.mk _ gp url false true false []).
    set (s0 := with_models _ s).
    assert (Hnew : model_store s0 !! length (model_store s) = Some new)
      by (simpl; by rewrite lookup_app_r, Nat.sub_diag).
    assert (Hid : Model_id (Resource.idKey (resource s0)) new = VStr (String_ v)).
    { unfold Model_id, obj_get. simpl.
      rewrite Object_assign_lookup by (by apply stringified_wf).
      rewrite stringified_lookup, decide_True, Hv by done. simpl. by rewrite Htruthy. }
    destruct (addModel_instance_identity s0 e _ new (String_ v) Hnew Hid Hne)
      as (l1 & s1 & m1 & Hrun & Hl1 & Hid1 & Hmiss & Hhit & Hlen & _ & HidK & Hname
          & Hcs & Hslots).
    { apply Object_assign_wf, NoDup_nil_2. }
    { intros l0 Hl0. destruct (Hvalid l0 Hl0) as [m0 Hm0].
      exists m0. simpl. by apply lookup_app_l_Some. }
    exists l1, s1, m1. split; [exact Hrun|]. split; [done|]. split; [done|].
    split; [|split].
    + intros Hnone. by destruct (Hmiss Hnone) as (_ & -> & _).
    + intros l0 m0 Hl0 Hm0. apply (Hhit l0 m0 Hl0). simpl.
      by apply lookup_app_l_Some.
    + split; [rewrite Hlen; simpl; rewrite length_app; lia|]. done.
  - destruct (addModel_instance_identity s e l m id Hm Hid Hne Hwf Hvalid)
      as (l1 & s1 & m1 & Hrun & Hl1 & Hid1 & Hmiss & Hhit & Hlen & _ & HidK & Hname
          & Hcs & Hslots).
    exists l1, s1, m1. split; [exact Hrun|]. split; [done|]. split; [done|].
    split; [|split].
    + intros Hnone. by destruct (Hmiss Hnone) as (_ & -> & _).
    + done.
    + split; [lia|]. done.
Qed.

Lemma getModel_cached s e id params l :
  slot s e (identity_key s id params) = Some l ->
  getModel urls (VStr id) params e s = (Ok (Some l), s).
Proof.
  intros Hslot. unfold getModel.
  rewrite (bind_Ok _ _ _ _ _ (modelCache_run e s)).
  assert (Htouch : touch_cache e s = s).
  { unfold touch_cache. unfold slot in Hslot.
    by destruct (Resource.models (resource s) !! __cacheName e). }
  rewrite Htouch. unfold the_idKey.
  rewrite (bind_Ok _ _ _ _ _ (eq_refl : gets _ s = (Ok _, s))).
  change (__cacheKey _ _) with (identity_key s id params).
  unfold slot in Hslot. rewrite Hslot, bind_ret. cbn [bind gets ret].
  by rewrite Hslot.
Qed.

(** C4, as amended. Two insertions through [addModel] of raw data or Models
    that bring the same identity and the same GET parameters to the same
    endpoint cache yield one Model: both calls return the same location, the
    cache holds it under the key of that identity and those parameters,
    [getModel] returns it, and after the second call its attributes are those
    it had after the first call merged with the attributes of the second
    element (those of the first element alone, when the cache did not hold
    the identity before). *)
Theorem addModel_shares s x1 getParams1 e id params a1 :
  presents s x1 getParams1 id params a1 ->
  (forall n, e = Some n -> n <> "" ->
             is_Some (urls (Resource.name (resource s) +:+ "_" +:+ n))) ->
  (forall l0, slot s e (identity_key s id params) = Some l0 ->
              is_Some (model_store s !! l0)) ->
  exists l s1 m1,
    addModel urls x1 getParams1 e s = (Ok l, s1)
    /\ model_store s1 !! l = Some m1
    /\ slot s1 e (identity_key s id params) = Some l
    /\ Resource.idKey (resource s1) = Resource.idKey (resource s)
    /\ (slot s e (identity_key s id params) = None -> Model.attributes m1 = a1)
    /\ forall x2 getParams2 a2,
         presents s1 x2 getParams2 id params a2 ->
         exists s2 m2,
           addModel urls x2 getParams2 e s1 = (Ok l, s2)
           /\ model_store s2 !! l = Some m2
           /\ slot s2 e (identity_key s id params) = Some l
           /\ Model.attributes m2 = Object_assign (Model.attributes m1) a2
           /\ getModel urls (VStr id) params e s2 = (Ok (Some l), s2).
Proof.
  intros Hp1 Hurl Hvalid.
  destruct (addModel_presents s x1 getParams1 e id params a1 Hp1 Hurl Hvalid)
    as (l & s1 & m1 & Hrun1 & Hl & _ & Hmiss & _ & _ & HidK & Hname & _ & Hslots).
  assert (Hkey : identity_key s1 id params = identity_key s id params)
    by (unfold identity_key; by rewrite HidK).
  assert (Hslot1 : slot s1 e (identity_key s id params) = Some l)
    by (rewrite Hslots; by rewrite decide_True).
  exists l, s1, m1. split; [done|]. split; [done|]. split; [done|]. split; [done|].
  split; [done|].
  intros x2 getParams2 a2 Hp2.
  destruct (addModel_presents s1 x2 getParams2 e id params a2 Hp2)
    as (l2 & s2 & m2 & Hrun2 & Hl2 & _ & _ & Hhit & _ & HidK2 & _ & _ & Hslots2).
  { intros n Hn Hne. rewrite Hname. by apply Hurl. }
  { rewrite Hkey, Hslot1. intros l0 [= <-]. eauto. }
  rewrite Hkey in Hhit, Hslots2.
  destruct (Hhit l m1 Hslot1 Hl) as [-> Hattrs].
  assert (Hslot2 : slot s2 e (identity_key s id params) = Some l)
    by (rewrite Hslots2; by rewrite decide_True).
  exists s2, m2. split; [done|]. split; [done|]. split; [done|]. split; [done|].
  apply getModel_cached.
  replace (identity_key s2 id params) with (identity_key s id params); [done|].
  unfold identity_key. by rewrite HidK2, HidK.
Qed.

(** [addModel] of a Model without an identity: it is filed under the hash
    of its attributes and returned. *)
Lemma addModel_instance_no_identity s e l m :
  model_store s !! l = Some m ->
  truthy (Model_id (Resource.idKey (resource s)) m) = false ->
  exists s',
    addModel_instance l e s = (Ok l, s')
    /\ model_store s' = model_store s
    /\ Resource.idKey (resource s') = Resource.idKey (resource s)
    /\ Resource.name (resource s') = Resource.name (resource s)
    /\ collection_store s' = collection_store s
    /\ forall e' K',
         slot s' e' K'
         = if decide (__cacheName e = __cacheName e'
                      /\ __cacheKey (Resource.idKey (resource s)) [Model.attributes m] = K')
           then Some l else slot s e' K'.
Proof.
  intros Hm Hid. unfold addModel_instance.
  rewrite (bind_Ok _ _ _ _ _ (modelCache_run e s)).
  destruct (touch_cache_frame e s) as (Hms & HidK & Hname & Hcs).
  unfold the_idKey.
  rewrite (bind_Ok _ _ _ _ _ (eq_refl : gets _ (touch_cache e s) = (Ok _, _))).
  rewrite (bind_Ok _ (fun m => _) _ m (touch_cache e s))
    by (apply get_model_Ok; by rewrite Hms).
  rewrite HidK, Hid. cbn [bind ret modify model_cache_update].
  eexists. split; [reflexivity|]. repeat split; try done.
  intros e' K'.
  pose proof (model_cache_update_slot e
                (__cacheKey (Resource.idKey (resource s)) [Model.attributes m]) l
                (touch_cache e s) e' K') as H.
  rewrite touch_cache_slot in H. rewrite <- H. reflexivity.
Qed.

(** Raw data is resolved to a Model whose dedup key is the data's own. *)
Lemma addModel_raw_key s d getParams :
  registry_valid s -> raw_ok d ->
  exists l s1 m,
    addModel urls (Raw (VObj d)) getParams None s = (Ok l, s1)
    /\ model_store s1 !! l = Some m
    /\ dedup_key (Resource.idKey (resource s1)) m
       = raw_key (Resource.idKey (resource s)) d
    /\ registry_valid s1.
Proof.
  intros Hvalid [Hwf Hd].
  set (idKey := Resource.idKey (resource s)).
  set (a := Object_assign [] (stringified idKey d)).
  destruct (truthy (obj_get a idKey)) eqn:Et.
  - (* the data carries an identity *)
    assert (exists v, obj_lookup idKey d = Some v /\ truthy v = true
                      /\ String_ v <> "") as (v & Hv & Htv & Hne).
    { unfold obj_get, a in Et.
      rewrite Object_assign_lookup in Et by (by apply stringified_wf).
      rewrite stringified_lookup, decide_True in Et by done. simpl in Et.
      destruct (obj_lookup idKey d) as [v|] eqn:Hv; [|done].
      exists v. split; [done|]. simpl in Et.
      destruct (truthy v) eqn:Htv; [|by rewrite Htv in Et].
      split; [done|]. intros Hempty. simpl in Et. rewrite Hempty in Et. done. }
    destruct (addModel_presents s (Raw (VObj d)) getParams None (String_ v) getParams a)
      as (l1 & s1 & m1 & Hadd & Hl1 & Hid1 & _ & _ & Hlen & HidK & _ & _ & Hslots).
    { by apply presents_raw. }
    { done. }
    { intros l0 Hl0. by eapply Hvalid. }
    exists l1, s1, m1. split; [done|]. split; [done|]. split.
    + unfold raw_key, dedup_key, Model_id in *. cbn [Model.attributes].
      subst a idKey. rewrite HidK, Hid1, Et, truthy_VStr by done.
      unfold obj_get. rewrite Object_assign_lookup by (by apply stringified_wf).
      rewrite stringified_lookup, decide_True, Hv by done. simpl. by rewrite Htv.
    + intros e' K' l' Hl'. rewrite Hslots in Hl'.
      destruct (decide _); [by simplify_eq; eauto|].
      destruct (Hvalid _ _ _ Hl') as [m' Hm']. apply lookup_lt_is_Some.
      apply lookup_lt_Some in Hm'. lia.
  - (* no identity: a new Model under the hash of its attributes *)
    destruct (createModel_Ok s d getParams None Hd) as [url Hcreate]; [done|].
    cbn [addModel]. rewrite Hcreate. fold idKey. fold a.
    set (new := Model.mk a getParams url false true false []).
    set (s0 := with_models _ s).
    assert (Hnew : model_store s0 !! length (model_store s) = Some new)
      by (simpl; by rewrite lookup_app_r, Nat.sub_diag).
    destruct (addModel_instance_no_identity s0 None _ new Hnew Et)
      as (s1 & Hrun & Hms & HidK & _ & _ & Hslots).
    exists (length (model_store s)), s1, new.
    split; [done|]. split; [by rewrite Hms|]. split.
    + rewrite HidK. unfold raw_key, dedup_key, Model_id. simpl.
      subst new a idKey. simpl in *. by rewrite Et.
    + intros e' K' l' Hl'. rewrite Hslots in Hl'. rewrite Hms.
      destruct (decide _); [by simplify_eq; eauto|].
      destruct (Hvalid _ _ _ Hl') as [m' Hm']. exists m'. simpl.
      by apply lookup_app_l_Some.
Qed.

End Registry.

(** ** The membership of a Collection *)

Section Membership.

Variable urls : string -> option (value -> value).

Implicit Types (s : State) (x : Collection.t) (xs : list item).

Lemma Collection_set_one_run s this x getParams model s' :
  collection_store s !! this = Some x ->
  Collection_set_one urls this getParams model s = (Ok tt, s') ->
  exists l s1 m,
    addModel urls model getParams None s = (Ok l, s1)
    /\ model_store s1 !! l = Some m
    /\ collection_store s1 = collection_store s
    /\ Resource.idKey (resource s1) = Resource.idKey (resource s)
    /\ collection_store s'
       = <[this := filed x (dedup_key (Resource.idKey (resource s1)) m) l]>
           (collection_store s)
    /\ model_store s' = model_store s1
    /\ resource s' = resource s1.
Proof.
  intros Hx Hrun. unfold Collection_set_one in Hrun.
  destruct (addModel urls model getParams None s) as [[l|err] s1] eqn:Eadd;
    [|by rewrite (bind_Throw _ _ _ _ _ Eadd) in Hrun].
  rewrite (bind_Ok _ _ _ _ _ Eadd) in Hrun.
  destruct (addModel_kept urls _ _ _ _ _ _ Eadd) as [Hcs HidK].
  unfold the_idKey in Hrun.
  rewrite (bind_Ok _ _ _ _ _ (eq_refl : gets _ s1 = (Ok _, s1))) in Hrun.
  destruct (model_store s1 !! l) as [m|] eqn:Em.
  2:{ unfold get_model, gets, bind, of_option in Hrun. by rewrite Em in Hrun. }
  rewrite (bind_Ok _ _ _ _ _ (get_model_Ok _ _ _ Em)) in Hrun.
  assert (Hx1 : collection_store s1 !! this = Some x) by (by rewrite Hcs).
  rewrite (bind_Ok _ _ _ _ _ (get_collection_Ok _ _ _ Hx1)) in Hrun.
  exists l, s1, m. split; [done|]. split; [done|]. split; [done|]. split; [done|].
  unfold filed. destruct (model_map_has _ _) eqn:Ehas; cbn [negb] in Hrun.
  - injection Hrun as <-. split; [|done].
    rewrite Hcs. symmetry. by apply list_insert_id.
  - rewrite (update_collection_Ok _ _ _ _ Hx1) in Hrun. injection Hrun as <-.
    simpl. by rewrite Hcs.
Qed.








Lemma Collection_set_run s this x xs :
  collection_store s !! this = Some x ->
  Collection_set urls this xs s
  = forEach (Collection_set_one urls this (fields_params x)) xs s.
Proof.
  intros Hx. unfold Collection_set.
  by rewrite (bind_Ok _ _ _ _ _ (get_collection_Ok _ _ _ Hx)).
Qed.


(** [set] accepts raw data that is well formed, and files each element
    under the data's own dedup key. *)
Lemma forEach_set_one_raw s this x getParams ds :
  registry_valid s ->
  collection_store s !! this = Some x ->
  Forall raw_ok ds ->
  exists s',
    forEach (Collection_set_one urls this getParams) (raw_items ds) s = (Ok tt, s')
    /\ resolved_keys urls this getParams (raw_items ds) s
       = map (raw_key (Resource.idKey (resource s))) ds
    /\ registry_valid s'.
Proof.
  intros Hvalid Hx Hds. revert s x Hvalid Hx.
  induction Hds as [|d ds Hd Hds IH]; intros s x Hvalid Hx.
  - by exists s.
  - destruct (addModel_raw_key urls s d getParams Hvalid Hd)
      as (l & s1 & m & Hadd & Hm & Hkey & Hvalid1).
    destruct (addModel_kept urls _ _ _ _ _ _ Hadd) as [Hcs HidK].
    assert (Hx1 : collection_store s1 !! this = Some x) by (by rewrite Hcs).
    assert (exists s2 x2,
      Collection_set_one urls this getParams (Raw (VObj d)) s = (Ok tt, s2)
      /\ registry_valid s2 /\ collection_store s2 !! this = Some x2
      /\ Resource.idKey (resource s2) = Resource.idKey (resource s))
      as (s2 & x2 & Hone & Hvalid2 & Hx2 & HidK2).
    { unfold Collection_set_one. rewrite (bind_Ok _ _ _ _ _ Hadd).
      unfold the_idKey.
      rewrite (bind_Ok _ _ _ _ _ (eq_refl : gets _ s1 = (Ok _, s1))).
      rewrite (bind_Ok _ _ _ _ _ (get_model_Ok _ _ _ Hm)).
      rewrite (bind_Ok _ _ _ _ _ (get_collection_Ok _ _ _ Hx1)).
      destruct (negb _).
      - rewrite (update_collection_Ok _ _ _ _ Hx1).
        eexists _, _. split; [reflexivity|]. split; [exact Hvalid1|]. simpl.
        split; [|done]. apply list_lookup_insert_eq. by eapply lookup_lt_Some.
      - by exists s1, x. }
    destruct (IH s2 x2 Hvalid2 Hx2) as (s' & Hrest & Hkeys & Hvalid').
    exists s'. cbn [raw_items map forEach resolved_keys].
    rewrite (bind_Ok _ _ _ _ _ Hone). split; [exact Hrest|]. split; [|done].
    rewrite Hadd, Hm, Hone. cbn [snd]. rewrite Hkey. f_equal.
    fold (raw_items ds). by rewrite Hkeys, HidK2.
Qed.


End Membership.

(** ** The flags of a Collection *)

Section Flags.

Implicit Types (s : State) (this : cloc) (x : Collection.t).

Lemma reduce_flag (flag : Model.t -> bool) s (ls : list loc) (ms : list Model.t) init :
  Forall2 (fun l m => model_store s !! l = Some m) ls ms ->
  fold_left (fun acc m => acc && flag m) ms init = true
  <-> init = true
      /\ forall l, l ∈ ls -> exists m, model_store s !! l = Some m /\ flag m = true.
Proof.
  intros H2. rewrite fold_left_andb, andb_true_iff.
  apply and_iff_compat_l.
  induction H2 as [|l m ls ms Hm H2 IH]; simpl.
  - split; [by intros _ l ?%elem_of_nil | done].
  - rewrite andb_true_iff, IH. split.
    + intros [Hf Hall] l' [->|Hl']%elem_of_cons; eauto.
    + intros Hall. split.
      * destruct (Hall l) as (m' & Hm' & Hf); [apply list_elem_of_here|].
        by simplify_eq.
      * intros l' Hl'. apply Hall. by apply list_elem_of_further.
Qed.

(** C2, as amended. Reading [synced] (or [new]) gives true exactly when the
    Collection's own flag and the flag of every member are true. Assigning
    [synced] sets the Collection's own flag; the value true is also written
    to every member, while the value false leaves every Model as it was.
    Assigning [new] sets the own flag; the value false is also written to
    every member, while the value true leaves every Model as it was. *)
Theorem Collection_flags s this x :
  collection_store s !! this = Some x ->
  Forall (fun l => is_Some (model_store s !! l)) (Collection.models x) ->
  (exists b, Collection_get_synced this s = (Ok b, s)
             /\ (b = true <-> Collection._synced x = true /\ members_synced s x true))
  /\ (exists b, Collection_get_new this s = (Ok b, s)
                /\ (b = true <-> Collection._new x = true /\ members_new s x true))
  /\ (exists s' x', Collection_set_synced this true s = (Ok tt, s')
                    /\ collection_store s' !! this = Some x'
                    /\ Collection._synced x' = true
                    /\ Collection.models x' = Collection.models x
                    /\ members_synced s' x' true)
  /\ (exists s' x', Collection_set_synced this false s = (Ok tt, s')
                    /\ collection_store s' !! this = Some x'
                    /\ Collection._synced x' = false
                    /\ Collection.models x' = Collection.models x
                    /\ model_store s' = model_store s)
  /\ (exists s' x', Collection_set_new this false s = (Ok tt, s')
                    /\ collection_store s' !! this = Some x'
                    /\ Collection._new x' = false
                    /\ Collection.models x' = Collection.models x
                    /\ members_new s' x' false)
  /\ (exists s' x', Collection_set_new this true s = (Ok tt, s')
                    /\ collection_store s' !! this = Some x'
                    /\ Collection._new x' = true
                    /\ Collection.models x' = Collection.models x
                    /\ model_store s' = model_store s).
Proof.
  intros Hx Hall.
  assert (Hlt : this < length (collection_store s)) by (by eapply lookup_lt_Some).
  destruct (get_models_Ok s _ Hall) as (ms & Hms & H2).
  repeat split.
  - eexists. split.
    + unfold Collection_get_synced.
      rewrite (bind_Ok _ _ _ _ _ (get_collection_Ok _ _ _ Hx)).
      rewrite (bind_Ok _ _ _ _ _ Hms). reflexivity.
    + apply (reduce_flag Model.synced s _ _ _ H2).
  - eexists. split.
    + unfold Collection_get_new.
      rewrite (bind_Ok _ _ _ _ _ (get_collection_Ok _ _ _ Hx)).
      rewrite (bind_Ok _ _ _ _ _ Hms). reflexivity.
    + apply (reduce_flag Model.new s _ _ _ H2).
  - unfold Collection_set_synced.
    rewrite (bind_Ok _ _ _ _ _ (update_collection_Ok _ _ _ _ Hx)).
    set (s1 := with_collections _ s).
    assert (Hx1 : collection_store s1 !! this = Some (Collection.set__synced true x))
      by (simpl; by rewrite list_lookup_insert_eq).
    rewrite (bind_Ok _ _ _ _ _ (get_collection_Ok _ _ _ Hx1)).
    destruct (forEach_update_model (Model.set_synced true) (Collection.models x) s1)
      as (ms' & Hrun & _ & Hin & _); [done | by intros [] |].
    eexists _, _. split; [exact Hrun|]. split; [exact Hx1|].
    split; [done|]. split; [done|].
    intros l Hl. simpl. rewrite (Hin l Hl). simpl.
    rewrite Forall_forall in Hall. destruct (Hall l Hl) as [m ->].
    by eexists.
  - unfold Collection_set_synced.
    rewrite (bind_Ok _ _ _ _ _ (update_collection_Ok _ _ _ _ Hx)).
    eexists _, _. split; [reflexivity|]. simpl.
    by rewrite list_lookup_insert_eq.
  - unfold Collection_set_new.
    rewrite (bind_Ok _ _ _ _ _ (update_collection_Ok _ _ _ _ Hx)).
    set (s1 := with_collections _ s).
    assert (Hx1 : collection_store s1 !! this = Some (Collection.set__new false x))
      by (simpl; by rewrite list_lookup_insert_eq).
    cbn [negb].
    rewrite (bind_Ok _ _ _ _ _ (get_collection_Ok _ _ _ Hx1)).
    destruct (forEach_update_model (Model.set_new false) (Collection.models x) s1)
      as (ms' & Hrun & _ & Hin & _); [done | by intros [] |].
    eexists _, _. split; [exact Hrun|]. split; [exact Hx1|].
    split; [done|]. split; [done|].
    intros l Hl. simpl. rewrite (Hin l Hl). simpl.
    rewrite Forall_forall in Hall. destruct (Hall l Hl) as [m ->].
    by eexists.
  - unfold Collection_set_new.
    rewrite (bind_Ok _ _ _ _ _ (update_collection_Ok _ _ _ _ Hx)).
    eexists _, _. split; [reflexivity|]. simpl.
    by rewrite list_lookup_insert_eq.
Qed.

End Flags.

(** ** Promises and the callbacks that wait for earlier ones *)

Section Prior.

Variable urls : string -> option (value -> value).
Variable contentCacheKey : value.

Implicit Types (s : State) (h : handle) (o : operation).

Lemma notify_other_stage h outcome o st st' :
  (forall w, st <> AwaitingPrior w) ->
  notify h outcome (Promise.mk o st st') = Promise.mk o st st'.
Proof. intros Hst. unfold notify. simpl. by destruct st; try done; destruct (Hst pending). Qed.

(** Settling a pending promise whose own callback is due or running. *)
Lemma settle_due s h o st outcome :
  due s h o st -> (forall w, st <> AwaitingPrior w) ->
  exists s1, settle h outcome s = (Ok tt, s1)
             /\ promise_store s1 !! h = Some (Promise.mk o st outcome)
             /\ resource s1 = resource s /\ model_store s1 = model_store s
             /\ collection_store s1 = collection_store s
             /\ requests s1 = requests s /\ log s1 = log s.
Proof.
  intros Hdue Hst. unfold due in Hdue. unfold settle.
  rewrite (bind_Ok _ _ _ _ _ (get_promise_Ok _ _ _ Hdue)). simpl.
  eexists. split; [reflexivity|]. simpl. split; [|done].
  rewrite list_lookup_fmap, list_lookup_insert_eq by (by eapply lookup_lt_Some).
  simpl. by rewrite notify_other_stage.
Qed.

Lemma set_stage_lookup s h o st outcome st' :
  promise_store s !! h = Some (Promise.mk o st outcome) ->
  promise_store (set_stage h st' s) !! h = Some (Promise.mk o st' outcome).
Proof.
  intros H. unfold set_stage. simpl. rewrite H. simpl.
  by rewrite list_lookup_insert_eq by (by eapply lookup_lt_Some).
Qed.

Lemma step_prior_resolved s h o :
  due s h o PriorResolved ->
  step urls contentCacheKey (PriorSettled h) s
  = Some (conclude h (on_prior_resolved urls contentCacheKey h o s)).
Proof. unfold due, step. by intros ->. Qed.


(** C7. Each refusal (deleting a Model without an identity, deleting a
    Collection without GET parameters, saving without data a Collection that
    is not new) rejects the operation's promise with its reason, sends no
    request, and leaves the registry, the Models and the Collections as they
    were. *)
Theorem policy_refusal s h o reason :
  due s h o PriorResolved ->
  refused s o reason ->
  exists s', step urls contentCacheKey (PriorSettled h) s = Some s'
             /\ promise_store s' !! h = Some (Promise.mk o Finished (Rejected reason))
             /\ same_data s s'.
Proof.
  intros Hdue Href. rewrite (step_prior_resolved _ _ _ Hdue).
  destruct (settle_due s h o PriorResolved (Rejected reason) Hdue)
    as (s1 & Hs1 & Hh & Hr & Hm & Hc & Hq & Hl); [done|].
  destruct Href as [this m Hthis Hid | this x Hthis Hkeys | this x Hthis Hnew];
    cbn [on_prior_resolved].
  - unfold the_idKey. rewrite (bind_Ok _ _ _ _ _ (eq_refl : gets _ s = (Ok _, s))).
    rewrite (bind_Ok _ _ _ _ _ (get_model_Ok _ _ _ Hthis)).
    rewrite Hid. cbn [negb]. unfold reject.
    rewrite (bind_Ok _ _ _ _ _ Hs1). cbn [ret conclude].
    eexists. split; [reflexivity|]. split; [by eapply set_stage_lookup|].
    unfold same_data. simpl. by rewrite Hr, Hm, Hc, Hq, Hl.
  - rewrite (bind_Ok _ _ _ _ _ (get_collection_Ok _ _ _ Hthis)).
    rewrite Hkeys. cbn [length Nat.eqb]. unfold reject.
    rewrite (bind_Ok _ _ _ _ _ Hs1). cbn [ret conclude].
    eexists. split; [reflexivity|]. split; [by eapply set_stage_lookup|].
    unfold same_data. simpl. by rewrite Hr, Hm, Hc, Hq, Hl.
  - rewrite (bind_Ok _ _ _ _ _ Hnew). cbn [length Nat.eqb negb andb]. unfold reject.
    rewrite (bind_Ok _ _ _ _ _ Hs1).
    assert (Hthis1 : collection_store s1 !! this = Some x) by (by rewrite Hc).
    unfold cleanup_collection.
    rewrite (bind_Ok _ _ _ _ _ (update_collection_Ok _ _ _ _ Hthis1)).
    cbn [ret conclude].
    eexists. split; [reflexivity|]. split.
    + eapply set_stage_lookup. simpl. exact Hh.
    + unfold same_data. simpl. rewrite Hr, Hm, Hc, Hq, Hl.
      repeat split; try done.
      rewrite list_fmap_insert. simpl.
      apply list_insert_id. rewrite list_lookup_fmap, Hthis. by destruct x.
Qed.


(** A new operation waits for the promises of its object that are pending
    when it is started, unless one of them is rejected already. *)
Lemma start_on_model_due s this m o :
  model_store s !! this = Some m ->
  exists s0,
    start_on_model this o s = (Ok (length (promise_store s)), s0)
    /\ due s0 (length (promise_store s)) o
           (Promise_all (promise_store s) (Model.promises m))
    /\ (forall h p, promise_store s !! h = Some p -> promise_store s0 !! h = Some p)
    /\ model_store s0
       = <[this := Model.set_promises
                     (Model.promises m ++ [length (promise_store s)])%list m]>
           (model_store s)
    /\ resource s0 = resource s /\ collection_store s0 = collection_store s
    /\ requests s0 = requests s /\ log s0 = log s.
Proof.
  intros Hm. unfold start_on_model.
  rewrite (bind_Ok _ _ _ _ _ (get_model_Ok _ _ _ Hm)).
  unfold new_promise. cbn [bind gets modify ret].
  erewrite bind_Ok by (apply update_model_Ok; simpl; exact Hm).
  eexists. split; [reflexivity|]. simpl. unfold due. simpl.
  split; [by rewrite lookup_app_r, Nat.sub_diag|].
  split; [|done]. intros h p Hp. by apply lookup_app_l_Some.
Qed.

(** *** Saving a Model *)



Lemma call_url_Ok s endpoint arg f :
  urls (Resource.name (resource s) +:+ "_" +:+ endpoint) = Some f ->
  call_url urls endpoint arg s = (Ok (f arg), s).
Proof. unfold call_url, bind, gets. by intros ->. Qed.

Lemma client_data_Ok s this m url method data :
  model_store s !! this = Some m ->
  from_option truthy false data = true ->
  client contentCacheKey url method data (ParamsOfModel this) s
  = (Ok tt, with_requests (fun rs =>
       (rs ++ [Request.mk url method data (Some (Model.getParams m)) None])%list) s).
Proof.
  intros Hm Hd. unfold client.
  rewrite (bind_Ok _ _ _ _ _ (eq_refl : gets resource s = (Ok _, s))).
  erewrite bind_Ok
    by (rewrite (bind_Ok _ _ _ _ _ (get_model_Ok _ _ _ Hm)); reflexivity).
  by rewrite Hd, andb_false_r.
Qed.

Lemma Model_url_Ok s this m detail :
  model_store s !! this = Some m ->
  urls (Resource.name (resource s) +:+ "_detail") = Some detail ->
  Model_url urls this s
  = (Ok (if truthy (Model._url m) then Model._url m
         else detail (Model_id (Resource.idKey (resource s)) m)), s).
Proof.
  intros Hm Hd. unfold Model_url, the_idKey.
  rewrite (bind_Ok _ _ _ _ _ (eq_refl : gets _ s = (Ok _, s))).
  rewrite (bind_Ok _ _ _ _ _ (get_model_Ok _ _ _ Hm)).
  destruct (truthy (Model._url m)); [done|].
  by apply call_url_Ok.
Qed.


(** *** A finished operation stays finished *)

#[global] Instance finished_kept_preorder : PreOrder finished_kept.
Proof.
  split.
  - by intros s h p.
  - intros s1 s2 s3 H12 H23 h p Hp Hst Hne. apply H23; [|done..]. by apply H12.
Qed.

Lemma settle_finished_kept h outcome : preserves finished_kept (settle h outcome).
Proof.
  intros s r s' H. unfold settle in H.
  destruct (promise_store s !! h) as [p|] eqn:Ep.
  2:{ unfold get_promise, gets, bind, of_option in H. rewrite Ep in H.
      by injection H as <- <-. }
  rewrite (bind_Ok _ _ _ _ _ (get_promise_Ok _ _ _ Ep)) in H.
  destruct (Promise.state p) eqn:Est; injection H as <- <-; try done.
  intros h0 p0 Hp0 Hfin Hset. simpl.
  rewrite list_lookup_fmap.
  destruct (decide (h0 = h)) as [->|Hne]; [by simplify_eq|].
  rewrite list_lookup_insert_ne, Hp0 by done. simpl. f_equal.
  destruct p0 as [o0 st0 out0]. simpl in Hfin. subst st0.
  by apply notify_other_stage.
Qed.

#[local] Hint Resolve settle_finished_kept : preserves.









End Prior.

(** ** Concrete runs *)

(** C2, the claim as stated fails: assigning false to [synced] leaves a
    synced member synced, and assigning true to [new] leaves a member that is
    not new as it is. *)
Lemma Collection_flags_one_way :
  (exists s', Collection_set_synced 0 false flags_ex = (Ok tt, s')
              /\ Model.synced <$> model_store s' !! 0 = Some true)
  /\ (exists s', Collection_set_new 0 true flags_ex = (Ok tt, s')
                 /\ Model.new <$> model_store s' !! 0 = Some false).
Proof. split; eexists; split; reflexivity. Qed.

(** C2 as amended, at a concrete Collection. *)
Lemma Collection_flags_witness :
  exists s' x', Collection_set_synced 0 false flags_ex = (Ok tt, s')
                /\ collection_store s' !! 0 = Some x'
                /\ Collection._synced x' = false
                /\ Collection.models x' = [0]
                /\ model_store s' = model_store flags_ex.
Proof.
  refine (proj1 (proj2 (proj2 (proj2
            (Collection_flags flags_ex 0
               (Collection.mk [] [0] {["1" := 0]} VUndefined true false None [])
               _ _))))).
  - reflexivity.
  - repeat constructor. by eexists.
Defined.

(** C3, at the failing input: [delete] on a Model without an identity
    rejects, and its promise (0) stays in the Model's list of promises. A
    forced [fetch] started afterwards waits for that list, so it is rejected
    with the same reason without a request, and its own promise (1) stays in
    the list as well. *)
Lemma refused_delete_keeps_promise :
  exists s1 s2,
    after refused_delete_ex [PriorSettled 0] empty_ex = Some s1
    /\ settlement_of (promise_store s1) 0 = Rejected refuse_model_delete
    /\ Model.promises <$> model_store s1 !! 0 = Some [0]
    /\ after (Model_fetch 0 true) [PriorSettled 1] s1 = Some s2
    /\ settlement_of (promise_store s2) 1 = Rejected refuse_model_delete
    /\ Model.promises <$> model_store s2 !! 0 = Some [0; 1]
    /\ requests s2 = [].
Proof.
  eexists _, _. split; [vm_compute; reflexivity|].
  split; [reflexivity|]. split; [reflexivity|].
  split; [vm_compute; reflexivity|]. by repeat split.
Qed.

(** C8, at the failing input: the same malformed body is logged at debug
    severity by [save] and at error severity by [fetch]; both reject with the
    response and keep the members. *)
Lemma Collection_save_malformed_logs_debug :
  exists s_save s_fetch,
    after collection_save_ex
          [PriorSettled 0; ClientResolved 0 malformed_response_ex] empty_ex
    = Some s_save
    /\ log s_save = [logging_debug malformed (VObj [("detail", VStr "no")])]
    /\ settlement_of (promise_store s_save) 0 = Rejected (VObj malformed_response_ex)
    /\ Collection.models <$> collection_store s_save !! 0 = Some [0]
    /\ after collection_fetch_ex
             [PriorSettled 0; ClientResolved 0 malformed_response_ex] empty_ex
       = Some s_fetch
    /\ log s_fetch = [logging_error malformed (VObj [("detail", VStr "no")])]
    /\ settlement_of (promise_store s_fetch) 0 = Rejected (VObj malformed_response_ex)
    /\ Collection.models <$> collection_store s_fetch !! 0 = Some [0].
Proof.
  eexists _, _. split; [vm_compute; reflexivity|].
  split; [reflexivity|]. split; [reflexivity|]. split; [reflexivity|].
  split; [vm_compute; reflexivity|]. by repeat split.
Qed.

(** C4, the claim as stated fails: the same identity inserted under
    different GET parameters, in the same endpoint cache, gives two Models,
    and the first does not take the attributes of the second. *)
Lemma addModel_getParams_separate :
  exists s1 s2 m,
    addModel urls_ex (Raw (VObj [("id", VStr "1"); ("a", VNum 1)])) [] None empty_ex
    = (Ok 0, s1)
    /\ addModel urls_ex (Raw (VObj [("id", VStr "1"); ("b", VNum 2)]))
                [("fields", VStr "b")] None s1
       = (Ok 1, s2)
    /\ model_store s2 !! 0 = Some m
    /\ Model.attributes m = [("id", VStr "1"); ("a", VNum 1)].
Proof.
  eexists _, _, _. split; [vm_compute; reflexivity|].
  split; [vm_compute; reflexivity|]. split; reflexivity.
Qed.



(** C7 at three concrete inputs, one for each refusal. *)
Lemma policy_refusal_witness :
  (exists s', step urls_ex VNull (PriorSettled 0) model_delete_ex = Some s'
              /\ promise_store s' !! 0
                 = Some (Promise.mk (ModelDelete 0) Finished (Rejected refuse_model_delete))
              /\ same_data model_delete_ex s')
  /\ (exists s', step urls_ex VNull (PriorSettled 0) collection_delete_ex = Some s'
                 /\ promise_store s' !! 0
                    = Some (Promise.mk (CollectionDelete 0) Finished
                                       (Rejected refuse_collection_delete))
                 /\ same_data collection_delete_ex s')
  /\ (exists s', step urls_ex VNull (PriorSettled 0) collection_resave_ex = Some s'
                 /\ promise_store s' !! 0
                    = Some (Promise.mk (CollectionSave 0 []) Finished
                                       (Rejected refuse_collection_save))
                 /\ same_data collection_resave_ex s').
Proof.
  split; [|split].
  - apply (policy_refusal urls_ex VNull model_delete_ex 0); [reflexivity|].
    by eapply refused_model_delete.
  - apply (policy_refusal urls_ex VNull collection_delete_ex 0); [reflexivity|].
    by eapply refused_collection_delete.
  - apply (policy_refusal urls_ex VNull collection_resave_ex 0); [reflexivity|].
    by eapply refused_collection_save.
Defined.



(** C4 as amended, at a concrete input: the identity 7 as a number, then as a
    string. *)
Lemma addModel_shares_witness :
  exists l s1 s2 m2,
    addModel urls_ex (Raw (VObj [("id", VNum 7); ("a", VNum 1)])) [] None empty_ex
    = (Ok l, s1)
    /\ addModel urls_ex (Raw (VObj [("id", VStr "7"); ("b", VNum 2)])) [] None s1
       = (Ok l, s2)
    /\ model_store s2 !! l = Some m2
    /\ Model.attributes m2 = [("id", VStr "7"); ("a", VNum 1); ("b", VNum 2)]
    /\ getModel urls_ex (VStr "7") [] None s2 = (Ok (Some l), s2).
Proof.
  destruct (addModel_shares urls_ex empty_ex
              (Raw (VObj [("id", VNum 7); ("a", VNum 1)])) [] None
              (String_ (VNum 7)) [] _
              (presents_raw empty_ex [("id", VNum 7); ("a", VNum 1)] [] (VNum 7)
                 ltac:(apply (bool_decide_unpack _); by vm_compute)
                 eq_refl eq_refl ltac:(by vm_compute)))
    as (l & s1 & m1 & H1 & Hl & Hslot & HidK & Hmiss & H2).
  - done.
  - by vm_compute.
  - assert (Hp : presents s1 (Raw (VObj [("id", VStr "7"); ("b", VNum 2)])) []
                   (String_ (VNum 7)) []
                   (Object_assign [] (stringified (Resource.idKey (resource s1))
                                        [("id", VStr "7"); ("b", VNum 2)]))).
    { apply (presents_raw s1 [("id", VStr "7"); ("b", VNum 2)] [] (VStr "7")).
      - apply (bool_decide_unpack _). by vm_compute.
      - by rewrite HidK.
      - reflexivity.
      - by vm_compute. }
    destruct (H2 _ _ _ Hp) as (s2 & m2 & Hrun2 & Hl2 & _ & Hattrs & Hget).
    exists l, s1, s2, m2. split; [exact H1|]. split; [exact Hrun2|].
    split; [exact Hl2|]. split; [|exact Hget].
    rewrite Hattrs, (Hmiss eq_refl), HidK. reflexivity.
Defined.


(** Two more runs behind the wording of C5 as amended. A dedup key that is a
    name inherited from [Object.prototype] reads as present in the empty
    index, so its element is never filed. *)
Lemma Collection_set_inherited_name_skipped :
  exists s,
    Collection_set urls_ex 0 [Raw (VObj [("id", VStr "constructor")])] new_collection_ex
    = (Ok tt, s)
    /\ Collection.models <$> collection_store s !! 0 = Some [].
Proof. eexists. split; [vm_compute; reflexivity | reflexivity]. Qed.

(** A member filed before it had an identity is filed a second time when its
    identity comes back in a later input: the index keeps the key under which
    each member was filed, not the key the member has now. *)
Lemma Collection_set_files_late_identity_twice :
  exists s1 s2,
    after late_identity_ex
          [PriorSettled 0;
           ClientResolved 0 [("data", VObj [("id", VStr "5"); ("name", VStr "a")])]]
          empty_ex
    = Some s1
    /\ Collection.models <$> collection_store s1 !! 0 = Some [0]
    /\ Collection_set urls_ex 0 [Raw (VObj [("id", VStr "5")])] s1 = (Ok tt, s2)
    /\ Collection.models <$> collection_store s2 !! 0 = Some [0; 0].
Proof.
  eexists _, _. split; [vm_compute; reflexivity|]. split; [reflexivity|].
  split; [vm_compute; reflexivity | reflexivity].
Qed.

(** ** The cache key leaves out what JSON cannot serialise *)

Section KeyOrder.

Implicit Types (k : string) (v : value) (o : obj) (P : string -> bool).

Lemma obj_insert_new_cons k v k' v' o :
  obj_insert_new k v ((k', v') :: o)
  = if goes_before k k' then (k', v') :: obj_insert_new k v o
    else (k, v) :: (k', v') :: o.
Proof.
  unfold goes_before. simpl.
  destruct (array_index k), (array_index k'); try done.
Qed.

Lemma in_order_trans k1 k2 k3 : in_order k1 k2 -> in_order k2 k3 -> in_order k1 k3.
Proof.
  unfold in_order.
  destruct (array_index k1), (array_index k2), (array_index k3); try done. lia.
Qed.

Lemma goes_before_in_order k k' : goes_before k k' = true -> in_order k' k.
Proof.
  unfold goes_before, in_order.
  destruct (array_index k), (array_index k'); try done.
  intros H%N.ltb_lt. lia.
Qed.

Lemma not_goes_before_in_order k k' : goes_before k k' = false -> in_order k k'.
Proof.
  unfold goes_before, in_order.
  destruct (array_index k), (array_index k'); try done.
  intros H%N.ltb_ge. lia.
Qed.

Lemma not_goes_before_later k k' k'' :
  goes_before k k' = false -> in_order k' k'' -> goes_before k k'' = false.
Proof.
  unfold goes_before, in_order.
  destruct (array_index k), (array_index k'), (array_index k''); try done.
  intros H%N.ltb_ge ?. apply N.ltb_ge. lia.
Qed.

(** A new property in front of which nothing stays goes to the front. *)
Lemma obj_insert_new_front k v o :
  Forall (fun k' => goes_before k k' = false) (Object_keys o) ->
  obj_insert_new k v o = (k, v) :: o.
Proof.
  destruct o as [|[k' v'] o]; [done|]. cbn [Object_keys map fst].
  intros [H _]%Forall_cons. by rewrite obj_insert_new_cons, H.
Qed.

Lemma obj_insert_new_ordered k v o : ordered o -> ordered (obj_insert_new k v o).
Proof.
  unfold ordered. induction o as [|[k' v'] o IH]; intros Ho.
  - simpl. repeat constructor.
  - rewrite obj_insert_new_cons. apply StronglySorted_inv in Ho as [Ho Hk'].
    destruct (goes_before k k') eqn:Hb.
    + cbn [Object_keys map fst]. constructor; [by apply IH|].
      fold (Object_keys (obj_insert_new k v o)).
      rewrite obj_insert_new_keys. constructor; [|done].
      by apply goes_before_in_order.
    + cbn [Object_keys map fst]. constructor.
      * by constructor.
      * constructor; [by apply not_goes_before_in_order|].
        eapply Forall_impl; [exact Hk'|]. intros k'' H. simpl in H.
        eapply in_order_trans; [|exact H]. by apply not_goes_before_in_order.
Qed.

Lemma obj_replace_ordered k v o : ordered o -> ordered (obj_replace k v o).
Proof. unfold ordered. by rewrite obj_replace_keys. Qed.

Lemma obj_set_ordered k v o : ordered o -> ordered (obj_set k v o).
Proof.
  unfold obj_set. destruct (obj_lookup k o);
    auto using obj_replace_ordered, obj_insert_new_ordered.
Qed.

Lemma props_where_keys P o :
  Object_keys (props_where P o) = filter (fun k => P k = true) (Object_keys o).
Proof.
  unfold props_where, Object_keys. induction o as [|[k v] o IH]; [done|].
  rewrite filter_cons. cbn [map fst]. rewrite filter_cons. simpl.
  destruct (decide (P k = true)); simpl; by rewrite IH.
Qed.

Lemma props_where_lookup P o k :
  obj_lookup k (props_where P o) = if P k then obj_lookup k o else None.
Proof.
  unfold props_where. induction o as [|[k' v'] o IH].
  - by destruct (P k).
  - rewrite filter_cons. simpl. destruct (decide (P k' = true)) as [Hk'|Hk']; simpl.
    + destruct (String.eqb_spec k' k) as [->|Hne]; [by rewrite Hk'|done].
    + destruct (String.eqb_spec k' k) as [->|Hne]; [|done].
      rewrite IH. by destruct (P k).
Qed.

(** Leaving properties out commutes with adding a new one. *)
Lemma props_where_insert_new P k v o :
  ordered o ->
  props_where P (obj_insert_new k v o)
  = if P k then obj_insert_new k v (props_where P o) else props_where P o.
Proof.
  unfold ordered. induction o as [|[k' v'] o IH]; intros Ho.
  - unfold props_where. simpl. rewrite filter_cons. simpl.
    destruct (decide (P k = true)) as [->|Hk]; [done|]. by destruct (P k).
  - apply StronglySorted_inv in Ho as [Ho Hk'].
    rewrite obj_insert_new_cons. destruct (goes_before k k') eqn:Hb.
    + unfold props_where in *. rewrite !filter_cons. simpl.
      destruct (decide (P k' = true)) as [Hpk'|Hpk'].
      * rewrite IH by done. destruct (P k); [|done].
        by rewrite obj_insert_new_cons, Hb.
      * by rewrite IH.
    + assert (Hfront : obj_insert_new k v (props_where P ((k', v') :: o))
                       = (k, v) :: props_where P ((k', v') :: o)).
      { apply obj_insert_new_front. rewrite props_where_keys.
        apply Forall_forall. intros k'' [_ Hin]%list_elem_of_filter.
        cbn [Object_keys map fst] in Hin. apply elem_of_cons in Hin as [->|Hin]; [done|].
        rewrite Forall_forall in Hk'.
        eapply not_goes_before_later; [exact Hb|]. by apply Hk'. }
      unfold props_where in *. rewrite filter_cons. cbn [fst].
      destruct (decide (P k = true)) as [Hpk|Hpk].
      * by rewrite Hpk, Hfront.
      * by destruct (P k).
Qed.

Lemma props_where_set_new P k v o :
  ordered o -> k ∉ Object_keys o ->
  props_where P (obj_set k v o)
  = if P k then obj_set k v (props_where P o) else props_where P o.
Proof.
  intros Ho Hk. unfold obj_set.
  rewrite props_where_lookup.
  apply obj_lookup_None_notin in Hk. rewrite Hk.
  rewrite props_where_insert_new by done. by destruct (P k).
Qed.

Lemma obj_set_keys_new k v o :
  k ∉ Object_keys o -> Object_keys (obj_set k v o) ≡ₚ k :: Object_keys o.
Proof.
  intros Hk. unfold obj_set. apply obj_lookup_None_notin in Hk. rewrite Hk.
  apply obj_insert_new_keys.
Qed.

Lemma assign_keys_where P g ks o :
  NoDup ks -> (forall k, k ∈ ks -> k ∉ Object_keys o) -> ordered o ->
  props_where P (assign_keys g ks o)
  = assign_keys g (filter (fun k => P k = true) ks) (props_where P o).
Proof.
  unfold assign_keys. revert o.
  induction ks as [|k ks IH]; intros o Hnd Hfresh Ho; [done|].
  apply NoDup_cons in Hnd as [Hk Hnd]. simpl.
  rewrite IH; [|done| |by apply obj_set_ordered].
  - rewrite props_where_set_new by (done || apply Hfresh; left).
    rewrite filter_cons. destruct (decide (P k = true)) as [->|Hpk]; [done|].
    by destruct (P k).
  - intros k' Hk'. rewrite obj_set_keys_new by (apply Hfresh; left).
    apply not_elem_of_cons. split; [congruence|]. apply Hfresh. by right.
Qed.

Lemma assign_keys_ext g1 g2 ks o :
  (forall k, k ∈ ks -> g1 k = g2 k) -> assign_keys g1 ks o = assign_keys g2 ks o.
Proof.
  unfold assign_keys. revert o. induction ks as [|k ks IH]; intros o H; [done|].
  simpl. rewrite (H k) by left. apply IH. intros k' Hk'. apply H. by right.
Qed.

Lemma obj_set_values g k o :
  Forall (fun p => p.2 = g p.1) o -> Forall (fun p => p.2 = g p.1) (obj_set k (g k) o).
Proof.
  intros Ho. unfold obj_set. destruct (obj_lookup k o).
  - induction o as [|[k' v'] o IH]; [done|]. simpl.
    apply Forall_cons in Ho as [? ?].
    destruct (String.eqb k' k); constructor; auto.
  - induction o as [|[k' v'] o IH]; [by repeat constructor|].
    rewrite obj_insert_new_cons. apply Forall_cons in Ho as [? ?].
    destruct (goes_before k k'); repeat constructor; auto.
Qed.

Lemma assign_keys_values g ks o :
  Forall (fun p => p.2 = g p.1) o ->
  Forall (fun p => p.2 = g p.1) (assign_keys g ks o).
Proof.
  unfold assign_keys. revert o. induction ks as [|k ks IH]; intros o Ho; [done|].
  simpl. by apply IH, obj_set_values.
Qed.

Lemma Object_assign_all_singletons g ks o :
  Object_assign_all o (map (fun k => [(k, g k)]) ks) = assign_keys g ks o.
Proof.
  unfold Object_assign_all, assign_keys. revert o.
  induction ks as [|k ks IH]; intros o; [done|]. simpl. apply IH.
Qed.

Lemma stringify_None v : stringify v = None <-> v = VUndefined.
Proof. destruct v as [| |[]| | | |]; by split. Qed.

Lemma JSON_stringify_members o :
  JSON_stringify o = "{" +:+ join "," (omap json_member o) +:+ "}".
Proof. reflexivity. Qed.

(** Properties that do not serialise leave no trace in the output. *)
Lemma omap_json_member_where g o :
  Forall (fun p => p.2 = g p.1) o ->
  omap json_member o
  = omap json_member
      (props_where (fun k => negb (is_undefined (g k))) o).
Proof.
  unfold props_where. induction 1 as [|[k v] o Hv _ IH]; [done|].
  rewrite filter_cons. cbn [fst snd] in *. subst v.
  destruct (decide (negb (is_undefined (g k)) = true)) as [Hd|Hd].
  - change (omap json_member ((k, g k) :: ?l))
      with (match json_member (k, g k) with
            | Some y => y :: omap json_member l
            | None => omap json_member l
            end).
    by rewrite IH.
  - change (omap json_member ((k, g k) :: o))
      with (match json_member (k, g k) with
            | Some y => y :: omap json_member o
            | None => omap json_member o
            end).
    unfold json_member at 1. cbn [snd]. by destruct (g k).
Qed.

Lemma StronglySorted_filter {A} (R : relation A) (P : A -> Prop)
    `{!forall x, Decision (P x)} (l : list A) :
  StronglySorted R l -> StronglySorted R (filter P l).
Proof.
  induction 1 as [|x l Hl IH Hx]; [constructor|].
  rewrite filter_cons. destruct (decide (P x)); [|done].
  constructor; [done|].
  apply Forall_forall. intros y [_ Hy]%list_elem_of_filter.
  rewrite Forall_forall in Hx. by apply Hx.
Qed.

End KeyOrder.

Lemma cacheKey_defined_keys (idKey : string) (ps : list obj) :
  Forall wf_obj ps ->
  let keys := filter (fun k => negb (is_undefined (key_value_ idKey ps k)) = true)
                     (sort_keys (Object_keys (Object_assign_all [] ps))) in
  __cacheKey idKey ps
  = "{" +:+ join "," (omap json_member (assign_keys (key_value_ idKey ps) keys [])) +:+ "}"
  /\ Sorted key_le keys /\ NoDup keys
  /\ forall k, k ∈ keys <-> is_Some (merged_lookup k ps)
                             /\ key_value_ idKey ps k <> VUndefined.
Proof.
  intros Hwf keys.
  destruct (merged_object_keys ps Hwf) as [Hnd Hin].
  destruct (sort_keys_spec (Object_keys (Object_assign_all [] ps))) as [Hs Hp].
  split; [|split; [|split]].
  - unfold __cacheKey. cbv zeta. rewrite JSON_stringify_members. do 3 f_equal.
    rewrite (map_ext_in _ (fun k => [(k, key_value_ idKey ps k)])).
    2:{ intros k Hk. unfold key_value_, obj_get.
        by rewrite !merged_object_lookup. }
    rewrite Object_assign_all_singletons.
    rewrite (omap_json_member_where (key_value_ idKey ps))
      by (by apply assign_keys_values).
    rewrite assign_keys_where; [reflexivity|by rewrite Hp| |constructor].
    intros k _. apply not_elem_of_nil.
  - apply StronglySorted_Sorted, StronglySorted_filter.
    by apply Sorted_StronglySorted; [apply _|].
  - apply NoDup_filter. by rewrite Hp.
  - intros k. unfold keys. rewrite list_elem_of_filter, Hp, Hin.
    destruct (key_value_ idKey ps k); naive_solver.
Qed.

(** Two sequences of parameter objects have the same cache key as soon as
    they agree on every parameter when a parameter that is absent is read as
    [undefined]; the identity field, which is always turned into a string, has
    to be present in both or in neither. *)
Theorem cacheKey_undefined_is_absent (idKey : string) (ps1 ps2 : list obj) :
  Forall wf_obj ps1 -> Forall wf_obj ps2 ->
  (forall k, k <> idKey ->
     default VUndefined (merged_lookup k ps1) = default VUndefined (merged_lookup k ps2)) ->
  String_ <$> merged_lookup idKey ps1 = String_ <$> merged_lookup idKey ps2 ->
  __cacheKey idKey ps1 = __cacheKey idKey ps2.
Proof.
  intros Hwf1 Hwf2 Hother Hid.
  destruct (cacheKey_defined_keys idKey ps1 Hwf1) as (-> & Hs1 & Hnd1 & Hin1).
  destruct (cacheKey_defined_keys idKey ps2 Hwf2) as (-> & Hs2 & Hnd2 & Hin2).
  assert (Hval : forall k, is_Some (merged_lookup k ps1) ->
                           key_value_ idKey ps1 k = key_value_ idKey ps2 k).
  { intros k Hk. unfold key_value_.
    destruct (String.eqb_spec k idKey) as [->|Hne]; [|by apply Hother].
    destruct Hk as [v Hv]. rewrite Hv in Hid |- *.
    destruct (merged_lookup idKey ps2); simpl in *; congruence. }
  assert (Hsame : forall k, is_Some (merged_lookup k ps1)
                            /\ key_value_ idKey ps1 k <> VUndefined
                            <-> is_Some (merged_lookup k ps2)
                                /\ key_value_ idKey ps2 k <> VUndefined).
  { intros k. unfold key_value_.
    destruct (String.eqb_spec k idKey) as [->|Hne].
    - rewrite <- !(fmap_is_Some String_), Hid. naive_solver.
    - specialize (Hother k Hne).
      destruct (merged_lookup k ps1), (merged_lookup k ps2); simpl in *; subst;
        naive_solver. }
  match goal with
  | |- context [assign_keys _ ?ks1 []] =>
      match goal with
      | |- _ = ("{" +:+ join "," (omap _ (assign_keys _ ?ks2 [])) +:+ "}")%string =>
          assert (Hks : ks1 = ks2)
      end
  end.
  { apply (Sorted_unique key_le); [apply _..|done|done|].
    apply NoDup_Permutation; [done..|]. intros k. by rewrite Hin1, Hin2, Hsame. }
  rewrite <- Hks. do 4 f_equal. apply assign_keys_ext.
  intros k [Hk _]%Hin1. by apply Hval.
Qed.

(** The two keys of the example differ in the parameters [fields], given as
    [undefined] in one, and [detailId]. *)
Lemma cacheKey_undefined_is_absent_witness :
  __cacheKey "id" [[("id", VNum 7); ("fields", VUndefined)]; [("detailId", VUndefined)]]
  = __cacheKey "id" [[("id", VStr "7")]].
Proof.
  apply cacheKey_undefined_is_absent.
  - apply (bool_decide_unpack _). by vm_compute.
  - apply (bool_decide_unpack _). by vm_compute.
  - intros k Hk. cbn [merged_lookup obj_lookup]. repeat case_eqb.
  - reflexivity.
Defined.

(** ** Fetching a Model *)

Lemma model_insert_lookup (s : State) (this : loc) (m m' : Model.t) :
  model_store s !! this = Some m ->
  model_store (with_models (fun ms => <[this := m']> ms) s) !! this = Some m'.
Proof. intros H. simpl. apply list_lookup_insert_eq. by eapply lookup_lt_Some. Qed.

(** Run one [update_model] at the head of the computation, and name the
    state it leaves. *)
Ltac run_update H Hn sn :=
  rewrite (bind_Ok _ _ _ _ _ (update_model_Ok _ _ _ _ H));
  match goal with
  | |- context [with_models (fun ms => <[?l := ?m']> ms) ?s0] =>
      pose proof (model_insert_lookup s0 l _ m' H) as Hn;
      set (sn := with_models (fun ms => <[l := m']> ms) s0) in *
  end.

Section Settling.

Implicit Types (s : State) (h : handle) (o : operation).

Lemma settle_run s h o st outcome :
  due s h o st ->
  settle h outcome s
  = (Ok tt, with_promises (fun ps =>
       notify h outcome <$> <[h := Promise.mk o st outcome]> ps) s).
Proof.
  intros Hdue. unfold due in Hdue. unfold settle.
  by rewrite (bind_Ok _ _ _ _ _ (get_promise_Ok _ _ _ Hdue)).
Qed.

(** The promises after an operation settled and finished. *)
Lemma settled_from_finish s s' h o st outcome :
  due s h o st -> (forall w, st <> AwaitingPrior w) ->
  promise_store s'
  = promise_store
      (set_stage h Finished
         (with_promises (fun ps =>
            notify h outcome <$> <[h := Promise.mk o st outcome]> ps) s)) ->
  settled_from s s' h o outcome.
Proof.
  intros Hdue Hst Hps. unfold settled_from. rewrite Hps. clear Hps.
  unfold due in Hdue.
  assert (Hlt : h < length (promise_store s)) by (by eapply lookup_lt_Some).
  assert (Hh : (notify h outcome <$> <[h := Promise.mk o st outcome]> (promise_store s)) !! h
               = Some (Promise.mk o st outcome)).
  { rewrite list_lookup_fmap, list_lookup_insert_eq by done. simpl.
    by rewrite notify_other_stage. }
  unfold set_stage. simpl. rewrite Hh. simpl. split.
  - apply list_lookup_insert_eq. by rewrite length_fmap, length_insert.
  - intros h' Hne. rewrite list_lookup_insert_ne by done.
    by rewrite list_lookup_fmap, list_lookup_insert_ne.
Qed.

(** The promises after an operation sent its request. *)
Lemma set_stage_other s h st h' :
  h' <> h -> promise_store (set_stage h st s) !! h' = promise_store s !! h'.
Proof.
  intros Hne. unfold set_stage. simpl.
  destruct (promise_store s !! h); [|done]. by rewrite list_lookup_insert_ne.
Qed.

End Settling.

Section ModelFetch.

Variable urls : string -> option (value -> value).
Variable contentCacheKey : value.

Implicit Types (s : State) (h : handle) (o : operation) (m : Model.t).

(** A request without data on behalf of a Model. *)
Lemma client_nodata_Ok s this m url method :
  model_store s !! this = Some m ->
  client contentCacheKey url method None (ParamsOfModel this) s
  = (Ok tt,
     with_requests (fun rs =>
       (rs ++ [Request.mk url method None
                 (Some (sent_params (resource s) contentCacheKey (Model.getParams m)))
                 (sent_cacheBust (resource s))])%list)
       (with_models (fun ms =>
          <[this := Model.set_getParams
                      (sent_params (resource s) contentCacheKey (Model.getParams m)) m]> ms)
          s)).
Proof.
  intros Hm. unfold client, sent_params, sent_cacheBust.
  rewrite (bind_Ok _ _ _ _ _ (eq_refl : gets resource s = (Ok _, s))).
  erewrite bind_Ok
    by (rewrite (bind_Ok _ _ _ _ _ (get_model_Ok _ _ _ Hm)); reflexivity).
  cbn [from_option negb]. rewrite andb_true_r.
  destruct (Resource.useContentCacheKey (resource s)).
  - cbn [default].
    rewrite (bind_Ok _ _ _ _ _ (update_model_Ok _ _ _ _ Hm)). reflexivity.
  - unfold modify. do 2 f_equal. destruct s as [r ms cs ps rq lg]. simpl in *.
    unfold with_requests, with_models. simpl. f_equal.
    symmetry. apply list_insert_id. by destruct m.
Qed.

(** The callback of a [fetch] that is answered from the Model. *)
Lemma fetch_callback_cached s h this force m :
  due s h (ModelFetch this force) PriorResolved ->
  model_store s !! this = Some m ->
  negb force && Model.synced m = true ->
  conclude h (on_prior_resolved urls contentCacheKey h (ModelFetch this force) s)
  = set_stage h Finished
      (with_promises (fun ps =>
         notify h (Resolved (VObj (Model.attributes m)))
           <$> <[h := Promise.mk (ModelFetch this force) PriorResolved
                        (Resolved (VObj (Model.attributes m)))]> ps) s).
Proof.
  intros Hdue Hm Hc. cbn [on_prior_resolved].
  rewrite (bind_Ok _ _ _ _ _ (get_model_Ok _ _ _ Hm)). rewrite Hc.
  unfold resolve. by rewrite (bind_Ok _ _ _ _ _ (settle_run _ _ _ _ _ Hdue)).
Qed.

(** The callback of a [fetch] that goes to the server. *)
Lemma fetch_callback_request s h this force m detail :
  model_store s !! this = Some m ->
  urls (Resource.name (resource s) +:+ "_detail") = Some detail ->
  negb force && Model.synced m = false ->
  conclude h (on_prior_resolved urls contentCacheKey h (ModelFetch this force) s)
  = set_stage h AwaitingClient
      (with_requests (fun rs =>
         (rs ++ [fetch_request (resource s) contentCacheKey m detail])%list)
         (with_models (fun ms =>
            <[this := fetching (resource s) contentCacheKey m]> ms) s)).
Proof.
  intros Hm Hdetail Hc. cbn [on_prior_resolved].
  rewrite (bind_Ok _ _ _ _ _ (get_model_Ok _ _ _ Hm)). rewrite Hc.
  run_update Hm Hm1 s1.
  rewrite (bind_Ok _ _ _ _ _ (Model_url_Ok urls s1 _ _ _ Hm1 Hdetail)).
  rewrite (bind_Ok _ _ _ _ _ (client_nodata_Ok s1 _ _ _ _ Hm1)).
  cbn [ret conclude]. f_equal. unfold fetch_request, fetching.
  destruct s as [r ms cs ps rq lg]. unfold s1, with_requests, with_models. simpl.
  by rewrite list_insert_insert_eq.
Qed.

End ModelFetch.

Section ModelFetchThm.

Variable urls : string -> option (value -> value).
Variable contentCacheKey : value.


End ModelFetchThm.


(** ** The response to a fetch *)

Section ModelResponse.

Variable urls : string -> option (value -> value).
Variable contentCacheKey : value.

Implicit Types (s : State) (h : handle) (o : operation) (m : Model.t).

Lemma step_client_resolved s h o response :
  due s h o AwaitingClient ->
  step urls contentCacheKey (ClientResolved h response) s
  = Some (conclude h (on_response urls h o response s)).
Proof. unfold due, step. by intros ->. Qed.


Lemma filter_ne_notin (h : handle) (ps : list handle) :
  h ∉ ps -> filter (fun x => x <> h) ps = ps.
Proof.
  induction ps as [|x ps IH]; [done|]. intros [Hx Hps]%not_elem_of_cons.
  rewrite filter_cons_True by congruence. by rewrite IH.
Qed.

(** [promises.splice(promises.indexOf(promise), 1)] takes the promise out,
    and nothing else, when the promise is in the list. *)
Lemma splice_indexOf_present (h : handle) (ps : list handle) :
  NoDup ps -> h ∈ ps -> splice_indexOf h ps = filter (fun x => x <> h) ps.
Proof.
  unfold splice_indexOf. induction ps as [|x ps IH]; intros Hnd Hin.
  - by apply elem_of_nil in Hin.
  - apply NoDup_cons in Hnd as [Hx Hnd]. simpl.
    destruct (decide (x = h)) as [->|Hne].
    + rewrite filter_cons_False by (by intros ?). simpl.
      by rewrite filter_ne_notin.
    + rewrite filter_cons_True by done.
      apply elem_of_cons in Hin as [->|Hin]; [done|].
      specialize (IH Hnd Hin).
      destruct (list_find (fun x => x = h) ps) as [[i y]|] eqn:E; simpl.
      * by rewrite IH.
      * apply list_find_None in E. rewrite Forall_forall in E. by destruct (E h Hin).
Qed.

(** The state a response with the object [d] leaves. *)
Lemma fetch_response_run s h this force m response d :
  due s h (ModelFetch this force) AwaitingClient ->
  model_store s !! this = Some m ->
  obj_get response "data" = VObj d ->
  let m' := refreshed (Resource.idKey (resource s)) m d h in
  exists s',
    conclude h (on_response urls h (ModelFetch this force) response s) = s'
    /\ model_store s' = <[this := m']> (model_store s)
    /\ promise_store s'
       = promise_store
           (set_stage h Finished
              (with_promises (fun ps =>
                 notify h (Resolved (VObj (Model.attributes m')))
                   <$> <[h := Promise.mk (ModelFetch this force) AwaitingClient
                                (Resolved (VObj (Model.attributes m')))]> ps) s))
    /\ resource s' = resource s /\ collection_store s' = collection_store s
    /\ requests s' = requests s /\ log s' = log s.
Proof.
  intros Hdue Hm Hdata m'. cbn [on_response]. rewrite Hdata.
  rewrite (bind_Ok _ _ _ _ _ (Model_set_caller _ _ _ _ Hm)).
  match goal with
  | |- context [with_models (fun ms => <[?l := ?m1]> ms) ?s0] =>
      pose proof (model_insert_lookup s0 l _ m1 Hm) as Hm1;
      set (s1 := with_models (fun ms => <[l := m1]> ms) s0) in *
  end.
  run_update Hm1 Hm2 s2. run_update Hm2 Hm3 s3.
  rewrite (bind_Ok _ _ _ _ _ (get_model_Ok _ _ _ Hm3)).
  assert (Hdue3 : due s3 h (ModelFetch this force) AwaitingClient) by done.
  unfold resolve. rewrite (bind_Ok _ _ _ _ _ (settle_run _ _ _ _ _ Hdue3)).
  set (s4 := with_promises _ s3).
  assert (Hm4 : model_store s4 !! this = model_store s3 !! this) by done.
  rewrite Hm3 in Hm4.
  unfold cleanup_model. rewrite (bind_Ok _ _ _ _ _ (update_model_Ok _ _ _ _ Hm4)).
  cbn [ret conclude].
  eexists. split; [reflexivity|].
  split; [|done]. simpl. by rewrite !list_insert_insert_eq.
Qed.

End ModelResponse.

Section ModelResponseThm.

Variable urls : string -> option (value -> value).
Variable contentCacheKey : value.

(** When the transport answers a [fetch] with an object, the object is
    merged into the attributes (a truthy identity as its string): a field the
    response names takes the value of the response, every other field keeps
    the value it had. The Model becomes synced and not new, the promise
    resolves with a copy of the merged attributes, and the promise, and only
    that one, leaves the Model's list of promises. Registry, Collections,
    requests and log stay as they are. *)
Theorem Model_fetch_response s h this force m response d :
  due s h (ModelFetch this force) AwaitingClient ->
  model_store s !! this = Some m ->
  obj_get response "data" = VObj d ->
  let m' := refreshed (Resource.idKey (resource s)) m d h in
  exists s', step urls contentCacheKey (ClientResolved h response) s = Some s'
    /\ model_store s' = <[this := m']> (model_store s)
    /\ settled_from s s' h (ModelFetch this force)
                    (Resolved (VObj (Model.attributes m')))
    /\ resource s' = resource s /\ collection_store s' = collection_store s
    /\ requests s' = requests s /\ log s' = log s
    /\ (wf_obj d -> forall k,
          obj_lookup k (Model.attributes m')
          = assigned k (Model.attributes m)
                     (stringified (Resource.idKey (resource s)) d))
    /\ (NoDup (Model.promises m) -> h ∈ Model.promises m ->
        Model.promises m' = filter (fun x => x <> h) (Model.promises m)).
Proof.
  intros Hdue Hm Hdata m'.
  rewrite (step_client_resolved _ _ _ _ _ _ Hdue).
  destruct (fetch_response_run urls s h this force m response d Hdue Hm Hdata)
    as (s' & -> & Hmm & Hp & Hr & Hc & Hq & Hl).
  exists s'. split; [done|]. split; [done|].
  split; [by eapply settled_from_finish|].
  do 4 (split; [done|]). split.
  - intros Hwf k. simpl. unfold assigned.
    by rewrite Object_assign_lookup by (by apply stringified_wf).
  - intros Hnd Hin. simpl. by apply splice_indexOf_present.
Qed.

End ModelResponseThm.

(** The response brings a numeric identity and a new field. *)
Lemma Model_fetch_response_witness :
  exists s',
    step urls_ex VNull
         (ClientResolved 0 [("data", VObj [("id", VNum 9); ("y", VNull)])]) fetching_ex
    = Some s'
    /\ model_store s'
       = [Model.mk [("id", VStr "9"); ("x", VNum 1); ("y", VNull)] [] VUndefined
                   true false false []].
Proof.
  destruct (Model_fetch_response urls_ex VNull fetching_ex 0 0 false _
              [("data", VObj [("id", VNum 9); ("y", VNull)])] _
              eq_refl eq_refl eq_refl) as (s' & Hstep & Hm & _).
  exists s'. split; [exact Hstep|]. rewrite Hm. reflexivity.
Defined.

(** ** The queue of operations of one Model *)

Section Queue.

Variable urls : string -> option (value -> value).
Variable contentCacheKey : value.

Implicit Types (s : State) (h : handle) (o : operation) (m : Model.t).

Lemma start_on_model_run s this m o :
  model_store s !! this = Some m ->
  start_on_model this o s
  = (Ok (length (promise_store s)),
     with_models (fun ms =>
       <[this := Model.set_promises
                   (Model.promises m ++ [length (promise_store s)])%list m]> ms)
       (with_promises (fun _ =>
          (promise_store s
           ++ [Promise.mk o (Promise_all (promise_store s) (Model.promises m))
                          Pending])%list) s)).
Proof.
  intros Hm. unfold start_on_model.
  rewrite (bind_Ok _ _ _ _ _ (get_model_Ok _ _ _ Hm)).
  unfold new_promise. cbn [bind gets modify ret].
  by erewrite bind_Ok by (apply update_model_Ok; simpl; exact Hm).
Qed.

Lemma Promise_all_pending (ps : list Promise.t) (snapshot : list handle) h0 :
  first_rejected ps snapshot = None ->
  h0 ∈ snapshot -> settlement_of ps h0 = Pending ->
  Promise_all ps snapshot
  = AwaitingPrior (filter (fun x => is_pending (settlement_of ps x) = true) snapshot)
  /\ h0 ∈ filter (fun x => is_pending (settlement_of ps x) = true) snapshot.
Proof.
  intros Hrej Hin Hpend. unfold Promise_all. rewrite Hrej.
  assert (Hin' : h0 ∈ filter (fun x => is_pending (settlement_of ps x) = true) snapshot).
  { apply list_elem_of_filter. split; [|done]. by rewrite Hpend. }
  split; [|done].
  destruct (filter _ snapshot) as [|x w]; [|done]. by apply elem_of_nil in Hin'.
Qed.

(** A promise that resolves is taken off the list of every operation that
    waits for it. *)
Lemma notify_resolved h0 v o w :
  h0 ∈ w ->
  notify h0 (Resolved v) (Promise.mk o (AwaitingPrior w) Pending)
  = Promise.mk o (still_awaiting h0 w) Pending.
Proof.
  intros Hin. unfold notify, still_awaiting. simpl.
  rewrite bool_decide_eq_true_2 by done.
  by destruct (filter _ w).
Qed.

Lemma step_not_due s ev p :
  promise_store s !! event_promise ev = Some p ->
  match Promise.stage_ p with
  | AwaitingPrior _ | Finished | Threw _ => True
  | _ => False
  end ->
  step urls contentCacheKey ev s = None.
Proof.
  intros Hp Hst. unfold step.
  destruct ev as [h|h r|h r]; simpl in Hp; rewrite Hp;
    by destruct (Promise.stage_ p).
Qed.

End Queue.

Section QueueThm.

Variable urls : string -> option (value -> value).
Variable contentCacheKey : value.

(** An operation ([fetch], [save] or [delete]) started on a Model while an
    earlier operation of that Model is pending, none being rejected, waits:
    it awaits the promises that are pending, no event can run one of its
    callbacks, and when one of the awaited promises resolves it is taken off
    the list; the callback is due once the list is empty. *)
Theorem operations_wait_their_turn s this m o h0 p0 :
  model_store s !! this = Some m ->
  first_rejected (promise_store s) (Model.promises m) = None ->
  h0 ∈ Model.promises m ->
  promise_store s !! h0 = Some p0 -> Promise.state p0 = Pending ->
  let h := length (promise_store s) in
  let w := filter (fun x => is_pending (settlement_of (promise_store s) x) = true)
                  (Model.promises m) in
  exists s0,
    start_on_model this o s = (Ok h, s0)
    /\ due s0 h o (AwaitingPrior w) /\ h0 ∈ w
    /\ (forall ev, event_promise ev = h -> step urls contentCacheKey ev s0 = None)
    /\ forall v, exists s1,
         resolve h0 v s0 = (Ok tt, s1) /\ due s1 h o (still_awaiting h0 w).
Proof.
  intros Hm Hrej Hin Hp0 Hpend h w.
  assert (Hlt : h0 < h) by (by eapply lookup_lt_Some).
  destruct (Promise_all_pending (promise_store s) (Model.promises m) h0 Hrej Hin)
    as [Hall Hw].
  { unfold settlement_of. by rewrite Hp0. }
  rewrite (start_on_model_run s this m o Hm). rewrite Hall. fold w h.
  eexists. split; [reflexivity|].
  assert (Hdue : due (with_models (fun ms =>
                        <[this := Model.set_promises (Model.promises m ++ [h])%list m]> ms)
                        (with_promises (fun _ =>
                           (promise_store s
                            ++ [Promise.mk o (AwaitingPrior w) Pending])%list) s))
                     h o (AwaitingPrior w)).
  { unfold due. simpl. by rewrite lookup_app_r, Nat.sub_diag. }
  split; [exact Hdue|]. split; [exact Hw|]. split.
  - intros ev Hev. eapply step_not_due; [rewrite Hev; exact Hdue|done].
  - intros v. destruct p0 as [o0 st0 out0]. simpl in Hpend. subst out0.
    unfold resolve. erewrite settle_run.
    2:{ unfold due. simpl. apply lookup_app_l_Some. exact Hp0. }
    eexists. split; [reflexivity|]. unfold due. simpl.
    rewrite list_lookup_fmap, list_lookup_insert_ne by lia.
    rewrite lookup_app_r, Nat.sub_diag by done. simpl.
    by rewrite notify_resolved.
Qed.

End QueueThm.

(** The Model of the example has a [save] that waits for the transport and a
    [fetch] behind it; a [delete] goes behind both. *)
Lemma operations_wait_their_turn_witness :
  exists s0,
    Model_delete 0 queued_ex = (Ok 2, s0)
    /\ due s0 2 (ModelDelete 0) (AwaitingPrior [0; 1])
    /\ step urls_ex VNull (PriorSettled 2) s0 = None.
Proof.
  destruct (operations_wait_their_turn urls_ex VNull queued_ex 0 _ (ModelDelete 0) 0 _
              eq_refl eq_refl ltac:(by left) eq_refl eq_refl)
    as (s0 & Hstart & Hdue & _ & Hstep & _).
  exists s0. split; [exact Hstart|]. split; [exact Hdue|]. by apply Hstep.
Defined.

(** ** Two fetches of one Model share one request *)

Section Coalesce.

Variable urls : string -> option (value -> value).
Variable contentCacheKey : value.

Implicit Types (s : State) (h : handle) (o : operation) (m : Model.t).

Lemma Promise_all_one_pending (ps : list Promise.t) h :
  settlement_of ps h = Pending -> Promise_all ps [h] = AwaitingPrior [h].
Proof.
  intros H. unfold Promise_all. simpl. rewrite H.
  rewrite filter_cons_True by (by rewrite H). by rewrite filter_nil.
Qed.

Lemma still_awaiting_last h : still_awaiting h [h] = PriorResolved.
Proof.
  unfold still_awaiting. by rewrite filter_cons_False, filter_nil by (by intros ?).
Qed.

(** Two fetches started one after the other: the first is due, the second
    waits for the first. *)
Lemma two_fetches_started s this m :
  model_store s !! this = Some m ->
  Model.promises m = [] ->
  let h1 := length (promise_store s) in
  let o := ModelFetch this false in
  exists s1 s2,
    Model_fetch this false s = (Ok h1, s1)
    /\ Model_fetch this false s1 = (Ok (S h1), s2)
    /\ due s2 h1 o PriorResolved
    /\ due s2 (S h1) o (AwaitingPrior [h1])
    /\ model_store s2 = <[this := Model.set_promises [h1; S h1] m]> (model_store s)
    /\ resource s2 = resource s /\ collection_store s2 = collection_store s
    /\ requests s2 = requests s /\ log s2 = log s.
Proof.
  intros Hm Hps h1 o. unfold Model_fetch. fold o.
  rewrite (start_on_model_run s this m o Hm). rewrite Hps. fold h1.
  change (Promise_all (promise_store s) []) with PriorResolved.
  eexists. eexists. split; [reflexivity|].
  match goal with
  | |- context [with_models (fun ms => <[?l := ?m']> ms) ?s0] =>
      pose proof (model_insert_lookup s0 l _ m' Hm) as Hm1;
      set (s1 := with_models (fun ms => <[l := m']> ms) s0) in *
  end.
  assert (Hlen : length (promise_store s1) = S h1).
  { unfold s1. simpl. rewrite length_app. simpl. unfold h1. lia. }
  assert (Hp1 : promise_store s1 !! h1 = Some (Promise.mk o PriorResolved Pending)).
  { unfold s1. simpl. by rewrite lookup_app_r, Nat.sub_diag. }
  rewrite (start_on_model_run s1 this _ o Hm1). rewrite Hlen.
  cbn [Model.promises Model.set_promises app].
  rewrite Promise_all_one_pending by (unfold settlement_of; by rewrite Hp1).
  split; [reflexivity|]. unfold due. simpl.
  split; [|split; [|split; [|done]]].
  - apply lookup_app_l_Some. by rewrite lookup_app_r, Nat.sub_diag.
  - rewrite lookup_app_r by (rewrite length_app; simpl; lia).
    rewrite length_app. simpl. fold h1.
    by replace (S h1 - (h1 + 1)) with 0 by lia.
  - by rewrite list_insert_insert_eq.
Qed.

End Coalesce.

Section CoalesceThm.

Variable urls : string -> option (value -> value).
Variable contentCacheKey : value.

(** Two calls of [fetch()] on an unsynced Model that has no operation
    pending send one request between them. The second call cannot start
    before the first has settled; the first sends the request and, when the
    transport answers, both promises resolve with the same copy of the
    refreshed attributes, the second one from the Model without a request. *)
Theorem concurrent_fetches_one_request s this m detail response d :
  model_store s !! this = Some m ->
  Model.promises m = [] ->
  Model.synced m = false ->
  urls (Resource.name (resource s) +:+ "_detail") = Some detail ->
  obj_get response "data" = VObj d ->
  let h1 := length (promise_store s) in
  let h2 := S h1 in
  let o := ModelFetch this false in
  let attributes' :=
    Object_assign (Model.attributes m) (stringified (Resource.idKey (resource s)) d) in
  exists s1 s2 s',
    Model_fetch this false s = (Ok h1, s1)
    /\ Model_fetch this false s1 = (Ok h2, s2)
    /\ step urls contentCacheKey (PriorSettled h2) s2 = None
    /\ run urls contentCacheKey
           [PriorSettled h1; ClientResolved h1 response; PriorSettled h2] s2
       = Some s'
    /\ requests s'
       = (requests s ++ [fetch_request (resource s) contentCacheKey m detail])%list
    /\ promise_store s' !! h1 = Some (Promise.mk o Finished (Resolved (VObj attributes')))
    /\ promise_store s' !! h2 = Some (Promise.mk o Finished (Resolved (VObj attributes')))
    /\ exists m', model_store s' !! this = Some m'
                  /\ Model.attributes m' = attributes'
                  /\ Model.synced m' = true /\ Model.new m' = false.
Proof.
  intros Hm Hps Hsync Hdetail Hdata h1 h2 o attributes'. subst o.
  destruct (two_fetches_started s this m Hm Hps)
    as (s1 & s2 & Hf1 & Hf2 & Hd1 & Hd2 & Hm2 & Hr2 & Hc2 & Hq2 & Hl2).
  fold h1 h2 in Hf1, Hf2, Hd1, Hd2, Hm2.
  exists s1, s2.
  assert (Hthis2 : model_store s2 !! this = Some (Model.set_promises [h1; h2] m)).
  { rewrite Hm2. apply list_lookup_insert_eq. by eapply lookup_lt_Some. }
  assert (Hne : h2 <> h1) by (unfold h2; lia).
  (* the first callback sends the request *)
  cbn [run].
  rewrite (step_prior_resolved _ _ _ _ _ Hd1).
  rewrite (fetch_callback_request urls contentCacheKey s2 h1 this false _ detail
             Hthis2 ltac:(by rewrite Hr2) ltac:(simpl; exact Hsync)).
  set (m3 := fetching (resource s2) contentCacheKey (Model.set_promises [h1; h2] m)).
  set (s3 := set_stage h1 AwaitingClient _).
  assert (Hd3 : due s3 h1 (ModelFetch this false) AwaitingClient) by (by eapply set_stage_lookup).
  assert (Hw3 : promise_store s3 !! h2
                = Some (Promise.mk (ModelFetch this false) (AwaitingPrior [h1]) Pending)).
  { unfold s3. by rewrite set_stage_other. }
  assert (Hthis3 : model_store s3 !! this = Some m3).
  { unfold s3. simpl. apply list_lookup_insert_eq. by eapply lookup_lt_Some. }
  assert (Hq3 : requests s3
                = (requests s ++ [fetch_request (resource s) contentCacheKey m detail])%list).
  { unfold s3. simpl. by rewrite Hq2, Hr2. }
  assert (Hr3 : resource s3 = resource s) by (unfold s3; simpl; by rewrite Hr2).
  (* the response settles the first promise and releases the second *)
  rewrite (step_client_resolved _ _ _ _ _ response Hd3).
  destruct (fetch_response_run urls s3 h1 this false m3 response d Hd3 Hthis3 Hdata)
    as (s4 & -> & Hm4 & Hp4 & Hr4 & Hc4 & Hq4 & Hl4).
  set (m4 := refreshed (Resource.idKey (resource s3)) m3 d h1) in *.
  assert (Hattr4 : Model.attributes m4 = attributes').
  { unfold m4, attributes'. simpl. by rewrite Hr2. }
  rewrite Hattr4 in Hp4.
  destruct (settled_from_finish s3 s4 h1 (ModelFetch this false) AwaitingClient
              (Resolved (VObj attributes')) Hd3 ltac:(done) Hp4) as [Hfin1 Hoth].
  assert (Hd4 : due s4 h2 (ModelFetch this false) PriorResolved).
  { unfold due. rewrite (Hoth h2 Hne), Hw3. simpl.
    rewrite notify_resolved by (by left). by rewrite still_awaiting_last. }
  assert (Hthis4 : model_store s4 !! this = Some m4).
  { rewrite Hm4. apply list_lookup_insert_eq. by eapply lookup_lt_Some. }
  (* the second callback answers from the Model *)
  rewrite (step_prior_resolved _ _ _ _ _ Hd4).
  rewrite (fetch_callback_cached urls contentCacheKey s4 h2 this false m4 Hd4 Hthis4
             eq_refl).
  rewrite Hattr4.
  set (s5 := set_stage h2 Finished _).
  destruct (settled_from_finish s4 s5 h2 (ModelFetch this false) PriorResolved
              (Resolved (VObj attributes')) Hd4 ltac:(done) eq_refl) as [Hfin2 Hoth2].
  exists s5. split; [done|]. split; [done|].
  split; [eapply (step_not_due urls contentCacheKey s2 (PriorSettled h2));
          [exact Hd2|done]|].
  split; [done|].
  split; [unfold s5; simpl; by rewrite Hq4|].
  split; [by rewrite (Hoth2 h1) by done; rewrite Hfin1|].
  split; [done|].
  exists m4. split; [unfold s5; simpl; exact Hthis4|]. by split.
Qed.

End CoalesceThm.

(** A Model that was never fetched: two fetches, one request. *)
Lemma concurrent_fetches_one_request_witness :
  exists s1 s2 s',
    Model_fetch 0 false unfetched_ex = (Ok 0, s1)
    /\ Model_fetch 0 false s1 = (Ok 1, s2)
    /\ run urls_ex VNull
           [PriorSettled 0;
            ClientResolved 0 [("data", VObj [("id", VNum 9); ("y", VNull)])];
            PriorSettled 1] s2
       = Some s'
    /\ length (requests s') = 1.
Proof.
  destruct (concurrent_fetches_one_request urls_ex VNull unfetched_ex 0 _ _
              [("data", VObj [("id", VNum 9); ("y", VNull)])] _
              eq_refl eq_refl eq_refl eq_refl eq_refl)
    as (s1 & s2 & s' & H1 & H2 & _ & Hrun & Hq & _).
  exists s1, s2, s'. split; [exact H1|]. split; [exact H2|]. split; [exact Hrun|].
  by rewrite Hq.
Defined.

(** ** An element the Model constructor refuses stops [Collection.set] *)

Section SetStops.

Variable urls : string -> option (value -> value).

Implicit Types (s : State) (x : Collection.t).

Lemma forEach_app {A} (f : A -> M unit) (xs ys : list A) s :
  forEach f (xs ++ ys) s
  = match forEach f xs s with
    | (Ok _, s1) => forEach f ys s1
    | (Throw e, s1) => (Throw e, s1)
    end.
Proof.
  revert s. induction xs as [|x xs IH]; intros s; [done|].
  cbn [app forEach]. unfold bind.
  destruct (f x s) as [[[]|e] s1]; [apply IH|done].
Qed.

Lemma forEach_stops {A} (f : A -> M unit) (xs ys : list A) y s s1 e s2 :
  forEach f xs s = (Ok tt, s1) ->
  f y s1 = (Throw e, s2) ->
  forEach f (xs ++ y :: ys) s = (Throw e, s2).
Proof.
  intros Hxs Hy. rewrite forEach_app, Hxs. cbn [forEach].
  by rewrite (bind_Throw _ _ _ _ _ Hy).
Qed.

Lemma Model_new_refused data getParams url s :
  constructible data = false ->
  exists msg, Model_new data getParams url s = (Throw (TypeError msg), s).
Proof.
  unfold constructible, Model_new. intros H.
  destruct (truthy data); [|by eexists].
  destruct (typeof_object data); [|by eexists].
  simpl in H. apply negb_false_iff in H. rewrite H. by eexists.
Qed.

Lemma Collection_set_one_refused this getParams bad s :
  constructible bad = false ->
  exists msg,
    Collection_set_one urls this getParams (Raw bad) s = (Throw (TypeError msg), s).
Proof.
  intros Hbad. destruct (Model_new_refused bad getParams VUndefined s Hbad) as [msg Hnew].
  exists msg. unfold Collection_set_one. cbn [addModel]. unfold createModel, the_idKey.
  rewrite bind_assoc.
  rewrite (bind_Ok _ _ _ _ _ (eq_refl : gets _ s = (Ok _, s))).
  rewrite !bind_assoc. rewrite bind_ret. rewrite bind_assoc.
  by rewrite (bind_Throw _ _ _ _ _ Hnew).
Qed.

Lemma registry_valid_empty s :
  Resource.models (resource s) = ∅ -> registry_valid s.
Proof. intros H e K l. unfold slot. rewrite H. by rewrite lookup_empty. Qed.

End SetStops.

Section SetStopsThm.

Variable urls : string -> option (value -> value).

(** [set] works through its elements in order and is not atomic: when an
    element is one the Model constructor refuses ([null], a primitive, an
    object without properties), [set] throws the constructor's TypeError at
    that element; the elements in front of it are filed as if [set] had been
    called with them alone, the elements behind it are not looked at. *)
Theorem Collection_set_stops_at_refused_element s this x ds bad rest :
  registry_valid s ->
  collection_store s !! this = Some x ->
  Forall raw_ok ds ->
  constructible bad = false ->
  exists s1 msg,
    Collection_set urls this (raw_items ds) s = (Ok tt, s1)
    /\ Collection_set urls this (raw_items ds ++ Raw bad :: rest)%list s
       = (Throw (TypeError msg), s1).
Proof.
  intros Hvalid Hx Hds Hbad.
  rewrite !(Collection_set_run urls s this x) by done.
  destruct (forEach_set_one_raw urls s this x (fields_params x) ds Hvalid Hx Hds)
    as (s1 & Hrun & _ & _).
  destruct (Collection_set_one_refused urls this (fields_params x) bad s1 Hbad)
    as [msg Hone].
  exists s1, msg. split; [exact Hrun|].
  by apply (forEach_stops _ _ _ _ _ s1 _ s1).
Qed.

End SetStopsThm.

(** [set([{id: '1'}, null, {id: '2'}])] on a new Collection files the first
    element and throws. *)
Lemma Collection_set_stops_at_refused_element_witness :
  exists s1 msg,
    Collection_set urls_ex 0 [Raw (VObj [("id", VStr "1")]); Raw VNull;
                              Raw (VObj [("id", VStr "2")])] new_collection_ex
    = (Throw (TypeError msg), s1)
    /\ Collection.models <$> collection_store s1 !! 0 = Some [0].
Proof.
  destruct (Collection_set_stops_at_refused_element urls_ex new_collection_ex 0
              (fresh_collection [] VUndefined)
              [[("id", VStr "1")]] VNull [Raw (VObj [("id", VStr "2")])])
    as (s1 & msg & Hfirst & Hall).
  - by apply registry_valid_empty.
  - reflexivity.
  - repeat constructor; [apply (bool_decide_unpack _); by vm_compute | done].
  - reflexivity.
  - exists s1, msg. split; [exact Hall|].
    vm_compute in Hfirst. by injection Hfirst as <-.
Defined.

(** ** The cache of Collections *)

Section CollectionCache.

Variable urls : string -> option (value -> value).

Implicit Types (s : State) (e : option string) (x : Collection.t).

Lemma collectionCache_run e s :
  __collectionCache e s
  = (Ok (default ∅ (Resource.collections (resource s) !! __cacheName e)),
     touch_collections e s).
Proof.
  unfold __collectionCache, touch_collections. cbn [bind gets].
  by destruct (Resource.collections (resource s) !! __cacheName e).
Qed.

Lemma touch_collections_slot e s e' K :
  coll_slot (touch_collections e s) e' K = coll_slot s e' K.
Proof.
  unfold touch_collections, coll_slot.
  destruct (Resource.collections (resource s) !! __cacheName e) eqn:E; [done|].
  simpl. destruct (decide (__cacheName e = __cacheName e')) as [Heq|Hne].
  - rewrite <- Heq, lookup_insert_eq, E. done.
  - by rewrite lookup_insert_ne.
Qed.

Lemma touch_collections_frame e s :
  model_store (touch_collections e s) = model_store s
  /\ collection_store (touch_collections e s) = collection_store s
  /\ promise_store (touch_collections e s) = promise_store s
  /\ requests (touch_collections e s) = requests s
  /\ log (touch_collections e s) = log s
  /\ Resource.models (resource (touch_collections e s)) = Resource.models (resource s)
  /\ Resource.idKey (resource (touch_collections e s)) = Resource.idKey (resource s)
  /\ Resource.name (resource (touch_collections e s)) = Resource.name (resource s).
Proof.
  unfold touch_collections.
  by destruct (Resource.collections (resource s) !! __cacheName e).
Qed.

Lemma touch_collections_Some e s :
  is_Some (Resource.collections (resource (touch_collections e s)) !! __cacheName e).
Proof.
  unfold touch_collections.
  destruct (Resource.collections (resource s) !! __cacheName e) eqn:E.
  - by rewrite E.
  - simpl. by rewrite lookup_insert_eq.
Qed.

Lemma touch_collections_id e s :
  is_Some (Resource.collections (resource s) !! __cacheName e) ->
  touch_collections e s = s.
Proof. unfold touch_collections. by intros [? ->]. Qed.

Lemma collection_cache_update_slot e K c s e' K' :
  coll_slot (snd (collection_cache_update e (insert K c) s)) e' K'
  = if decide (__cacheName e = __cacheName e' /\ K = K') then Some c
    else coll_slot s e' K'.
Proof.
  unfold collection_cache_update, modify, coll_slot. simpl.
  destruct (decide (__cacheName e = __cacheName e')) as [Heq|Hne].
  - rewrite <- Heq, lookup_insert_eq. simpl.
    destruct (decide (K = K')) as [->|HK].
    + rewrite lookup_insert_eq. by rewrite decide_True.
    + rewrite lookup_insert_ne by done. rewrite decide_False; [done|]. by intros [_ ?].
  - rewrite lookup_insert_ne by done. rewrite decide_False; [done|]. by intros [? _].
Qed.

(** The write into the cache object reaches the Resource when the Resource
    still has a cache of that name. *)
Lemma collection_cache_write_run e K c s :
  collection_cache_write e K c s
  = (Ok tt,
     if bool_decide (is_Some (Resource.collections (resource s) !! __cacheName e))
     then snd (collection_cache_update e (insert K c) s) else s).
Proof.
  unfold collection_cache_write. cbn [bind gets].
  destruct (Resource.collections (resource s) !! __cacheName e) eqn:E.
  - by rewrite bool_decide_eq_true_2.
  - rewrite bool_decide_eq_false_2; [done|]. by intros [? ?].
Qed.

Lemma collection_insert_lookup s this x x' :
  collection_store s !! this = Some x ->
  collection_store (with_collections (fun cs => <[this := x']> cs) s) !! this = Some x'.
Proof. intros H. simpl. apply list_lookup_insert_eq. by eapply lookup_lt_Some. Qed.

(** [new Collection(getParams, [], resource, url)] *)
Lemma Collection_new_empty s getParams url :
  Collection_new urls getParams [] url s
  = (Ok (length (collection_store s)),
     with_collections (fun cs => (cs ++ [fresh_collection getParams url])%list) s).
Proof.
  unfold Collection_new. cbn [bind gets modify].
  set (s0 := with_collections _ s).
  assert (H0 : collection_store s0 !! length (collection_store s)
               = Some (fresh_collection getParams url)).
  { unfold s0. simpl. by rewrite lookup_app_r, Nat.sub_diag. }
  unfold Collection_set_synced.
  rewrite bind_assoc, (bind_Ok _ _ _ _ _ (update_collection_Ok _ _ _ _ H0)).
  rewrite bind_ret.
  pose proof (collection_insert_lookup s0 _ _
                (Collection.set__synced false (fresh_collection getParams url)) H0) as H1.
  set (s1 := with_collections _ s0) in *.
  unfold Collection_set_new.
  rewrite bind_assoc, (bind_Ok _ _ _ _ _ (update_collection_Ok _ _ _ _ H1)).
  cbn [negb]. rewrite bind_ret.
  pose proof (collection_insert_lookup s1 _ _
                (Collection.set__new true
                   (Collection.set__synced false (fresh_collection getParams url))) H1)
    as H2.
  set (s2 := with_collections _ s1) in *.
  unfold Collection_set.
  rewrite bind_assoc, (bind_Ok _ _ _ _ _ (get_collection_Ok _ _ _ H2)).
  cbn [forEach]. rewrite !bind_ret. unfold ret. f_equal.
  unfold s2, s1, s0. destruct s as [r ms cs ps rq lg]. unfold with_collections. simpl.
  f_equal. rewrite list_insert_insert_eq.
  rewrite insert_app_r_alt by done. by rewrite Nat.sub_diag.
Qed.

(** [createCollection(getParams, [], endpointName, detailId)] *)
Lemma createCollection_empty_run s getParams e detailId url :
  collection_url_of urls (resource s) e detailId = Some url ->
  let c := length (collection_store s) in
  let key := collection_key (Resource.idKey (resource s)) getParams detailId in
  exists s1,
    createCollection urls getParams [] e detailId s = (Ok c, s1)
    /\ collection_store s1 = (collection_store s ++ [fresh_collection getParams url])%list
    /\ model_store s1 = model_store s /\ promise_store s1 = promise_store s
    /\ requests s1 = requests s /\ log s1 = log s
    /\ Resource.models (resource s1) = Resource.models (resource s)
    /\ Resource.idKey (resource s1) = Resource.idKey (resource s)
    /\ Resource.name (resource s1) = Resource.name (resource s)
    /\ is_Some (Resource.collections (resource s1) !! __cacheName e)
    /\ forall e' K,
         coll_slot s1 e' K
         = if decide (__cacheName e = __cacheName e' /\ key = K) then Some c
           else coll_slot s e' K.
Proof.
  intros Hurl c key. unfold createCollection.
  assert (Hu : (match given e with
                | Some e0 => call_url urls e0 (if truthy detailId then detailId
                                               else VUndefined)
                | None => ret VUndefined
                end) s = (Ok url, s)).
  { unfold collection_url_of in Hurl. destruct (given e) as [n|].
    - unfold call_url. cbn [bind gets].
      destruct (urls _) as [f|]; simpl in Hurl; by simplify_eq.
    - by simplify_eq. }
  rewrite (bind_Ok _ _ _ _ _ Hu).
  rewrite (bind_Ok _ _ _ _ _ (collectionCache_run e s)).
  destruct (touch_collections_frame e s) as (Hms & Hcs & Hps & Hrq & Hlg & Hmd & HidK & Hnm).
  unfold the_idKey.
  rewrite (bind_Ok _ _ _ _ _ (eq_refl : gets _ (touch_collections e s) = (Ok _, _))).
  rewrite (bind_Ok _ _ _ _ _ (Collection_new_empty _ _ _)).
  rewrite (bind_Ok _ _ _ _ _ (collection_cache_write_run _ _ _ _)).
  cbn [ret]. rewrite Hcs, HidK. fold c key.
  rewrite bool_decide_eq_true_2 by (simpl; apply touch_collections_Some).
  eexists. split; [reflexivity|].
  split; [simpl; by rewrite Hcs|].
  do 7 (split; [done|]). split.
  - simpl. by rewrite lookup_insert_eq.
  - intros e' K.
    rewrite (collection_cache_update_slot e key c
               (with_collections _ (touch_collections e s)) e' K).
    by rewrite <- (touch_collections_slot e s e' K).
Qed.

Lemma getCollection_hit s getParams e detailId c0 :
  coll_slot s e (collection_key (Resource.idKey (resource s)) getParams detailId)
  = Some c0 ->
  getCollection urls getParams e detailId s = (Ok c0, s).
Proof.
  intros Hc0. unfold getCollection.
  rewrite (bind_Ok _ _ _ _ _ (collectionCache_run e s)).
  assert (Hid : touch_collections e s = s).
  { apply touch_collections_id. unfold coll_slot in Hc0.
    destruct (Resource.collections (resource s) !! __cacheName e); [done|].
    simpl in Hc0. by rewrite lookup_empty in Hc0. }
  rewrite Hid. unfold the_idKey.
  rewrite (bind_Ok _ _ _ _ _ (eq_refl : gets _ s = (Ok _, s))).
  unfold coll_slot in Hc0. by rewrite Hc0.
Qed.

Lemma getCollection_miss s getParams e detailId url :
  collection_url_of urls (resource s) e detailId = Some url ->
  let key := collection_key (Resource.idKey (resource s)) getParams detailId in
  let c := length (collection_store s) in
  coll_slot s e key = None ->
  exists s1,
    getCollection urls getParams e detailId s = (Ok c, s1)
    /\ collection_store s1 = (collection_store s ++ [fresh_collection getParams url])%list
    /\ model_store s1 = model_store s
    /\ promise_store s1 = promise_store s
    /\ requests s1 = requests s /\ log s1 = log s
    /\ Resource.models (resource s1) = Resource.models (resource s)
    /\ Resource.idKey (resource s1) = Resource.idKey (resource s)
    /\ Resource.name (resource s1) = Resource.name (resource s)
    /\ forall e' K,
         coll_slot s1 e' K
         = if decide (__cacheName e = __cacheName e' /\ key = K) then Some c
           else coll_slot s e' K.
Proof.
  intros Hurl key c Hslot. unfold getCollection.
  rewrite (bind_Ok _ _ _ _ _ (collectionCache_run e s)).
  destruct (touch_collections_frame e s)
    as (Hms & Hcs & Hps & Hrq & Hlg & Hmd & HidK & Hnm).
  unfold the_idKey.
  rewrite (bind_Ok _ _ _ _ _ (eq_refl : gets _ (touch_collections e s) = (Ok _, _))).
  rewrite HidK. fold key. unfold coll_slot in Hslot. rewrite Hslot.
  destruct (createCollection_empty_run (touch_collections e s) getParams e
              detailId url) as (s1 & Hrun & Hcs1 & Hms1 & Hps1 & Hrq1 & Hlg1 & Hmd1
                                & HidK1 & Hnm1 & Hsome1 & Hslot1).
  { unfold collection_url_of in *. by rewrite Hnm. }
  rewrite (bind_Ok _ _ _ _ _ Hrun).
  rewrite (bind_Ok _ _ _ _ _ (collection_cache_write_run _ _ _ _)).
  rewrite bool_decide_eq_true_2 by done. cbn [ret].
  rewrite Hcs, HidK in *. fold key c in Hslot1 |- *.
  exists (snd (collection_cache_update e (insert key c) s1)).
  split; [reflexivity|].
  split; [exact Hcs1|]. split; [simpl; by rewrite Hms1|].
  split; [simpl; by rewrite Hps1|].
  split; [simpl; by rewrite Hrq1|]. split; [simpl; by rewrite Hlg1|].
  split; [simpl; by rewrite Hmd1|].
  split; [simpl; by rewrite HidK1|]. split; [simpl; by rewrite Hnm1|].
  intros e' K.
  rewrite (collection_cache_update_slot e key c s1 e' K), Hslot1.
  rewrite touch_collections_slot. by destruct (decide _).
Qed.

End CollectionCache.

Section CollectionCacheThm.

Variable urls : string -> option (value -> value).

(** [getCollection] finds or makes: when the cache of the endpoint holds a
    Collection under the key of the GET parameters and the detail id, that
    Collection is returned and nothing changes; otherwise a Collection without
    members, unsynced and new, with the url of the endpoint, is made and filed
    under the key. A second call with the same arguments returns the same
    Collection and changes nothing. No other entry of the cache changes, nor
    any Model. *)
Theorem getCollection_finds_or_makes s getParams e detailId url :
  collection_url_of urls (resource s) e detailId = Some url ->
  let key := collection_key (Resource.idKey (resource s)) getParams detailId in
  exists c s1,
    getCollection urls getParams e detailId s = (Ok c, s1)
    /\ coll_slot s1 e key = Some c
    /\ getCollection urls getParams e detailId s1 = (Ok c, s1)
    /\ model_store s1 = model_store s
    /\ Resource.models (resource s1) = Resource.models (resource s)
    /\ match coll_slot s e key with
       | Some c0 => c = c0 /\ s1 = s
       | None =>
           c = length (collection_store s)
           /\ collection_store s1
              = (collection_store s ++ [fresh_collection getParams url])%list
       end
    /\ forall e' K,
         ~ (__cacheName e = __cacheName e' /\ key = K) ->
         coll_slot s1 e' K = coll_slot s e' K.
Proof.
  intros Hurl key.
  destruct (coll_slot s e key) as [c0|] eqn:Hslot.
  - exists c0, s. rewrite (getCollection_hit urls s _ _ _ c0 Hslot). by repeat split.
  - destruct (getCollection_miss urls s getParams e detailId url Hurl Hslot)
      as (s1 & Hrun & Hcs1 & Hms1 & _ & _ & _ & Hmd1 & HidK1 & _ & Hslot1).
    fold key in Hslot1.
    exists (length (collection_store s)), s1. split; [exact Hrun|].
    assert (Hc : coll_slot s1 e key = Some (length (collection_store s)))
      by (by rewrite Hslot1, decide_True).
    split; [exact Hc|]. split.
    { apply getCollection_hit. by rewrite HidK1. }
    do 3 (split; [done|]).
    intros e' K Hne. by rewrite Hslot1, decide_False.
Qed.

End CollectionCacheThm.

(** A first [getCollection({page: 1})] on a fresh Resource makes Collection 0
    and files it. *)
Lemma getCollection_finds_or_makes_witness :
  exists s1,
    getCollection urls_ex [("page", VNum 1)] None VUndefined empty_ex = (Ok 0, s1)
    /\ getCollection urls_ex [("page", VNum 1)] None VUndefined s1 = (Ok 0, s1).
Proof.
  destruct (getCollection_finds_or_makes urls_ex empty_ex [("page", VNum 1)] None
              VUndefined VUndefined eq_refl)
    as (c & s1 & Hget & _ & Hagain & _ & _ & Hnew & _).
  assert (Hc : c = 0) by (vm_compute in Hnew; by destruct Hnew).
  subst c. by exists s1.
Defined.

(** ** A Collection made from unsaved data is not cached *)

#[global] Instance resource_kept_preorder : PreOrder resource_kept.
Proof.
  split; [by intros s|]. unfold resource_kept. intros s1 s2 s3 H12 H23. congruence.
Qed.

Lemma Model_set_resource_kept this arg : preserves resource_kept (Model_set this arg).
Proof. preserves_tac. Qed.

#[global] Instance settings_kept_preorder : PreOrder settings_kept.
Proof.
  split; [by intros s|]. unfold settings_kept.
  intros s1 s2 s3 (?&?&?) (?&?&?). repeat split; congruence.
Qed.

Section Unsaved.

Variable urls : string -> option (value -> value).

Implicit Types (s : State) (e : option string) (x : Collection.t) (d : obj).

Lemma touch_cache_collections e s :
  Resource.collections (resource (touch_cache e s)) = Resource.collections (resource s).
Proof.
  unfold touch_cache. by destruct (Resource.models (resource s) !! __cacheName e).
Qed.

(** [addModel] leaves the cache of Collections alone when the Model has an
    identity, and replaces it by an empty one when it has none. *)
Lemma addModel_instance_collections s e l m :
  model_store s !! l = Some m ->
  Resource.collections (resource (snd (addModel_instance l e s)))
  = if truthy (Model_id (Resource.idKey (resource s)) m)
    then Resource.collections (resource s) else ∅.
Proof.
  intros Hm. unfold addModel_instance.
  rewrite (bind_Ok _ _ _ _ _ (modelCache_run e s)).
  destruct (touch_cache_frame e s) as (Hms & HidK & Hname & Hcs).
  unfold the_idKey.
  rewrite (bind_Ok _ _ _ _ _ (eq_refl : gets _ (touch_cache e s) = (Ok _, _))).
  rewrite (bind_Ok _ (fun m => _) _ m (touch_cache e s))
    by (apply get_model_Ok; by rewrite Hms).
  rewrite HidK.
  destruct (truthy (Model_id (Resource.idKey (resource s)) m)).
  - destruct (default ∅ _ !! _) as [cached|].
    + unfold bind.
      destruct (Model_set cached (AttributesOf l) (touch_cache e s)) as [r s'] eqn:E.
      pose proof (Model_set_resource_kept _ _ _ _ _ E) as Hr. unfold resource_kept in Hr.
      destruct r; simpl; by rewrite Hr, touch_cache_collections.
    + simpl. apply touch_cache_collections.
  - reflexivity.
Qed.

Lemma raw_identity_model idKey d getParams url :
  wf_obj d ->
  Model_id idKey (Model.mk (Object_assign [] (stringified idKey d))
                           getParams url false true false [])
  = raw_identity idKey d.
Proof.
  intros Hwf. unfold Model_id, obj_get, raw_identity. simpl.
  rewrite Object_assign_lookup by (by apply stringified_wf).
  rewrite stringified_lookup, decide_True by done.
  by destruct (obj_lookup idKey d).
Qed.

Lemma addModel_raw_collections s d getParams :
  raw_ok d ->
  Resource.collections (resource (snd (addModel urls (Raw (VObj d)) getParams None s)))
  = if truthy (raw_identity (Resource.idKey (resource s)) d)
    then Resource.collections (resource s) else ∅.
Proof.
  intros [Hwf Hd]. cbn [addModel].
  destruct (createModel_Ok urls s d getParams None Hd) as [url ->]; [done|].
  erewrite addModel_instance_collections
    by (simpl; by rewrite lookup_app_r, Nat.sub_diag).
  simpl. by rewrite raw_identity_model.
Qed.

(** Filing raw data: what becomes of the cache of Collections. *)
Lemma forEach_set_one_raw_collections s this x getParams ds :
  registry_valid s ->
  collection_store s !! this = Some x ->
  Forall raw_ok ds ->
  exists s' x',
    forEach (Collection_set_one urls this getParams) (raw_items ds) s = (Ok tt, s')
    /\ collection_store s' !! this = Some x'
    /\ length (collection_store s') = length (collection_store s)
    /\ Resource.collections (resource s')
       = (if forallb (fun d => truthy (raw_identity (Resource.idKey (resource s)) d)) ds
          then Resource.collections (resource s) else ∅)
    /\ Resource.idKey (resource s') = Resource.idKey (resource s).
Proof.
  intros Hvalid Hx Hds. revert s x Hvalid Hx.
  induction Hds as [|d ds Hd Hds IH]; intros s x Hvalid Hx.
  - exists s, x. by repeat split.
  - destruct (forEach_set_one_raw urls s this x getParams [d] Hvalid Hx)
      as (s2 & Hone & _ & Hvalid2); [by constructor|].
    cbn [raw_items map forEach] in Hone. unfold bind in Hone.
    destruct (Collection_set_one urls this getParams (Raw (VObj d)) s)
      as [[[]|err] s2'] eqn:Hrun; [|done].
    cbn [ret] in Hone. injection Hone as ->.
    destruct (Collection_set_one_run urls s this x getParams _ s2 Hx Hrun)
      as (l & s1 & m & Hadd & Hl & Hcs1 & HidK1 & Hcs2 & Hms2 & Hr2).
    assert (Hx2 : collection_store s2 !! this
                  = Some (filed x (dedup_key (Resource.idKey (resource s1)) m) l)).
    { rewrite Hcs2. apply list_lookup_insert_eq. by eapply lookup_lt_Some. }
    destruct (IH s2 _ Hvalid2 Hx2) as (s' & x' & Hrest & Hx' & Hlen & Hcoll & HidK).
    exists s', x'. cbn [raw_items map forEach]. rewrite (bind_Ok _ _ _ _ _ Hrun).
    split; [exact Hrest|]. split; [exact Hx'|].
    split; [by rewrite Hlen, Hcs2, length_insert|].
    assert (Hc2 : Resource.collections (resource s2)
                  = if truthy (raw_identity (Resource.idKey (resource s)) d)
                    then Resource.collections (resource s) else ∅).
    { rewrite Hr2. pose proof (addModel_raw_collections s d getParams Hd) as H.
      by rewrite Hadd in H. }
    assert (HidK2 : Resource.idKey (resource s2) = Resource.idKey (resource s))
      by (by rewrite Hr2).
    split; [|by rewrite HidK].
    rewrite Hcoll, HidK2, Hc2. cbn [forallb].
    destruct (truthy (raw_identity _ d)); [done|]. cbn [andb].
    match goal with |- (if ?b then _ else _) = _ => by destruct b end.
Qed.

(** [new Collection(getParams, data, resource, url)] on raw data. *)
Lemma Collection_new_raw s getParams ds url :
  registry_valid s ->
  Forall raw_ok ds ->
  exists s',
    Collection_new urls getParams (raw_items ds) url s
    = (Ok (length (collection_store s)), s')
    /\ length (collection_store s') = S (length (collection_store s))
    /\ Resource.collections (resource s')
       = (if forallb (fun d => truthy (raw_identity (Resource.idKey (resource s)) d)) ds
          then Resource.collections (resource s) else ∅).
Proof.
  intros Hvalid Hds. unfold Collection_new. cbn [bind gets modify].
  set (s0 := with_collections _ s).
  assert (H0 : collection_store s0 !! length (collection_store s)
               = Some (fresh_collection getParams url)).
  { unfold s0. simpl. by rewrite lookup_app_r, Nat.sub_diag. }
  unfold Collection_set_synced.
  rewrite bind_assoc, (bind_Ok _ _ _ _ _ (update_collection_Ok _ _ _ _ H0)).
  rewrite bind_ret.
  pose proof (collection_insert_lookup s0 _ _
                (Collection.set__synced false (fresh_collection getParams url)) H0) as H1.
  set (s1 := with_collections _ s0) in *.
  unfold Collection_set_new.
  rewrite bind_assoc, (bind_Ok _ _ _ _ _ (update_collection_Ok _ _ _ _ H1)).
  cbn [negb]. rewrite bind_ret.
  pose proof (collection_insert_lookup s1 _ _
                (Collection.set__new true
                   (Collection.set__synced false (fresh_collection getParams url))) H1)
    as H2.
  set (s2 := with_collections _ s1) in *.
  unfold Collection_set.
  rewrite bind_assoc, (bind_Ok _ _ _ _ _ (get_collection_Ok _ _ _ H2)).
  assert (Hvalid2 : registry_valid s2) by exact Hvalid.
  match goal with
  | |- context [forEach (Collection_set_one urls ?this ?gp) _] =>
      destruct (forEach_set_one_raw_collections s2 this _ gp ds Hvalid2 H2 Hds)
        as (s' & x' & Hrun & _ & Hlen & Hcoll & _)
  end.
  rewrite (bind_Ok _ _ _ _ _ Hrun). cbn [ret].
  exists s'. split; [reflexivity|]. split; [|exact Hcoll].
  rewrite Hlen. unfold s2, s1, s0. simpl.
  rewrite !length_insert, length_app. simpl. lia.
Qed.

Lemma createCollection_settings_kept getParams data e detailId :
  preserves settings_kept (createCollection urls getParams data e detailId).
Proof. preserves_tac. Qed.

(** [createCollection] on raw data of which one element has no identity. *)
Lemma createCollection_unsaved_run s getParams ds e detailId url :
  registry_valid s ->
  Forall raw_ok ds ->
  forallb (fun d => truthy (raw_identity (Resource.idKey (resource s)) d)) ds = false ->
  collection_url_of urls (resource s) e detailId = Some url ->
  exists s1,
    createCollection urls getParams (raw_items ds) e detailId s
    = (Ok (length (collection_store s)), s1)
    /\ length (collection_store s1) = S (length (collection_store s))
    /\ Resource.collections (resource s1) = ∅.
Proof.
  intros Hvalid Hds Hsome Hurl. unfold createCollection.
  assert (Hu : (match given e with
                | Some e0 => call_url urls e0 (if truthy detailId then detailId
                                               else VUndefined)
                | None => ret VUndefined
                end) s = (Ok url, s)).
  { unfold collection_url_of in Hurl. destruct (given e) as [n|].
    - unfold call_url. cbn [bind gets].
      destruct (urls _) as [f|]; simpl in Hurl; by simplify_eq.
    - by simplify_eq. }
  rewrite (bind_Ok _ _ _ _ _ Hu).
  rewrite (bind_Ok _ _ _ _ _ (collectionCache_run e s)).
  destruct (touch_collections_frame e s) as (Hms & Hcs & Hps & Hrq & Hlg & Hmd & HidK & Hnm).
  unfold the_idKey.
  rewrite (bind_Ok _ _ _ _ _ (eq_refl : gets _ (touch_collections e s) = (Ok _, _))).
  destruct (Collection_new_raw (touch_collections e s) getParams ds url)
    as (s1 & Hnew & Hlen & Hcoll); [|done|].
  { intros e' K l. unfold slot. rewrite Hmd, Hms. apply Hvalid. }
  rewrite HidK, Hsome, Hcs in *.
  rewrite (bind_Ok _ _ _ _ _ Hnew).
  rewrite (bind_Ok _ _ _ _ _ (collection_cache_write_run _ _ _ _)).
  rewrite bool_decide_eq_false_2 by (rewrite Hcoll, lookup_empty; by intros [? ?]).
  cbn [ret]. by exists s1.
Qed.

End Unsaved.

Section UnsavedThm.

Variable urls : string -> option (value -> value).

(** [createCollection] with raw data of which an element has no identity
    returns a Collection that the Resource does not cache: filing that element
    replaces the Resource's cache of Collections by an empty one, and the
    method's write goes to the cache object it fetched before. Every Collection
    that was cached is forgotten, and [getCollection] with the same arguments
    makes another Collection. *)
Theorem createCollection_of_unsaved_data_is_not_cached s getParams ds e detailId url :
  registry_valid s ->
  Forall raw_ok ds ->
  Exists (fun d => truthy (raw_identity (Resource.idKey (resource s)) d) = false) ds ->
  collection_url_of urls (resource s) e detailId = Some url ->
  exists c s1,
    createCollection urls getParams (raw_items ds) e detailId s = (Ok c, s1)
    /\ Resource.collections (resource s1) = ∅
    /\ (forall e' K, coll_slot s1 e' K = None)
    /\ exists c' s2,
         getCollection urls getParams e detailId s1 = (Ok c', s2) /\ c' <> c.
Proof.
  intros Hvalid Hds Hex Hurl.
  assert (Hsome : forallb (fun d => truthy (raw_identity (Resource.idKey (resource s)) d))
                          ds = false).
  { apply not_true_is_false. intros Hall.
    apply Exists_exists in Hex as (d & Hin & Hd).
    apply list_elem_of_In in Hin.
    pose proof (proj1 (forallb_forall _ _) Hall d Hin) as Hd'. simpl in Hd'.
    by rewrite Hd in Hd'. }
  destruct (createCollection_unsaved_run urls s getParams ds e detailId url
              Hvalid Hds Hsome Hurl) as (s1 & Hrun & Hlen & Hcoll).
  pose proof (createCollection_settings_kept urls _ _ _ _ _ _ _ Hrun) as (Hnm & HidK & _).
  assert (Hnone : forall e' K, coll_slot s1 e' K = None).
  { intros e' K. unfold coll_slot. by rewrite Hcoll, !lookup_empty. }
  exists (length (collection_store s)), s1.
  split; [exact Hrun|]. split; [exact Hcoll|]. split; [exact Hnone|].
  destruct (getCollection_miss urls s1 getParams e detailId url) as (s2 & Hget & _).
  { unfold collection_url_of in *. by rewrite Hnm. }
  { apply Hnone. }
  exists (length (collection_store s1)), s2. split; [exact Hget|]. lia.
Qed.

End UnsavedThm.

(** [createCollection({}, [{name: 'a'}])] on a fresh Resource. *)
Lemma createCollection_of_unsaved_data_is_not_cached_witness :
  exists s1 s2,
    createCollection urls_ex [] [Raw (VObj [("name", VStr "a")])] None VUndefined empty_ex
    = (Ok 0, s1)
    /\ getCollection urls_ex [] None VUndefined s1 = (Ok 1, s2).
Proof.
  destruct (createCollection_of_unsaved_data_is_not_cached urls_ex empty_ex []
              [[("name", VStr "a")]] None VUndefined VUndefined)
    as (c & s1 & Hrun & _ & _ & c' & s2 & Hget & _).
  - by apply registry_valid_empty.
  - repeat constructor; [apply (bool_decide_unpack _); by vm_compute | done].
  - by left.
  - reflexivity.
  - exists s1, s2. vm_compute in Hrun. injection Hrun as <- <-.
    split; [by vm_compute|]. vm_compute in Hget. by injection Hget as <- <-.
Defined.

(** ** Marking cached objects as stale *)

(** Without a detail id the key of a Collection is the key of its GET
    parameters alone. *)
Lemma collection_key_undefined idKey getParams :
  wf_obj getParams ->
  obj_lookup "detailId" getParams = None ->
  idKey <> "detailId" ->
  collection_key idKey getParams VUndefined = __cacheKey idKey [getParams].
Proof.
  intros Hwf Hnone Hne. unfold collection_key.
  destruct (cacheKey_defined_keys idKey [getParams; [("detailId", VUndefined)]])
    as (-> & Hs1 & Hnd1 & Hin1).
  { repeat constructor; [done|]. by apply not_elem_of_nil. }
  destruct (cacheKey_defined_keys idKey [getParams]) as (-> & Hs2 & Hnd2 & Hin2).
  { by repeat constructor. }
  assert (Hval : forall k,
            key_value_ idKey [getParams; [("detailId", VUndefined)]] k
            = key_value_ idKey [getParams] k).
  { intros k. unfold key_value_. cbn [merged_lookup obj_lookup].
    destruct (String.eqb_spec "detailId" k) as [<-|Hk]; [|done].
    rewrite Hnone. by destruct (String.eqb_spec "detailId" idKey). }
  assert (Hsome : forall k,
            is_Some (merged_lookup k [getParams; [("detailId", VUndefined)]])
            /\ key_value_ idKey [getParams] k <> VUndefined
            <-> is_Some (merged_lookup k [getParams])
                /\ key_value_ idKey [getParams] k <> VUndefined).
  { intros k. unfold key_value_. cbn [merged_lookup obj_lookup].
    destruct (String.eqb_spec "detailId" k) as [<-|Hk]; [|done].
    rewrite Hnone. destruct (String.eqb_spec "detailId" idKey); [done|]. simpl.
    naive_solver. }
  match goal with
  | |- ("{" +:+ join "," (omap _ (assign_keys _ ?ks1 [])) +:+ "}")%string
       = ("{" +:+ join "," (omap _ (assign_keys _ ?ks2 [])) +:+ "}")%string =>
      assert (Hks : ks1 = ks2)
  end.
  { apply (Sorted_unique key_le); [apply _..|done|done|].
    apply NoDup_Permutation; [done..|]. intros k.
    rewrite Hin1, Hin2, Hval. apply Hsome. }
  rewrite Hks. do 4 f_equal. apply assign_keys_ext. intros k _. apply Hval.
Qed.

Section UnCache.

Variable urls : string -> option (value -> value).
Variable contentCacheKey : value.

Implicit Types (s : State) (e : option string) (x : Collection.t).

Lemma Collection_set_synced_false s this x :
  collection_store s !! this = Some x ->
  Collection_set_synced this false s
  = (Ok tt, with_collections (fun cs =>
       <[this := Collection.set__synced false x]> cs) s).
Proof.
  intros Hx. unfold Collection_set_synced.
  by rewrite (bind_Ok _ _ _ _ _ (update_collection_Ok _ _ _ _ Hx)).
Qed.

Lemma unCacheModel_run s id getParams e :
  unCacheModel id getParams e s
  = match slot s e (__cacheKey (Resource.idKey (resource s))
                      [[(Resource.idKey (resource s), id)]; getParams]) with
    | Some l => update_model l (Model.set_synced false) (touch_cache e s)
    | None => (Ok tt, touch_cache e s)
    end.
Proof.
  unfold unCacheModel, the_idKey.
  rewrite (bind_Ok _ _ _ _ _ (eq_refl : gets _ s = (Ok _, s))).
  rewrite (bind_Ok _ _ _ _ _ (modelCache_run e s)).
  unfold slot. by destruct (default ∅ _ !! _).
Qed.

End UnCache.

Section UnCacheThm.

Variable urls : string -> option (value -> value).
Variable contentCacheKey : value.

(** [unCacheCollection(getParams, endpointName)] looks under the key of the
    GET parameters alone, which is the key [getCollection] files a Collection
    under when it is given no detail id. A Collection that is cached there has
    its own synced flag cleared, so that it reads as unsynced, while its
    members, the Models and the caches stay as they are; when none is cached
    nothing changes but that the cache of the endpoint exists afterwards. *)
Theorem unCacheCollection_marks_stale s getParams e :
  wf_obj getParams ->
  obj_lookup "detailId" getParams = None ->
  Resource.idKey (resource s) <> "detailId" ->
  let key := collection_key (Resource.idKey (resource s)) getParams VUndefined in
  match coll_slot s e key with
  | Some c =>
      forall x, collection_store s !! c = Some x ->
        exists s',
          unCacheCollection getParams e s = (Ok tt, s')
          /\ collection_store s' = <[c := Collection.set__synced false x]> (collection_store s)
          /\ model_store s' = model_store s /\ resource s' = resource s
          /\ (Forall (fun l => is_Some (model_store s !! l)) (Collection.models x) ->
              Collection_get_synced c s' = (Ok false, s'))
  | None => unCacheCollection getParams e s = (Ok tt, touch_collections e s)
  end.
Proof.
  intros Hwf Hnone Hne key.
  assert (Hkey : key = __cacheKey (Resource.idKey (resource s)) [getParams])
    by (by apply collection_key_undefined).
  unfold unCacheCollection, the_idKey.
  rewrite (bind_Ok _ _ _ _ _ (eq_refl : gets _ s = (Ok _, s))).
  rewrite (bind_Ok _ _ _ _ _ (collectionCache_run e s)).
  rewrite <- Hkey. fold (coll_slot s e key).
  destruct (coll_slot s e key) as [c|] eqn:Hslot; [|done].
  intros x Hx.
  assert (Hid : touch_collections e s = s).
  { apply touch_collections_id. unfold coll_slot in Hslot.
    destruct (Resource.collections (resource s) !! __cacheName e); [done|].
    simpl in Hslot. by rewrite lookup_empty in Hslot. }
  rewrite Hid, (Collection_set_synced_false s c x Hx).
  eexists. split; [reflexivity|]. do 3 (split; [done|]).
  intros Hmembers. unfold Collection_get_synced.
  erewrite bind_Ok by (apply get_collection_Ok; eapply collection_insert_lookup; exact Hx).
  destruct (get_models_Ok (with_collections
              (fun cs => <[c := Collection.set__synced false x]> cs) s)
              (Collection.models x) Hmembers) as (ms & Hms & _).
  cbn [Collection.models Collection.set__synced].
  rewrite (bind_Ok _ _ _ _ _ Hms). cbn [ret Collection._synced].
  by rewrite fold_left_andb.
Qed.

(** After [unCacheModel(id, getParams)] the next [fetchModel] of that
    identity goes to the server, although it is not forced and the Model was
    synced: the Model the cache holds is marked unsynced, and the callback of
    the fetch sends the request. *)
Theorem unCacheModel_then_fetch_requests s id getParams l m detail :
  id <> "" ->
  slot s None (identity_key s id getParams) = Some l ->
  model_store s !! l = Some m ->
  Model.promises m = [] ->
  urls (Resource.name (resource s) +:+ "_detail") = Some detail ->
  let h := length (promise_store s) in
  let m1 := Model.set_promises [h] (Model.set_synced false m) in
  exists s1 s2 s3,
    unCacheModel (VStr id) getParams None s = (Ok tt, s1)
    /\ model_store s1 = <[l := Model.set_synced false m]> (model_store s)
    /\ fetchModel urls (VStr id) getParams false s1 = (Ok h, s2)
    /\ step urls contentCacheKey (PriorSettled h) s2 = Some s3
    /\ requests s3
       = (requests s ++ [fetch_request (resource s) contentCacheKey m1 detail])%list
    /\ promise_store s3 !! h
       = Some (Promise.mk (ModelFetch l false) AwaitingClient Pending).
Proof.
  intros Hid Hslot Hm Hps Hdetail h m1.
  rewrite unCacheModel_run.
  change (__cacheKey _ _) with (identity_key s id getParams). rewrite Hslot.
  assert (Htouch : touch_cache None s = s).
  { unfold touch_cache. unfold slot in Hslot.
    destruct (Resource.models (resource s) !! __cacheName None); [done|].
    simpl in Hslot. by rewrite lookup_empty in Hslot. }
  rewrite Htouch, (update_model_Ok _ _ _ _ Hm).
  set (s1 := with_models _ s).
  pose proof (model_insert_lookup s l m (Model.set_synced false m) Hm) as Hm1.
  fold s1 in Hm1.
  exists s1. unfold fetchModel. rewrite truthy_VStr by done. cbn [negb].
  assert (Hslot1 : slot s1 None (identity_key s1 id getParams) = Some l) by exact Hslot.
  rewrite (bind_Ok _ _ _ _ _ (getModel_cached urls s1 None id getParams l Hslot1)).
  cbn [on_model]. unfold Model_fetch.
  rewrite (start_on_model_run s1 l _ (ModelFetch l false) Hm1).
  cbn [Model.promises Model.set_synced]. rewrite Hps.
  change (Promise_all (promise_store s1) []) with PriorResolved.
  change (length (promise_store s1)) with h. cbn [app].
  set (s2 := with_models _ (with_promises _ s1)).
  assert (Hdue : due s2 h (ModelFetch l false) PriorResolved).
  { unfold due, s2. simpl. by rewrite lookup_app_r, Nat.sub_diag. }
  assert (Hm2 : model_store s2 !! l = Some m1).
  { unfold s2. simpl. apply list_lookup_insert_eq.
    rewrite length_insert. by eapply lookup_lt_Some. }
  exists s2. rewrite (step_prior_resolved _ _ _ _ _ Hdue).
  rewrite (fetch_callback_request urls contentCacheKey s2 h l false m1 detail Hm2
             Hdetail eq_refl).
  eexists. split; [reflexivity|]. split; [done|]. split; [reflexivity|].
  split; [reflexivity|]. split; [done|].
  by eapply set_stage_lookup.
Qed.

End UnCacheThm.

(** A Collection cached for [{page: 1}] is marked stale. *)
Lemma unCacheCollection_marks_stale_witness :
  exists s',
    unCacheCollection [("page", VNum 1)] None cached_collection_ex = (Ok tt, s')
    /\ Collection._synced <$> collection_store s' !! 0 = Some false.
Proof.
  pose proof (unCacheCollection_marks_stale cached_collection_ex [("page", VNum 1)] None)
    as H.
  destruct (H ltac:(apply (bool_decide_unpack _); by vm_compute) eq_refl ltac:(done)
              (Collection.mk [("page", VNum 1)] [] ∅ VUndefined true false None [])
              eq_refl) as (s' & Hrun & Hcs & _).
  exists s'. split; [exact Hrun|]. by rewrite Hcs.
Defined.

(** The synced Model with identity 9, cached, is fetched again. *)
Lemma unCacheModel_then_fetch_requests_witness :
  exists s1 s2 s3,
    unCacheModel (VStr "9") [] None cached_model_ex = (Ok tt, s1)
    /\ fetchModel urls_ex (VStr "9") [] false s1 = (Ok 0, s2)
    /\ step urls_ex VNull (PriorSettled 0) s2 = Some s3
    /\ length (requests s3) = 1.
Proof.
  destruct (unCacheModel_then_fetch_requests urls_ex VNull cached_model_ex "9" [] 0 _ _
              ltac:(done) eq_refl eq_refl eq_refl eq_refl)
    as (s1 & s2 & s3 & H1 & _ & H2 & H3 & Hq & _).
  exists s1, s2, s3. split; [exact H1|]. split; [exact H2|]. split; [exact H3|].
  by rewrite Hq.
Defined.

(** ** The response to a delete *)

Section ModelDelete.

Variable urls : string -> option (value -> value).
Variable contentCacheKey : value.

Implicit Types (s : State) (h : handle) (m : Model.t) (e : option string).

Lemma model_cache_delete_slot e K s e' K' :
  slot (snd (model_cache_update e (delete K) s)) e' K'
  = if decide (__cacheName e = __cacheName e' /\ K = K') then None else slot s e' K'.
Proof.
  unfold model_cache_update, modify, slot. simpl.
  destruct (decide (__cacheName e = __cacheName e')) as [Heq|Hne].
  - rewrite <- Heq, lookup_insert_eq. simpl.
    destruct (decide (K = K')) as [->|HK].
    + rewrite lookup_delete_eq. by rewrite decide_True.
    + rewrite lookup_delete_ne by done. rewrite decide_False; [done|]. by intros [_ ?].
  - rewrite lookup_insert_ne by done. rewrite decide_False; [done|]. by intros [? _].
Qed.

(** [removeModel(model)] *)
Lemma removeModel_run s this m :
  model_store s !! this = Some m ->
  exists s1,
    removeModel this s = (Ok tt, s1)
    /\ model_store s1 = model_store s /\ collection_store s1 = collection_store s
    /\ promise_store s1 = promise_store s
    /\ requests s1 = requests s /\ log s1 = log s
    /\ Resource.idKey (resource s1) = Resource.idKey (resource s)
    /\ Resource.collections (resource s1) = Resource.collections (resource s)
    /\ forall e K,
         slot s1 e K
         = if decide (__cacheName None = __cacheName e
                      /\ model_key (Resource.idKey (resource s)) m = K)
           then None else slot s e K.
Proof.
  intros Hm. unfold removeModel, the_idKey.
  rewrite (bind_Ok _ _ _ _ _ (eq_refl : gets _ s = (Ok _, s))).
  rewrite (bind_Ok _ _ _ _ _ (get_model_Ok _ _ _ Hm)).
  rewrite (bind_Ok _ _ _ _ _ (modelCache_run None s)).
  fold (model_key (Resource.idKey (resource s)) m).
  exists (snd (model_cache_update None
                 (delete (model_key (Resource.idKey (resource s)) m))
                 (touch_cache None s))).
  split; [reflexivity|].
  destruct (touch_cache_frame None s) as (Hms & HidK & Hname & Hcs).
  split; [done|]. split; [done|].
  assert (Hrest : promise_store (touch_cache None s) = promise_store s
                  /\ requests (touch_cache None s) = requests s
                  /\ log (touch_cache None s) = log s
                  /\ Resource.collections (resource (touch_cache None s))
                     = Resource.collections (resource s)).
  { unfold touch_cache.
    by destruct (Resource.models (resource s) !! __cacheName None). }
  destruct Hrest as (Hps & Hrq & Hlg & Hcl).
  do 5 (split; [done|]).
  intros e K. by rewrite model_cache_delete_slot, touch_cache_slot.
Qed.

Lemma omap_cons {A B} (f : A -> option B) (x : A) (l : list A) :
  omap f (x :: l) = match f x with
                    | Some y => y :: omap f l
                    | None => omap f l
                    end.
Proof. reflexivity. Qed.

Lemma live_data_frame s s' (ls : list loc) :
  (forall l, l ∈ ls -> model_store s' !! l = model_store s !! l) ->
  live_data s' ls = live_data s ls.
Proof.
  intros H. unfold live_data. induction ls as [|l ls IH]; [done|].
  rewrite omap_cons.
  rewrite (H l) by left. rewrite IH; [done|]. intros l' Hl'. apply H. by right.
Qed.

(** A Model that is marked deleted drops out of the data. *)
Lemma live_data_deleted s s' this m' (ls : list loc) :
  model_store s' !! this = Some m' -> Model.deleted m' = true ->
  (forall l, l <> this -> model_store s' !! l = model_store s !! l) ->
  live_data s' ls = live_data s (filter (fun l => l <> this) ls).
Proof.
  intros Hthis Hdel Hother. unfold live_data. induction ls as [|l ls IH]; [done|].
  rewrite omap_cons.
  rewrite filter_cons. destruct (decide (l <> this)) as [Hne|Heq].
  - rewrite omap_cons.
    by rewrite (Hother l Hne), IH.
  - apply dec_stable in Heq. subst l. by rewrite Hthis, Hdel.
Qed.

(** [collection.data] on a Collection without metadata. *)
Lemma Collection_data_live s c x :
  collection_store s !! c = Some x ->
  Collection.metadata x = None ->
  Forall (fun l => is_Some (model_store s !! l)) (Collection.models x) ->
  Collection_data c s = (Ok (VArr (live_data s (Collection.models x))), s).
Proof.
  intros Hx Hmeta Hvalid. unfold Collection_data.
  rewrite (bind_Ok _ _ _ _ _ (get_collection_Ok _ _ _ Hx)).
  destruct (get_models_Ok s (Collection.models x) Hvalid) as (ms & Hms & Hall).
  rewrite (bind_Ok _ _ _ _ _ Hms). rewrite Hmeta. unfold ret. do 3 f_equal.
  unfold live_data. clear Hms Hvalid.
  induction Hall as [|l m ls ms Hl _ IH]; [done|].
  rewrite omap_cons.
  rewrite Hl, filter_cons.
  destruct (Model.deleted m); simpl; [done|]. by rewrite IH.
Qed.

(** The state the answer to a [delete] leaves. *)
Lemma delete_response_run s h this m response :
  due s h (ModelDelete this) AwaitingClient ->
  model_store s !! this = Some m ->
  let idKey := Resource.idKey (resource s) in
  exists s',
    conclude h (on_response urls h (ModelDelete this) response s) = s'
    /\ model_store s' = <[this := removed m h]> (model_store s)
    /\ promise_store s'
       = promise_store
           (set_stage h Finished
              (with_promises (fun ps =>
                 notify h (Resolved (Model_id idKey m))
                   <$> <[h := Promise.mk (ModelDelete this) AwaitingClient
                                (Resolved (Model_id idKey m))]> ps) s))
    /\ collection_store s' = collection_store s
    /\ requests s' = requests s /\ log s' = log s
    /\ Resource.collections (resource s') = Resource.collections (resource s)
    /\ forall e K,
         slot s' e K
         = if decide (__cacheName None = __cacheName e /\ model_key idKey m = K)
           then None else slot s e K.
Proof.
  intros Hdue Hm idKey. cbn [on_response]. unfold the_idKey.
  rewrite (bind_Ok _ _ _ _ _ (eq_refl : gets _ s = (Ok _, s))).
  destruct (removeModel_run s this m Hm)
    as (s1 & Hrun & Hms1 & Hcs1 & Hps1 & Hrq1 & Hlg1 & HidK1 & Hcl1 & Hslot1).
  rewrite (bind_Ok _ _ _ _ _ Hrun).
  assert (Hm1 : model_store s1 !! this = Some m) by (by rewrite Hms1).
  run_update Hm1 Hm2 s2. run_update Hm2 Hm3 s3. run_update Hm3 Hm4 s4.
  rewrite (bind_Ok _ _ _ _ _ (get_model_Ok _ _ _ Hm4)).
  assert (Hdue4 : due s4 h (ModelDelete this) AwaitingClient)
    by (unfold due; simpl; by rewrite Hps1).
  unfold resolve. rewrite (bind_Ok _ _ _ _ _ (settle_run _ _ _ _ _ Hdue4)).
  set (s5 := with_promises _ s4).
  assert (Hm5 : model_store s5 !! this = model_store s4 !! this) by done.
  rewrite Hm4 in Hm5.
  unfold cleanup_model. rewrite (bind_Ok _ _ _ _ _ (update_model_Ok _ _ _ _ Hm5)).
  cbn [ret conclude].
  eexists. split; [reflexivity|].
  split; [simpl; by rewrite Hms1, !list_insert_insert_eq|].
  split; [simpl; by rewrite Hps1|].
  split; [simpl; by rewrite Hcs1|].
  split; [simpl; by rewrite Hrq1|].
  split; [simpl; by rewrite Hlg1|].
  split; [simpl; by rewrite Hcl1|].
  intros e K. rewrite <- Hslot1. reflexivity.
Qed.

End ModelDelete.

Section ModelDeleteThm.

Variable urls : string -> option (value -> value).
Variable contentCacheKey : value.

(** When the transport confirms a [delete], the Model is taken out of the
    default cache under the key of its identity and GET parameters (the caches
    of the other endpoints are not looked at), marked deleted, unsynced and
    new, and the promise resolves with the identity. The Collections keep the
    Model as a member, but their data no longer lists it. *)
Theorem Model_delete_response s h this m response :
  due s h (ModelDelete this) AwaitingClient ->
  model_store s !! this = Some m ->
  let idKey := Resource.idKey (resource s) in
  exists s', step urls contentCacheKey (ClientResolved h response) s = Some s'
    /\ model_store s' = <[this := removed m h]> (model_store s)
    /\ settled_from s s' h (ModelDelete this) (Resolved (Model_id idKey m))
    /\ slot s' None (model_key idKey m) = None
    /\ (forall e K, ~ (__cacheName None = __cacheName e /\ model_key idKey m = K) ->
                    slot s' e K = slot s e K)
    /\ collection_store s' = collection_store s
    /\ requests s' = requests s /\ log s' = log s
    /\ forall c x,
         collection_store s !! c = Some x ->
         Collection.metadata x = None ->
         Forall (fun l => is_Some (model_store s !! l)) (Collection.models x) ->
         Collection_data c s'
         = (Ok (VArr (live_data s (filter (fun l => l <> this) (Collection.models x)))), s').
Proof.
  intros Hdue Hm idKey.
  rewrite (step_client_resolved _ _ _ _ _ _ Hdue).
  destruct (delete_response_run urls s h this m response Hdue Hm)
    as (s' & -> & Hms & Hp & Hcs & Hq & Hl & _ & Hslot).
  fold idKey in Hp, Hslot.
  exists s'. split; [done|]. split; [done|].
  split; [by eapply settled_from_finish|].
  split; [by rewrite Hslot, decide_True|].
  split; [intros e K Hne; by rewrite Hslot, decide_False|].
  do 3 (split; [done|]).
  intros c x Hx Hmeta Hvalid.
  assert (Hthis : model_store s' !! this = Some (removed m h)).
  { rewrite Hms. apply list_lookup_insert_eq. by eapply lookup_lt_Some. }
  assert (Hx' : collection_store s' !! c = Some x) by (by rewrite Hcs).
  assert (Hvalid' : Forall (fun l => is_Some (model_store s' !! l)) (Collection.models x)).
  { eapply Forall_impl; [exact Hvalid|]. intros l [ml Hl']. simpl.
    destruct (decide (l = this)) as [->|Hne]; [by rewrite Hthis|].
    by rewrite Hms, list_lookup_insert_ne, Hl'. }
  rewrite (Collection_data_live s' c x Hx' Hmeta Hvalid').
  do 3 f_equal. apply (live_data_deleted s s' this (removed m h)); [done..|].
  intros l Hne. by rewrite Hms, list_lookup_insert_ne.
Qed.

End ModelDeleteThm.

(** The Model of the example is deleted: it leaves the cache, and the data
    of the Collection that holds it is empty. *)
Lemma Model_delete_response_witness :
  exists s',
    step urls_ex VNull (ClientResolved 0 []) deleting_ex = Some s'
    /\ slot s' None (__cacheKey "id" [[("id", VStr "9")]]) = None
    /\ Collection_data 0 s' = (Ok (VArr []), s').
Proof.
  destruct (Model_delete_response urls_ex VNull deleting_ex 0 0 _ [] eq_refl eq_refl)
    as (s' & Hstep & _ & _ & Hslot & _ & _ & _ & _ & Hdata).
  exists s'. split; [exact Hstep|]. split; [exact Hslot|].
  apply (Hdata 0 _ eq_refl eq_refl). repeat constructor. by eexists.
Defined.

(** ** The response to a save *)

#[global] Instance effects_kept_preorder : PreOrder effects_kept.
Proof.
  split; [by intros s|]. unfold effects_kept.
  intros s1 s2 s3 (?&?&?) (?&?&?). repeat split; congruence.
Qed.

Section ModelSave.

Variable urls : string -> option (value -> value).
Variable contentCacheKey : value.

Implicit Types (s : State) (h : handle) (m : Model.t) (e : option string) (d : obj).

Lemma addModel_effects_kept x getParams e :
  preserves effects_kept (addModel urls x getParams e).
Proof. preserves_tac. Qed.

(** An identity a response brings is a string that is not empty. *)
Lemma newly_identified_string idKey m d :
  wf_obj d ->
  newly_identified idKey m d = true ->
  exists id, obj_get (Object_assign (Model.attributes m) (stringified idKey d)) idKey
             = VStr id /\ id <> "".
Proof.
  intros Hwf. unfold newly_identified, Model_id, obj_get.
  rewrite Object_assign_lookup by (by apply stringified_wf).
  rewrite stringified_lookup, decide_True by done.
  intros [Hold Hnew]%andb_true_iff. apply negb_true_iff in Hold.
  destruct (obj_lookup idKey d) as [v|]; simpl in *.
  - destruct (truthy v) eqn:Hv; [|by rewrite Hv in Hnew].
    exists (String_ v). split; [done|]. intros Heq. simpl in Hnew.
    by rewrite Heq in Hnew.
  - by rewrite Hold in Hnew.
Qed.

(** The state the answer to a [save] leaves. *)
Lemma save_response_run s h this attrs exists_ m response d :
  due s h (ModelSave this attrs exists_) AwaitingClient ->
  model_store s !! this = Some m ->
  obj_get response "data" = VObj d ->
  wf_obj d ->
  let idKey := Resource.idKey (resource s) in
  let m' := refreshed idKey m d h in
  (newly_identified idKey m d = true -> slot s None (model_key idKey m') = None) ->
  exists s',
    conclude h (on_response urls h (ModelSave this attrs exists_) response s) = s'
    /\ model_store s' = <[this := m']> (model_store s)
    /\ promise_store s'
       = promise_store
           (set_stage h Finished
              (with_promises (fun ps =>
                 notify h (Resolved (VObj (Model.attributes m')))
                   <$> <[h := Promise.mk (ModelSave this attrs exists_) AwaitingClient
                                (Resolved (VObj (Model.attributes m')))]> ps) s))
    /\ collection_store s' = collection_store s
    /\ requests s' = requests s /\ log s' = log s
    /\ Resource.idKey (resource s') = idKey
    /\ forall e K,
         slot s' e K
         = if newly_identified idKey m d
              && bool_decide (__cacheName None = __cacheName e /\ model_key idKey m' = K)
           then Some this else slot s e K.
Proof.
  intros Hdue Hm Hdata Hwf idKey m' Hfree. cbn [on_response]. unfold the_idKey.
  rewrite (bind_Ok _ _ _ _ _ (eq_refl : gets _ s = (Ok _, s))).
  rewrite (bind_Ok _ _ _ _ _ (get_model_Ok _ _ _ Hm)). rewrite Hdata.
  rewrite (bind_Ok _ _ _ _ _ (Model_set_caller _ _ _ _ Hm)).
  match goal with
  | |- context [with_models (fun ms => <[?l := ?m1]> ms) ?s0] =>
      pose proof (model_insert_lookup s0 l _ m1 Hm) as Hm1;
      set (s1 := with_models (fun ms => <[l := m1]> ms) s0) in *
  end.
  rewrite (bind_Ok _ _ _ _ _ (get_model_Ok _ _ _ Hm1)).
  fold idKey.
  change (Model_id idKey (Model.set_attributes ?a m)) with (obj_get a idKey).
  fold (newly_identified idKey m d).
  (* the registration, if any *)
  assert (Hreg : exists s2,
    (if newly_identified idKey m d
     then addModel urls (Ref this)
            (Model.getParams (Model.set_attributes
               (Object_assign (Model.attributes m) (stringified idKey d)) m)) None ;;
          ret tt
     else ret tt) s1 = (Ok tt, s2)
    /\ model_store s2 = model_store s1 /\ collection_store s2 = collection_store s1
    /\ effects_kept s1 s2
    /\ Resource.idKey (resource s2) = idKey
    /\ forall e K,
         slot s2 e K
         = if newly_identified idKey m d
              && bool_decide (__cacheName None = __cacheName e /\ model_key idKey m' = K)
           then Some this else slot s e K).
  { destruct (newly_identified idKey m d) eqn:Hnew.
    - destruct (newly_identified_string idKey m d Hwf Hnew) as (id & Hid & Hne).
      assert (Hkey : identity_key s1 id (Model.getParams m) = model_key idKey m').
      { unfold identity_key, model_key, m', Model_id. simpl. fold idKey.
        by rewrite Hid. }
      destruct (addModel_instance_miss s1 None this _ id Hm1 Hid Hne)
        as (s2 & Hrun & Hms2 & HidK2 & _ & Hcs2 & Hslot2).
      { simpl. rewrite Hkey. by apply Hfree. }
      cbn [addModel]. rewrite (bind_Ok _ _ _ _ _ Hrun). exists s2.
      split; [done|]. split; [done|]. split; [done|].
      split; [exact (addModel_effects_kept (Ref this) [] None _ _ _ Hrun)|].
      split; [exact HidK2|].
      intros e K. rewrite Hslot2. cbn [Model.getParams Model.set_attributes].
      rewrite Hkey. cbn [andb].
      destruct (decide (_ /\ _)).
      + by rewrite bool_decide_eq_true_2.
      + by rewrite bool_decide_eq_false_2.
    - exists s1. by repeat split. }
  destruct Hreg as (s2 & Hrun & Hms2 & Hcs2 & (Hps2 & Hrq2 & Hlg2) & HidK2 & Hslot2).
  rewrite (bind_Ok _ _ _ _ _ Hrun).
  assert (Hm2 : model_store s2 !! this = model_store s1 !! this) by (by rewrite Hms2).
  rewrite Hm1 in Hm2.
  run_update Hm2 Hm3 s3. run_update Hm3 Hm4 s4.
  rewrite (bind_Ok _ _ _ _ _ (get_model_Ok _ _ _ Hm4)).
  assert (Hdue4 : due s4 h (ModelSave this attrs exists_) AwaitingClient)
    by (unfold due; simpl; by rewrite Hps2).
  unfold resolve. rewrite (bind_Ok _ _ _ _ _ (settle_run _ _ _ _ _ Hdue4)).
  set (s5 := with_promises _ s4).
  assert (Hm5 : model_store s5 !! this = model_store s4 !! this) by done.
  rewrite Hm4 in Hm5.
  unfold cleanup_model. rewrite (bind_Ok _ _ _ _ _ (update_model_Ok _ _ _ _ Hm5)).
  cbn [ret conclude].
  eexists. split; [reflexivity|].
  split; [simpl; by rewrite Hms2; simpl; rewrite !list_insert_insert_eq|].
  split; [simpl; by rewrite Hps2|].
  split; [simpl; by rewrite Hcs2|].
  split; [simpl; by rewrite Hrq2|].
  split; [simpl; by rewrite Hlg2|].
  split; [exact HidK2|].
  intros e K. rewrite <- Hslot2. reflexivity.
Qed.

End ModelSave.

Section ModelSaveThm.

Variable urls : string -> option (value -> value).
Variable contentCacheKey : value.

(** When the transport answers a [save] with an object, the object is merged
    into the attributes, the Model becomes synced and not new, and the promise
    resolves with a copy of the merged attributes. A Model that had no
    identity and takes one from the response is filed in the default cache
    under the key of that identity and its GET parameters, where [getModel]
    finds it from then on (the cache is taken to hold no Model under that
    key); in every other case the registry stays as it is. *)
Theorem Model_save_response s h this attrs exists_ m response d :
  due s h (ModelSave this attrs exists_) AwaitingClient ->
  model_store s !! this = Some m ->
  obj_get response "data" = VObj d ->
  wf_obj d ->
  let idKey := Resource.idKey (resource s) in
  let m' := refreshed idKey m d h in
  (newly_identified idKey m d = true -> slot s None (model_key idKey m') = None) ->
  exists s', step urls contentCacheKey (ClientResolved h response) s = Some s'
    /\ model_store s' = <[this := m']> (model_store s)
    /\ Model.synced m' = true /\ Model.new m' = false
    /\ settled_from s s' h (ModelSave this attrs exists_)
                    (Resolved (VObj (Model.attributes m')))
    /\ collection_store s' = collection_store s
    /\ requests s' = requests s /\ log s' = log s
    /\ (forall e K,
          slot s' e K
          = if newly_identified idKey m d
               && bool_decide (__cacheName None = __cacheName e /\ model_key idKey m' = K)
            then Some this else slot s e K)
    /\ (newly_identified idKey m d = true ->
        exists id, Model_id idKey m' = VStr id /\ id <> ""
          /\ getModel urls (VStr id) (Model.getParams m) None s' = (Ok (Some this), s')).
Proof.
  intros Hdue Hm Hdata Hwf idKey m' Hfree.
  rewrite (step_client_resolved _ _ _ _ _ _ Hdue).
  destruct (save_response_run urls s h this attrs exists_ m response d Hdue Hm Hdata Hwf
              Hfree) as (s' & -> & Hms & Hp & Hcs & Hq & Hl & HidK & Hslot).
  fold idKey m' in Hms, Hp, Hslot, HidK.
  exists s'. split; [done|]. split; [done|]. split; [done|]. split; [done|].
  split; [by eapply settled_from_finish|].
  do 4 (split; [done|]).
  intros Hnew. destruct (newly_identified_string idKey m d Hwf Hnew) as (id & Hid & Hne).
  exists id. split; [exact Hid|]. split; [exact Hne|].
  apply getModel_cached. rewrite Hslot, Hnew. cbn [andb].
  rewrite bool_decide_eq_true_2; [done|]. split; [done|].
  unfold identity_key, model_key, m', Model_id. rewrite HidK. simpl. fold idKey.
  by rewrite Hid.
Qed.

End ModelSaveThm.

(** The server gives the saved Model the identity 5. *)
Lemma Model_save_response_witness :
  exists s',
    step urls_ex VNull
         (ClientResolved 0 [("data", VObj [("id", VNum 5); ("name", VStr "a")])]) saving_ex
    = Some s'
    /\ getModel urls_ex (VStr "5") [] None s' = (Ok (Some 0), s').
Proof.
  destruct (Model_save_response urls_ex VNull saving_ex 0 0 None false _
              [("data", VObj [("id", VNum 5); ("name", VStr "a")])] _
              eq_refl eq_refl eq_refl
              ltac:(apply (bool_decide_unpack _); by vm_compute)
              ltac:(intros _; reflexivity))
    as (s' & Hstep & _ & _ & _ & _ & _ & _ & _ & _ & Hget).
  exists s'. split; [exact Hstep|].
  destruct (Hget eq_refl) as (id & Hid & _ & Hg).
  vm_compute in Hid. injection Hid as <-. exact Hg.
Defined.

(** ** A transport failure *)

Section TransportFailure.

Variable urls : string -> option (value -> value).
Variable contentCacheKey : value.

Implicit Types (s : State) (h : handle) (o : operation).



End TransportFailure.

Section TransportFailureThm.

Variable urls : string -> option (value -> value).
Variable contentCacheKey : value.


End TransportFailureThm.


(** ** A callback that throws *)

Section Thrown.

Variable urls : string -> option (value -> value).
Variable contentCacheKey : value.

Implicit Types (s : State) (h : handle) (o : operation).

#[global] Instance thrown_kept_preorder h : PreOrder (thrown_kept h).
Proof.
  split.
  - by intros s p e.
  - intros s1 s2 s3 H12 H23 p e Hp Hst. eapply H23; [|done]. by eapply H12.
Qed.

Lemma settle_thrown_kept h h' outcome :
  h' <> h -> preserves (thrown_kept h) (settle h' outcome).
Proof.
  intros Hne s r s' H. unfold settle in H.
  destruct (promise_store s !! h') as [p'|] eqn:Ep.
  2:{ unfold get_promise, gets, bind, of_option in H. rewrite Ep in H.
      by injection H as <- <-. }
  rewrite (bind_Ok _ _ _ _ _ (get_promise_Ok _ _ _ Ep)) in H.
  destruct (Promise.state p') eqn:Est; injection H as <- <-; try done.
  intros p e Hp Hst. simpl.
  rewrite list_lookup_fmap, list_lookup_insert_ne, Hp by done. simpl. f_equal.
  destruct p as [o0 st0 out0]. simpl in Hst. subst st0.
  by apply notify_other_stage.
Qed.

Lemma callbacks_thrown_kept h h' :
  h' <> h ->
  (forall o, preserves (thrown_kept h) (on_prior_resolved urls contentCacheKey h' o))
  /\ (forall reason, preserves (thrown_kept h) (on_prior_rejected h' reason))
  /\ (forall o response, preserves (thrown_kept h) (on_response urls h' o response))
  /\ (forall o response, preserves (thrown_kept h) (on_error h' o response)).
Proof.
  intros Hne.
  assert (Hsettle : forall outcome, preserves (thrown_kept h) (settle h' outcome))
    by (intros outcome; by apply settle_thrown_kept).
  split; [|split; [|split]]; intros; try destruct o;
    repeat first [ apply preserves_modify; intros ?; solve [by intros ? ? ? ?]
                 | preserves_step ].
Qed.

Lemma conclude_thrown_kept s h h' (c : M stage) :
  h' <> h -> preserves (thrown_kept h) c -> thrown_kept h s (conclude h' (c s)).
Proof.
  intros Hne Hc p e Hp Hst.
  destruct (c s) as [[st|err] s1] eqn:E; cbn [conclude];
    rewrite set_stage_other by done; by eapply Hc.
Qed.

(** No event changes a promise one of whose callbacks threw. *)
Lemma step_thrown_kept h ev s s' :
  step urls contentCacheKey ev s = Some s' -> thrown_kept h s s'.
Proof.
  intros Hstep.
  destruct (decide (event_promise ev = h)) as [Heq|Hne].
  - intros p e Hp Hst. rewrite <- Heq in Hp.
    rewrite (step_not_due urls contentCacheKey s ev p Hp) in Hstep; [done|].
    by rewrite Hst.
  - destruct (callbacks_thrown_kept h (event_promise ev) Hne) as (H1 & H2 & H3 & H4).
    unfold step in Hstep. destruct ev as [h'|h' response|h' response]; simpl in *;
      destruct (promise_store s !! h') as [p'|]; try done;
      destruct (Promise.stage_ p'); try done; injection Hstep as <-;
      by apply conclude_thrown_kept.
Qed.

Lemma run_thrown_kept h evs s s' :
  run urls contentCacheKey evs s = Some s' -> thrown_kept h s s'.
Proof.
  revert s. induction evs as [|ev evs IH]; intros s; simpl.
  - by intros [= <-].
  - destruct (step urls contentCacheKey ev s) as [s1|] eqn:E; [|done].
    intros H. etransitivity; [by eapply step_thrown_kept | by apply IH].
Qed.

(** A promise one of whose callbacks threw stays pending, and none of its
    callbacks is due again. *)
Lemma thrown_forever s h o e :
  promise_store s !! h = Some (Promise.mk o (Threw e) Pending) ->
  forall evs s',
    run urls contentCacheKey evs s = Some s' ->
    promise_store s' !! h = Some (Promise.mk o (Threw e) Pending)
    /\ forall ev, event_promise ev = h -> step urls contentCacheKey ev s' = None.
Proof.
  intros Hp evs s' Hrun.
  pose proof (run_thrown_kept h _ _ _ Hrun _ e Hp eq_refl) as Hp'.
  split; [done|]. intros ev Hev.
  eapply step_not_due; [by rewrite Hev|done].
Qed.

Lemma Collection_set_effects_kept this items :
  preserves effects_kept (Collection_set urls this items).
Proof. preserves_tac. Qed.

End Thrown.

Section ThrownThm.

Variable urls : string -> option (value -> value).
Variable contentCacheKey : value.

(** [save()] without attributes on a synced Model never settles: the dirty
    check reads the keys of [undefined], the callback throws, and the promise
    stays pending whatever events follow, with none of its callbacks due
    again. No request is sent and no Model, Collection or cache changes; the
    promise stays in the Model's list of promises. *)
Theorem save_without_attributes_when_synced_hangs s h this exists_ m :
  due s h (ModelSave this None exists_) PriorResolved ->
  model_store s !! this = Some m ->
  Model.synced m = true ->
  exists s' msg,
    step urls contentCacheKey (PriorSettled h) s = Some s'
    /\ promise_store s' !! h
       = Some (Promise.mk (ModelSave this None exists_) (Threw (TypeError msg)) Pending)
    /\ same_data s s'
    /\ collection_store s' = collection_store s
    /\ forall evs s'',
         run urls contentCacheKey evs s' = Some s'' ->
         promise_store s'' !! h
         = Some (Promise.mk (ModelSave this None exists_) (Threw (TypeError msg)) Pending)
         /\ forall ev, event_promise ev = h -> step urls contentCacheKey ev s'' = None.
Proof.
  intros Hdue Hm Hsync.
  rewrite (step_prior_resolved _ _ _ _ _ Hdue). cbn [on_prior_resolved].
  rewrite (bind_Ok _ _ _ _ _ (get_model_Ok _ _ _ Hm)).
  unfold save_payload. rewrite Hsync. cbn [of_result bind throw conclude].
  eexists. eexists. split; [reflexivity|].
  assert (Hp : promise_store (set_stage h (Threw (TypeError
                 "Cannot convert undefined or null to object")) s) !! h
               = Some (Promise.mk (ModelSave this None exists_)
                         (Threw (TypeError "Cannot convert undefined or null to object"))
                         Pending))
    by (by eapply set_stage_lookup).
  split; [exact Hp|]. split; [done|]. split; [done|].
  by apply thrown_forever.
Qed.

(** When the transport answers a Collection's [fetch] with an array of which
    an element is one the Model constructor refuses, the callback throws after
    it has cleared the members and filed the elements in front of that one:
    the promise never settles, whatever events follow, and stays in the
    Collection's list of promises; the Collection is left with the members
    filed so far and is not marked synced. *)
Theorem fetch_response_with_refused_element_hangs s h this force x response ds bad rest :
  due s h (CollectionFetch this force) AwaitingClient ->
  registry_valid s ->
  collection_store s !! this = Some x ->
  Forall raw_ok ds ->
  constructible bad = false ->
  obj_get response "data" = VArr (map VObj ds ++ bad :: rest) ->
  exists s1 s' msg,
    Collection_set urls this (raw_items ds) (cleared this x s) = (Ok tt, s1)
    /\ step urls contentCacheKey (ClientResolved h response) s = Some s'
    /\ promise_store s' !! h
       = Some (Promise.mk (CollectionFetch this force) (Threw (TypeError msg)) Pending)
    /\ collection_store s' = collection_store s1
    /\ model_store s' = model_store s1
    /\ resource s' = resource s1
    /\ requests s' = requests s /\ log s' = log s
    /\ forall evs s'',
         run urls contentCacheKey evs s' = Some s'' ->
         promise_store s'' !! h
         = Some (Promise.mk (CollectionFetch this force) (Threw (TypeError msg)) Pending)
         /\ forall ev, event_promise ev = h -> step urls contentCacheKey ev s'' = None.
Proof.
  intros Hdue Hvalid Hx Hds Hbad Hdata.
  assert (Hx0 : collection_store (cleared this x s) !! this
                = Some (Collection.set_members [] ∅ x))
    by (by eapply collection_insert_lookup).
  assert (Hvalid0 : registry_valid (cleared this x s)) by exact Hvalid.
  destruct (forEach_set_one_raw urls _ this _
              (fields_params (Collection.set_members [] ∅ x)) ds Hvalid0 Hx0 Hds)
    as (s1 & Hrun & _ & _).
  destruct (Collection_set_one_refused urls this
              (fields_params (Collection.set_members [] ∅ x)) bad s1 Hbad)
    as [msg Hone].
  assert (Hset : Collection_set urls this (raw_items ds) (cleared this x s) = (Ok tt, s1))
    by (by rewrite (Collection_set_run urls _ this _ _ Hx0)).
  assert (Hthrow : Collection_set urls this
                     (modelsToSet_of (VArr (map VObj ds ++ bad :: rest)))
                     (cleared this x s)
                   = (Throw (TypeError msg), s1)).
  { rewrite (Collection_set_run urls _ this _ _ Hx0).
    cbn [modelsToSet_of]. rewrite map_app, map_map. cbn [map].
    by apply (forEach_stops _ _ _ _ _ s1 _ s1). }
  destruct (Collection_set_effects_kept urls this _ _ _ _ Hset) as (Hps & Hrq & Hlg).
  exists s1. rewrite (step_client_resolved _ _ _ _ _ _ Hdue).
  cbn [on_response]. rewrite Hdata.
  unfold Collection_clearCache.
  rewrite bind_assoc, (bind_Ok _ _ _ _ _ (update_collection_Ok _ _ _ _ Hx)).
  fold (cleared this x s).
  rewrite !bind_assoc, (bind_Throw _ _ _ _ _ Hthrow). cbn [conclude].
  assert (Hp : promise_store (set_stage h (Threw (TypeError msg)) s1) !! h
               = Some (Promise.mk (CollectionFetch this force)
                                  (Threw (TypeError msg)) Pending)).
  { eapply set_stage_lookup. by rewrite Hps. }
  eexists. exists msg. split; [exact Hset|]. split; [reflexivity|].
  split; [exact Hp|]. do 3 (split; [done|]).
  split; [simpl; by rewrite Hrq|]. split; [simpl; by rewrite Hlg|].
  by apply thrown_forever.
Qed.

End ThrownThm.

(** [save()] on the synced Model of the example. *)
Lemma save_without_attributes_when_synced_hangs_witness :
  exists s' msg,
    step urls_ex VNull (PriorSettled 0) save_nothing_ex = Some s'
    /\ promise_store s' !! 0
       = Some (Promise.mk (ModelSave 0 None false) (Threw (TypeError msg)) Pending).
Proof.
  destruct (save_without_attributes_when_synced_hangs urls_ex VNull save_nothing_ex
              0 0 false _ eq_refl eq_refl eq_refl)
    as (s' & msg & Hstep & Hp & _).
  by exists s', msg.
Defined.

(** The transport answers [[{id: '1'}, null]]. *)
Lemma fetch_response_with_refused_element_hangs_witness :
  exists s' msg,
    step urls_ex VNull
         (ClientResolved 0 [("data", VArr [VObj [("id", VStr "1")]; VNull])])
         collection_fetching_ex
    = Some s'
    /\ promise_store s' !! 0
       = Some (Promise.mk (CollectionFetch 0 false) (Threw (TypeError msg)) Pending)
    /\ Collection.promises <$> collection_store s' !! 0 = Some [0].
Proof.
  destruct (fetch_response_with_refused_element_hangs urls_ex VNull
              collection_fetching_ex 0 0 false
              (Collection.mk [] [] ∅ VUndefined false true None [0])
              [("data", VArr [VObj [("id", VStr "1")]; VNull])]
              [[("id", VStr "1")]] VNull [])
    as (s1 & s' & msg & Hset & Hstep & Hp & Hcs & _).
  - reflexivity.
  - by apply registry_valid_empty.
  - reflexivity.
  - repeat constructor; [apply (bool_decide_unpack _); by vm_compute | done].
  - reflexivity.
  - reflexivity.
  - exists s', msg. split; [exact Hstep|]. split; [exact Hp|].
    rewrite Hcs. vm_compute in Hset. by injection Hset as <-.
Defined.

(** ** Saving through the Resource *)

Section SaveModel.

Variable urls : string -> option (value -> value).
Variable contentCacheKey : value.

Implicit Types (s : State) (h : handle) (m : Model.t) (e : option string).

Lemma obj_set_nonempty k v (o : obj) : obj_set k v o <> [].
Proof.
  unfold obj_set. destruct (obj_lookup k o) eqn:E.
  - destruct o as [|[k' v'] o]; [done|]. simpl. by destruct (String.eqb k' k).
  - destruct o as [|[k' v'] o]; [done|]. rewrite obj_insert_new_cons.
    by destruct (goes_before k k').
Qed.

Lemma Object_assign_nonempty (target source : obj) :
  target <> [] -> Object_assign target source <> [].
Proof.
  unfold Object_assign. revert target.
  induction source as [|[k v] source IH]; intros target Ht; [done|].
  simpl. apply IH, obj_set_nonempty.
Qed.

(** The attributes of the Model [getModel] makes for an identity. *)
Lemma identity_attributes idKey id :
  id <> "" ->
  Object_assign [] (stringified idKey [(idKey, VStr id)]) = [(idKey, VStr id)].
Proof.
  intros Hid. unfold stringified. cbn [obj_lookup]. rewrite String.eqb_refl.
  rewrite truthy_VStr by done. unfold obj_set. cbn [obj_lookup].
  rewrite String.eqb_refl. cbn [obj_replace]. by rewrite String.eqb_refl.
Qed.

(** [getModel] for an identity the cache of the endpoint does not hold. *)
Lemma getModel_miss s e id getParams :
  id <> "" ->
  (forall n, e = Some n -> n <> "" ->
             is_Some (urls (Resource.name (resource s) +:+ "_" +:+ n))) ->
  slot s e (identity_key s id getParams) = None ->
  let l := length (model_store s) in
  exists s1 url,
    getModel urls (VStr id) getParams e s = (Ok (Some l), s1)
    /\ model_store s1
       = (model_store s
          ++ [Model.mk [(Resource.idKey (resource s), VStr id)] getParams url
                       false true false []])%list
    /\ (e = None -> url = VUndefined)
    /\ (forall n f, e = Some n -> n <> "" ->
          urls (Resource.name (resource s) +:+ "_" +:+ n) = Some f -> url = f (VStr id))
    /\ collection_store s1 = collection_store s
    /\ effects_kept s s1
    /\ Resource.idKey (resource s1) = Resource.idKey (resource s)
    /\ Resource.name (resource s1) = Resource.name (resource s)
    /\ forall e' K,
         slot s1 e' K
         = if decide (__cacheName e = __cacheName e' /\ identity_key s id getParams = K)
           then Some l else slot s e' K.
Proof.
  intros Hid Hurl Hslot l. unfold getModel.
  rewrite (bind_Ok _ _ _ _ _ (modelCache_run e s)).
  destruct (touch_cache_frame e s) as (Hms & HidK & Hname & Hcs).
  unfold the_idKey.
  rewrite (bind_Ok _ _ _ _ _ (eq_refl : gets _ (touch_cache e s) = (Ok _, _))).
  rewrite HidK.
  change (__cacheKey _ _) with (identity_key s id getParams).
  change (default ∅ _ !! identity_key s id getParams)
    with (slot s e (identity_key s id getParams)) at 1.
  rewrite Hslot.
  set (st := touch_cache e s) in *.
  assert (Hurl' : forall n, e = Some n -> n <> "" ->
            is_Some (urls (Resource.name (resource st) +:+ "_" +:+ n)))
    by (intros n ? ?; rewrite Hname; by apply Hurl).
  assert (Hd : [(Resource.idKey (resource s), VStr id)] <> ([] : obj)) by done.
  assert (Hcreate : exists url,
    createModel urls (VObj [(Resource.idKey (resource s), VStr id)]) getParams e st
    = addModel_instance (length (model_store st)) e
        (with_models (fun ms =>
           (ms ++ [Model.mk [(Resource.idKey (resource s), VStr id)]
                            getParams url false true false []])%list) st)
    /\ (e = None -> url = VUndefined)
    /\ (forall n f, e = Some n -> n <> "" ->
          urls (Resource.name (resource s) +:+ "_" +:+ n) = Some f -> url = f (VStr id))).
  { unfold createModel, the_idKey.
    rewrite (bind_Ok _ _ _ _ _ (eq_refl : gets _ st = (Ok _, st))).
    assert (exists url,
      (match e with
       | Some e0 =>
           if (e0 =? "")%string then ret VUndefined
           else let* detailId := data_id (Resource.idKey (resource st))
                                   (VObj [(Resource.idKey (resource s), VStr id)]) in
                call_url urls e0 detailId
       | None => ret VUndefined
       end) st = (Ok url, st) /\ (e = None -> url = VUndefined)
      /\ (forall n f, e = Some n -> n <> "" ->
            urls (Resource.name (resource s) +:+ "_" +:+ n) = Some f -> url = f (VStr id)))
      as (url & Hu & Hnone & Hsome).
    { destruct e as [n|]; [|eexists; split; [done|]; split; [done|]; by intros ? ? [=]].
      destruct (String.eqb_spec n "") as [->|Hn].
      { eexists. split; [done|]. split; [by intros [=]|]. by intros ? ? [= <-]. }
      destruct (Hurl' n eq_refl Hn) as [f Hf].
      exists (f (VStr id)). split; [|split; [by intros [=]|]].
      - cbn [data_id]. rewrite bind_ret. unfold call_url.
        cbn [bind gets]. rewrite Hf. unfold obj_get. cbn [obj_lookup].
        by rewrite HidK, String.eqb_refl.
      - intros n' f' [= <-] _ Hf'. rewrite Hname in Hf. congruence. }
    exists url. split; [|done]. rewrite (bind_Ok _ _ _ _ _ Hu).
    rewrite (bind_Ok _ _ _ _ _ (Model_new_Ok st _ getParams url Hd)).
    by rewrite HidK, identity_attributes. }
  destruct Hcreate as (url & Hcreate & Hnone & Hsome).
  rewrite Hms in Hcreate. fold l in Hcreate.
  set (new := Model.mk _ getParams url false true false []) in *.
  set (s0 := with_models _ st) in *.
  assert (Hnew : model_store s0 !! l = Some new).
  { unfold s0. simpl. rewrite Hms. by rewrite lookup_app_r, Nat.sub_diag. }
  assert (Hidn : Model_id (Resource.idKey (resource s0)) new = VStr id).
  { unfold Model_id, obj_get, new. simpl. rewrite HidK. simpl.
    by rewrite String.eqb_refl. }
  destruct (addModel_instance_miss s0 e l new id Hnew Hidn Hid)
    as (s1 & Hrun & Hms1 & HidK1 & Hname1 & Hcs1 & Hslot1).
  { change (slot st e (identity_key st id getParams) = None).
    unfold identity_key. rewrite HidK. unfold st. by rewrite touch_cache_slot. }
  rewrite <- Hcreate in Hrun.
  rewrite bind_assoc, (bind_Ok _ _ _ _ _ Hrun). rewrite bind_ret.
  cbn [bind gets ret]. rewrite Hcreate in Hrun.
  assert (Hkey0 : identity_key s0 id (Model.getParams new) = identity_key s id getParams).
  { unfold identity_key. simpl. by rewrite HidK. }
  rewrite Hkey0 in Hslot1.
  assert (Hs1 : forall e' K,
            slot s1 e' K
            = if decide (__cacheName e = __cacheName e' /\ identity_key s id getParams = K)
              then Some l else slot s e' K).
  { intros e' K. rewrite Hslot1.
    change (slot s0 e' K) with (slot st e' K). unfold st.
    by rewrite touch_cache_slot. }
  exists s1, url. split.
  { f_equal. f_equal.
    change (default ∅ _ !! identity_key s id getParams)
      with (slot s1 e (identity_key s id getParams)).
    by rewrite Hs1, decide_True. }
  split; [rewrite Hms1; unfold s0; simpl; by rewrite Hms|].
  split; [done|]. split; [done|].
  split; [rewrite Hcs1; unfold s0; simpl; by rewrite Hcs|].
  split.
  { pose proof (addModel_effects_kept urls (Ref l) [] e _ _ _ Hrun) as (H1 & H2 & H3).
    unfold effects_kept. rewrite H1, H2, H3. unfold s0, st, touch_cache.
    by destruct (Resource.models (resource s) !! __cacheName e). }
  split; [rewrite HidK1; unfold s0; simpl; by rewrite HidK|].
  split; [rewrite Hname1; unfold s0; simpl; by rewrite Hname|].
  exact Hs1.
Qed.

(** The callback of a [save] that has something to send. *)
Lemma save_callback_request s h this a exists_ m detail list_ :
  model_store s !! this = Some m ->
  urls (Resource.name (resource s) +:+ "_detail") = Some detail ->
  urls (Resource.name (resource s) +:+ "_list") = Some list_ ->
  payload_of m a <> [] ->
  conclude h (on_prior_resolved urls contentCacheKey h (ModelSave this (Some a) exists_) s)
  = set_stage h AwaitingClient
      (with_requests (fun rs =>
         (rs ++ [save_request m exists_ detail list_ (Resource.idKey (resource s))
                   (payload_of m a)])%list)
         (with_models (fun ms => <[this := Model.set_synced false m]> ms) s)).
Proof.
  intros Hm Hdetail Hlist Hne. cbn [on_prior_resolved].
  rewrite (bind_Ok _ _ _ _ _ (get_model_Ok _ _ _ Hm)).
  assert (Hpay : of_result (save_payload m (Some a)) s = (Ok (payload_of m a), s)).
  { unfold save_payload, payload_of. by destruct (Model.synced m). }
  rewrite (bind_Ok _ _ _ _ _ Hpay).
  destruct (length (Object_keys (payload_of m a)) =? 0)%nat eqn:E.
  { by apply obj_lookup_nil_iff in E. }
  run_update Hm Hm1 s1.
  unfold save_request.
  destruct (negb (Model.new m) || exists_).
  - rewrite bind_assoc.
    rewrite (bind_Ok _ _ _ _ _ (Model_url_Ok urls s1 _ _ _ Hm1 Hdetail)).
    erewrite bind_Ok by (apply client_data_Ok; [exact Hm1 | reflexivity]).
    reflexivity.
  - rewrite bind_assoc.
    rewrite (bind_Ok _ _ _ _ _ (call_url_Ok urls s1 "list" _ _ Hlist)).
    erewrite bind_Ok by (apply client_data_Ok; [exact Hm1 | reflexivity]).
    reflexivity.
Qed.

End SaveModel.

Section SaveModelThm.

Variable urls : string -> option (value -> value).
Variable contentCacheKey : value.

(** [saveModel({id, data, exists})] for an identity the cache does not hold
    makes a Model of that identity, files it, and saves the data on it. The
    Model is new and unsynced, so the request carries the identity merged with
    the data and, unless [exists] is set, is a POST to the list url; with
    [exists] it is a PATCH to the detail url of the identity. *)
Theorem saveModel_of_unfetched_identity s id getParams data exists_ detail list_ :
  id <> "" ->
  slot s None (identity_key s id getParams) = None ->
  urls (Resource.name (resource s) +:+ "_detail") = Some detail ->
  urls (Resource.name (resource s) +:+ "_list") = Some list_ ->
  let idKey := Resource.idKey (resource s) in
  let l := length (model_store s) in
  let h := length (promise_store s) in
  let payload := Object_assign (Object_assign [] [(idKey, VStr id)]) data in
  exists s1 s2,
    saveModel urls (VStr id) getParams data exists_ s = (Ok h, s1)
    /\ slot s1 None (identity_key s id getParams) = Some l
    /\ step urls contentCacheKey (PriorSettled h) s1 = Some s2
    /\ requests s2
       = (requests s
          ++ [Request.mk (if exists_ then detail (VStr id) else list_ VUndefined)
                         (Some (if exists_ then "patch" else "post"))
                         (Some (VObj payload)) (Some getParams) None])%list
    /\ promise_store s2 !! h
       = Some (Promise.mk (ModelSave l (Some data) exists_) AwaitingClient Pending).
Proof.
  intros Hid Hslot Hdetail Hlist idKey l h payload.
  destruct (getModel_miss urls s None id getParams Hid ltac:(done) Hslot)
    as (s0 & url & Hget & Hms0 & Hurl & _ & Hcs0 & (Hps0 & Hrq0 & Hlg0) & HidK0 & Hnm0
        & Hslot0).
  rewrite (Hurl eq_refl) in Hms0. fold l idKey in Hget, Hms0, Hslot0.
  unfold saveModel. rewrite truthy_VStr by done. cbn [negb].
  rewrite (bind_Ok _ _ _ _ _ Hget). cbn [on_model]. unfold Model_save.
  set (new := Model.mk [(idKey, VStr id)] getParams VUndefined false true false []) in *.
  assert (Hnew : model_store s0 !! l = Some new)
    by (rewrite Hms0; by rewrite lookup_app_r, Nat.sub_diag).
  rewrite (start_on_model_run s0 l new _ Hnew).
  cbn [Model.promises new app]. rewrite Hps0. fold h.
  change (Promise_all (promise_store s) []) with PriorResolved.
  set (s1 := with_models _ (with_promises _ s0)).
  set (m1 := Model.set_promises [h] new).
  assert (Hdue : due s1 h (ModelSave l (Some data) exists_) PriorResolved).
  { unfold due, s1. simpl. by rewrite lookup_app_r, Nat.sub_diag. }
  assert (Hm1 : model_store s1 !! l = Some m1).
  { unfold s1. simpl. apply list_lookup_insert_eq. by eapply lookup_lt_Some. }
  assert (Hpay : payload_of m1 data = payload) by reflexivity.
  assert (Hne : payload_of m1 data <> []).
  { rewrite Hpay. apply Object_assign_nonempty. by compute. }
  exists s1. rewrite (step_prior_resolved _ _ _ _ _ Hdue).
  rewrite (save_callback_request urls contentCacheKey s1 h l data exists_ m1 detail list_
             Hm1 ltac:(unfold s1; simpl; by rewrite Hnm0)
             ltac:(unfold s1; simpl; by rewrite Hnm0) Hne).
  eexists. split; [reflexivity|].
  split.
  { change (slot s0 None (identity_key s id getParams) = Some l).
    by rewrite Hslot0, decide_True. }
  split; [reflexivity|]. split.
  - simpl. rewrite Hrq0, Hpay. do 2 f_equal. unfold save_request. simpl.
    rewrite HidK0. fold idKey. unfold Model_id, obj_get. simpl.
    rewrite String.eqb_refl. by destruct exists_.
  - by eapply set_stage_lookup.
Qed.

End SaveModelThm.

(** [saveModel({id: '4', data: {name: 'a'}})] on a fresh Resource POSTs. *)
Lemma saveModel_of_unfetched_identity_witness :
  exists s1 s2,
    saveModel urls_ex (VStr "4") [] [("name", VStr "a")] false empty_ex = (Ok 0, s1)
    /\ step urls_ex VNull (PriorSettled 0) s1 = Some s2
    /\ Request.method <$> requests s2 = [Some "post"].
Proof.
  destruct (saveModel_of_unfetched_identity urls_ex VNull empty_ex "4" []
              [("name", VStr "a")] false _ _ ltac:(done) eq_refl eq_refl eq_refl)
    as (s1 & s2 & Hsave & _ & Hstep & Hq & _).
  exists s1, s2. split; [exact Hsave|]. split; [exact Hstep|]. by rewrite Hq.
Defined.

(** ** The Models of a detail endpoint *)

Section Endpoints.

Variable urls : string -> option (value -> value).
Variable contentCacheKey : value.

Implicit Types (s : State) (h : handle) (m : Model.t).

(** The cache of a named endpoint is not the default cache. *)
Lemma cacheName_endpoint n : n <> "" -> __cacheName (Some n) <> __cacheName None.
Proof.
  intros Hn. unfold __cacheName. destruct (String.eqb_spec n ""); [done|].
  by simpl.
Qed.

End Endpoints.

Section EndpointsThm.

Variable urls : string -> option (value -> value).
Variable contentCacheKey : value.

(** [fetchDetailModel(detailName, id, getParams)] works on a Model of its
    own: the Model the default cache holds for the identity is not used and
    not changed. A second Model of the identity is made with the url the
    endpoint's url function gives for the identity, filed in the cache of the
    endpoint, and the fetch is started on it; [getModel] without an endpoint
    name still returns the first Model. *)
Theorem fetchDetailModel_uses_own_model s n id getParams f l0 :
  n <> "" -> id <> "" ->
  urls (Resource.name (resource s) +:+ "_" +:+ n) = Some f ->
  slot s (Some n) (identity_key s id getParams) = None ->
  slot s None (identity_key s id getParams) = Some l0 ->
  is_Some (model_store s !! l0) ->
  let l := length (model_store s) in
  let h := length (promise_store s) in
  exists s1,
    fetchDetailModel urls (Some n) (VStr id) getParams s = (Ok h, s1)
    /\ l <> l0
    /\ due s1 h (ModelFetch l false) PriorResolved
    /\ model_store s1
       = (model_store s
          ++ [Model.mk [(Resource.idKey (resource s), VStr id)] getParams (f (VStr id))
                       false true false [h]])%list
    /\ slot s1 (Some n) (identity_key s id getParams) = Some l
    /\ slot s1 None (identity_key s id getParams) = Some l0
    /\ getModel urls (VStr id) getParams None s1 = (Ok (Some l0), s1).
Proof.
  intros Hn Hid Hf Hslot Hslot0 [m0 Hm0] l h.
  assert (Hlt : l0 < l) by (by eapply lookup_lt_Some).
  destruct (getModel_miss urls s (Some n) id getParams Hid) as
    (s0 & url & Hget & Hms0 & _ & Hurl & Hcs0 & (Hps0 & Hrq0 & Hlg0) & HidK0 & Hnm0
     & Hslots); [|done|].
  { intros n' [= <-] _. by rewrite Hf. }
  rewrite (Hurl n f eq_refl Hn Hf) in Hms0. fold l in Hget, Hms0, Hslots.
  unfold fetchDetailModel. rewrite truthy_VStr by done. cbn [negb given].
  destruct (String.eqb_spec n "") as [|_]; [done|].
  rewrite (bind_Ok _ _ _ _ _ Hget). cbn [on_model]. unfold Model_fetch.
  set (new := Model.mk _ getParams (f (VStr id)) false true false []) in *.
  assert (Hnew : model_store s0 !! l = Some new)
    by (rewrite Hms0; by rewrite lookup_app_r, Nat.sub_diag).
  rewrite (start_on_model_run s0 l new _ Hnew).
  cbn [Model.promises new app]. rewrite Hps0. fold h.
  change (Promise_all (promise_store s) []) with PriorResolved.
  set (s1 := with_models _ (with_promises _ s0)).
  assert (Hs1 : forall e K, slot s1 e K = slot s0 e K) by done.
  exists s1. split; [reflexivity|]. split; [lia|].
  split; [unfold due, s1; simpl; by rewrite lookup_app_r, Nat.sub_diag|].
  split.
  { unfold s1. simpl. rewrite Hms0.
    rewrite insert_app_r_alt by done. by rewrite Nat.sub_diag. }
  split; [by rewrite Hs1, Hslots, decide_True|].
  assert (Hdef : slot s1 None (identity_key s id getParams) = Some l0).
  { rewrite Hs1, Hslots, decide_False; [done|].
    intros [Hname _]. by apply (cacheName_endpoint n Hn). }
  split; [exact Hdef|].
  apply getModel_cached.
  replace (identity_key s1 id getParams) with (identity_key s id getParams); [done|].
  unfold identity_key. unfold s1. simpl. by rewrite HidK0.
Qed.

End EndpointsThm.

(** The cached Model 0 of identity 9 and the detail endpoint [progress]. *)
Lemma fetchDetailModel_uses_own_model_witness :
  exists s1,
    fetchDetailModel urls_ex (Some "progress") (VStr "9") [] cached_model_ex = (Ok 0, s1)
    /\ due s1 0 (ModelFetch 1 false) PriorResolved
    /\ getModel urls_ex (VStr "9") [] None s1 = (Ok (Some 0), s1).
Proof.
  destruct (fetchDetailModel_uses_own_model urls_ex cached_model_ex "progress" "9" [] _ 0
              ltac:(done) ltac:(done) eq_refl eq_refl eq_refl ltac:(by eexists))
    as (s1 & Hrun & _ & Hdue & _ & _ & _ & Hget).
  by exists s1.
Defined.

(** ** Fetching a Collection *)

Section CollectionFetch.

Variable urls : string -> option (value -> value).
Variable contentCacheKey : value.

Implicit Types (s : State) (h : handle) (o : operation) (x : Collection.t).

(** The flag a getter reads: the own flag and that of every member. *)
Lemma reduce_reads (flag : Model.t -> bool) s (ls : list loc) (ms : list Model.t) init :
  Forall2 (fun l m => model_store s !! l = Some m) ls ms ->
  fold_left (fun acc m => acc && flag m) ms init
  = init && forallb (fun l => from_option flag false (model_store s !! l)) ls.
Proof.
  intros H2. rewrite fold_left_andb. f_equal.
  induction H2 as [|l m ls ms Hm _ IH]; [done|].
  simpl. by rewrite Hm, IH.
Qed.

Lemma Collection_get_synced_run s this x :
  collection_store s !! this = Some x ->
  members_allocated s x ->
  Collection_get_synced this s = (Ok (reads_synced s x), s).
Proof.
  intros Hx Hall. unfold Collection_get_synced.
  rewrite (bind_Ok _ _ _ _ _ (get_collection_Ok _ _ _ Hx)).
  destruct (get_models_Ok s _ Hall) as (ms & Hms & H2).
  rewrite (bind_Ok _ _ _ _ _ Hms). unfold ret, reads_synced.
  by rewrite (reduce_reads _ _ _ _ _ H2).
Qed.

Lemma Collection_get_new_run s this x :
  collection_store s !! this = Some x ->
  members_allocated s x ->
  Collection_get_new this s = (Ok (reads_new s x), s).
Proof.
  intros Hx Hall. unfold Collection_get_new.
  rewrite (bind_Ok _ _ _ _ _ (get_collection_Ok _ _ _ Hx)).
  destruct (get_models_Ok s _ Hall) as (ms & Hms & H2).
  rewrite (bind_Ok _ _ _ _ _ Hms). unfold ret, reads_new.
  by rewrite (reduce_reads _ _ _ _ _ H2).
Qed.

(** [collection.data] *)
Lemma Collection_data_run s this x :
  collection_store s !! this = Some x ->
  members_allocated s x ->
  Collection_data this s = (Ok (collection_data s x), s).
Proof.
  intros Hx Hall. unfold Collection_data.
  rewrite (bind_Ok _ _ _ _ _ (get_collection_Ok _ _ _ Hx)).
  destruct (get_models_Ok s (Collection.models x) Hall) as (ms & Hms & H2).
  rewrite (bind_Ok _ _ _ _ _ Hms). unfold collection_data.
  assert (Hlive : map Model_data (filter (fun m => Model.deleted m = false) ms)
                  = live_data s (Collection.models x)).
  { unfold live_data. clear Hms Hall.
    induction H2 as [|l m ls ms Hl _ IH]; [done|].
    rewrite omap_cons, Hl, filter_cons.
    destruct (Model.deleted m); simpl; [done|]. by rewrite IH. }
  rewrite Hlive. by destruct (Collection.metadata x).
Qed.

(** A request without data on behalf of a Collection. *)
Lemma client_nodata_collection_Ok s this x url method :
  collection_store s !! this = Some x ->
  client contentCacheKey url method None (ParamsOfCollection this) s
  = (Ok tt,
     with_requests (fun rs =>
       (rs ++ [Request.mk url method None
                 (Some (sent_params (resource s) contentCacheKey (Collection.getParams x)))
                 (sent_cacheBust (resource s))])%list)
       (with_collections (fun cs =>
          <[this := Collection.set_getParams
                      (sent_params (resource s) contentCacheKey (Collection.getParams x)) x]>
            cs)
          s)).
Proof.
  intros Hx. unfold client, sent_params, sent_cacheBust.
  rewrite (bind_Ok _ _ _ _ _ (eq_refl : gets resource s = (Ok _, s))).
  erewrite bind_Ok
    by (rewrite (bind_Ok _ _ _ _ _ (get_collection_Ok _ _ _ Hx)); reflexivity).
  cbn [from_option negb]. rewrite andb_true_r.
  destruct (Resource.useContentCacheKey (resource s)).
  - cbn [default].
    rewrite (bind_Ok _ _ _ _ _ (update_collection_Ok _ _ _ _ Hx)). reflexivity.
  - unfold modify. do 2 f_equal. destruct s as [r ms cs ps rq lg]. simpl in *.
    unfold with_requests, with_collections. simpl. f_equal.
    symmetry. apply list_insert_id. by destruct x.
Qed.

Lemma Collection_url_Ok s this x list_ :
  collection_store s !! this = Some x ->
  urls (Resource.name (resource s) +:+ "_list") = Some list_ ->
  Collection_url urls this s
  = (Ok (if truthy (Collection._url x) then Collection._url x else list_ VUndefined), s).
Proof.
  intros Hx Hlist. unfold Collection_url.
  rewrite (bind_Ok _ _ _ _ _ (get_collection_Ok _ _ _ Hx)).
  destruct (truthy (Collection._url x)); [done|].
  by apply call_url_Ok.
Qed.

(** The callback of a [fetch] that is answered from the Collection. *)
Lemma collection_fetch_callback_cached s h this force x :
  due s h (CollectionFetch this force) PriorResolved ->
  collection_store s !! this = Some x ->
  members_allocated s x ->
  negb force && reads_synced s x = true ->
  conclude h (on_prior_resolved urls contentCacheKey h (CollectionFetch this force) s)
  = set_stage h Finished
      (with_promises (fun ps =>
         notify h (Resolved (collection_data s x))
           <$> <[h := Promise.mk (CollectionFetch this force) PriorResolved
                        (Resolved (collection_data s x))]> ps) s).
Proof.
  intros Hdue Hx Hall Hc. cbn [on_prior_resolved].
  rewrite (bind_Ok _ _ _ _ _ (Collection_get_synced_run _ _ _ Hx Hall)). rewrite Hc.
  rewrite (bind_Ok _ _ _ _ _ (Collection_data_run _ _ _ Hx Hall)).
  unfold resolve. by rewrite (bind_Ok _ _ _ _ _ (settle_run _ _ _ _ _ Hdue)).
Qed.

(** The callback of a [fetch] that goes to the server. *)
Lemma collection_fetch_callback_request s h this force x list_ :
  collection_store s !! this = Some x ->
  members_allocated s x ->
  urls (Resource.name (resource s) +:+ "_list") = Some list_ ->
  negb force && reads_synced s x = false ->
  conclude h (on_prior_resolved urls contentCacheKey h (CollectionFetch this force) s)
  = set_stage h AwaitingClient
      (with_requests (fun rs =>
         (rs ++ [collection_fetch_request (resource s) contentCacheKey x list_])%list)
         (with_collections (fun cs =>
            <[this := collection_fetching (resource s) contentCacheKey x]> cs) s)).
Proof.
  intros Hx Hall Hlist Hc. cbn [on_prior_resolved].
  rewrite (bind_Ok _ _ _ _ _ (Collection_get_synced_run _ _ _ Hx Hall)). rewrite Hc.
  rewrite (bind_Ok _ _ _ _ _ (Collection_set_synced_false _ _ _ Hx)).
  set (s1 := with_collections _ s).
  assert (Hx1 : collection_store s1 !! this = Some (Collection.set__synced false x))
    by (by eapply collection_insert_lookup).
  rewrite (bind_Ok _ _ _ _ _ (Collection_url_Ok s1 _ _ _ Hx1 Hlist)).
  rewrite (bind_Ok _ _ _ _ _ (client_nodata_collection_Ok s1 _ _ _ _ Hx1)).
  cbn [ret conclude]. f_equal. unfold collection_fetch_request, collection_fetching.
  destruct s as [r ms cs ps rq lg]. unfold s1, with_requests, with_collections. simpl.
  by rewrite list_insert_insert_eq.
Qed.

End CollectionFetch.

Section CollectionFetchThm.

Variable urls : string -> option (value -> value).
Variable contentCacheKey : value.

(** When the callback of a Collection's [fetch(force)] runs, the Collection
    answers from what it holds only if the fetch is not forced, its own flag
    is set and every member is synced: then the promise resolves with the
    Collection's data and nothing else changes. Otherwise (one member that is
    not synced is enough) the own flag is cleared, the members stay as they
    are, and one GET request goes to the Collection's url, or the list url if
    it has none, with the Collection's GET parameters. *)
Theorem Collection_fetch_uses_cache s h this force x list_ :
  due s h (CollectionFetch this force) PriorResolved ->
  collection_store s !! this = Some x ->
  members_allocated s x ->
  urls (Resource.name (resource s) +:+ "_list") = Some list_ ->
  exists s', step urls contentCacheKey (PriorSettled h) s = Some s'
    /\ if negb force && reads_synced s x
       then settled_from s s' h (CollectionFetch this force)
                         (Resolved (collection_data s x))
            /\ same_data s s'
            /\ collection_store s' = collection_store s
       else promise_store s' !! h
            = Some (Promise.mk (CollectionFetch this force) AwaitingClient Pending)
            /\ requests s'
               = (requests s
                  ++ [collection_fetch_request (resource s) contentCacheKey x list_])%list
            /\ collection_store s'
               = <[this := collection_fetching (resource s) contentCacheKey x]>
                   (collection_store s)
            /\ model_store s' = model_store s
            /\ resource s' = resource s
            /\ log s' = log s.
Proof.
  intros Hdue Hx Hall Hlist.
  rewrite (step_prior_resolved _ _ _ _ _ Hdue).
  eexists. split; [reflexivity|].
  destruct (negb force && reads_synced s x) eqn:Hc.
  - rewrite (collection_fetch_callback_cached _ _ _ _ _ _ _ Hdue Hx Hall Hc).
    split; [by eapply settled_from_finish|]. by split.
  - rewrite (collection_fetch_callback_request _ _ _ _ _ _ _ _ Hx Hall Hlist Hc).
    split; [|done]. by eapply set_stage_lookup.
Qed.

End CollectionFetchThm.

(** The Collection is marked synced, its one member is not: the fetch goes
    to the server. *)
Lemma Collection_fetch_uses_cache_witness :
  exists s', step urls_ex VNull (PriorSettled 0) stale_member_ex = Some s'
             /\ length (requests s') = 1
             /\ model_store s' = model_store stale_member_ex.
Proof.
  destruct (Collection_fetch_uses_cache urls_ex VNull stale_member_ex 0 0 false _ _
              eq_refl eq_refl ltac:(repeat constructor; by eexists) eq_refl)
    as (s' & Hstep & H).
  exists s'. split; [exact Hstep|].
  change (negb false && reads_synced stale_member_ex _) with false in H.
  destruct H as (_ & Hrq & _ & Hms & _). split; [by rewrite Hrq|exact Hms].
Defined.

(** ** The answer to a Collection's fetch *)

#[global] Instance models_grow_preorder : PreOrder models_grow.
Proof.
  split; unfold models_grow; [intros s; lia|]. intros s1 s2 s3 ? ?. lia.
Qed.

Section CollectionAnswer.

Variable urls : string -> option (value -> value).
Variable contentCacheKey : value.

Implicit Types (s : State) (h : handle) (o : operation) (x : Collection.t) (d : obj).

Lemma addModel_models_grow item getParams e :
  preserves models_grow (addModel urls item getParams e).
Proof.
  repeat first
    [ apply preserves_modify; intros ?; unfold models_grow; simpl;
      rewrite ?length_insert, ?length_app; simpl; lia
    | preserves_step ].
Qed.

Lemma set_members_filed ms mm x k l :
  Collection.set_members ms mm (filed x k l) = Collection.set_members ms mm x.
Proof. unfold filed. by destruct (model_map_has _ _). Qed.

Lemma filed_members s s' x k l :
  members_allocated s x -> models_grow s s' -> is_Some (model_store s' !! l) ->
  members_allocated s' (filed x k l).
Proof.
  unfold members_allocated, models_grow. intros Hall Hgrow Hl.
  assert (Hall' : Forall (fun l => is_Some (model_store s' !! l)) (Collection.models x)).
  { eapply Forall_impl; [exact Hall|]. intros l' Hl'. simpl in Hl'.
    apply lookup_lt_is_Some. apply lookup_lt_is_Some in Hl'. lia. }
  unfold filed. destruct (model_map_has _ _); [done|]. simpl.
  apply Forall_app. split; [done|]. by constructor.
Qed.

(** Filing raw data: the members are allocated, and nothing of the
    Collection changes but its members. *)
Lemma forEach_set_one_raw_members s this x getParams ds :
  registry_valid s ->
  collection_store s !! this = Some x ->
  members_allocated s x ->
  Forall raw_ok ds ->
  exists s' x',
    forEach (Collection_set_one urls this getParams) (raw_items ds) s = (Ok tt, s')
    /\ collection_store s' !! this = Some x'
    /\ x' = Collection.set_members (Collection.models x') (Collection._model_map x') x
    /\ members_allocated s' x'
    /\ registry_valid s'.
Proof.
  intros Hvalid Hx Hall Hds. revert s x Hvalid Hx Hall.
  induction Hds as [|d ds Hd Hds IH]; intros s x Hvalid Hx Hall.
  - exists s, x. split; [done|]. split; [done|]. split; [by destruct x|]. done.
  - destruct (forEach_set_one_raw urls s this x getParams [d] Hvalid Hx)
      as (s2 & Hone & _ & Hvalid2); [by constructor|].
    cbn [raw_items map forEach] in Hone. unfold bind in Hone.
    destruct (Collection_set_one urls this getParams (Raw (VObj d)) s)
      as [[[]|err] s2'] eqn:Hrun; [|done].
    cbn [ret] in Hone. injection Hone as ->.
    destruct (Collection_set_one_run urls s this x getParams _ s2 Hx Hrun)
      as (l & s1 & m & Hadd & Hl & Hcs1 & HidK1 & Hcs2 & Hms2 & Hr2).
    pose proof (addModel_models_grow _ _ _ _ _ _ Hadd) as Hgrow.
    set (x2 := filed x (dedup_key (Resource.idKey (resource s1)) m) l) in *.
    assert (Hx2 : collection_store s2 !! this = Some x2).
    { rewrite Hcs2. apply list_lookup_insert_eq. by eapply lookup_lt_Some. }
    assert (Hall2 : members_allocated s2 x2).
    { apply (filed_members s); [done| |].
      - unfold models_grow. by rewrite Hms2.
      - rewrite Hms2, Hl. by eexists. }
    destruct (IH s2 x2 Hvalid2 Hx2 Hall2) as (s' & x' & Hrest & Hx' & Heq & Hall' & Hvalid').
    exists s', x'. cbn [raw_items map forEach]. rewrite (bind_Ok _ _ _ _ _ Hrun).
    split; [exact Hrest|]. split; [exact Hx'|]. split; [|done].
    rewrite Heq at 1. apply set_members_filed.
Qed.

(** [clearCache()] and [set(data)] of an answer that is an array of well
    formed objects. *)
Lemma Collection_set_raw_run s this x ds :
  registry_valid s ->
  collection_store s !! this = Some x ->
  Forall raw_ok ds ->
  exists s1 x1,
    Collection_set urls this (raw_items ds) (cleared this x s) = (Ok tt, s1)
    /\ collection_store s1 !! this = Some x1
    /\ x1 = Collection.set_members (Collection.models x1) (Collection._model_map x1) x
    /\ members_allocated s1 x1
    /\ effects_kept s s1.
Proof.
  intros Hvalid Hx Hds.
  assert (Hx0 : collection_store (cleared this x s) !! this
                = Some (Collection.set_members [] ∅ x))
    by (by eapply collection_insert_lookup).
  assert (Hvalid0 : registry_valid (cleared this x s)) by exact Hvalid.
  destruct (forEach_set_one_raw_members _ this _
              (fields_params (Collection.set_members [] ∅ x)) ds Hvalid0 Hx0)
    as (s1 & x1 & Hrun & Hx1 & Heq & Hall1 & _); [by constructor|done|].
  assert (Hset : Collection_set urls this (raw_items ds) (cleared this x s) = (Ok tt, s1))
    by (by rewrite (Collection_set_run urls _ this _ _ Hx0)).
  exists s1, x1. split; [exact Hset|]. split; [exact Hx1|].
  split; [by rewrite Heq at 1|]. split; [exact Hall1|].
  exact (Collection_set_effects_kept urls this _ _ _ _ Hset).
Qed.

(** What follows [set] in the success callbacks of [fetch] and [save]: the
    flags are written to the Collection and to every member, the promise is
    resolved with the data and leaves the list of promises. *)
Lemma answer_run s h o this x :
  due s h o AwaitingClient ->
  collection_store s !! this = Some x ->
  members_allocated s x ->
  exists s',
    (Collection_set_synced this true ;;
     Collection_set_new this false ;;
     let* data := Collection_data this in
     resolve h data ;;
     cleanup_collection this h ;;
     ret Finished) s
    = (Ok Finished, s')
    /\ collection_store s' = <[this := answered x h]> (collection_store s)
    /\ (forall l, l ∈ Collection.models x ->
                  model_store s' !! l = confirmed <$> model_store s !! l)
    /\ (forall l, l ∉ Collection.models x -> model_store s' !! l = model_store s !! l)
    /\ promise_store s'
       = (notify h (Resolved (collection_data s' (answered x h)))
            <$> <[h := Promise.mk o AwaitingClient
                         (Resolved (collection_data s' (answered x h)))]>
                  (promise_store s))
    /\ resource s' = resource s /\ requests s' = requests s /\ log s' = log s.
Proof.
  intros Hdue Hx Hall.
  unfold Collection_set_synced.
  rewrite bind_assoc, (bind_Ok _ _ _ _ _ (update_collection_Ok _ _ _ _ Hx)).
  pose proof (collection_insert_lookup s this x (Collection.set__synced true x) Hx) as Hx1.
  set (s1 := with_collections _ s) in *.
  rewrite bind_assoc, (bind_Ok _ _ _ _ _ (get_collection_Ok _ _ _ Hx1)).
  destruct (forEach_update_model (Model.set_synced true) (Collection.models x) s1)
    as (ms1 & Hrun1 & Hlen1 & Hin1 & Hout1); [done | by intros [] |].
  cbn [Collection.models Collection.set__synced].
  rewrite (bind_Ok _ _ _ _ _ Hrun1).
  set (s2 := with_models (fun _ => ms1) s1) in *.
  assert (Hx2 : collection_store s2 !! this = Some (Collection.set__synced true x)) by done.
  unfold Collection_set_new. cbn [negb].
  rewrite bind_assoc, (bind_Ok _ _ _ _ _ (update_collection_Ok _ _ _ _ Hx2)).
  pose proof (collection_insert_lookup s2 this _
                (Collection.set__new false (Collection.set__synced true x)) Hx2) as Hx3.
  set (s3 := with_collections _ s2) in *.
  rewrite bind_assoc, (bind_Ok _ _ _ _ _ (get_collection_Ok _ _ _ Hx3)).
  assert (Hall3 : Forall (fun l => is_Some (model_store s3 !! l)) (Collection.models x)).
  { apply Forall_forall. intros l Hl. simpl. rewrite (Hin1 l Hl).
    unfold members_allocated in Hall. rewrite Forall_forall in Hall.
    destruct (Hall l Hl) as [m Hm]. simpl. rewrite Hm. by eexists. }
  destruct (forEach_update_model (Model.set_new false) (Collection.models x) s3)
    as (ms2 & Hrun2 & Hlen2 & Hin2 & Hout2); [done | by intros [] |].
  cbn [Collection.models Collection.set__synced Collection.set__new].
  rewrite (bind_Ok _ _ _ _ _ Hrun2).
  set (s4 := with_models (fun _ => ms2) s3) in *.
  set (x4 := Collection.set__new false (Collection.set__synced true x)) in *.
  assert (Hx4 : collection_store s4 !! this = Some x4) by done.
  assert (Hms4 : forall l, l ∈ Collection.models x ->
                           model_store s4 !! l = confirmed <$> model_store s !! l).
  { intros l Hl. simpl. rewrite (Hin2 l Hl). simpl. rewrite (Hin1 l Hl). simpl.
    by destruct (model_store s !! l). }
  assert (Hall4 : members_allocated s4 x4).
  { apply Forall_forall. intros l Hl. rewrite (Hms4 l Hl).
    unfold members_allocated in Hall. rewrite Forall_forall in Hall.
    destruct (Hall l Hl) as [m Hm]. rewrite Hm. by eexists. }
  rewrite (bind_Ok _ _ _ _ _ (Collection_data_run _ _ _ Hx4 Hall4)).
  assert (Hdue4 : due s4 h o AwaitingClient) by done.
  unfold resolve. rewrite (bind_Ok _ _ _ _ _ (settle_run _ _ _ _ _ Hdue4)).
  set (s5 := with_promises _ s4).
  assert (Hx5 : collection_store s5 !! this = Some x4) by done.
  unfold cleanup_collection.
  rewrite (bind_Ok _ _ _ _ _ (update_collection_Ok _ _ _ _ Hx5)).
  cbn [ret]. eexists. split; [reflexivity|].
  split.
  { unfold s5, s4, s3, s2, s1, x4, answered. simpl.
    rewrite !list_insert_insert_eq. by destruct x. }
  split; [exact Hms4|].
  split.
  { intros l Hl. change (ms2 !! l = model_store s !! l). rewrite (Hout2 l Hl).
    change (ms1 !! l = model_store s !! l). by rewrite (Hout1 l Hl). }
  split; [|done].
  reflexivity.
Qed.

(** The promises after the stage of [h] is set depend on the promises only. *)
Lemma set_stage_promises (sa sb : State) h st :
  promise_store sa = promise_store sb ->
  promise_store (set_stage h st sa) = promise_store (set_stage h st sb).
Proof. intros H. unfold set_stage. simpl. by rewrite H. Qed.

(** After the answer the Collection reads as synced. *)
Lemma answered_reads_synced s s' x h :
  members_allocated s x ->
  (forall l, l ∈ Collection.models x ->
             model_store s' !! l = confirmed <$> model_store s !! l) ->
  reads_synced s' (answered x h) = true.
Proof.
  intros Hall Hin. unfold reads_synced. cbn [answered Collection._synced Collection.models].
  apply forallb_forall. intros l Hl%list_elem_of_In.
  unfold members_allocated in Hall. rewrite Forall_forall in Hall.
  destruct (Hall l Hl) as [m Hm]. by rewrite (Hin l Hl), Hm.
Qed.

(** The metadata an envelope leaves: its fields other than [results]. *)
Lemma envelope_fold_lookup (data : obj) (ks : list string) (acc : obj) k :
  obj_lookup k
    (fold_left (fun metadata key =>
                  if negb (String.eqb key "results")
                  then obj_set key (obj_get data key) metadata
                  else metadata) ks acc)
  = if decide (k ∈ ks /\ k <> "results") then Some (obj_get data k)
    else obj_lookup k acc.
Proof.
  revert acc. induction ks as [|k0 ks IH]; intros acc; cbn [fold_left].
  - rewrite decide_False; [done|]. intros [?%elem_of_nil _]. done.
  - rewrite IH. destruct (decide (k ∈ ks /\ k <> "results")) as [[Hin Hne]|Hno].
    + rewrite decide_True; [done|]. split; [by apply list_elem_of_further|done].
    + destruct (String.eqb_spec k0 "results") as [->|Hk0]; cbn [negb].
      * rewrite decide_False; [done|]. intros [[->|Hin]%elem_of_cons Hne]; [done|].
        by apply Hno.
      * rewrite obj_set_lookup. destruct (decide (k0 = k)) as [->|Hne].
        -- rewrite decide_True; [done|]. split; [apply list_elem_of_here|done].
        -- rewrite decide_False; [done|]. intros [[->|Hin]%elem_of_cons Hne']; [done|].
           by apply Hno.
Qed.

Lemma envelope_metadata_lookup (data : obj) k :
  obj_lookup k (envelope_metadata data)
  = if String.eqb k "results" then None else obj_lookup k data.
Proof.
  unfold envelope_metadata. rewrite envelope_fold_lookup. cbn [obj_lookup].
  destruct (String.eqb_spec k "results") as [->|Hne].
  - rewrite decide_False; [done|]. by intros [_ ?].
  - destruct (obj_lookup k data) as [v|] eqn:E.
    + rewrite decide_True; [by unfold obj_get; rewrite E|].
      split; [by eapply obj_lookup_Some_elem|done].
    + rewrite decide_False; [done|]. intros [Hin _].
      by apply obj_lookup_None_notin in E.
Qed.

Lemma envelope_metadata_wf (data : obj) : wf_obj (envelope_metadata data).
Proof.
  unfold envelope_metadata.
  assert (H : forall ks acc, wf_obj acc ->
            wf_obj (fold_left (fun metadata key =>
                      if negb (String.eqb key "results")
                      then obj_set key (obj_get data key) metadata
                      else metadata) ks acc)).
  { induction ks as [|k0 ks IH]; intros acc Hacc; simpl; [done|].
    apply IH. destruct (negb _); [by apply obj_set_wf|done]. }
  apply H. apply NoDup_nil_2.
Qed.

End CollectionAnswer.

Section CollectionAnswerThm.

Variable urls : string -> option (value -> value).
Variable contentCacheKey : value.

(** When the transport answers a Collection's [fetch] with an array of well
    formed objects, the members are replaced by the Models the elements are
    resolved to, as [set] files them on the emptied Collection. The
    Collection and every one of these members become synced and not new
    (other Models are not touched), so the Collection reads as synced; the
    metadata an earlier answer left stays. The promise resolves with the
    Collection's data and leaves its list of promises. *)
Theorem Collection_fetch_response s h this force x response ds :
  due s h (CollectionFetch this force) AwaitingClient ->
  registry_valid s ->
  collection_store s !! this = Some x ->
  Forall raw_ok ds ->
  obj_get response "data" = VArr (map VObj ds) ->
  exists s1 x1 s',
    Collection_set urls this (raw_items ds) (cleared this x s) = (Ok tt, s1)
    /\ collection_store s1 !! this = Some x1
    /\ Collection.metadata x1 = Collection.metadata x
    /\ step urls contentCacheKey (ClientResolved h response) s = Some s'
    /\ collection_store s' = <[this := answered x1 h]> (collection_store s1)
    /\ (forall l, l ∈ Collection.models x1 ->
                  model_store s' !! l = confirmed <$> model_store s1 !! l)
    /\ (forall l, l ∉ Collection.models x1 ->
                  model_store s' !! l = model_store s1 !! l)
    /\ settled_from s s' h (CollectionFetch this force)
                    (Resolved (collection_data s' (answered x1 h)))
    /\ reads_synced s' (answered x1 h) = true
    /\ resource s' = resource s1
    /\ requests s' = requests s
    /\ log s' = log s.
Proof.
  intros Hdue Hvalid Hx Hds Hdata.
  destruct (Collection_set_raw_run urls s this x ds Hvalid Hx Hds)
    as (s1 & x1 & Hset & Hx1 & Heq & Hall1 & (Hps & Hrq & Hlg)).
  assert (Hdue1 : due s1 h (CollectionFetch this force) AwaitingClient)
    by (unfold due; by rewrite Hps).
  destruct (answer_run s1 h _ this x1 Hdue1 Hx1 Hall1)
    as (s2 & Hrun & Hcs2 & Hin & Hout & Hps2 & Hr2 & Hrq2 & Hlg2).
  exists s1, x1. rewrite (step_client_resolved _ _ _ _ _ _ Hdue).
  cbn [on_response]. rewrite Hdata. cbn [map modelsToSet_of].
  unfold Collection_clearCache.
  rewrite !bind_assoc, (bind_Ok _ _ _ _ _ (update_collection_Ok _ _ _ _ Hx)).
  fold (cleared this x s).
  change (map Raw (map VObj ds)) with (map Raw (map VObj ds)).
  replace (map Raw (map VObj ds)) with (raw_items ds)
    by (unfold raw_items; by rewrite map_map).
  rewrite !bind_assoc, (bind_Ok _ _ _ _ _ Hset).
  rewrite !bind_assoc. rewrite Hrun. cbn [conclude].
  eexists. split; [exact Hset|]. split; [exact Hx1|].
  split; [by rewrite Heq|]. split; [reflexivity|].
  split; [exact Hcs2|]. split; [exact Hin|]. split; [exact Hout|].
  split.
  { eapply settled_from_finish; [exact Hdue|done|].
    apply set_stage_promises. rewrite Hps2. simpl. by rewrite Hps. }
  split; [by eapply answered_reads_synced|].
  split; [exact Hr2|]. split; [simpl; congruence|simpl; congruence].
Qed.

(** When the answer is an envelope, an object whose [results] are an array
    of well formed objects, the Collection keeps the other fields of the
    envelope as its metadata and gives the envelope back: the promise
    resolves with, and [data] reads, an object whose [results] are the data
    of the members and whose other fields are those of the envelope. *)
Theorem Collection_fetch_envelope_round_trip s h this force x response env ds :
  due s h (CollectionFetch this force) AwaitingClient ->
  registry_valid s ->
  collection_store s !! this = Some x ->
  Forall raw_ok ds ->
  obj_get response "data" = VObj env ->
  obj_get env "results" = VArr (map VObj ds) ->
  exists s' x' v,
    step urls contentCacheKey (ClientResolved h response) s = Some s'
    /\ collection_store s' !! this = Some x'
    /\ Collection.metadata x' = Some (envelope_metadata env)
    /\ settled_from s s' h (CollectionFetch this force) (Resolved (VObj v))
    /\ Collection_data this s' = (Ok (VObj v), s')
    /\ obj_lookup "results" v = Some (VArr (live_data s' (Collection.models x')))
    /\ (forall k, k <> "results" -> obj_lookup k v = obj_lookup k env)
    /\ reads_synced s' x' = true.
Proof.
  intros Hdue Hvalid Hx Hds Hdata Hresults.
  destruct (Collection_set_raw_run urls s this x ds Hvalid Hx Hds)
    as (s1 & x1 & Hset & Hx1 & Heq & Hall1 & (Hps & Hrq & Hlg)).
  set (md := envelope_metadata env).
  set (x1m := Collection.set_metadata (Some md) x1).
  pose proof (collection_insert_lookup s1 this x1 x1m Hx1) as Hx1m.
  set (s1m := with_collections _ s1) in Hx1m.
  assert (Hdue1 : due s1m h (CollectionFetch this force) AwaitingClient)
    by (unfold due; simpl; by rewrite Hps).
  assert (Hall1m : members_allocated s1m x1m) by exact Hall1.
  destruct (answer_run s1m h _ this x1m Hdue1 Hx1m Hall1m)
    as (s2 & Hrun & Hcs2 & Hin & Hout & Hps2 & Hr2 & Hrq2 & Hlg2).
  rewrite (step_client_resolved _ _ _ _ _ _ Hdue).
  cbn [on_response]. rewrite Hdata. unfold envelope_results. rewrite Hresults.
  cbn [map modelsToSet_of own_props].
  unfold Collection_clearCache.
  rewrite !bind_assoc, (bind_Ok _ _ _ _ _ (update_collection_Ok _ _ _ _ Hx)).
  fold (cleared this x s).
  replace (map Raw (map VObj ds)) with (raw_items ds)
    by (unfold raw_items; by rewrite map_map).
  rewrite !bind_assoc, (bind_Ok _ _ _ _ _ Hset).
  rewrite !bind_assoc, (bind_Ok _ _ _ _ _ (update_collection_Ok _ _ _ _ Hx1)).
  fold md. fold x1m. fold s1m.
  rewrite !bind_assoc. rewrite Hrun. cbn [conclude].
  assert (Hx' : collection_store (set_stage h Finished s2) !! this
                = Some (answered x1m h)).
  { change (collection_store s2 !! this = Some (answered x1m h)). rewrite Hcs2.
    apply list_lookup_insert_eq. by eapply lookup_lt_Some. }
  assert (Hall' : members_allocated (set_stage h Finished s2) (answered x1m h)).
  { apply Forall_forall. intros l Hl.
    change (is_Some (model_store s2 !! l)). rewrite (Hin l Hl).
    unfold members_allocated in Hall1. rewrite Forall_forall in Hall1.
    destruct (Hall1 l Hl) as [m Hm]. simpl. rewrite Hm. by eexists. }
  exists (set_stage h Finished s2), (answered x1m h),
    (Object_assign [("results", VArr (live_data s2 (Collection.models x1)))] md).
  split; [reflexivity|]. split; [exact Hx'|]. split; [done|].
  split.
  { eapply settled_from_finish; [exact Hdue|done|].
    apply set_stage_promises. rewrite Hps2. simpl. by rewrite Hps. }
  split; [by rewrite (Collection_data_run _ _ _ Hx' Hall')|].
  split.
  { rewrite Object_assign_lookup by apply envelope_metadata_wf.
    unfold md. by rewrite envelope_metadata_lookup. }
  split.
  { intros k Hk. rewrite Object_assign_lookup by apply envelope_metadata_wf.
    unfold md. rewrite envelope_metadata_lookup.
    destruct (String.eqb_spec k "results") as [|_]; [done|].
    destruct (obj_lookup k env) eqn:E; [done|]. cbn [obj_lookup].
    by destruct (String.eqb_spec "results" k). }
  apply (answered_reads_synced s1m); [exact Hall1m|exact Hin].
Qed.

End CollectionAnswerThm.

(** The transport answers the fetch of the example with [[{id: '1'}]]. *)
Lemma Collection_fetch_response_witness :
  exists s',
    step urls_ex VNull (ClientResolved 0 [("data", VArr [VObj [("id", VStr "1")]])])
         collection_fetching_ex
    = Some s'
    /\ Collection_get_synced 0 s' = (Ok true, s').
Proof.
  destruct (Collection_fetch_response urls_ex VNull collection_fetching_ex 0 0 false
              (Collection.mk [] [] ∅ VUndefined false true None [0])
              [("data", VArr [VObj [("id", VStr "1")]])]
              [[("id", VStr "1")]])
    as (s1 & x1 & s' & Hset & Hx1 & _ & Hstep & _).
  - reflexivity.
  - by apply registry_valid_empty.
  - reflexivity.
  - repeat constructor; [apply (bool_decide_unpack _); by vm_compute | done].
  - reflexivity.
  - exists s'. split; [exact Hstep|].
    vm_compute in Hstep. injection Hstep as <-. reflexivity.
Defined.

(** The transport answers with [{count: 1, results: [{id: '1'}]}]. *)
Lemma Collection_fetch_envelope_round_trip_witness :
  exists s' v,
    step urls_ex VNull
         (ClientResolved 0
            [("data", VObj [("count", VNum 1);
                            ("results", VArr [VObj [("id", VStr "1")]])])])
         collection_fetching_ex
    = Some s'
    /\ Collection_data 0 s' = (Ok (VObj v), s')
    /\ obj_lookup "count" v = Some (VNum 1).
Proof.
  destruct (Collection_fetch_envelope_round_trip urls_ex VNull collection_fetching_ex
              0 0 false
              (Collection.mk [] [] ∅ VUndefined false true None [0])
              [("data", VObj [("count", VNum 1);
                              ("results", VArr [VObj [("id", VStr "1")]])])]
              [("count", VNum 1); ("results", VArr [VObj [("id", VStr "1")]])]
              [[("id", VStr "1")]])
    as (s' & x' & v & Hstep & _ & _ & _ & Hdata & _ & Hother & _).
  - reflexivity.
  - by apply registry_valid_empty.
  - reflexivity.
  - repeat constructor; [apply (bool_decide_unpack _); by vm_compute | done].
  - reflexivity.
  - reflexivity.
  - exists s', v. split; [exact Hstep|]. split; [exact Hdata|].
    by rewrite Hother.
Defined.

(** ** The response to the delete of a Collection *)

Section CollectionDelete.

Variable urls : string -> option (value -> value).
Variable contentCacheKey : value.

Implicit Types (s : State) (h : handle) (x : Collection.t) (e : option string).

Lemma collection_cache_delete_slot e K s e' K' :
  coll_slot (snd (collection_cache_update e (delete K) s)) e' K'
  = if decide (__cacheName e = __cacheName e' /\ K = K') then None else coll_slot s e' K'.
Proof.
  unfold collection_cache_update, modify, coll_slot. simpl.
  destruct (decide (__cacheName e = __cacheName e')) as [Heq|Hne].
  - rewrite <- Heq, lookup_insert_eq. simpl.
    destruct (decide (K = K')) as [->|HK].
    + rewrite lookup_delete_eq. by rewrite decide_True.
    + rewrite lookup_delete_ne by done. rewrite decide_False; [done|]. by intros [_ ?].
  - rewrite lookup_insert_ne by done. rewrite decide_False; [done|]. by intros [? _].
Qed.

(** [removeCollection(collection)] *)
Lemma removeCollection_run s this x :
  collection_store s !! this = Some x ->
  exists s1,
    removeCollection this s = (Ok tt, s1)
    /\ model_store s1 = model_store s /\ collection_store s1 = collection_store s
    /\ effects_kept s s1
    /\ Resource.idKey (resource s1) = Resource.idKey (resource s)
    /\ Resource.models (resource s1) = Resource.models (resource s)
    /\ forall e K,
         coll_slot s1 e K
         = if decide (__cacheName None = __cacheName e
                      /\ __cacheKey (Resource.idKey (resource s)) [Collection.getParams x] = K)
           then None else coll_slot s e K.
Proof.
  intros Hx. unfold removeCollection, the_idKey.
  rewrite (bind_Ok _ _ _ _ _ (eq_refl : gets _ s = (Ok _, s))).
  rewrite (bind_Ok _ _ _ _ _ (get_collection_Ok _ _ _ Hx)).
  rewrite (bind_Ok _ _ _ _ _ (collectionCache_run None s)).
  eexists. split; [reflexivity|].
  assert (Hrest : model_store (touch_collections None s) = model_store s
                  /\ collection_store (touch_collections None s) = collection_store s
                  /\ effects_kept s (touch_collections None s)
                  /\ Resource.idKey (resource (touch_collections None s))
                     = Resource.idKey (resource s)
                  /\ Resource.models (resource (touch_collections None s))
                     = Resource.models (resource s)).
  { unfold touch_collections.
    by destruct (Resource.collections (resource s) !! __cacheName None). }
  destruct Hrest as (Hms & Hcs & Heff & HidK & Hmod).
  do 5 (split; [done|]).
  intros e K.
  pose proof (collection_cache_delete_slot None
                (__cacheKey (Resource.idKey (resource s)) [Collection.getParams x])
                (touch_collections None s) e K) as H.
  rewrite touch_collections_slot in H. exact H.
Qed.

Lemma member_keys_cons s l (ls : list loc) :
  member_keys s (l :: ls)
  = match model_store s !! l with
    | Some m => model_key (Resource.idKey (resource s)) m :: member_keys s ls
    | None => member_keys s ls
    end.
Proof. unfold member_keys. rewrite omap_cons. by destruct (model_store s !! l). Qed.

(** The keys of the members do not depend on the flags of the Models. *)
Lemma member_keys_frame s s' (ls : list loc) :
  Resource.idKey (resource s') = Resource.idKey (resource s) ->
  (forall l, l ∈ ls ->
     model_key (Resource.idKey (resource s)) <$> model_store s' !! l
     = model_key (Resource.idKey (resource s)) <$> model_store s !! l) ->
  member_keys s' ls = member_keys s ls.
Proof.
  intros HidK H. unfold member_keys. rewrite HidK.
  induction ls as [|l ls IH]; [done|].
  rewrite !omap_cons, (H l) by apply list_elem_of_here.
  rewrite IH; [done|]. intros l' Hl'. apply H. by apply list_elem_of_further.
Qed.

(** Each member is marked deleted and taken out of the default cache. *)
Lemma delete_members_run s (ls : list loc) :
  Forall (fun l => is_Some (model_store s !! l)) ls ->
  exists s1,
    forEach (fun model => update_model model (Model.set_deleted true) ;; removeModel model)
            ls s
    = (Ok tt, s1)
    /\ (forall l, l ∈ ls ->
                  model_store s1 !! l = Model.set_deleted true <$> model_store s !! l)
    /\ (forall l, l ∉ ls -> model_store s1 !! l = model_store s !! l)
    /\ collection_store s1 = collection_store s
    /\ effects_kept s s1
    /\ Resource.idKey (resource s1) = Resource.idKey (resource s)
    /\ Resource.collections (resource s1) = Resource.collections (resource s)
    /\ forall e K,
         slot s1 e K
         = if decide (__cacheName None = __cacheName e /\ K ∈ member_keys s ls)
           then None else slot s e K.
Proof.
  revert s. induction ls as [|l ls IH]; intros s Hall.
  - exists s. split; [done|]. split; [by intros l ?%elem_of_nil|].
    do 5 (split; [done|]). intros e K. rewrite decide_False; [done|].
    intros [_ ?%elem_of_nil]. done.
  - apply Forall_cons in Hall as [[m Hm] Hall].
    cbn [forEach]. rewrite bind_assoc.
    rewrite (bind_Ok _ _ _ _ _ (update_model_Ok _ _ _ _ Hm)).
    pose proof (model_insert_lookup s l m (Model.set_deleted true m) Hm) as Hm1.
    set (s1 := with_models _ s) in *.
    destruct (removeModel_run s1 l _ Hm1)
      as (s2 & Hrun & Hms2 & Hcs2 & Hps2 & Hrq2 & Hlg2 & HidK2 & Hcl2 & Hslot2).
    rewrite (bind_Ok _ _ _ _ _ Hrun).
    assert (Hlt : l < length (model_store s)) by (by eapply lookup_lt_Some).
    assert (Hlook : forall l', model_store s2 !! l'
                    = if decide (l' = l) then Some (Model.set_deleted true m)
                      else model_store s !! l').
    { intros l'. rewrite Hms2. simpl. destruct (decide (l' = l)) as [->|Hne].
      - by apply list_lookup_insert_eq.
      - by apply list_lookup_insert_ne. }
    assert (Hall2 : Forall (fun l => is_Some (model_store s2 !! l)) ls).
    { eapply Forall_impl; [exact Hall|]. intros l' Hl'. simpl. rewrite Hlook.
      by destruct (decide (l' = l)). }
    destruct (IH s2 Hall2)
      as (s3 & Hrest & Hin & Hout & Hcs3 & (Hps3 & Hrq3 & Hlg3) & HidK3 & Hcl3 & Hslot3).
    exists s3. split; [exact Hrest|].
    assert (Hkeys : member_keys s2 ls = member_keys s ls).
    { apply member_keys_frame; [by rewrite HidK2|]. intros l' _. rewrite Hlook.
      destruct (decide (l' = l)) as [->|Hne]; [|done]. by rewrite Hm. }
    split.
    { intros l' Hl'. destruct (decide (l' ∈ ls)) as [Hls|Hls].
      - rewrite (Hin l' Hls), Hlook. destruct (decide (l' = l)) as [->|Hne]; [|done].
        by rewrite Hm.
      - apply elem_of_cons in Hl' as [->|?]; [|done].
        by rewrite (Hout l Hls), Hlook, decide_True, Hm. }
    split.
    { intros l' [Hne Hls]%not_elem_of_cons.
      by rewrite (Hout l' Hls), Hlook, decide_False. }
    split; [by rewrite Hcs3, Hcs2|].
    split; [unfold effects_kept; by rewrite Hps3, Hrq3, Hlg3, Hps2, Hrq2, Hlg2|].
    split; [by rewrite HidK3, HidK2|]. split; [by rewrite Hcl3, Hcl2|].
    intros e K. rewrite Hslot3, Hkeys, Hslot2, member_keys_cons, Hm.
    change (Resource.idKey (resource s1)) with (Resource.idKey (resource s)).
    change (model_key (Resource.idKey (resource s)) (Model.set_deleted true m))
      with (model_key (Resource.idKey (resource s)) m).
    destruct (decide (__cacheName None = __cacheName e)) as [He|He].
    + destruct (decide (K ∈ member_keys s ls)) as [HK|HK].
      * rewrite !decide_True; [done| |done]. split; [done|]. by apply list_elem_of_further.
      * rewrite (decide_False (P := _ /\ K ∈ member_keys s ls)) by (by intros [_ ?]).
        destruct (decide (model_key (Resource.idKey (resource s)) m = K)) as [<-|HmK].
        -- rewrite !decide_True; [done| |done]. split; [done|]. apply list_elem_of_here.
        -- rewrite !decide_False; [done| |by intros [_ ?]].
           intros [_ [->|?]%elem_of_cons]; done.
    + rewrite !decide_False; [done|by intros [? _]..].
Qed.

(** The identities the promise resolves with: those of the members. *)
Lemma member_ids_get s s2 (ls : list loc) (ms : list Model.t) :
  Forall2 (fun l m => model_store s2 !! l = Some m) ls ms ->
  (forall l, l ∈ ls ->
             model_store s2 !! l = Model.set_deleted true <$> model_store s !! l) ->
  map (Model_id (Resource.idKey (resource s))) ms = member_ids s ls.
Proof.
  intros H2 Hin. unfold member_ids.
  induction H2 as [|l m ls ms Hl _ IH]; [done|].
  rewrite omap_cons. pose proof (Hin l (list_elem_of_here _ _)) as Hl'.
  rewrite Hl in Hl'. destruct (model_store s !! l) as [m0|]; [|done].
  injection Hl' as ->. simpl. rewrite IH; [done|].
  intros l' Hl'. apply Hin. by apply list_elem_of_further.
Qed.

(** Members that are all deleted give no data. *)
Lemma live_data_all_deleted s s' (ls : list loc) :
  Forall (fun l => is_Some (model_store s !! l)) ls ->
  (forall l, l ∈ ls ->
             model_store s' !! l = Model.set_deleted true <$> model_store s !! l) ->
  live_data s' ls = [].
Proof.
  intros Hall Hin. unfold live_data.
  induction Hall as [|l ls [m Hm] _ IH]; [done|].
  rewrite omap_cons, (Hin l) by apply list_elem_of_here. rewrite Hm. simpl.
  apply IH. intros l' Hl'. apply Hin. by apply list_elem_of_further.
Qed.

End CollectionDelete.

Section CollectionDeleteThm.

Variable urls : string -> option (value -> value).
Variable contentCacheKey : value.

(** When the transport confirms the [delete] of a Collection, the
    Collection is taken out of the default cache of Collections under the key
    of the GET parameters it has then, and each member is marked deleted and
    taken out of the default cache of Models under the key of its identity
    and GET parameters; the caches of the other endpoints, the other flags of
    the members and the other Models are not touched. The promise resolves
    with the identities of the members. The Collection keeps its members,
    but its data lists none of them. *)
Theorem Collection_delete_response s h this x response :
  due s h (CollectionDelete this) AwaitingClient ->
  collection_store s !! this = Some x ->
  members_allocated s x ->
  let idKey := Resource.idKey (resource s) in
  let ls := Collection.models x in
  exists s', step urls contentCacheKey (ClientResolved h response) s = Some s'
    /\ (forall e K,
          coll_slot s' e K
          = if decide (__cacheName None = __cacheName e
                       /\ __cacheKey idKey [Collection.getParams x] = K)
            then None else coll_slot s e K)
    /\ (forall e K,
          slot s' e K
          = if decide (__cacheName None = __cacheName e /\ K ∈ member_keys s ls)
            then None else slot s e K)
    /\ (forall l, l ∈ ls ->
                  model_store s' !! l = Model.set_deleted true <$> model_store s !! l)
    /\ (forall l, l ∉ ls -> model_store s' !! l = model_store s !! l)
    /\ settled_from s s' h (CollectionDelete this) (Resolved (VArr (member_ids s ls)))
    /\ collection_store s'
       = <[this := Collection.set_promises
                     (splice_indexOf h (Collection.promises x)) x]> (collection_store s)
    /\ live_data s' ls = []
    /\ requests s' = requests s
    /\ log s' = log s.
Proof.
  intros Hdue Hx Hall idKey ls.
  rewrite (step_client_resolved _ _ _ _ _ _ Hdue). cbn [on_response]. unfold the_idKey.
  rewrite (bind_Ok _ _ _ _ _ (eq_refl : gets _ s = (Ok _, s))).
  destruct (removeCollection_run s this x Hx)
    as (s1 & Hrun1 & Hms1 & Hcs1 & (Hps1 & Hrq1 & Hlg1) & HidK1 & Hmod1 & Hcslot1).
  rewrite (bind_Ok _ _ _ _ _ Hrun1).
  assert (Hx1 : collection_store s1 !! this = Some x) by (by rewrite Hcs1).
  rewrite (bind_Ok _ _ _ _ _ (get_collection_Ok _ _ _ Hx1)).
  assert (Hall1 : Forall (fun l => is_Some (model_store s1 !! l)) ls)
    by (unfold members_allocated in Hall; by rewrite Hms1).
  destruct (delete_members_run s1 ls Hall1)
    as (s2 & Hrun2 & Hin2 & Hout2 & Hcs2 & (Hps2 & Hrq2 & Hlg2) & HidK2 & Hcl2 & Hslot2).
  fold ls. rewrite (bind_Ok _ _ _ _ _ Hrun2).
  assert (Hall2 : Forall (fun l => is_Some (model_store s2 !! l)) ls).
  { apply Forall_forall. intros l Hl. rewrite (Hin2 l Hl).
    rewrite Forall_forall in Hall1. destruct (Hall1 l Hl) as [m ->]. by eexists. }
  destruct (get_models_Ok s2 _ Hall2) as (ms & Hms & H2).
  rewrite (bind_Ok _ _ _ _ _ Hms).
  assert (Hdue2 : due s2 h (CollectionDelete this) AwaitingClient)
    by (unfold due; by rewrite Hps2, Hps1).
  unfold resolve. rewrite (bind_Ok _ _ _ _ _ (settle_run _ _ _ _ _ Hdue2)).
  set (s3 := with_promises _ s2).
  assert (Hx3 : collection_store s3 !! this = Some x) by (simpl; by rewrite Hcs2).
  unfold cleanup_collection.
  rewrite (bind_Ok _ _ _ _ _ (update_collection_Ok _ _ _ _ Hx3)).
  cbn [ret conclude].
  assert (Hin : forall l, l ∈ ls ->
                  model_store s2 !! l = Model.set_deleted true <$> model_store s !! l).
  { intros l Hl. by rewrite (Hin2 l Hl), Hms1. }
  eexists. split; [reflexivity|].
  split.
  { intros e K. rewrite <- Hcslot1. unfold coll_slot. simpl. by rewrite Hcl2. }
  split.
  { intros e K.
    assert (Hkeys : member_keys s1 ls = member_keys s ls)
      by (apply member_keys_frame; [done|]; intros l _; by rewrite Hms1).
    change (slot s2 e K = if decide (__cacheName None = __cacheName e
                                     /\ K ∈ member_keys s ls)
                          then None else slot s e K).
    rewrite Hslot2, Hkeys. unfold slot. by rewrite Hmod1. }
  split; [exact Hin|].
  split; [intros l Hl; change (model_store s2 !! l = model_store s !! l);
          by rewrite (Hout2 l Hl), Hms1|].
  split.
  { eapply settled_from_finish; [exact Hdue|done|].
    apply set_stage_promises. simpl. rewrite Hps2, Hps1.
    by rewrite (member_ids_get s s2 ls ms H2 Hin). }
  split; [simpl; by rewrite Hcs2, Hcs1|].
  split.
  { apply (live_data_all_deleted s); [exact Hall|exact Hin]. }
  split; [simpl; congruence|simpl; congruence].
Qed.

End CollectionDeleteThm.

(** The cached Collection of the example is deleted: it and its member
    leave the caches. *)
Lemma Collection_delete_response_witness :
  exists s',
    step urls_ex VNull (ClientResolved 0 []) collection_deleting_ex = Some s'
    /\ coll_slot s' None (__cacheKey "id" [[("page", VNum 1)]]) = None
    /\ slot s' None (__cacheKey "id" [[("id", VStr "9")]]) = None.
Proof.
  destruct (Collection_delete_response urls_ex VNull collection_deleting_ex 0 0 _ []
              eq_refl eq_refl ltac:(repeat constructor; by eexists))
    as (s' & Hstep & Hc & Hm & _).
  exists s'. split; [exact Hstep|]. split.
  - rewrite Hc. by apply decide_True.
  - rewrite Hm. apply decide_True. split; [done|].
    apply (bool_decide_unpack _). by vm_compute.
Defined.

(** ** Saving a Collection *)

Section CollectionSave.

Variable urls : string -> option (value -> value).
Variable contentCacheKey : value.

Implicit Types (s : State) (h : handle) (x : Collection.t).

(** A request with data and without GET parameters. *)
Lemma client_data_noparams_Ok s url method payload :
  truthy payload = true ->
  client contentCacheKey url method (Some payload) NoParams s
  = (Ok tt, with_requests (fun rs =>
       (rs ++ [Request.mk url method (Some payload) None None])%list) s).
Proof.
  intros Hd. unfold client.
  rewrite (bind_Ok _ _ _ _ _ (eq_refl : gets resource s = (Ok _, s))).
  rewrite bind_ret. cbn [from_option]. by rewrite Hd, andb_false_r.
Qed.

Lemma collection_payload_truthy s x data : truthy (collection_payload s x data) = true.
Proof.
  unfold collection_payload, collection_data.
  destruct (length data =? 0)%nat; [|done]. by destruct (Collection.metadata x).
Qed.

(** The callback of a [save] that goes to the server. *)
Lemma collection_save_callback_request s h this data x list_ :
  collection_store s !! this = Some x ->
  members_allocated s x ->
  urls (Resource.name (resource s) +:+ "_list") = Some list_ ->
  (length data =? 0)%nat && negb (reads_new s x) = false ->
  conclude h (on_prior_resolved urls contentCacheKey h (CollectionSave this data) s)
  = set_stage h AwaitingClient
      (with_requests (fun rs =>
         (rs ++ [Request.mk (list_ VUndefined) (Some "post")
                            (Some (collection_payload s x data)) None None])%list)
         (with_collections (fun cs =>
            <[this := Collection.set__synced false x]> cs) s)).
Proof.
  intros Hx Hall Hlist Hc. cbn [on_prior_resolved].
  rewrite (bind_Ok _ _ _ _ _ (Collection_get_new_run _ _ _ Hx Hall)). rewrite Hc.
  rewrite (bind_Ok _ _ _ _ _ (Collection_set_synced_false _ _ _ Hx)).
  pose proof (collection_insert_lookup s this x (Collection.set__synced false x) Hx)
    as Hx1.
  set (s1 := with_collections _ s) in *.
  rewrite (bind_Ok _ _ _ _ _ (call_url_Ok urls s1 "list" VUndefined list_ Hlist)).
  assert (Hall1 : members_allocated s1 (Collection.set__synced false x)) by exact Hall.
  assert (Hpay : (if (length data =? 0)%nat then Collection_data this
                  else ret (VArr data)) s1
                 = (Ok (collection_payload s x data), s1)).
  { unfold collection_payload. destruct (length data =? 0)%nat; [|done].
    by rewrite (Collection_data_run _ _ _ Hx1 Hall1). }
  rewrite (bind_Ok _ _ _ _ _ Hpay).
  rewrite (bind_Ok _ _ _ _ _
             (client_data_noparams_Ok s1 _ _ _ (collection_payload_truthy s x data))).
  reflexivity.
Qed.

End CollectionSave.

Section CollectionSaveThm.

Variable urls : string -> option (value -> value).
Variable contentCacheKey : value.

(** When the callback of a Collection's [save(data)] runs and the save is
    not refused (data is given, or the Collection reads as new), the
    Collection's own flag is cleared and one POST goes to the list url of the
    Resource, whatever url the Collection has. Its payload is the data given
    or, without any, the Collection's own data; it carries no GET
    parameters, not those of the Collection either, and no content cache
    key. No Model changes. *)
Theorem Collection_save_posts_to_list_url s h this data x list_ :
  due s h (CollectionSave this data) PriorResolved ->
  collection_store s !! this = Some x ->
  members_allocated s x ->
  urls (Resource.name (resource s) +:+ "_list") = Some list_ ->
  data <> [] \/ reads_new s x = true ->
  exists s', step urls contentCacheKey (PriorSettled h) s = Some s'
    /\ promise_store s' !! h
       = Some (Promise.mk (CollectionSave this data) AwaitingClient Pending)
    /\ requests s'
       = (requests s
          ++ [Request.mk (list_ VUndefined) (Some "post")
                         (Some (collection_payload s x data)) None None])%list
    /\ collection_store s'
       = <[this := Collection.set__synced false x]> (collection_store s)
    /\ model_store s' = model_store s
    /\ resource s' = resource s
    /\ log s' = log s.
Proof.
  intros Hdue Hx Hall Hlist Hgo.
  assert (Hc : (length data =? 0)%nat && negb (reads_new s x) = false).
  { destruct Hgo as [Hd| ->]; [|by rewrite andb_false_r].
    destruct data; [done|reflexivity]. }
  rewrite (step_prior_resolved _ _ _ _ _ Hdue).
  rewrite (collection_save_callback_request _ _ _ _ _ _ _ _ Hx Hall Hlist Hc).
  eexists. split; [reflexivity|]. split; [|done].
  by eapply set_stage_lookup.
Qed.

(** When the transport answers a Collection's [save] with an array of well
    formed objects, the members the Collection had are dropped and replaced
    by the Models the elements of the answer are resolved to; the Collection
    and these members become synced and not new, and the promise resolves
    with the Collection's data and leaves its list of promises. *)
Theorem Collection_save_response s h this data x response ds :
  due s h (CollectionSave this data) AwaitingClient ->
  registry_valid s ->
  collection_store s !! this = Some x ->
  Forall raw_ok ds ->
  obj_get response "data" = VArr (map VObj ds) ->
  exists s1 x1 s',
    Collection_set urls this (raw_items ds) (cleared this x s) = (Ok tt, s1)
    /\ collection_store s1 !! this = Some x1
    /\ step urls contentCacheKey (ClientResolved h response) s = Some s'
    /\ collection_store s' = <[this := answered x1 h]> (collection_store s1)
    /\ (forall l, l ∈ Collection.models x1 ->
                  model_store s' !! l = confirmed <$> model_store s1 !! l)
    /\ (forall l, l ∉ Collection.models x1 ->
                  model_store s' !! l = model_store s1 !! l)
    /\ settled_from s s' h (CollectionSave this data)
                    (Resolved (collection_data s' (answered x1 h)))
    /\ reads_synced s' (answered x1 h) = true
    /\ reads_new s' (answered x1 h) = false
    /\ resource s' = resource s1
    /\ requests s' = requests s
    /\ log s' = log s.
Proof.
  intros Hdue Hvalid Hx Hds Hdata.
  destruct (Collection_set_raw_run urls s this x ds Hvalid Hx Hds)
    as (s1 & x1 & Hset & Hx1 & Heq & Hall1 & (Hps & Hrq & Hlg)).
  assert (Hdue1 : due s1 h (CollectionSave this data) AwaitingClient)
    by (unfold due; by rewrite Hps).
  destruct (answer_run s1 h _ this x1 Hdue1 Hx1 Hall1)
    as (s2 & Hrun & Hcs2 & Hin & Hout & Hps2 & Hr2 & Hrq2 & Hlg2).
  exists s1, x1. rewrite (step_client_resolved _ _ _ _ _ _ Hdue).
  cbn [on_response]. rewrite Hdata. cbn [map modelsToSet_of].
  unfold Collection_clearCache.
  rewrite !bind_assoc, (bind_Ok _ _ _ _ _ (update_collection_Ok _ _ _ _ Hx)).
  fold (cleared this x s).
  replace (map Raw (map VObj ds)) with (raw_items ds)
    by (unfold raw_items; by rewrite map_map).
  rewrite !bind_assoc, (bind_Ok _ _ _ _ _ Hset).
  rewrite !bind_assoc. rewrite Hrun. cbn [conclude].
  eexists. split; [exact Hset|]. split; [exact Hx1|]. split; [reflexivity|].
  split; [exact Hcs2|]. split; [exact Hin|]. split; [exact Hout|].
  split.
  { eapply settled_from_finish; [exact Hdue|done|].
    apply set_stage_promises. rewrite Hps2. simpl. by rewrite Hps. }
  split; [by eapply answered_reads_synced|]. split; [done|].
  split; [exact Hr2|]. split; [simpl; congruence|simpl; congruence].
Qed.

End CollectionSaveThm.

(** [save()] on the new Collection of the example: the POST goes to the list
    url with the data of the member, and without GET parameters. *)
Lemma Collection_save_posts_to_list_url_witness :
  exists s',
    step urls_ex (VStr "k") (PriorSettled 0) collection_saving_ex = Some s'
    /\ requests s'
       = [Request.mk (VStr "kolibri:core:facility_list/undefined") (Some "post")
                     (Some (VArr [VObj [("name", VStr "a")]])) None None].
Proof.
  destruct (Collection_save_posts_to_list_url urls_ex (VStr "k") collection_saving_ex
              0 0 [] _ _ eq_refl eq_refl ltac:(repeat constructor; by eexists) eq_refl
              ltac:(by right))
    as (s' & Hstep & _ & Hrq & _).
  exists s'. split; [exact Hstep|]. exact Hrq.
Defined.

(** The transport answers the save of the example with [[{id: '1', name:
    'a'}]]. *)
Lemma Collection_save_response_witness :
  exists s',
    step urls_ex VNull
         (ClientResolved 0 [("data", VArr [VObj [("id", VStr "1"); ("name", VStr "a")]])])
         collection_saved_ex
    = Some s'
    /\ Collection_get_new 0 s' = (Ok false, s').
Proof.
  destruct (Collection_save_response urls_ex VNull collection_saved_ex 0 0
              [VObj [("name", VStr "a")]]
              (Collection.mk [] [] ∅ VUndefined false true None [0])
              [("data", VArr [VObj [("id", VStr "1"); ("name", VStr "a")]])]
              [[("id", VStr "1"); ("name", VStr "a")]])
    as (s1 & x1 & s' & Hset & Hx1 & Hstep & _).
  - reflexivity.
  - by apply registry_valid_empty.
  - reflexivity.
  - constructor; [|constructor].
    split; [apply (bool_decide_unpack _); by vm_compute | done].
  - reflexivity.
  - exists s'. split; [exact Hstep|].
    vm_compute in Hstep. injection Hstep as <-. reflexivity.
Defined.

(** ** Saving what the Model holds *)

Section SaveSame.

Variable urls : string -> option (value -> value).
Variable contentCacheKey : value.

Implicit Types (s : State) (h : handle) (m : Model.t) (v : value).

Lemma obj_lookup_NoDup (ps : list (string * value)) k v :
  NoDup (map fst ps) -> (k, v) ∈ ps -> obj_lookup k ps = Some v.
Proof.
  induction ps as [|[k0 v0] ps IH]; simpl; [by intros _ ?%elem_of_nil|].
  intros [Hnotin Hnd]%NoDup_cons [[= -> ->]|Hin]%elem_of_cons.
  - by rewrite String.eqb_refl.
  - destruct (String.eqb_spec k0 k) as [->|_]; [|by apply IH].
    destruct Hnotin. apply list_elem_of_fmap. by exists (k, v).
Qed.

(** Deep equality holds between a value and itself. *)
Lemma isEqual_refl v : well_formed v -> isEqual v v = true.
Proof.
  revert v. fix IH 1. intros [| |b|n|x|xs|ps]; cbn [isEqual well_formed]; try done.
  - intros _. by destruct b.
  - intros _. apply Z.eqb_refl.
  - intros _. apply String.eqb_refl.
  - induction xs as [|x xs IHxs]; [done|].
    intros [Hx Hxs]. rewrite (IH x Hx). simpl. by apply IHxs.
  - intros [Hnd Hall]. rewrite Nat.eqb_refl. simpl.
    assert (Hsub : forall p, p ∈ ps -> obj_lookup (fst p) ps = Some (snd p)).
    { intros [k v] Hp. by apply obj_lookup_NoDup. }
    clear Hnd. revert Hsub Hall. generalize ps at 1 3 5. intros qs.
    induction qs as [|q qs IHqs]; [done|].
    intros Hsub [Hq Hqs].
    rewrite (Hsub q) by apply list_elem_of_here.
    rewrite (IH (snd q) Hq). simpl. apply IHqs; [|done].
    intros p Hp. apply Hsub. by apply list_elem_of_further.
Qed.

(** The dirty check finds nothing in fields that the Model holds with an
    equal value. *)
Lemma dirty_same (a attributes : obj) :
  (forall k v, obj_lookup k a = Some v ->
               obj_lookup k attributes = Some v /\ well_formed v) ->
  dirty a attributes = [].
Proof.
  intros Hsame. unfold dirty.
  assert (H : forall ks acc,
            (forall k, k ∈ ks -> k ∈ Object_keys a) ->
            fold_left (fun payload key =>
                         if differs a attributes key
                         then obj_set key (obj_get a key) payload
                         else payload) ks acc = acc).
  { induction ks as [|k ks IH]; intros acc Hks; [done|]. cbn [fold_left].
    assert (Hk : differs a attributes k = false).
    { destruct (proj1 (elem_keys_lookup k a) (Hks k (list_elem_of_here _ _))) as [v Hv].
      destruct (Hsame k v Hv) as [Hcur Hwf].
      unfold differs, obj_get. rewrite Hcur, Hv. simpl.
      by rewrite isEqual_refl. }
    rewrite Hk. apply IH. intros k' Hk'. apply Hks. by apply list_elem_of_further. }
  by apply H.
Qed.

End SaveSame.

Section SaveSameThm.

Variable urls : string -> option (value -> value).
Variable contentCacheKey : value.

(** [save(attrs)] on a synced Model sends nothing when every field of
    [attrs] is held by the Model with the same value, nested values compared
    in depth: the promise resolves at once with a copy of the attributes, and
    no Model, Collection or cache changes. *)
Theorem save_of_current_values_sends_nothing s h this a exists_ m :
  due s h (ModelSave this (Some a) exists_) PriorResolved ->
  model_store s !! this = Some m ->
  Model.synced m = true ->
  (forall k v, obj_lookup k a = Some v ->
               obj_lookup k (Model.attributes m) = Some v /\ well_formed v) ->
  exists s', step urls contentCacheKey (PriorSettled h) s = Some s'
    /\ settled_from s s' h (ModelSave this (Some a) exists_)
                    (Resolved (VObj (Model.attributes m)))
    /\ same_data s s'
    /\ collection_store s' = collection_store s.
Proof.
  intros Hdue Hm Hsync Hsame.
  rewrite (step_prior_resolved _ _ _ _ _ Hdue). cbn [on_prior_resolved].
  rewrite (bind_Ok _ _ _ _ _ (get_model_Ok _ _ _ Hm)).
  unfold save_payload. rewrite Hsync, (dirty_same _ _ Hsame).
  cbn [of_result bind ret Object_keys map length Nat.eqb].
  unfold resolve. rewrite (bind_Ok _ _ _ _ _ (settle_run _ _ _ _ _ Hdue)).
  cbn [ret conclude].
  eexists. split; [reflexivity|].
  split; [by eapply settled_from_finish|]. by split.
Qed.

End SaveSameThm.

(** The field [x] is saved with the value the Model holds. *)
Lemma save_of_current_values_sends_nothing_witness :
  exists s', step urls_ex VNull (PriorSettled 0) save_same_ex = Some s'
             /\ requests s' = [].
Proof.
  destruct (save_of_current_values_sends_nothing urls_ex VNull save_same_ex 0 0
              [("x", VObj [("a", VNum 1); ("b", VArr [VNull])])] false _
              eq_refl eq_refl eq_refl)
    as (s' & Hstep & _ & Hsame & _).
  - intros k v Hv. cbn [obj_lookup fst snd] in Hv.
    destruct (String.eqb_spec "x" k) as [<-|]; [|done]. injection Hv as <-.
    split; [reflexivity|]. cbn [well_formed map fst snd]. split; [|done].
    apply (bool_decide_unpack _). by vm_compute.
  - exists s'. split; [exact Hstep|]. by destruct Hsame as (_ & _ & _ & -> & _).
Defined.

(** ** The Collection of a detail endpoint *)

Section DetailCollection.

Variable urls : string -> option (value -> value).
Variable contentCacheKey : value.

Implicit Types (s : State) (h : handle) (x : Collection.t).

Lemma start_on_collection_run s this x o :
  collection_store s !! this = Some x ->
  start_on_collection this o s
  = (Ok (length (promise_store s)),
     with_collections (fun cs =>
       <[this := Collection.set_promises
                   (Collection.promises x ++ [length (promise_store s)])%list x]> cs)
       (with_promises (fun _ =>
          (promise_store s
           ++ [Promise.mk o (Promise_all (promise_store s) (Collection.promises x))
                          Pending])%list) s)).
Proof.
  intros Hx. unfold start_on_collection.
  rewrite (bind_Ok _ _ _ _ _ (get_collection_Ok _ _ _ Hx)).
  unfold new_promise. cbn [bind gets modify ret].
  by erewrite bind_Ok by (apply update_collection_Ok; simpl; exact Hx).
Qed.

Lemma getCollection_settings_kept getParams e detailId :
  preserves settings_kept (getCollection urls getParams e detailId).
Proof. preserves_tac. Qed.

(** The callback of the [fetch] of a Collection that has a url of its own
    and is not synced. *)
Lemma collection_fetch_callback_own_url s h this force x :
  collection_store s !! this = Some x ->
  members_allocated s x ->
  truthy (Collection._url x) = true ->
  negb force && reads_synced s x = false ->
  conclude h (on_prior_resolved urls contentCacheKey h (CollectionFetch this force) s)
  = set_stage h AwaitingClient
      (with_requests (fun rs =>
         (rs ++ [Request.mk (Collection._url x) None None
                   (Some (sent_params (resource s) contentCacheKey (Collection.getParams x)))
                   (sent_cacheBust (resource s))])%list)
         (with_collections (fun cs =>
            <[this := collection_fetching (resource s) contentCacheKey x]> cs) s)).
Proof.
  intros Hx Hall Hurl Hc. cbn [on_prior_resolved].
  rewrite (bind_Ok _ _ _ _ _ (Collection_get_synced_run _ _ _ Hx Hall)). rewrite Hc.
  rewrite (bind_Ok _ _ _ _ _ (Collection_set_synced_false _ _ _ Hx)).
  pose proof (collection_insert_lookup s this x (Collection.set__synced false x) Hx)
    as Hx1.
  set (s1 := with_collections _ s) in *.
  assert (Hu : Collection_url urls this s1 = (Ok (Collection._url x), s1)).
  { unfold Collection_url. rewrite (bind_Ok _ _ _ _ _ (get_collection_Ok _ _ _ Hx1)).
    cbn [Collection._url Collection.set__synced]. by rewrite Hurl. }
  rewrite (bind_Ok _ _ _ _ _ Hu).
  rewrite (bind_Ok _ _ _ _ _ (client_nodata_collection_Ok contentCacheKey s1 _ _ _ _ Hx1)).
  cbn [ret conclude]. f_equal. unfold collection_fetching.
  destruct s as [r ms cs ps rq lg]. unfold s1, with_requests, with_collections. simpl.
  by rewrite list_insert_insert_eq.
Qed.

(** [getCollection(getParams, endpointName, detailId).fetch(force)] when
    the cache of the endpoint holds no Collection for the arguments. *)
Lemma fetch_endpoint_collection_run s e detailId getParams force url :
  collection_url_of urls (resource s) e detailId = Some url ->
  truthy url = true ->
  let key := collection_key (Resource.idKey (resource s)) getParams detailId in
  let c := length (collection_store s) in
  let h := length (promise_store s) in
  coll_slot s e key = None ->
  exists s1 s2,
    (let* collection := getCollection urls getParams e detailId in
     Collection_fetch collection force) s = (Ok h, s1)
    /\ (forall e' K,
          coll_slot s1 e' K
          = if decide (__cacheName e = __cacheName e' /\ key = K) then Some c
            else coll_slot s e' K)
    /\ step urls contentCacheKey (PriorSettled h) s1 = Some s2
    /\ promise_store s2 !! h
       = Some (Promise.mk (CollectionFetch c force) AwaitingClient Pending)
    /\ requests s2
       = (requests s
          ++ [Request.mk url None None
                (Some (sent_params (resource s) contentCacheKey getParams))
                (sent_cacheBust (resource s))])%list
    /\ collection_store s2
       = (collection_store s
          ++ [Collection.mk (sent_params (resource s) contentCacheKey getParams)
                [] ∅ url false true None [h]])%list
    /\ model_store s2 = model_store s.
Proof.
  intros Hu Hurl key c h Hslot.
  destruct (getCollection_miss urls s getParams e detailId url Hu Hslot)
    as (s0 & Hget & Hcs0 & Hms0 & Hps0 & Hrq0 & Hlg0 & _ & _ & _ & Hslots).
  destruct (getCollection_settings_kept _ _ _ _ _ _ Hget) as (_ & _ & Hcck).
  fold c key in Hget, Hslots.
  rewrite (bind_Ok _ _ _ _ _ Hget). unfold Collection_fetch.
  set (x0 := fresh_collection getParams url) in *.
  assert (Hx0 : collection_store s0 !! c = Some x0)
    by (rewrite Hcs0; by rewrite lookup_app_r, Nat.sub_diag).
  rewrite (start_on_collection_run s0 c x0 _ Hx0).
  cbn [Collection.promises x0 fresh_collection app]. rewrite Hps0. fold h.
  change (Promise_all (promise_store s) []) with PriorResolved.
  set (x1 := Collection.set_promises [h] x0).
  set (s1 := with_collections _ (with_promises _ s0)).
  assert (Hx1 : collection_store s1 !! c = Some x1).
  { unfold s1. simpl. apply list_lookup_insert_eq. by eapply lookup_lt_Some. }
  assert (Hdue : due s1 h (CollectionFetch c force) PriorResolved).
  { unfold due, s1. simpl. by rewrite lookup_app_r, Nat.sub_diag. }
  assert (Hc : negb force && reads_synced s1 x1 = false) by apply andb_false_r.
  exists s1. eexists. split; [reflexivity|].
  split; [exact Hslots|].
  rewrite (step_prior_resolved _ _ _ _ _ Hdue).
  rewrite (collection_fetch_callback_own_url s1 h c force x1
             Hx1 ltac:(constructor) Hurl Hc).
  split; [reflexivity|].
  assert (Hr : sent_params (resource s1) contentCacheKey getParams
               = sent_params (resource s) contentCacheKey getParams
               /\ sent_cacheBust (resource s1) = sent_cacheBust (resource s)).
  { unfold sent_params, sent_cacheBust.
    change (Resource.useContentCacheKey (resource s1))
      with (Resource.useContentCacheKey (resource s0)).
    by rewrite Hcck. }
  destruct Hr as [Hsp Hcb].
  split; [by eapply set_stage_lookup|].
  split.
  { cbn [requests set_stage with_promises with_requests with_collections].
    change (Collection.getParams x1) with getParams. rewrite Hsp, Hcb.
    change (requests s1) with (requests s0). by rewrite Hrq0. }
  split; [|simpl; exact Hms0].
  cbn [collection_store set_stage with_promises with_requests with_collections].
  unfold collection_fetching. change (Collection.getParams x1) with getParams.
  rewrite Hsp. unfold s1. simpl. rewrite list_insert_insert_eq, Hcs0.
  rewrite insert_app_r_alt by done. by rewrite Nat.sub_diag.
Qed.

End DetailCollection.

Section DetailCollectionThm.

Variable urls : string -> option (value -> value).
Variable contentCacheKey : value.

(** [fetchDetailCollection(detailName, id, getParams, force)] for arguments
    the endpoint's cache holds no Collection for makes one, files it in the
    cache of the endpoint under the key of the GET parameters together with
    the identity (so that each identity has a Collection of its own, and the
    default cache is not touched), and fetches it: the callback sends one GET
    request to the url the endpoint's url function gives for the identity,
    with the GET parameters. *)
Theorem fetchDetailCollection_requests_endpoint s n id getParams force f :
  n <> "" -> id <> "" ->
  urls (Resource.name (resource s) +:+ "_" +:+ n) = Some f ->
  truthy (f (VStr id)) = true ->
  let key := collection_key (Resource.idKey (resource s)) getParams (VStr id) in
  let c := length (collection_store s) in
  let h := length (promise_store s) in
  coll_slot s (Some n) key = None ->
  exists s1 s2,
    fetchDetailCollection urls (Some n) (VStr id) getParams force s = (Ok h, s1)
    /\ (forall e K,
          coll_slot s1 e K
          = if decide (__cacheName (Some n) = __cacheName e /\ key = K) then Some c
            else coll_slot s e K)
    /\ step urls contentCacheKey (PriorSettled h) s1 = Some s2
    /\ promise_store s2 !! h
       = Some (Promise.mk (CollectionFetch c force) AwaitingClient Pending)
    /\ requests s2
       = (requests s
          ++ [Request.mk (f (VStr id)) None None
                (Some (sent_params (resource s) contentCacheKey getParams))
                (sent_cacheBust (resource s))])%list
    /\ collection_store s2
       = (collection_store s
          ++ [Collection.mk (sent_params (resource s) contentCacheKey getParams)
                [] ∅ (f (VStr id)) false true None [h]])%list
    /\ model_store s2 = model_store s.
Proof.
  intros Hn Hid Hf Hurl key c h Hslot.
  assert (Hgiven : given (Some n) = Some n).
  { unfold given. by destruct (String.eqb_spec n ""). }
  unfold fetchDetailCollection. rewrite truthy_VStr by done. cbn [negb]. rewrite Hgiven.
  apply (fetch_endpoint_collection_run urls contentCacheKey s (Some n) (VStr id));
    [|done..].
  unfold collection_url_of. by rewrite Hgiven, Hf, truthy_VStr.
Qed.

(** [fetchListCollection(listName, getParams)] for GET parameters the
    endpoint's cache holds no Collection for makes one, files it in the cache
    of the endpoint under the key of the GET parameters, and fetches it,
    never forced: the callback sends one GET request to the url the
    endpoint's url function gives without an argument. *)
Theorem fetchListCollection_requests_endpoint s n getParams f :
  n <> "" ->
  urls (Resource.name (resource s) +:+ "_" +:+ n) = Some f ->
  truthy (f VUndefined) = true ->
  let key := collection_key (Resource.idKey (resource s)) getParams VUndefined in
  let c := length (collection_store s) in
  let h := length (promise_store s) in
  coll_slot s (Some n) key = None ->
  exists s1 s2,
    fetchListCollection urls (Some n) getParams s = (Ok h, s1)
    /\ (forall e K,
          coll_slot s1 e K
          = if decide (__cacheName (Some n) = __cacheName e /\ key = K) then Some c
            else coll_slot s e K)
    /\ step urls contentCacheKey (PriorSettled h) s1 = Some s2
    /\ promise_store s2 !! h
       = Some (Promise.mk (CollectionFetch c false) AwaitingClient Pending)
    /\ requests s2
       = (requests s
          ++ [Request.mk (f VUndefined) None None
                (Some (sent_params (resource s) contentCacheKey getParams))
                (sent_cacheBust (resource s))])%list
    /\ model_store s2 = model_store s.
Proof.
  intros Hn Hf Hurl key c h Hslot.
  assert (Hgiven : given (Some n) = Some n).
  { unfold given. by destruct (String.eqb_spec n ""). }
  unfold fetchListCollection. rewrite Hgiven.
  destruct (fetch_endpoint_collection_run urls contentCacheKey s (Some n) VUndefined
              getParams false (f VUndefined))
    as (s1 & s2 & Hrun & Hslots & Hstep & Hp & Hrq & _ & Hms).
  { unfold collection_url_of. by rewrite Hgiven, Hf. }
  { done. }
  { done. }
  exists s1, s2. by repeat split.
Qed.

End DetailCollectionThm.

(** The Collection of the endpoint [progress] for the identity 9. *)
Lemma fetchDetailCollection_requests_endpoint_witness :
  exists s1 s2,
    fetchDetailCollection urls_ex (Some "progress") (VStr "9") [] false empty_ex
    = (Ok 0, s1)
    /\ step urls_ex VNull (PriorSettled 0) s1 = Some s2
    /\ requests s2
       = [Request.mk (VStr "kolibri:core:facility_progress/9") None None (Some []) None].
Proof.
  destruct (fetchDetailCollection_requests_endpoint urls_ex VNull empty_ex "progress" "9"
              [] false _ ltac:(done) ltac:(done) eq_refl eq_refl eq_refl)
    as (s1 & s2 & Hrun & _ & Hstep & _ & Hrq & _).
  by exists s1, s2.
Defined.

(** The Collection of the list endpoint [channels]. *)
Lemma fetchListCollection_requests_endpoint_witness :
  exists s1 s2,
    fetchListCollection urls_ex (Some "channels") [("page", VNum 1)] empty_ex
    = (Ok 0, s1)
    /\ step urls_ex VNull (PriorSettled 0) s1 = Some s2
    /\ requests s2
       = [Request.mk (VStr "kolibri:core:facility_channels/undefined") None None
                     (Some [("page", VNum 1)]) None].
Proof.
  destruct (fetchListCollection_requests_endpoint urls_ex VNull empty_ex "channels"
              [("page", VNum 1)] _ ltac:(done) eq_refl eq_refl eq_refl)
    as (s1 & s2 & Hrun & _ & Hstep & _ & Hrq & _).
  by exists s1, s2.
Defined.

(** ** Deleting a Model through the Resource *)

Section DeleteModel.

Variable urls : string -> option (value -> value).
Variable contentCacheKey : value.

Implicit Types (s : State) (h : handle) (m : Model.t).

(** The callback of a [delete] that goes to the server. *)
Lemma delete_callback_request s h this m detail :
  model_store s !! this = Some m ->
  truthy (Model_id (Resource.idKey (resource s)) m) = true ->
  urls (Resource.name (resource s) +:+ "_detail") = Some detail ->
  conclude h (on_prior_resolved urls contentCacheKey h (ModelDelete this) s)
  = set_stage h AwaitingClient
      (with_requests (fun rs =>
         (rs ++ [Request.mk (if truthy (Model._url m) then Model._url m
                             else detail (Model_id (Resource.idKey (resource s)) m))
                            (Some "delete") None
                            (Some (sent_params (resource s) contentCacheKey
                                               (Model.getParams m)))
                            (sent_cacheBust (resource s))])%list)
         (with_models (fun ms =>
            <[this := Model.set_getParams
                        (sent_params (resource s) contentCacheKey (Model.getParams m)) m]>
              ms) s)).
Proof.
  intros Hm Hid Hdetail. cbn [on_prior_resolved]. unfold the_idKey.
  rewrite (bind_Ok _ _ _ _ _ (eq_refl : gets _ s = (Ok _, s))).
  rewrite (bind_Ok _ _ _ _ _ (get_model_Ok _ _ _ Hm)).
  rewrite Hid. cbn [negb].
  rewrite (bind_Ok _ _ _ _ _ (Model_url_Ok urls s _ _ _ Hm Hdetail)).
  by rewrite (bind_Ok _ _ _ _ _ (client_nodata_Ok contentCacheKey s _ _ _ _ Hm)).
Qed.

(** The callbacks of an answer leave the settings of the Resource alone. *)
Lemma on_response_settings_kept s h o response :
  settings_kept s (conclude h (on_response urls h o response s)).
Proof.
  assert (H : preserves settings_kept (on_response urls h o response))
    by (destruct o; preserves_tac).
  destruct (on_response urls h o response s) as [[st|err] s'] eqn:E;
    exact (H _ _ _ E).
Qed.

End DeleteModel.

Section DeleteModelThm.

Variable urls : string -> option (value -> value).
Variable contentCacheKey : value.

(** [deleteModel({id, getParams})] on a Resource that does not use the
    content cache key, for a Model the default cache holds with no operation
    pending: the callback sends one DELETE request to the Model's url with
    the GET parameters; when the transport confirms it, the promise resolves
    with the identity and the Model, marked deleted, leaves the cache. A
    later [getModel] of the same identity does not return it: it makes a new
    Model that holds the identity only and is neither synced nor deleted. *)
Theorem deleteModel_then_getModel_makes_new s id getParams l m detail response :
  id <> "" ->
  Resource.useContentCacheKey (resource s) = false ->
  slot s None (identity_key s id getParams) = Some l ->
  model_store s !! l = Some m ->
  Model_id (Resource.idKey (resource s)) m = VStr id ->
  Model.getParams m = getParams ->
  Model.promises m = [] ->
  urls (Resource.name (resource s) +:+ "_detail") = Some detail ->
  let h := length (promise_store s) in
  let l' := length (model_store s) in
  exists s1 s2 s3 s4 m3,
    deleteModel urls (VStr id) getParams s = (Ok h, s1)
    /\ step urls contentCacheKey (PriorSettled h) s1 = Some s2
    /\ requests s2
       = (requests s
          ++ [Request.mk (if truthy (Model._url m) then Model._url m
                          else detail (VStr id))
                         (Some "delete") None (Some getParams) None])%list
    /\ step urls contentCacheKey (ClientResolved h response) s2 = Some s3
    /\ promise_store s3 !! h
       = Some (Promise.mk (ModelDelete l) Finished (Resolved (VStr id)))
    /\ slot s3 None (identity_key s id getParams) = None
    /\ model_store s3 !! l = Some m3
    /\ Model.deleted m3 = true
    /\ Model.attributes m3 = Model.attributes m
    /\ getModel urls (VStr id) getParams None s3 = (Ok (Some l'), s4)
    /\ l' <> l
    /\ model_store s4 !! l'
       = Some (Model.mk [(Resource.idKey (resource s), VStr id)] getParams VUndefined
                        false true false [])
    /\ model_store s4 !! l = Some m3.
Proof.
  intros Hid Hcck Hslot Hm Hmid Hgp Hps Hdetail h l'.
  assert (Hlt : l < l') by (by eapply lookup_lt_Some).
  (* the call *)
  unfold deleteModel. rewrite truthy_VStr by done. cbn [negb].
  rewrite (bind_Ok _ _ _ _ _ (getModel_cached urls s None id getParams l Hslot)).
  cbn [on_model]. unfold Model_delete.
  rewrite (start_on_model_run s l m _ Hm). rewrite Hps. cbn [app]. fold h.
  change (Promise_all (promise_store s) []) with PriorResolved.
  set (m1 := Model.set_promises [h] m).
  set (s1 := with_models _ (with_promises _ s)).
  assert (Hm1 : model_store s1 !! l = Some m1).
  { unfold s1. simpl. by apply list_lookup_insert_eq. }
  assert (Hdue1 : due s1 h (ModelDelete l) PriorResolved).
  { unfold due, s1. simpl. by rewrite lookup_app_r, Nat.sub_diag. }
  (* the callback *)
  assert (Hsent : sent_params (resource s1) contentCacheKey (Model.getParams m1)
                  = getParams /\ sent_cacheBust (resource s1) = None).
  { unfold sent_params, sent_cacheBust.
    change (Resource.useContentCacheKey (resource s1))
      with (Resource.useContentCacheKey (resource s)).
    by rewrite Hcck. }
  destruct Hsent as [Hsp Hcb].
  pose proof (delete_callback_request urls contentCacheKey s1 h l m1 detail Hm1) as Hcb1.
  change (Resource.idKey (resource s1)) with (Resource.idKey (resource s)) in Hcb1.
  change (Model_id (Resource.idKey (resource s)) m1)
    with (Model_id (Resource.idKey (resource s)) m) in Hcb1.
  rewrite Hmid, Hsp, Hcb in Hcb1.
  specialize (Hcb1 (truthy_VStr id Hid) Hdetail).
  change (Model._url m1) with (Model._url m) in Hcb1.
  set (m2 := Model.set_getParams getParams m1) in *.
  set (s2 := set_stage h AwaitingClient _) in Hcb1.
  assert (Hm2 : model_store s2 !! l = Some m2).
  { unfold s2. simpl. apply list_lookup_insert_eq. by rewrite length_insert. }
  assert (Hdue2 : due s2 h (ModelDelete l) AwaitingClient).
  { eapply set_stage_lookup. exact Hdue1. }
  (* the response *)
  destruct (delete_response_run urls s2 h l m2 response Hdue2 Hm2)
    as (s3 & Hs3 & Hms3 & Hps3 & Hcs3 & Hrq3 & Hlg3 & Hcl3 & Hslot3).
  change (Resource.idKey (resource s2)) with (Resource.idKey (resource s)) in *.
  assert (Hkey : model_key (Resource.idKey (resource s)) m2 = identity_key s id getParams).
  { unfold model_key, identity_key.
    change (Model_id (Resource.idKey (resource s)) m2)
      with (Model_id (Resource.idKey (resource s)) m).
    by rewrite Hmid. }
  assert (Hm3 : model_store s3 !! l = Some (removed m2 h)).
  { rewrite Hms3. apply list_lookup_insert_eq. by eapply lookup_lt_Some. }
  assert (Hslot3' : slot s3 None (identity_key s id getParams) = None)
    by (by rewrite Hslot3, decide_True).
  assert (Hlen3 : length (model_store s3) = l').
  { rewrite Hms3, length_insert. unfold s2, s1. simpl. by rewrite !length_insert. }
  (* the next getModel *)
  assert (HidK3 : Resource.idKey (resource s3) = Resource.idKey (resource s)).
  { rewrite <- Hs3. by destruct (on_response_settings_kept urls s2 h (ModelDelete l) response)
      as (_ & -> & _). }
  assert (Hkey3 : identity_key s3 id getParams = identity_key s id getParams)
    by (unfold identity_key; by rewrite HidK3).
  destruct (getModel_miss urls s3 None id getParams Hid ltac:(done))
    as (s4 & url & Hget & Hms4 & Hurl & _ & _ & _ & _ & _ & _);
    [by rewrite Hkey3|].
  rewrite (Hurl eq_refl), HidK3, Hlen3 in *.
  exists s1, s2, s3, s4, (removed m2 h).
  split; [reflexivity|].
  split; [by rewrite (step_prior_resolved _ _ _ _ _ Hdue1), Hcb1|].
  split; [reflexivity|].
  split; [by rewrite (step_client_resolved _ _ _ _ _ _ Hdue2), Hs3|].
  split.
  { rewrite Hps3. eapply set_stage_lookup.
    change (Model_id (Resource.idKey (resource s)) m2)
      with (Model_id (Resource.idKey (resource s)) m).
    rewrite Hmid. simpl.
    rewrite list_lookup_fmap, list_lookup_insert_eq by (by eapply lookup_lt_Some).
    simpl. by rewrite notify_other_stage. }
  split; [exact Hslot3'|]. split; [exact Hm3|]. split; [done|]. split; [done|].
  split; [exact Hget|]. split; [lia|].
  split.
  { rewrite Hms4, lookup_app_r by lia. by rewrite Hlen3, Nat.sub_diag. }
  rewrite Hms4. by apply lookup_app_l_Some.
Qed.

End DeleteModelThm.

(** The cached Model of the example is deleted, and asked for again. *)
Lemma deleteModel_then_getModel_makes_new_witness :
  exists s1 s2 s3 s4,
    deleteModel urls_ex (VStr "9") [] cached_model_ex = (Ok 0, s1)
    /\ step urls_ex VNull (PriorSettled 0) s1 = Some s2
    /\ step urls_ex VNull (ClientResolved 0 []) s2 = Some s3
    /\ getModel urls_ex (VStr "9") [] None s3 = (Ok (Some 1), s4).
Proof.
  destruct (deleteModel_then_getModel_makes_new urls_ex VNull cached_model_ex "9" [] 0
              _ _ [] ltac:(done) eq_refl eq_refl eq_refl eq_refl eq_refl eq_refl eq_refl)
    as (s1 & s2 & s3 & s4 & m3 & H1 & H2 & _ & H3 & _ & _ & _ & _ & _ & H4 & _).
  by exists s1, s2, s3, s4.
Defined.

(** ** Saving data that has no identity through the Resource *)

Section SaveNew.

Variable urls : string -> option (value -> value).
Variable contentCacheKey : value.

Implicit Types (s : State) (h : handle) (m : Model.t) (d : obj).

Lemma Object_assign_empty_nonempty d : d <> [] -> Object_assign [] d <> [].
Proof.
  destruct d as [|[k v] d]; [done|]. intros _.
  change (Object_assign [] ((k, v) :: d)) with (Object_assign (obj_set k v []) d).
  apply Object_assign_nonempty, obj_set_nonempty.
Qed.

Lemma stringified_nonempty idKey d : d <> [] -> stringified idKey d <> [].
Proof.
  intros Hd. unfold stringified. destruct (obj_lookup idKey d) as [v|]; [|done].
  destruct (truthy v); [apply obj_set_nonempty|done].
Qed.

(** The callback of [save()] on a Model that is new and not synced. *)
Lemma save_callback_new s h this m list_ :
  model_store s !! this = Some m ->
  Model.synced m = false ->
  Model.new m = true ->
  Model.attributes m <> [] ->
  urls (Resource.name (resource s) +:+ "_list") = Some list_ ->
  conclude h (on_prior_resolved urls contentCacheKey h (ModelSave this None false) s)
  = set_stage h AwaitingClient
      (with_requests (fun rs =>
         (rs ++ [Request.mk (list_ VUndefined) (Some "post")
                            (Some (VObj (Object_assign [] (Model.attributes m))))
                            (Some (Model.getParams m)) None])%list)
         (with_models (fun ms => <[this := Model.set_synced false m]> ms) s)).
Proof.
  intros Hm Hsync Hnew Hne Hlist. cbn [on_prior_resolved].
  rewrite (bind_Ok _ _ _ _ _ (get_model_Ok _ _ _ Hm)).
  unfold save_payload. rewrite Hsync. cbn [default of_result].
  change (Object_assign (Object_assign [] (Model.attributes m)) [])
    with (Object_assign [] (Model.attributes m)).
  rewrite bind_ret.
  destruct (length (Object_keys (Object_assign [] (Model.attributes m))) =? 0)%nat eqn:E.
  { apply obj_lookup_nil_iff in E. by apply Object_assign_empty_nonempty in E. }
  run_update Hm Hm1 s1. rewrite Hnew. cbn [negb orb].
  rewrite bind_assoc.
  rewrite (bind_Ok _ _ _ _ _ (call_url_Ok urls s1 "list" _ _ Hlist)).
  erewrite bind_Ok by (apply client_data_Ok; [exact Hm1 | reflexivity]).
  reflexivity.
Qed.

End SaveNew.

Section SaveNewThm.

Variable urls : string -> option (value -> value).
Variable contentCacheKey : value.

(** [saveModel({data, getParams, exists})] without an identity, for data
    that carries none either, makes a new Model of the data, files it in the
    default cache under the hash of its attributes, empties the cache of
    Collections, and saves the Model: the callback sends the data in one POST
    to the list url, whatever [exists] says. *)
Theorem saveModel_without_identity_posts s id getParams data exists_ list_ :
  truthy id = false ->
  raw_ok data ->
  truthy (raw_identity (Resource.idKey (resource s)) data) = false ->
  urls (Resource.name (resource s) +:+ "_list") = Some list_ ->
  let idKey := Resource.idKey (resource s) in
  let attributes := Object_assign [] (stringified idKey data) in
  let l := length (model_store s) in
  let h := length (promise_store s) in
  exists s1 s2,
    saveModel urls id getParams data exists_ s = (Ok h, s1)
    /\ model_store s1
       = (model_store s
          ++ [Model.mk attributes getParams VUndefined false true false [h]])%list
    /\ slot s1 None (__cacheKey idKey [attributes]) = Some l
    /\ Resource.collections (resource s1) = ∅
    /\ step urls contentCacheKey (PriorSettled h) s1 = Some s2
    /\ promise_store s2 !! h
       = Some (Promise.mk (ModelSave l None false) AwaitingClient Pending)
    /\ requests s2
       = (requests s
          ++ [Request.mk (list_ VUndefined) (Some "post")
                         (Some (VObj (Object_assign [] attributes)))
                         (Some getParams) None])%list.
Proof.
  intros Hid [Hwf Hd] Hraw Hlist idKey attributes l h.
  unfold saveModel. rewrite Hid. cbn [negb].
  unfold createModel, the_idKey.
  rewrite bind_assoc, (bind_Ok _ _ _ _ _ (eq_refl : gets _ s = (Ok _, s))).
  rewrite bind_assoc, bind_ret.
  rewrite bind_assoc, (bind_Ok _ _ _ _ _ (Model_new_Ok s data getParams VUndefined Hd)).
  fold idKey attributes l.
  set (new := Model.mk attributes getParams VUndefined false true false []) in *.
  set (s0 := with_models _ s) in *.
  assert (Hnew : model_store s0 !! l = Some new)
    by (unfold s0; simpl; by rewrite lookup_app_r, Nat.sub_diag).
  assert (Hnoid : truthy (Model_id (Resource.idKey (resource s0)) new) = false).
  { change (Resource.idKey (resource s0)) with idKey. unfold new, attributes.
    by rewrite raw_identity_model. }
  destruct (addModel_instance_no_identity s0 None l new Hnew Hnoid)
    as (s1 & Hrun & Hms1 & HidK1 & Hnm1 & Hcs1 & Hslots).
  pose proof (addModel_instance_collections s0 None l new Hnew) as Hcoll.
  rewrite Hrun, Hnoid in Hcoll. cbn [snd] in Hcoll.
  assert (Heff : effects_kept s0 s1).
  { exact (addModel_effects_kept urls (Ref l) getParams None _ _ _ Hrun). }
  destruct Heff as (Hps1 & Hrq1 & Hlg1).
  rewrite (bind_Ok _ _ _ _ _ Hrun). unfold Model_save.
  assert (Hnew1 : model_store s1 !! l = Some new) by (by rewrite Hms1).
  rewrite (start_on_model_run s1 l new _ Hnew1).
  cbn [Model.promises new app]. rewrite Hps1.
  change (promise_store s0) with (promise_store s). fold h.
  change (Promise_all (promise_store s) []) with PriorResolved.
  set (new1 := Model.set_promises [h] new).
  set (s2 := with_models _ (with_promises _ s1)).
  assert (Hnew2 : model_store s2 !! l = Some new1).
  { unfold s2. simpl. apply list_lookup_insert_eq. by eapply lookup_lt_Some. }
  assert (Hdue : due s2 h (ModelSave l None false) PriorResolved).
  { unfold due, s2. simpl. by rewrite lookup_app_r, Nat.sub_diag. }
  assert (Hlist2 : urls (Resource.name (resource s2) +:+ "_list") = Some list_).
  { change (Resource.name (resource s2)) with (Resource.name (resource s1)).
    by rewrite Hnm1. }
  assert (Hne : Model.attributes new1 <> []).
  { apply Object_assign_empty_nonempty. by apply stringified_nonempty. }
  exists s2. eexists. split; [reflexivity|].
  split.
  { unfold s2. simpl. rewrite Hms1. unfold s0. simpl.
    rewrite insert_app_r_alt by done. by rewrite Nat.sub_diag. }
  split.
  { change (slot s1 None (__cacheKey idKey [attributes]) = Some l).
    rewrite Hslots. by apply decide_True. }
  split; [exact Hcoll|].
  rewrite (step_prior_resolved _ _ _ _ _ Hdue).
  rewrite (save_callback_new urls contentCacheKey s2 h l new1 list_ Hnew2
             eq_refl eq_refl Hne Hlist2).
  split; [reflexivity|].
  split; [by eapply set_stage_lookup|].
  simpl. by rewrite Hrq1.
Qed.

End SaveNewThm.

(** [saveModel({data: {name: 'a'}})] on the Resource of the cached
    Collection. *)
Lemma saveModel_without_identity_posts_witness :
  exists s1 s2,
    saveModel urls_ex VUndefined [] [("name", VStr "a")] true cached_collection_ex
    = (Ok 0, s1)
    /\ Resource.collections (resource s1) = ∅
    /\ step urls_ex VNull (PriorSettled 0) s1 = Some s2
    /\ requests s2
       = [Request.mk (VStr "kolibri:core:facility_list/undefined") (Some "post")
                     (Some (VObj [("name", VStr "a")])) (Some []) None].
Proof.
  destruct (saveModel_without_identity_posts urls_ex VNull cached_collection_ex
              VUndefined [] [("name", VStr "a")] true _ eq_refl
              ltac:(split; [apply (bool_decide_unpack _); by vm_compute | done])
              eq_refl eq_refl)
    as (s1 & s2 & Hrun & _ & _ & Hcoll & Hstep & _ & Hrq).
  by exists s1, s2.
Defined.

(** ** Clearing the cache of the Resource *)

Section ClearCacheThm.

Variable urls : string -> option (value -> value).
Variable contentCacheKey : value.

(** After [clearCache()] the Resource holds no Model and no Collection in
    any cache, while the Models, the Collections with their members, and the
    operations that are pending stay as they are. [getModel] and
    [getCollection] then make new objects, also for an identity or for GET
    parameters that were cached before. *)
Theorem clearCache_forgets s :
  exists s',
    Resource_clearCache s = (Ok tt, s')
    /\ (forall e K, slot s' e K = None)
    /\ (forall e K, coll_slot s' e K = None)
    /\ model_store s' = model_store s
    /\ collection_store s' = collection_store s
    /\ effects_kept s s'
    /\ (forall id getParams, id <> "" ->
          exists s2, getModel urls (VStr id) getParams None s'
                     = (Ok (Some (length (model_store s))), s2)
                     /\ model_store s2
                        = (model_store s
                           ++ [Model.mk [(Resource.idKey (resource s), VStr id)] getParams
                                        VUndefined false true false []])%list)
    /\ (forall getParams,
          exists s2, getCollection urls getParams None VUndefined s'
                     = (Ok (length (collection_store s)), s2)
                     /\ collection_store s2
                        = (collection_store s
                           ++ [fresh_collection getParams VUndefined])%list).
Proof.
  eexists. split; [reflexivity|].
  set (s' := with_resource _ (with_resource _ s)).
  assert (Hm : forall e K, slot s' e K = None).
  { intros e K. unfold slot, s'. simpl. by rewrite !lookup_empty. }
  assert (Hc : forall e K, coll_slot s' e K = None).
  { intros e K. unfold coll_slot, s'. simpl. by rewrite !lookup_empty. }
  split; [exact Hm|]. split; [exact Hc|]. do 3 (split; [done|]).
  split.
  - intros id getParams Hid.
    destruct (getModel_miss urls s' None id getParams Hid ltac:(done) (Hm _ _))
      as (s2 & url & Hget & Hms & Hurl & _).
    exists s2. split; [exact Hget|]. by rewrite Hms, (Hurl eq_refl).
  - intros getParams.
    destruct (getCollection_miss urls s' getParams None VUndefined VUndefined
                eq_refl (Hc _ _)) as (s2 & Hget & Hcs & _).
    by exists s2.
Qed.

End ClearCacheThm.

(** The cache that holds the Model 0 for the identity 9 is cleared: the
    identity gets the new Model 1. *)
Lemma clearCache_forgets_witness :
  exists s' s2,
    Resource_clearCache cached_model_ex = (Ok tt, s')
    /\ getModel urls_ex (VStr "9") [] None s' = (Ok (Some 1), s2).
Proof.
  destruct (clearCache_forgets urls_ex cached_model_ex)
    as (s' & Hrun & _ & _ & _ & _ & _ & Hget & _).
  destruct (Hget "9" [] ltac:(done)) as (s2 & Hget2 & _).
  by exists s', s2.
Defined.

(** ** The Collection operations of the Resource *)

Section CollectionFacade.

Variable urls : string -> option (value -> value).
Variable contentCacheKey : value.

Implicit Types (s : State) (h : handle) (x : Collection.t).

(** [Promise.all] of promises that are all pending waits for all of them. *)
Lemma Promise_all_all_pending (ps : list Promise.t) (w : list handle) :
  Forall (fun h => settlement_of ps h = Pending) w -> w <> [] ->
  Promise_all ps w = AwaitingPrior w.
Proof.
  intros Hall. unfold Promise_all.
  assert (H : first_rejected ps w = None
              /\ filter (fun h => is_pending (settlement_of ps h) = true) w = w).
  { induction Hall as [|h w Hh _ [IH1 IH2]]; [done|]. split.
    - simpl. by rewrite Hh.
    - rewrite filter_cons_True by (by rewrite Hh). by rewrite IH2. }
  destruct H as [-> ->]. by destruct w.
Qed.

End CollectionFacade.

Section CollectionFacadeThm.

Variable urls : string -> option (value -> value).
Variable contentCacheKey : value.

(** [fetchCollection], [saveCollection] and [deleteCollection] with the same
    GET parameters work on one Collection, the one the default cache holds
    for the parameters (made by the first call if there was none), and queue
    on it in call order: the fetch is due at once, the save waits for the
    fetch, and the delete waits for both. No request is sent and no Model is
    made by the calls themselves. *)
Theorem collection_operations_share_and_queue s getParams force data :
  let key := collection_key (Resource.idKey (resource s)) getParams VUndefined in
  let c := length (collection_store s) in
  let h := length (promise_store s) in
  coll_slot s None key = None ->
  exists s1 s2 s3,
    fetchCollection urls getParams force s = (Ok h, s1)
    /\ saveCollection urls data getParams s1 = (Ok (S h), s2)
    /\ deleteCollection urls getParams s2 = (Ok (S (S h)), s3)
    /\ coll_slot s3 None key = Some c
    /\ collection_store s3
       = (collection_store s
          ++ [Collection.mk getParams [] ∅ VUndefined false true None
                            [h; S h; S (S h)]])%list
    /\ promise_store s3
       = (promise_store s
          ++ [Promise.mk (CollectionFetch c force) PriorResolved Pending;
              Promise.mk (CollectionSave c data) (AwaitingPrior [h]) Pending;
              Promise.mk (CollectionDelete c) (AwaitingPrior [h; S h]) Pending])%list
    /\ model_store s3 = model_store s
    /\ requests s3 = requests s.
Proof.
  intros key c h Hslot.
  destruct (getCollection_miss urls s getParams None VUndefined VUndefined eq_refl Hslot)
    as (s0 & Hget & Hcs0 & Hms0 & Hps0 & Hrq0 & Hlg0 & _ & HidK0 & _ & Hslots).
  fold c key in Hget, Hslots.
  (* fetch *)
  unfold fetchCollection. rewrite (bind_Ok _ _ _ _ _ Hget). unfold Collection_fetch.
  set (x0 := fresh_collection getParams VUndefined) in *.
  assert (Hx0 : collection_store s0 !! c = Some x0)
    by (rewrite Hcs0; by rewrite lookup_app_r, Nat.sub_diag).
  assert (Hlt0 : c < length (collection_store s0)) by (by eapply lookup_lt_Some).
  rewrite (start_on_collection_run s0 c x0 _ Hx0).
  cbn [Collection.promises x0 fresh_collection app]. rewrite Hps0. fold h.
  change (Promise_all (promise_store s) []) with PriorResolved.
  set (p1 := Promise.mk (CollectionFetch c force) PriorResolved Pending).
  set (x1 := Collection.set_promises [h] x0).
  set (s1 := with_collections _ (with_promises _ s0)).
  assert (Hx1 : collection_store s1 !! c = Some x1).
  { unfold s1. simpl. by apply list_lookup_insert_eq. }
  assert (Hslot1 : coll_slot s1 None
                     (collection_key (Resource.idKey (resource s1)) getParams VUndefined)
                   = Some c).
  { change (Resource.idKey (resource s1)) with (Resource.idKey (resource s0)).
    rewrite HidK0. fold key. change (coll_slot s0 None key = Some c).
    rewrite Hslots. by apply decide_True. }
  exists s1.
  (* save *)
  unfold saveCollection.
  rewrite (bind_Ok _ _ _ _ _ (getCollection_hit urls s1 getParams None VUndefined c Hslot1)).
  unfold Collection_save. rewrite (start_on_collection_run s1 c x1 _ Hx1).
  change (promise_store s1) with (promise_store s ++ [p1])%list.
  rewrite length_app. cbn [length]. rewrite Nat.add_1_r. fold h.
  assert (Hp1 : settlement_of (promise_store s ++ [p1]) h = Pending).
  { unfold settlement_of. by rewrite lookup_app_r, Nat.sub_diag. }
  cbn [Collection.promises x1 Collection.set_promises app].
  rewrite (Promise_all_all_pending _ [h]) by (by repeat constructor).
  set (p2 := Promise.mk (CollectionSave c data) (AwaitingPrior [h]) Pending).
  set (x2 := Collection.set_promises [h; S h] x1).
  set (s2 := with_collections _ (with_promises _ s1)).
  assert (Hx2 : collection_store s2 !! c = Some x2).
  { unfold s2. simpl. apply list_lookup_insert_eq. by rewrite length_insert. }
  assert (Hslot2 : coll_slot s2 None
                     (collection_key (Resource.idKey (resource s2)) getParams VUndefined)
                   = Some c) by exact Hslot1.
  exists s2.
  (* delete *)
  unfold deleteCollection.
  rewrite (bind_Ok _ _ _ _ _ (getCollection_hit urls s2 getParams None VUndefined c Hslot2)).
  unfold Collection_delete. rewrite (start_on_collection_run s2 c x2 _ Hx2).
  change (promise_store s2) with ((promise_store s ++ [p1]) ++ [p2])%list.
  rewrite !length_app. cbn [length]. rewrite !Nat.add_1_r. fold h.
  assert (Hp2 : Forall (fun h' => settlement_of ((promise_store s ++ [p1]) ++ [p2]) h'
                                  = Pending) [h; S h]).
  { repeat constructor; unfold settlement_of.
    - rewrite lookup_app_l by (rewrite length_app; simpl; lia).
      by rewrite lookup_app_r, Nat.sub_diag.
    - rewrite lookup_app_r by (rewrite length_app; simpl; lia).
      rewrite length_app. cbn [length]. rewrite Nat.add_1_r.
      by rewrite Nat.sub_diag. }
  cbn [Collection.promises x2 Collection.set_promises app].
  rewrite (Promise_all_all_pending _ [h; S h] Hp2) by done.
  eexists. split; [reflexivity|]. split; [reflexivity|]. split; [reflexivity|].
  split.
  { change (coll_slot s0 None key = Some c). rewrite Hslots. by apply decide_True. }
  split.
  { simpl. rewrite !list_insert_insert_eq, Hcs0.
    rewrite insert_app_r_alt by done. by rewrite Nat.sub_diag. }
  split; [simpl; by rewrite <- !app_assoc|].
  split; [simpl; exact Hms0|simpl; exact Hrq0].
Qed.

End CollectionFacadeThm.

(** The three operations on a fresh Resource. *)
Lemma collection_operations_share_and_queue_witness :
  exists s1 s2 s3,
    fetchCollection urls_ex [("page", VNum 1)] false empty_ex = (Ok 0, s1)
    /\ saveCollection urls_ex [] [("page", VNum 1)] s1 = (Ok 1, s2)
    /\ deleteCollection urls_ex [("page", VNum 1)] s2 = (Ok 2, s3)
    /\ Collection.promises <$> collection_store s3 !! 0 = Some [0; 1; 2].
Proof.
  destruct (collection_operations_share_and_queue urls_ex empty_ex [("page", VNum 1)]
              false [] eq_refl)
    as (s1 & s2 & s3 & H1 & H2 & H3 & _ & Hcs & _).
  exists s1, s2, s3. split; [exact H1|]. split; [exact H2|]. split; [exact H3|].
  by rewrite Hcs.
Defined.
